(** * The FCP multipath resource allocator of zvmsdk

    A shallow embedding of [FCPDbOperator] (zvmsdk/database.py): the four
    tables of the FCP database, the transaction discipline of
    [get_fcp_conn], the device state mutators, the template manager and the
    two device selection strategies, followed by the properties of the
    allocator stated over these definitions. *)

From Stdlib Require Import List String Ascii ZArith QArith Bool Arith Lia.
Import ListNotations.
Local Open Scope string_scope.
Local Open Scope Z_scope.
Local Open Scope list_scope.

Set Implicit Arguments.

(** ** Strings as SQLite and Python compare them *)

(** Columns declared [COLLATE NOCASE] compare after folding the 26 ASCII
    upper-case letters; Python's [==] on [str] compares code points, and
    [str.upper] is modelled on its ASCII range. *)
Module Str.

Definition lower_ascii (c : ascii) : ascii :=
  let n := nat_of_ascii c in
  if ((65 <=? n) && (n <=? 90))%nat then ascii_of_nat (n + 32) else c.

Definition upper_ascii (c : ascii) : ascii :=
  let n := nat_of_ascii c in
  if ((97 <=? n) && (n <=? 122))%nat then ascii_of_nat (n - 32) else c.

Fixpoint lower (s : string) : string :=
  match s with
  | EmptyString => EmptyString
  | String c s' => String (lower_ascii c) (lower s')
  end.

Fixpoint upper (s : string) : string :=
  match s with
  | EmptyString => EmptyString
  | String c s' => String (upper_ascii c) (upper s')
  end.

(** [a = b] under [COLLATE NOCASE]. *)
Definition nocase_eqb (a b : string) : bool := String.eqb (lower a) (lower b).

(** The order of [ORDER BY] on a [COLLATE NOCASE] column. *)
Definition nocase_compare (a b : string) : comparison :=
  String.compare (lower a) (lower b).

(** SQL [IS NOT ''] and Python truthiness of a string. *)
Definition nonempty (s : string) : bool :=
  match s with EmptyString => false | String _ _ => true end.

End Str.

Infix "=~" := Str.nocase_eqb (at level 70, no associativity).

(** ** The four tables *)

(** [fcp]: one row per FCP device, primary key [fcp_id]. *)
Record fcp_row : Type := mk_fcp {
  fcp_id : string;
  assigner_id : string;
  connections : Z;
  reserved : Z;
  wwpn_npiv : string;
  wwpn_phy : string;
  chpid : string;
  pchid : string;
  state : string;
  owner : string;
  tmpl_id : string
}.

(** [template]: primary key [id]. *)
Record template_row : Type := mk_template {
  t_id : string;
  t_name : string;
  t_description : string;
  is_default : Z;
  min_fcp_paths_count : Z
}.

(** [template_sp_mapping]: primary key [sp_name]. *)
Record sp_row : Type := mk_sp {
  sp_name : string;
  sp_tmpl_id : string
}.

(** [template_fcp_mapping]: primary key [(fcp_id, tmpl_id)]. *)
Record tf_row : Type := mk_tf {
  tf_fcp_id : string;
  tf_tmpl_id : string;
  tf_path : Z
}.

(** Rows are kept in rowid (insertion) order. *)
Record tables : Type := mk_tables {
  fcp : list fcp_row;
  template : list template_row;
  template_sp_mapping : list sp_row;
  template_fcp_mapping : list tf_row
}.

Definition set_assigner_id (v : string) (r : fcp_row) : fcp_row :=
  mk_fcp (fcp_id r) v (connections r) (reserved r) (wwpn_npiv r) (wwpn_phy r)
         (chpid r) (pchid r) (state r) (owner r) (tmpl_id r).

Definition set_connections (v : Z) (r : fcp_row) : fcp_row :=
  mk_fcp (fcp_id r) (assigner_id r) v (reserved r) (wwpn_npiv r) (wwpn_phy r)
         (chpid r) (pchid r) (state r) (owner r) (tmpl_id r).

Definition set_reserved (v : Z) (r : fcp_row) : fcp_row :=
  mk_fcp (fcp_id r) (assigner_id r) (connections r) v (wwpn_npiv r) (wwpn_phy r)
         (chpid r) (pchid r) (state r) (owner r) (tmpl_id r).

Definition set_tmpl_id (v : string) (r : fcp_row) : fcp_row :=
  mk_fcp (fcp_id r) (assigner_id r) (connections r) (reserved r) (wwpn_npiv r)
         (wwpn_phy r) (chpid r) (pchid r) (state r) (owner r) v.

Definition set_fcp (v : list fcp_row) (d : tables) : tables :=
  mk_tables v (template d) (template_sp_mapping d) (template_fcp_mapping d).

Definition set_template (v : list template_row) (d : tables) : tables :=
  mk_tables (fcp d) v (template_sp_mapping d) (template_fcp_mapping d).

Definition set_template_sp_mapping (v : list sp_row) (d : tables) : tables :=
  mk_tables (fcp d) (template d) v (template_fcp_mapping d).

Definition set_template_fcp_mapping (v : list tf_row) (d : tables) : tables :=
  mk_tables (fcp d) (template d) (template_sp_mapping d) v.

(** ** Exceptions, the connection and the transaction monad *)

Inductive exn : Type :=
| SDKObjectNotExistError
| SDKObjectAlreadyExistError
| SDKConflictError (rs : Z) (fcps : list string)
| SDKGuestOperationError
| KeyError
| ValueError
| IndexError
| TypeError
| IntegrityError
| OperationalError
| UnboundLocalError
| OverflowError
| ZeroDivisionError.

(** The subclasses of [exception.SDKBaseException]. *)
Definition is_sdk_exception (e : exn) : bool :=
  match e with
  | SDKObjectNotExistError | SDKObjectAlreadyExistError
  | SDKConflictError _ _ | SDKGuestOperationError => true
  | _ => false
  end.

Inductive res (A : Type) : Type :=
| Ok (a : A)
| Raise (e : exn).
Arguments Ok {A} a.
Arguments Raise {A} e.

Inductive level : Type := DEBUG | INFO | WARNING | ERROR.

(** [_FCP_CONN] with its [in_transaction] flag, and the records handed to
    [LOG] (their level only). *)
Record conn : Type := mk_conn {
  db : tables;
  in_transaction : bool;
  journal : list level
}.

Definition M (A : Type) : Type := conn -> res A * conn.

Definition ret {A} (a : A) : M A := fun w => (Ok a, w).

Definition raise {A} (e : exn) : M A := fun w => (Raise e, w).

Definition bind {A B} (m : M A) (k : A -> M B) : M B :=
  fun w =>
    match m w with
    | (Ok a, w') => k a w'
    | (Raise e, w') => (Raise e, w')
    end.

Declare Scope txn_scope.
Delimit Scope txn_scope with txn.
Notation "x <- m ;; k" := (bind m (fun x => k))
  (at level 100, m at next level, right associativity) : txn_scope.
Notation "m ;;; k" := (bind m (fun _ => k))
  (at level 100, right associativity) : txn_scope.
Local Open Scope txn_scope.

(** A [SELECT]: reads the tables. *)
Definition query {A} (q : tables -> A) : M A := fun w => (Ok (q (db w)), w).

(** An [UPDATE], [INSERT] or [DELETE] that cannot fail. *)
Definition execute (f : tables -> tables) : M unit :=
  fun w => (Ok tt, mk_conn (f (db w)) (in_transaction w) (journal w)).

Definition LOG (l : level) : M unit :=
  fun w => (Ok tt, mk_conn (db w) (in_transaction w) (journal w ++ [l])).

(** A read-only method of [FCPDbOperator] is a function of the tables.
    Called inside a block of [get_fcp_conn] (below), its own block finds
    the transaction alive and issues neither [BEGIN] nor [COMMIT]; [read]
    runs it there and passes on what it raises. *)
Definition read {A} (q : tables -> res A) : M A := fun w => (q (db w), w).

(** [conn.executemany(sql, params)]. *)
Fixpoint executemany {P} (stmt : P -> M unit) (params : list P) : M unit :=
  match params with
  | [] => ret tt
  | p :: ps => stmt p ;;; executemany stmt ps
  end.

(** [with get_fcp_conn() as conn: body].  [BEGIN] is issued only when no
    transaction is alive; the block that issued it commits on normal exit
    and rolls back on an exception.  An exception that is not an
    [SDKBaseException] leaves the block as [SDKGuestOperationError]. *)
Definition get_fcp_conn {A} (body : M A) : M A :=
  fun w =>
    let skip_commit := in_transaction w in
    let w0 := if skip_commit then w else mk_conn (db w) true (journal w) in
    match body w0 with
    | (Ok a, w1) =>
        (Ok a, if skip_commit then w1 else mk_conn (db w1) false (journal w1))
    | (Raise e, w1) =>
        let d := if skip_commit then db w1 else db w in
        let t := if skip_commit then in_transaction w1 else false in
        (Raise (if is_sdk_exception e then e else SDKGuestOperationError),
         mk_conn d t (journal w1 ++ [ERROR]))
    end.

(** ** Device State Manager: DML for table [fcp] *)

(** [UPDATE fcp SET ... WHERE cond]. *)
Definition update_fcp (cond : fcp_row -> bool) (f : fcp_row -> fcp_row)
  : tables -> tables :=
  fun d => set_fcp (map (fun r => if cond r then f r else r) (fcp d)) d.

Definition unreserve_fcps (fcp_ids : list string) : M unit :=
  match fcp_ids with
  | [] => ret tt
  | _ =>
      get_fcp_conn
        (executemany
           (fun i => execute
              (update_fcp (fun r => fcp_id r =~ i)
                          (fun r => set_tmpl_id "" (set_reserved 0 r))))
           fcp_ids)
  end.

Definition reserve_fcps (fcp_ids : list string) (assigner : string)
  (fcp_template_id : string) : M unit :=
  get_fcp_conn
    (executemany
       (fun i => execute
          (update_fcp (fun r => fcp_id r =~ i)
             (fun r => set_tmpl_id fcp_template_id
                         (set_assigner_id assigner (set_reserved 1 r)))))
       fcp_ids).

(** [SELECT ... FROM fcp WHERE fcp_id=?] followed by [fetchone]. *)
Definition select_fcp (i : string) (d : tables) : option fcp_row :=
  find (fun r => fcp_id r =~ i) (fcp d).

Definition select_fcp_of_assigner (i a : string) (d : tables) : option fcp_row :=
  find (fun r => (fcp_id r =~ i) && (assigner_id r =~ a)) (fcp d).

(** [result.fetchone()['connections']]: subscripting [None] is a
    [TypeError], which is not an SDK exception. *)
Definition fetchone_connections (i : string) : M Z :=
  r <- query (select_fcp i) ;;
  match r with
  | Some row => ret (connections row)
  | None => raise TypeError
  end.

(** SQLite stores an INTEGER in 64 bits.  A Python [int] computed by the
    code and bound to a [?] must fit: [sqlite3] raises [OverflowError]
    otherwise, before the statement runs. *)
Definition int64_min : Z := - 2 ^ 63.
Definition int64_max : Z := 2 ^ 63 - 1.

Definition fits_int64 (z : Z) : bool := (int64_min <=? z) && (z <=? int64_max).

(** [conn.execute(sql, (z, ...))] with the computed integer [z] among the
    parameters. *)
Definition execute_with_int (z : Z) (f : tables -> tables) : M unit :=
  if fits_int64 z then execute f else raise OverflowError.

Definition increase_connections_by_assigner (fcp : string) (assigner : string)
  : M Z :=
  get_fcp_conn
    (fcp_info <- query (select_fcp_of_assigner fcp assigner) ;;
     match fcp_info with
     | None =>
         LOG ERROR ;;;
         raise SDKObjectNotExistError
     | Some row =>
         let connections' := connections row + 1 in
         execute_with_int connections'
           (update_fcp
              (fun r => (fcp_id r =~ fcp) && (assigner_id r =~ assigner))
              (set_connections connections')) ;;;
         fetchone_connections fcp
     end).

Definition decrease_connections (fcp : string) : M Z :=
  get_fcp_conn
    (fcp_list <- query (select_fcp fcp) ;;
     match fcp_list with
     | None =>
         LOG ERROR ;;;
         raise SDKObjectNotExistError
     | Some row =>
         let connections0 := connections row in
         if connections0 =? 0 then
           LOG ERROR ;;;
           raise SDKObjectNotExistError
         else
           let connections1 := connections0 - 1 in
           connections2 <-
             (if connections1 <? 0
              then LOG WARNING ;;; ret 0
              else ret connections1) ;;
           execute (update_fcp (fun r => fcp_id r =~ fcp)
                               (set_connections connections2)) ;;;
           fetchone_connections fcp
     end).

(** [SELECT fcp_id FROM fcp WHERE tmpl_id=?]: the devices allocated from
    the template. *)
Definition get_inuse_fcp_device_by_fcp_template (fcp_template_id : string)
  (d : tables) : list string :=
  map fcp_id (filter (fun r => tmpl_id r =~ fcp_template_id) (fcp d)).

(** ** Python containers *)

(** A [dict] as an association list in insertion order. *)
Section Dict.
Variables K V : Type.
Variable keq : K -> K -> bool.

Fixpoint dict_get (k : K) (d : list (K * V)) : option V :=
  match d with
  | [] => None
  | (k', v) :: d' => if keq k' k then Some v else dict_get k d'
  end.

Fixpoint dict_set (k : K) (v : V) (d : list (K * V)) : list (K * V) :=
  match d with
  | [] => [(k, v)]
  | (k', v') :: d' =>
      if keq k' k then (k', v) :: d' else (k', v') :: dict_set k v d'
  end.

Definition dict_mem (k : K) (d : list (K * V)) : bool :=
  match dict_get k d with Some _ => true | None => false end.
End Dict.

(** Elements in order of first occurrence: [SELECT DISTINCT], [set(...)]. *)
Fixpoint distinct {A} (eqb : A -> A -> bool) (l : list A) : list A :=
  match l with
  | [] => []
  | x :: l' => x :: filter (fun y => negb (eqb x y)) (distinct eqb l')
  end.

Definition mem {A} (eqb : A -> A -> bool) (x : A) (l : list A) : bool :=
  existsb (eqb x) l.

(** [set(a) - set(b)] and [set(a) & set(b)] on [str]. *)
Definition set_diff (a b : list string) : list string :=
  filter (fun x => negb (mem String.eqb x b)) (distinct String.eqb a).

Definition set_inter (a b : list string) : list string :=
  filter (fun x => mem String.eqb x b) (distinct String.eqb a).

(** [s.split(sep)]. *)
Fixpoint split (sep : ascii) (s : string) : list string :=
  match s with
  | EmptyString => [EmptyString]
  | String c s' =>
      if Ascii.eqb c sep then EmptyString :: split sep s'
      else match split sep s' with
           | [] => [String c EmptyString]
           | h :: t => String c h :: t
           end
  end.

(** ** Template Manager *)

(** *** DML for table [template_fcp_mapping] *)

Definition update_path_of_fcp_device (record : Z * string * string) : M unit :=
  let '(path, i, fcp_template_id) := record in
  get_fcp_conn
    (execute (fun d =>
       set_template_fcp_mapping
         (map (fun r =>
                 if (tf_fcp_id r =~ i) && (tf_tmpl_id r =~ fcp_template_id)
                 then mk_tf (tf_fcp_id r) (tf_tmpl_id r) path else r)
              (template_fcp_mapping d)) d)).

(** [SELECT DISTINCT path FROM template_fcp_mapping WHERE tmpl_id=?]. *)
Definition paths_of_template (fcp_template_id : string) (d : tables) : list Z :=
  distinct Z.eqb
    (map tf_path
       (filter (fun r => tf_tmpl_id r =~ fcp_template_id)
               (template_fcp_mapping d))).

Definition get_path_count (fcp_template_id : string) (d : tables) : Z :=
  Z.of_nat (List.length (paths_of_template fcp_template_id d)).

Definition delete_tf_record (record : string * string) : M unit :=
  let '(fcp_template_id, i) := record in
  execute (fun d =>
    set_template_fcp_mapping
      (filter (fun r =>
                 negb ((tf_tmpl_id r =~ fcp_template_id) && (tf_fcp_id r =~ i)))
              (template_fcp_mapping d)) d).

Definition bulk_delete_fcp_device_from_fcp_template
  (records : list (string * string)) : M unit :=
  get_fcp_conn (executemany delete_tf_record records).

(** [INSERT INTO template_fcp_mapping]: the composite primary key
    [(fcp_id, tmpl_id)] makes a second row for the pair an
    [sqlite3.IntegrityError]. *)
Definition insert_tf_record (record : string * string * Z) : M unit :=
  let '(fcp_template_id, i, path) := record in
  rows <- query template_fcp_mapping ;;
  if existsb (fun r => (tf_fcp_id r =~ i) && (tf_tmpl_id r =~ fcp_template_id))
             rows
  then raise IntegrityError
  else execute (fun d =>
         set_template_fcp_mapping
           (template_fcp_mapping d ++ [mk_tf i fcp_template_id path]) d).

Definition bulk_insert_fcp_device_into_fcp_template
  (records : list (string * string * Z)) : M unit :=
  get_fcp_conn (executemany insert_tf_record records).

(** *** DML for table [template] *)

Definition fcp_template_exist_in_db (fcp_template_id : string) (d : tables)
  : bool :=
  match filter (fun t => t_id t =~ fcp_template_id) (template d) with
  | [] => false
  | _ => true
  end.

Definition get_min_fcp_paths_count_from_db (fcp_template_id : string)
  (d : tables) : option Z :=
  option_map min_fcp_paths_count
    (find (fun t => t_id t =~ fcp_template_id) (template d)).

(** A value bound to the [is_default] column: a Python [bool] given by the
    caller, or the integer read back from the table. *)
Inductive pyflag : Type :=
| PyBool (b : bool)
| PyInt (z : Z).

Definition flag_column (f : pyflag) : Z :=
  match f with
  | PyBool true => 1
  | PyBool false => 0
  | PyInt z => z
  end.

(** [host_default is True]. *)
Definition is_True (f : pyflag) : bool :=
  match f with PyBool true => true | _ => false end.

Definition clear_is_default (d : tables) : tables :=
  set_template
    (map (fun t => mk_template (t_id t) (t_name t) (t_description t) 0
                               (min_fcp_paths_count t))
         (template d)) d.

Definition update_basic_info_of_fcp_template
  (record : string * string * pyflag * Z * string) : M unit :=
  let '(name, description, host_default, min_count, fcp_template_id) := record in
  get_fcp_conn
    ((if is_True host_default then execute clear_is_default else ret tt) ;;;
     execute (fun d =>
       set_template
         (map (fun t =>
                 if t_id t =~ fcp_template_id
                 then mk_template (t_id t) name description
                                  (flag_column host_default) min_count
                 else t)
              (template d)) d)).

(** *** DML for table [template_sp_mapping] *)

Definition sp_name_exist_in_db (sp : string) (d : tables) : bool :=
  match filter (fun r => sp_name r =~ sp) (template_sp_mapping d) with
  | [] => false
  | _ => true
  end.

(** [INSERT INTO template_sp_mapping (tmpl_id, sp_name)], primary key
    [sp_name]. *)
Definition insert_sp_record (record : string * string) : M unit :=
  let '(template_id, sp) := record in
  rows <- query template_sp_mapping ;;
  if existsb (fun r => sp_name r =~ sp) rows
  then raise IntegrityError
  else execute (fun d =>
         set_template_sp_mapping
           (template_sp_mapping d ++ [mk_sp sp template_id]) d).

Definition update_sp_record (record : string * string) : M unit :=
  let '(template_id, sp) := record in
  execute (fun d =>
    set_template_sp_mapping
      (map (fun r => if sp_name r =~ sp then mk_sp (sp_name r) template_id
                     else r)
           (template_sp_mapping d)) d).

Definition bulk_set_sp_default_by_fcp_template (template_id : string)
  (sp_name_list : list string) : M unit :=
  get_fcp_conn
    (execute (fun d =>
       set_template_sp_mapping
         (filter (fun r => negb (sp_tmpl_id r =~ template_id))
                 (template_sp_mapping d)) d) ;;;
     executemany
       (fun sp => execute (fun d =>
          set_template_sp_mapping
            (filter (fun r => negb (sp_name r =~ sp))
                    (template_sp_mapping d)) d))
       sp_name_list ;;;
     executemany insert_sp_record
       (map (fun sp => (template_id, sp)) sp_name_list)).

(** *** Queries over several tables *)

(** [template_fcp_mapping AS tf INNER JOIN fcp ON tf.fcp_id=fcp.fcp_id]. *)
Definition inner_join (d : tables) : list (tf_row * fcp_row) :=
  flat_map
    (fun tf => map (pair tf)
                   (filter (fun f => tf_fcp_id tf =~ fcp_id f) (fcp d)))
    (template_fcp_mapping d).

(** [template_fcp_mapping AS tf LEFT OUTER JOIN fcp ON tf.fcp_id=fcp.fcp_id]:
    a mapping row without a device keeps [NULL] in the columns of [fcp]. *)
Definition left_join (d : tables) : list (tf_row * option fcp_row) :=
  flat_map
    (fun tf =>
       match filter (fun f => tf_fcp_id tf =~ fcp_id f) (fcp d) with
       | [] => [(tf, None)]
       | fs => map (fun f => (tf, Some f)) fs
       end)
    (template_fcp_mapping d).

Definition get_pchids_from_all_fcp_templates (d : tables) : list string :=
  map Str.upper
      (distinct Str.nocase_eqb (map (fun r => pchid (snd r)) (inner_join d))).

Definition get_pchids_by_fcp_template (fcp_template_id : string) (d : tables)
  : list string :=
  map Str.upper
      (distinct Str.nocase_eqb
         (map (fun r => pchid (snd r))
              (filter (fun r => tf_tmpl_id (fst r) =~ fcp_template_id)
                      (inner_join d)))).

(** [get_fcp_templates_details(template_id_list)]: the rows of [template]
    left-joined with their storage providers, and the device rows. *)
Definition get_fcp_templates_details (template_id_list : list string)
  (d : tables)
  : list (template_row * option string) * list (tf_row * option fcp_row) :=
  let wanted (i : string) :=
    match template_id_list with
    | [] => true
    | _ => existsb (fun j => i =~ j) template_id_list
    end in
  (flat_map
     (fun t =>
        match filter (fun s => t_id t =~ sp_tmpl_id s) (template_sp_mapping d)
        with
        | [] => [(t, None)]
        | ss => map (fun s => (t, Some (sp_name s))) ss
        end)
     (filter (fun t => wanted (t_id t)) (template d)),
   filter (fun r => wanted (tf_tmpl_id (fst r))) (left_join d)).

(** [get_min_fcp_paths_count]: a stored [-1] stands for the path count of
    the template. *)
Definition get_min_fcp_paths_count (fcp_template_id : string) (d : tables)
  : res Z :=
  let stored :=
    if negb (Str.nonempty fcp_template_id) then None
    else match get_min_fcp_paths_count_from_db fcp_template_id d with
         | Some m => if m =? -1 then Some (get_path_count fcp_template_id d)
                     else Some m
         | None => None
         end in
  match stored with
  | None => Raise SDKObjectNotExistError
  | Some m => Ok m
  end.

(** *** create, edit, delete *)

(** [INSERT INTO template], primary key [id]. *)
Definition insert_template_record (t : template_row) : M unit :=
  rows <- query template ;;
  if existsb (fun r => t_id r =~ t_id t) rows
  then raise IntegrityError
  else execute (fun d => set_template (template d ++ [t]) d).

(** The row [create_fcp_template] inserts into [template]:
    [min_fcp_paths_count] takes the default [-1] of the column when the
    argument is [None] or [0]. *)
Definition new_template_row (i name description : string)
  (host_default : bool) (min_count : option Z) : template_row :=
  mk_template i name description (if host_default then 1 else 0)
    (match min_count with
     | Some m => if m =? 0 then -1 else m
     | None => -1
     end).

Definition create_fcp_template (fcp_template_id name description : string)
  (fcp_devices_by_path : list (Z * list string)) (host_default : bool)
  (default_sp_list : list string) (min_count : option Z) : M unit :=
  get_fcp_conn
    (exist <- query (fcp_template_exist_in_db fcp_template_id) ;;
     (if exist then raise SDKObjectAlreadyExistError else ret tt) ;;;
     d0 <- query (fun d => d) ;;
     let sp_mapping_to_update :=
       map (pair fcp_template_id)
           (filter (fun sp => sp_name_exist_in_db sp d0) default_sp_list) in
     let sp_mapping_to_add :=
       map (pair fcp_template_id)
           (filter (fun sp => negb (sp_name_exist_in_db sp d0))
                   default_sp_list) in
     let fcp_mapping :=
       flat_map (fun pf => map (fun i => (fcp_template_id, i, fst pf)) (snd pf))
                fcp_devices_by_path in
     (if host_default then execute clear_is_default else ret tt) ;;;
     insert_template_record
       (new_template_row fcp_template_id name description host_default
                         min_count) ;;;
     executemany insert_tf_record fcp_mapping ;;;
     executemany insert_sp_record sp_mapping_to_add ;;;
     executemany update_sp_record sp_mapping_to_update).

Definition delete_fcp_template (template_id : string) : M unit :=
  get_fcp_conn
    (exist <- query (fcp_template_exist_in_db template_id) ;;
     (if exist then ret tt else raise SDKObjectNotExistError) ;;;
     inuse_fcp_devices <-
       query (get_inuse_fcp_device_by_fcp_template template_id) ;;
     match inuse_fcp_devices with
     | _ :: _ => raise (SDKConflictError 22 inuse_fcp_devices)
     | [] =>
         execute (fun d =>
           set_template
             (filter (fun t => negb (t_id t =~ template_id)) (template d)) d) ;;;
         execute (fun d =>
           set_template_sp_mapping
             (filter (fun r => negb (sp_tmpl_id r =~ template_id))
                     (template_sp_mapping d)) d) ;;;
         execute (fun d =>
           set_template_fcp_mapping
             (filter (fun r => negb (tf_tmpl_id r =~ template_id))
                     (template_fcp_mapping d)) d) ;;;
         LOG INFO
     end).

(** What [edit_fcp_template] returns under the key ['fcp_template']. *)
Record edited_template : Type := mk_edited {
  e_name : string;
  e_id : string;
  e_description : string;
  e_host_default : bool;
  e_storage_providers : list (option string);
  e_min_fcp_paths_count : Z;
  e_pchids_add_all : list string;
  e_pchids_add_first_used_by_templates : list string;
  e_pchids_delete_all : list string;
  e_pchids_delete_not_exist_in_any_template : list string;
  e_pchids_all : list string
}.

(** [d[k]] on a [dict] with [str] keys. *)
Definition getitem {V} (k : string) (d : list (string * V)) : res V :=
  match dict_get String.eqb k d with
  | Some v => Ok v
  | None => Raise KeyError
  end.

(** [seq[0]]. *)
Definition first {A} (l : list A) : res A :=
  match l with
  | x :: _ => Ok x
  | [] => Raise IndexError
  end.

(** A device row of [get_fcp_templates_details] is in use when its
    [connections] or [reserved] is neither [None] nor [0]. *)
Definition row_in_use (r : tf_row * option fcp_row) : bool :=
  match snd r with
  | None => false
  | Some f => negb (connections f =? 0) || negb (reserved f =? 0)
  end.

Section Edit.

(** [utils.expand_fcp_list]: the device list of the request
    (["0011-0013;0015;0017-0018"]) as devices by path. *)
Variable expand_fcp_list : string -> list (Z * list string).

Definition _validate_min_fcp_paths_count (fcp_devices : option string)
  (min_count : option Z) (fcp_template_id : string) : M unit :=
  let given_min :=
    match min_count with Some m => negb (m =? 0) | None => false end in
  let given_devices :=
    match fcp_devices with Some s => Str.nonempty s | None => false end in
  if given_min || given_devices then
    fcp_devices_path_count <-
      (match fcp_devices with
       | Some s =>
           if Str.nonempty s
           then ret (Z.of_nat (List.length (expand_fcp_list s)))
           else query (get_path_count fcp_template_id)
       | None => query (get_path_count fcp_template_id)
       end) ;;
    min_count' <-
      (if given_min then ret min_count
       else query (get_min_fcp_paths_count_from_db fcp_template_id)) ;;
    match min_count' with
    | None => raise TypeError
    | Some m =>
        if m >? fcp_devices_path_count
        then LOG ERROR ;;; raise (SDKConflictError 23 [])
        else ret tt
    end
  else ret tt.

(** [fcp_from_input]: the devices of the request, each with its path. *)
Definition fcp_from_input_of (fcp_devices : string) : list (string * Z) :=
  fold_left
    (fun acc pf =>
       fold_left (fun acc' i => dict_set String.eqb i (fst pf) acc')
                 (snd pf) acc)
    (expand_fcp_list fcp_devices) [].

(** [fcp_in_db]: the devices of the template in the tables, each with
    its row of [get_fcp_templates_details]. *)
Definition fcp_in_db_of (fcp_detail : list (tf_row * option fcp_row))
  : list (string * (tf_row * option fcp_row)) :=
  fold_left
    (fun acc row => dict_set String.eqb (tf_fcp_id (fst row)) row acc)
    fcp_detail [].

(** [not_allow_for_del]: the devices of [del_set] that are in use, cut
    down to those allocated from the current template. *)
Definition not_allow_for_del_of (fcp_from_input : list (string * Z))
  (fcp_in_db : list (string * (tf_row * option fcp_row)))
  (inuse_fcp_by_current_template : list string) : list string :=
  let del_set := set_diff (map fst fcp_in_db) (map fst fcp_from_input) in
  set_inter
    (filter (fun i => match dict_get String.eqb i fcp_in_db with
                      | Some row => row_in_use row
                      | None => false
                      end) del_set)
    inuse_fcp_by_current_template.

(** The part of [edit_fcp_template] run when [fcp_devices] is given:
    validation of the removed devices, then the DML on
    [template_fcp_mapping]. *)
Definition edit_fcp_devices (fcp_template_id fcp_devices : string)
  (fcp_detail : list (tf_row * option fcp_row)) : M unit :=
  let fcp_from_input := fcp_from_input_of fcp_devices in
  let fcp_in_db := fcp_in_db_of fcp_detail in
  let add_set := set_diff (map fst fcp_from_input) (map fst fcp_in_db) in
  let inter_set := set_inter (map fst fcp_from_input) (map fst fcp_in_db) in
  let del_set := set_diff (map fst fcp_in_db) (map fst fcp_from_input) in
  inuse_fcp_by_current_template <-
    query (get_inuse_fcp_device_by_fcp_template fcp_template_id) ;;
  let not_allow_for_del :=
    not_allow_for_del_of fcp_from_input fcp_in_db
                         inuse_fcp_by_current_template in
  (match not_allow_for_del with
   | _ :: _ => raise (SDKConflictError 24 not_allow_for_del)
   | [] => ret tt
   end) ;;;
  LOG INFO ;;;
  bulk_delete_fcp_device_from_fcp_template
    (map (pair fcp_template_id) del_set) ;;;
  LOG INFO ;;;
  records_to_insert <-
    read (fun _ =>
      fold_right
        (fun i acc =>
           match getitem i fcp_from_input, acc with
           | Ok p, Ok l => Ok ((fcp_template_id, i, p) :: l)
           | Raise e, _ => Raise e
           | _, Raise e => Raise e
           end)
        (Ok []) add_set) ;;
  bulk_insert_fcp_device_into_fcp_template records_to_insert ;;;
  LOG INFO ;;;
  executemany
    (fun i =>
       path_from_input <- read (fun _ => getitem i fcp_from_input) ;;
       row <- read (fun _ => getitem i fcp_in_db) ;;
       if negb (path_from_input =? tf_path (fst row))
       then update_path_of_fcp_device (path_from_input, i, fcp_template_id) ;;;
            LOG INFO
       else ret tt)
    inter_set.

Definition edit_fcp_template (fcp_template_id : string)
  (name description fcp_devices : option string)
  (host_default : option bool) (default_sp_list : option (list string))
  (min_count : option Z) : M edited_template :=
  get_fcp_conn
    (exist <- query (fcp_template_exist_in_db fcp_template_id) ;;
     (if exist then ret tt else raise SDKObjectNotExistError) ;;;
     (match fcp_devices with
      | None => ret tt
      | Some s =>
          let fcp_path_count_from_input :=
            Z.of_nat (List.length (filter Str.nonempty (split ";" s))) in
          fcp_path_count_in_db <- query (get_path_count fcp_template_id) ;;
          if negb (fcp_path_count_from_input =? fcp_path_count_in_db) then
            inuse_fcp <-
              query (get_inuse_fcp_device_by_fcp_template fcp_template_id) ;;
            match inuse_fcp with
            | _ :: _ => raise (SDKConflictError 24 inuse_fcp)
            | [] => ret tt
            end
          else ret tt
      end) ;;;
     _validate_min_fcp_paths_count fcp_devices min_count fcp_template_id ;;;
     ori_pchid_list <- query (get_pchids_by_fcp_template fcp_template_id) ;;
     all_pchid_used_by_templates <- query get_pchids_from_all_fcp_templates ;;
     details <- query (get_fcp_templates_details [fcp_template_id]) ;;
     let '(tmpl_basic, fcp_detail) := details in
     (match fcp_devices with
      | None => ret tt
      | Some s => edit_fcp_devices fcp_template_id s fcp_detail
      end) ;;;
     (match name, description, host_default, min_count with
      | None, None, None, None => ret tt
      | _, _, _, _ =>
          LOG INFO ;;;
          t0 <- read (fun _ => first tmpl_basic) ;;
          update_basic_info_of_fcp_template
            (match name with Some n => n | None => t_name (fst t0) end,
             match description with
             | Some x => x
             | None => t_description (fst t0)
             end,
             match host_default with
             | Some b => PyBool b
             | None => PyInt (is_default (fst t0))
             end,
             match min_count with
             | Some m => m
             | None => min_fcp_paths_count (fst t0)
             end,
             fcp_template_id) ;;;
          LOG INFO
      end) ;;;
     (match default_sp_list with
      | None => ret tt
      | Some sps =>
          LOG INFO ;;;
          bulk_set_sp_default_by_fcp_template fcp_template_id sps ;;;
          LOG INFO
      end) ;;;
     tmpl_basic' <-
       query (fun d => fst (get_fcp_templates_details [fcp_template_id] d)) ;;
     final_pchid_list <- query (get_pchids_by_fcp_template fcp_template_id) ;;
     let del_pchids := set_diff ori_pchid_list final_pchid_list in
     all_pchids_in_template <- query get_pchids_from_all_fcp_templates ;;
     t1 <- read (fun _ => first tmpl_basic') ;;
     min_now <- read (get_min_fcp_paths_count fcp_template_id) ;;
     ret (mk_edited
            (t_name (fst t1)) (t_id (fst t1)) (t_description (fst t1))
            (negb (is_default (fst t1) =? 0))
            (match snd t1 with
             | None => []
             | Some _ => map snd tmpl_basic'
             end)
            min_now
            (set_diff final_pchid_list ori_pchid_list)
            (set_diff final_pchid_list all_pchid_used_by_templates)
            del_pchids
            (set_diff del_pchids all_pchids_in_template)
            final_pchid_list)).

End Edit.

(** ** Allocation Engine *)

(** The engine only reads the tables; what it raises is a Python or an SDK
    exception in [res]. *)
Definition rbind {A B} (r : res A) (k : A -> res B) : res B :=
  match r with
  | Ok a => k a
  | Raise e => Raise e
  end.

Declare Scope res_scope.
Delimit Scope res_scope with res.
Notation "x <~ r ;; k" := (rbind r (fun x => k))
  (at level 100, r at next level, right associativity) : res_scope.
Local Open Scope res_scope.

Fixpoint mapM {A B} (f : A -> res B) (l : list A) : res (list B) :=
  match l with
  | [] => Ok []
  | x :: l' => y <~ f x ;; ys <~ mapM f l' ;; Ok (y :: ys)
  end.

(** The block [with get_fcp_conn(): ...] seen from outside, for a body that
    only reads. *)
Definition in_fcp_conn {A} (r : res A) : res A :=
  match r with
  | Ok a => Ok a
  | Raise e => Raise (if is_sdk_exception e then e else SDKGuestOperationError)
  end.

(** One entry of the capacity snapshot [pchid_info]. *)
Record capacity : Type := mk_capacity {
  allocated : Z;
  max_allowed : Z
}.

(** A device as the engine returns it. *)
Record fcp_item : Type := mk_item {
  i_fcp_id : string;
  i_wwpn_npiv : string;
  i_wwpn_phy : string;
  i_path : Z;
  i_pchid : string
}.

(** [empty_fcp_list_reason]: which message, with the arguments of its
    [format]. *)
Inductive reason : Type :=
| NoReason
| NoDeviceInTemplate (fcp_template_id : string)
| PathsWithoutFreeDevice (paths : Z) (fcp_template_id : string)
| NoSameIndexCombination (fcp_template_id : string)
| NotEnoughFreeCapacity (pchids : list (string * Z)) (fcp_template_id : string)
| NoFreeDeviceLeft (fcp_template_id : string)
| FreePathCountBelowMinimum (fcp_template_id : string)
    (free_path_count min_path_count : Z).

(** The text handed to [format]; [''] when there is no reason. *)
Definition format_of (r : reason) : string :=
  match r with
  | NoReason => ""
  | NoDeviceInTemplate _ =>
      "No FCP device exists in FCP multipath template (id={}). To use this template, you must add more free FCP devices by editing the template. For load balance across multiple PCHIDs, suggest adding the same amount of FCP devices per PCHID."
  | PathsWithoutFreeDevice _ _ =>
      "As the option get_fcp_pair_with_same_index is enabled on this host, when you choose an FCP multipath template of this host for attaching volume or booting from volume, all the paths of the template must have free FCP devices. However, {} path(s) of template (id={}) does not have free FCP devices. To use this template, you must add more free FCP devices by editing the template to meet the requirement."
  | NoSameIndexCombination _ =>
      "No FCP device combination of FCP multipath template (id={}) matches the same index policy. To use this template, you must add more free FCP devices by editing the template to meet the above requirement."
  | NotEnoughFreeCapacity _ _ =>
      "Not enough free capacity of the following PCHIDs left. Their free capacity is {}. To use this FCP multipath template (id={}), you must either increase free capacity of above PCHIDs or add more free FCP devices whose PCHIDs have enough free capacity by editing the template."
  | NoFreeDeviceLeft _ =>
      "No free FCP device left in FCP multipath template (id={}). To use this template, you must add more free FCP devices by editing the template. For load balance across multiple PCHIDs, suggest adding the same amount of FCP devices per PCHID."
  | FreePathCountBelowMinimum _ _ _ =>
      "When you choose an FCP multipath template for attaching volume or booting from volume, the count of paths with free FCP devices must not be less than the minimum path count. However, free path count of template (id={}) is {}, which is less than its minimum path count {}. To use this template, you must either modify the minimum path count or add more free FCP devices by editing the template to meet the requirement."
  end.

(** The condition of the [WHERE] clauses: a device available for
    allocation. *)
Definition available (f : fcp_row) : bool :=
  (connections f =? 0) && (reserved f =? 0) && (state f =~ "free")
  && Str.nonempty (wwpn_npiv f) && Str.nonempty (wwpn_phy f).

(** [ORDER BY] and [sorted]: a stable insertion sort. *)
Fixpoint insert_sorted {A} (leb : A -> A -> bool) (x : A) (l : list A)
  : list A :=
  match l with
  | [] => [x]
  | y :: l' => if leb x y then x :: l else y :: insert_sorted leb x l'
  end.

Definition sort_by {A} (leb : A -> A -> bool) (l : list A) : list A :=
  fold_right (insert_sorted leb) [] l.

Definition cmp_then (c1 c2 : comparison) : comparison :=
  match c1 with Eq => c2 | _ => c1 end.

Definition is_le (c : comparison) : bool :=
  match c with Gt => false | _ => true end.

(** [random.choice(seq)], given the number drawn. *)
Definition choice {A} (r : nat) (l : list A) : res A :=
  match l with
  | [] => Raise IndexError
  | _ => match nth_error l (r mod List.length l) with
         | Some x => Ok x
         | None => Raise IndexError
         end
  end.

(** [if k not in d: d[k] = []] followed by [d[k].append(v)]. *)
Fixpoint dict_setdefault_append {V} (k : Z) (v : V) (d : list (Z * list V))
  : list (Z * list V) :=
  match d with
  | [] => [(k, [v])]
  | (k', l) :: d' =>
      if k' =? k then (k', l ++ [v]) :: d'
      else (k', l) :: dict_setdefault_append k v d'
  end.

(** [d[k].append(v)]: a [KeyError] when [k] is not a key. *)
Fixpoint dict_append {V} (k : Z) (v : V) (d : list (Z * list V))
  : res (list (Z * list V)) :=
  match d with
  | [] => Raise KeyError
  | (k', l) :: d' =>
      if k' =? k then Ok ((k', l ++ [v]) :: d')
      else d'' <~ dict_append k v d' ;; Ok ((k', l) :: d'')
  end.

(** The rows of the join for one template that are available. *)
Definition free_rows (fcp_template_id : string) (d : tables)
  : list (tf_row * fcp_row) :=
  filter (fun r => (tf_tmpl_id (fst r) =~ fcp_template_id) && available (snd r))
         (inner_join d).

Definition path_pchid_eqb (a b : Z * string) : bool :=
  (fst a =? fst b) && (snd a =~ snd b).

Definition path_pchid_leb (a b : Z * string) : bool :=
  is_le (cmp_then (fst a ?= fst b) (Str.nocase_compare (snd a) (snd b))).

(** [get_free_pchids_by_fcp_template]: path number as key, the PCHIDs
    holding free devices of the path as value. *)
Definition get_free_pchids_by_fcp_template (fcp_template_id : string)
  (d : tables) : list (Z * list string) :=
  let rows :=
    sort_by path_pchid_leb
      (distinct path_pchid_eqb
         (map (fun r => (tf_path (fst r), pchid (snd r)))
              (free_rows fcp_template_id d))) in
  fold_left
    (fun pchids item =>
       dict_setdefault_append (fst item) (Str.upper (snd item)) pchids)
    rows [].

(** *** Python floats *)

(** [x / y] on two [int] is a [float]: the double nearest to the quotient,
    ties going to the even mantissa, and an [OverflowError] when that is
    beyond the largest double.  A finite double [m * 2^p] is kept as the
    rational it stands for, on which Python's comparisons of floats are
    the comparisons of [Q]. *)

(** [n / d] rounded to the nearest integer, ties to the even one, for
    [0 <= n] and [0 < d]. *)
Definition round_half_even (n d : Z) : Z :=
  let q := n / d in
  let r := n mod d in
  match 2 * r ?= d with
  | Lt => q
  | Gt => q + 1
  | Eq => if Z.even q then q else q + 1
  end.

(** [d * 2^e <= n], for an exponent [e] of any sign. *)
Definition scaled_le (d e n : Z) : bool :=
  if 0 <=? e then d * 2 ^ e <=? n else d <=? n * 2 ^ (- e).

(** The binary exponent of [n / d], for [0 < n] and [0 < d]: the [e] with
    [2^e <= n / d < 2^(e+1)]. *)
Definition ilog2 (n d : Z) : Z :=
  let e := Z.log2 n - Z.log2 d in
  if scaled_le d e n then e else e - 1.

(** The double nearest to [n / d], for [0 < n] and [0 < d], as mantissa and
    exponent: 53 bits of mantissa, exponents from -1074 (subnormal) on;
    [None] from [2^1024] on.  [mantissa n d p] is [n / d / 2^p] rounded. *)
Definition mantissa (n d p : Z) : Z :=
  if 0 <=? p then round_half_even n (d * 2 ^ p)
  else round_half_even (n * 2 ^ (- p)) d.

Definition nearest_double (n d : Z) : option (Z * Z) :=
  let e := ilog2 n d in
  let p := Z.max (e - 52) (- 1074) in
  let m := mantissa n d p in
  if (0 <=? p) && (2 ^ 1024 <=? m * 2 ^ p) then None else Some (m, p).

(** [m * 2^p] as a rational. *)
Definition Q_of_double (m p : Z) : Q :=
  if 0 <=? p then inject_Z (m * 2 ^ p) else m # Z.to_pos (2 ^ (- p)).

Definition py_truediv (x y : Z) : res Q :=
  if y =? 0 then Raise ZeroDivisionError
  else if x =? 0 then Ok 0%Q
  else
    match nearest_double (Z.abs x) (Z.abs y) with
    | None => Raise OverflowError
    | Some (m, p) => Ok (Q_of_double (Z.sgn x * Z.sgn y * m) p)
    end.

(** *** Weights *)

(** [free_count_in_pchid_info]: PCHID (upper case) as key, [max - allocated]
    as value. *)
Definition free_count_in_pchid_info (pchid_info : list (string * capacity))
  : list (string * Z) :=
  fold_left
    (fun acc e =>
       dict_set String.eqb (Str.upper (fst e))
                (max_allowed (snd e) - allocated (snd e)) acc)
    pchid_info [].

(** [x < y] on weights.  Python divides two integers into a float; the
    quotient is kept exact here, which agrees with the float comparisons
    as long as the counts stay far below 2^26. *)
Definition Qlt_bool (x y : Q) : bool := negb (Qle_bool y x).

(** [min(values)] and [max(values)]. *)
Definition py_min (l : list Q) : res Q :=
  match l with
  | [] => Raise ValueError
  | x :: l' => Ok (fold_left (fun m y => if Qlt_bool y m then y else m) l' x)
  end.

Definition py_max (l : list Q) : res Q :=
  match l with
  | [] => Raise ValueError
  | x :: l' => Ok (fold_left (fun m y => if Qlt_bool m y then y else m) l' x)
  end.

Definition py_max_nat (l : list nat) : res nat :=
  match l with
  | [] => Raise ValueError
  | x :: l' => Ok (fold_left Nat.max l' x)
  end.

(** [comb_fcp_count_per_pchid]: PCHID as key, its number of occurrences in
    the combination as value. *)
Definition comb_fcp_count_per_pchid (pchids : list string)
  : list (string * nat) :=
  map (fun p => (p, count_occ string_dec pchids p)) (distinct String.eqb pchids).

(** [weights], each with the free count it was computed from:
    [free_count_in_pchid_info[p] / comb_fcp_count_per_pchid[p]]. *)
Definition weights_of (free_count : list (string * Z)) (pchids : list string)
  : res (list (string * Z * Q)) :=
  mapM (fun pc =>
          f <~ getitem (fst pc) free_count ;;
          Ok (fst pc, f, f # Pos.of_nat (snd pc)))
       (comb_fcp_count_per_pchid pchids).

(** The loop [for pchid in weights] filling
    [pchids_without_enough_free_cap]. *)
Definition record_without_enough_free_cap (weights : list (string * Z * Q))
  (without : list (string * Z)) : list (string * Z) :=
  fold_left
    (fun acc w =>
       let '(p, f, q) := w in
       if Qlt_bool q 1 then dict_set String.eqb p f acc else acc)
    weights without.

(** One turn of the loop of [_calculate_weight] (and of
    [_remove_invalid_combinations]): the weight of a combination using
    the PCHIDs [pchids]. *)
Definition weigh (free_count : list (string * Z)) (pchids : list string)
  (without : list (string * Z)) : res (Q * list (string * Z)) :=
  weights <~ weights_of free_count pchids ;;
  let without' := record_without_enough_free_cap weights without in
  weight <~ py_min (map snd weights) ;;
  Ok (weight, without').

(** [sorted(pchids_without_enough_free_cap.items())]. *)
Definition sorted_items (without : list (string * Z)) : list (string * Z) :=
  sort_by
    (fun a b => is_le (cmp_then (String.compare (fst a) (fst b))
                                (snd a ?= snd b)))
    without.

(** *** Strategy B: [get_fcp_devices] *)

(** A combination: path as key, PCHID as value; with its ['weight'] once
    [_calculate_weight] has run. *)
Definition comb : Type := list (Z * string).

Definition _calculate_weight (pchid_info : list (string * capacity))
  (pchids_per_path_combinations : list comb)
  (pchids_without_enough_free_cap : list (string * Z))
  : res (list (comb * Q) * list (string * Z)) :=
  let free_count := free_count_in_pchid_info pchid_info in
  fold_left
    (fun acc c =>
       st <~ acc ;;
       let '(done, without) := st in
       ww <~ weigh free_count (map snd c) without ;;
       Ok (done ++ [(c, fst ww)], snd ww))
    pchids_per_path_combinations
    (Ok ([], pchids_without_enough_free_cap)).

(** The loops of the form [for comb in l.copy(): if ...: l.remove(comb)]
    drop every combination meeting the condition: equal combinations carry
    equal weights, so each removal of a first equal element is matched by
    a turn of the loop for that element. *)
Definition _remove_invalid_weight (l : list (comb * Q)) : list (comb * Q) :=
  filter (fun c => negb (Qlt_bool (snd c) 1)) l.

Definition _select_max_weight (l : list (comb * Q)) : res (list (comb * Q)) :=
  max_weight <~ py_max (map snd l) ;;
  Ok (filter (fun c => Qeq_bool (snd c) max_weight) l).

(** [len(set(comb.values()))]. *)
Definition pchid_count (c : comb) : nat :=
  List.length (distinct String.eqb (map snd c)).

Definition _select_most_distributed_pchids (l : list (comb * Q))
  : res (list comb) :=
  let l' := map fst l in
  max_pchid_count <~ py_max_nat (map pchid_count l') ;;
  Ok (filter (fun c => pchid_count c =? max_pchid_count)%nat l').

(** [itertools.combinations] of [k] elements of [l], and [itertools.product]
    of the lists [ls]. *)
Fixpoint combinations {A} (l : list A) (k : nat) {struct l} : list (list A) :=
  match k, l with
  | O, _ => [[]]
  | S _, [] => []
  | S k', x :: l' => map (cons x) (combinations l' k') ++ combinations l' k
  end.

Fixpoint product {A} (ls : list (list A)) : list (list A) :=
  match ls with
  | [] => [[]]
  | l :: ls' => flat_map (fun x => map (cons x) (product ls')) l
  end.

(** [d[k]] on a [dict] keyed by path. *)
Definition getitem_path {V} (k : Z) (d : list (Z * V)) : res V :=
  match dict_get Z.eqb k d with
  | Some v => Ok v
  | None => Raise KeyError
  end.

(** [pchids_per_path_combinations] for one path count: for every choice of
    [path_cnt] free paths, every choice of one PCHID per chosen path.  The
    paths of a choice are distinct, so [dict(zip(paths, pchids))] keeps
    every pair. *)
Definition pchids_per_path_combinations_of
  (free_pchids_per_path : list (Z * list string)) (free_path_idx : list Z)
  (path_cnt : Z) : res (list comb) :=
  if path_cnt <? 0 then Raise ValueError
  else
    let path_idx_combinations :=
      combinations free_path_idx (Z.to_nat path_cnt) in
    per_choice <~
      mapM (fun path_idx_comb =>
              pchids_per_path_comb <~
                mapM (fun idx => getitem_path idx free_pchids_per_path)
                     path_idx_comb ;;
              Ok (map (combine path_idx_comb) (product pchids_per_path_comb)))
           path_idx_combinations ;;
    Ok (List.concat per_choice).

Definition item_of (r : tf_row * fcp_row) : fcp_item :=
  mk_item (Str.upper (fcp_id (snd r))) (wwpn_npiv (snd r)) (wwpn_phy (snd r))
          (tf_path (fst r)) (Str.upper (pchid (snd r))).

(** [random.choice(l)] for each list in turn, the [n]-th draw being
    [rand n]. *)
Fixpoint choose_each {A} (rand : nat -> nat) (n : nat) (ls : list (list A))
  : res (list A) :=
  match ls with
  | [] => Ok []
  | l :: ls' =>
      x <~ choice (rand n) l ;;
      xs <~ choose_each rand (S n) ls' ;;
      Ok (x :: xs)
  end.

(** [_get_one_random_fcp_combinations]: one available device per path of
    [final_pchid_per_path], from the PCHID chosen for the path.  An empty
    filter would not be valid SQL. *)
Definition _get_one_random_fcp_combinations (fcp_template_id : string)
  (final_pchid_per_path : comb) (rand : nat -> nat) (d : tables)
  : res (list fcp_item) :=
  match final_pchid_per_path with
  | [] => Raise OperationalError
  | _ =>
      let fcps :=
        sort_by
          (fun a b =>
             is_le (cmp_then (tf_path (fst a) ?= tf_path (fst b))
                   (cmp_then (Str.nocase_compare (pchid (snd a)) (pchid (snd b)))
                             (Str.nocase_compare (fcp_id (snd a))
                                                 (fcp_id (snd b))))))
          (filter
             (fun r =>
                existsb (fun pp => (tf_path (fst r) =? fst pp)
                                   && (pchid (snd r) =~ snd pp))
                        final_pchid_per_path)
             (free_rows fcp_template_id d)) in
      tmp_dict <~
        fold_left
          (fun acc f =>
             dct <~ acc ;; dict_append (tf_path (fst f)) (item_of f) dct)
          fcps
          (Ok (map (fun pp => (fst pp, [])) final_pchid_per_path)) ;;
      choose_each rand 1 (map snd tmp_dict)
  end.

(** [reversed(range(lo, hi))]. *)
Definition reversed_range (lo hi : Z) : list Z :=
  map (fun i => hi - 1 - Z.of_nat i) (seq 0 (Z.to_nat (hi - lo))).

Section StrategyB.

Variable fcp_template_id : string.
Variable pchid_info : list (string * capacity).
Variable rand : nat -> nat.
Variable d : tables.

(** The loop [for path_cnt in path_count_choices], with the value of
    [pchids_without_enough_free_cap] left by the last turn. *)
Fixpoint try_path_counts (free_pchids_per_path : list (Z * list string))
  (free_path_idx : list Z) (path_count_choices : list Z)
  (without : option (list (string * Z)))
  : res (list fcp_item * option (list (string * Z))) :=
  match path_count_choices with
  | [] => Ok ([], without)
  | path_cnt :: rest =>
      combs <~ pchids_per_path_combinations_of
                 free_pchids_per_path free_path_idx path_cnt ;;
      weighed <~ _calculate_weight pchid_info combs [] ;;
      let '(combs, without') := weighed in
      match _remove_invalid_weight combs with
      | [] => try_path_counts free_pchids_per_path free_path_idx rest
                              (Some without')
      | valid =>
          heaviest <~ _select_max_weight valid ;;
          spread <~ _select_most_distributed_pchids heaviest ;;
          final_pchid_per_path <~ choice (rand 0) spread ;;
          fcp_list <~ _get_one_random_fcp_combinations
                        fcp_template_id final_pchid_per_path rand d ;;
          Ok (fcp_list, Some without')
      end
  end.

Definition get_fcp_devices : res (list fcp_item * reason) :=
  in_fcp_conn
    (let free_pchids_per_path :=
       get_free_pchids_by_fcp_template fcp_template_id d in
     match free_pchids_per_path with
     | [] => Ok ([], NoFreeDeviceLeft fcp_template_id)
     | _ =>
         min_path_count <~ get_min_fcp_paths_count fcp_template_id d ;;
         let free_path_count :=
           Z.of_nat (List.length free_pchids_per_path) in
         if free_path_count <? min_path_count then
           Ok ([], FreePathCountBelowMinimum fcp_template_id
                     free_path_count min_path_count)
         else
           let free_path_idx := sort_by Z.leb (map fst free_pchids_per_path) in
           let path_count_choices :=
             reversed_range min_path_count (free_path_count + 1) in
           tried <~ try_path_counts free_pchids_per_path free_path_idx
                      path_count_choices None ;;
           let '(fcp_list, without) := tried in
           match fcp_list with
           | _ :: _ => Ok (fcp_list, NoReason)
           | [] =>
               match without with
               | None => Raise UnboundLocalError
               | Some w =>
                   Ok ([], NotEnoughFreeCapacity (sorted_items w)
                             fcp_template_id)
               end
           end
     end).

End StrategyB.

(** *** Strategy A: [get_fcp_devices_with_same_index] *)

(** [SELECT COUNT(path) ... GROUP BY path ORDER BY path]. *)
Definition count_by_path (paths : list Z) : list nat :=
map (fun p => List.length (filter (Z.eqb p) paths))
    (sort_by Z.leb (distinct Z.eqb paths)).

(** The tuple [(fcp_no, wwpn_npiv, wwpn_phy, path, pchid)] of a row. *)
Definition tuple_of (r : tf_row * fcp_row) : fcp_item :=
mk_item (fcp_id (snd r)) (wwpn_npiv (snd r)) (wwpn_phy (snd r))
        (tf_path (fst r)) (pchid (snd r)).

(** The test made in Python on a row of [fcps]:
  [connections == reserved == 0 and state == 'free']. *)
Definition free_in_python (r : tf_row * fcp_row) : bool :=
(connections (snd r) =? reserved (snd r)) && (reserved (snd r) =? 0)
&& String.eqb (state (snd r)) "free".

(** [fcps[i]]. *)
Definition index {A} (l : list A) (i : nat) : res A :=
match nth_error l i with
| Some x => Ok x
| None => Raise IndexError
end.

(** The inner loop [for i, c in enumerate(count_per_path[:-1])] for one
  index [idx]: [None] when the index was popped from [fcp_pair_map]. *)
Fixpoint pair_up (fcps : list (tf_row * fcp_row)) (idx : nat)
(count_per_path : list nat) (s : nat) (pair : list fcp_item)
: res (option (list fcp_item)) :=
match count_per_path with
| c :: ((c' :: _) as rest) =>
    let s' := (s + c)%nat in
    row <~ index fcps (s' + idx) ;;
    if (idx <? c')%nat && free_in_python row
    then pair_up fcps idx rest s' (pair ++ [tuple_of row])
    else Ok None
| _ => Ok (Some pair)
end.

(** The order of Python on tuples and on lists of tuples. *)
Definition tuple_compare (a b : fcp_item) : comparison :=
cmp_then (String.compare (i_fcp_id a) (i_fcp_id b))
(cmp_then (String.compare (i_wwpn_npiv a) (i_wwpn_npiv b))
(cmp_then (String.compare (i_wwpn_phy a) (i_wwpn_phy b))
(cmp_then (i_path a ?= i_path b)
          (String.compare (i_pchid a) (i_pchid b))))).

Fixpoint list_compare (a b : list fcp_item) : comparison :=
match a, b with
| [], [] => Eq
| [], _ :: _ => Lt
| _ :: _, [] => Gt
| x :: a', y :: b' => cmp_then (tuple_compare x y) (list_compare a' b')
end.

Definition py_min_nat (l : list nat) : res nat :=
match l with
| [] => Raise ValueError
| x :: l' => Ok (fold_left Nat.min l' x)
end.

(** [_remove_invalid_combinations]: the combinations of weight at least 1,
  and the PCHIDs recorded on the way. *)
Definition _remove_invalid_combinations (pchid_info : list (string * capacity))
(fcp_combinations : list (list fcp_item))
(pchids_without_enough_free_cap : list (string * Z))
: res (list (list fcp_item) * list (string * Z)) :=
let free_count := free_count_in_pchid_info pchid_info in
fold_left
  (fun acc c =>
     st <~ acc ;;
     let '(kept, without) := st in
     ww <~ weigh free_count (map (fun it => Str.upper (i_pchid it)) c)
                 without ;;
     Ok (if Qlt_bool (fst ww) 1 then kept else kept ++ [c], snd ww))
  fcp_combinations
  (Ok ([], pchids_without_enough_free_cap)).

Definition get_fcp_devices_with_same_index (fcp_template_id : string)
(pchid_info : list (string * capacity)) (rand : nat -> nat) (d : tables)
: res (list fcp_item * reason) :=
let count_per_path :=
  count_by_path
    (map tf_path
         (filter (fun r => tf_tmpl_id r =~ fcp_template_id)
                 (template_fcp_mapping d))) in
match count_per_path with
| [] => Ok ([], NoDeviceInTemplate fcp_template_id)
| _ =>
    let free_count_per_path :=
      count_by_path
        (map (fun r => tf_path (fst r)) (free_rows fcp_template_id d)) in
    if (List.length free_count_per_path <? List.length count_per_path)%nat
    then
      Ok ([], PathsWithoutFreeDevice
                (Z.of_nat (List.length count_per_path)
                 - Z.of_nat (List.length free_count_per_path))
                fcp_template_id)
    else
      let fcps :=
        sort_by
          (fun a b =>
             is_le (cmp_then (tf_path (fst a) ?= tf_path (fst b))
                             (Str.nocase_compare (tf_fcp_id (fst a))
                                                 (tf_fcp_id (fst b)))))
          (filter (fun r => tf_tmpl_id (fst r) =~ fcp_template_id)
                  (inner_join d)) in
      shortest <~ py_min_nat count_per_path ;;
      fcp_pair_map <~
        mapM (fun i =>
                row <~ index fcps i ;;
                Ok (if free_in_python row then [(i, [tuple_of row])] else []))
             (seq 0 shortest) ;;
      paired <~
        mapM (fun e => pair_up fcps (fst e) count_per_path 0 (snd e))
             (List.concat fcp_pair_map) ;;
      let fcp_combinations :=
        flat_map (fun o => match o with Some c => [c] | None => [] end)
                 paired in
      match fcp_combinations with
      | [] => Ok ([], NoSameIndexCombination fcp_template_id)
      | _ =>
          checked <~ _remove_invalid_combinations
                       pchid_info fcp_combinations [] ;;
          let '(fcp_combinations', without) := checked in
          match fcp_combinations' with
          | [] =>
              Ok ([], NotEnoughFreeCapacity (sorted_items without)
                        fcp_template_id)
          | _ =>
              tmp_list <~
                choice (rand 0%nat)
                       (sort_by (fun a b => is_le (list_compare a b))
                                fcp_combinations') ;;
              Ok (map (fun f =>
                         mk_item (Str.upper (i_fcp_id f)) (i_wwpn_npiv f)
                                 (i_wwpn_phy f) (i_path f)
                                 (Str.upper (i_pchid f)))
                      tmp_list,
                  NoReason)
          end
      end
end.

(** ** Well-formed tables and concrete states *)

(** The primary key of [fcp]: no two rows share an [fcp_id] (NOCASE). *)
Definition fcp_primary_key (d : tables) : Prop :=
NoDup (map (fun r => Str.lower (fcp_id r)) (fcp d)).

(** The primary key of [template]. *)
Definition template_primary_key (d : tables) : Prop :=
NoDup (map (fun t => Str.lower (t_id t)) (template d)).

(** The templates holding the host-default flag. *)
Definition host_defaults (d : tables) : list template_row :=
filter (fun t => negb (is_default t =? 0)) (template d).

Definition at_most_one_default (d : tables) : Prop :=
(List.length (host_defaults d) <= 1)%nat.

(** A device as the hypervisor synchronization inserts it, with its usage. *)
Definition device (i p st npiv phy a : string) (c r : Z) (t : string)
: fcp_row :=
mk_fcp i a c r npiv phy "27" p st "" t.

(** Template ["P"] of two paths, held by no guest. *)
Definition tables_P : tables :=
mk_tables
  [device "1a01" "aaaa" "free" "c05076de33000355" "c05076de33002641" "" 0 0 "";
   device "1a02" "aaaa" "free" "c05076de33000356" "c05076de33002641" "" 0 0 "";
   device "1b01" "bbbb" "free" "c05076de33000357" "c05076de33002642" "" 0 0 ""]
  [mk_template "P" "two paths" "" 0 2]
  []
  [mk_tf "1a01" "P" 0; mk_tf "1a02" "P" 0; mk_tf "1b01" "P" 1].

(** The same, with ["1a01"] reserved by guest ["USER1"] from ["P"] and
  ["1b01"] attached twice. *)
Definition tables_P_inuse : tables :=
mk_tables
  [device "1a01" "aaaa" "active" "c05076de33000355" "c05076de33002641"
          "USER1" 0 1 "P";
   device "1a02" "aaaa" "free" "c05076de33000356" "c05076de33002641" "" 0 0 "";
   device "1b01" "bbbb" "active" "c05076de33000357" "c05076de33002642"
          "USER1" 2 1 "P"]
  [mk_template "P" "two paths" "" 0 2]
  []
  [mk_tf "1a01" "P" 0; mk_tf "1a02" "P" 0; mk_tf "1b01" "P" 1].

(** Template ["P"] with the counter of ["1b01"] at the largest INTEGER. *)
Definition tables_P_maxed : tables :=
mk_tables
  [device "1a01" "aaaa" "free" "c05076de33000355" "c05076de33002641" "" 0 0 "";
   device "1a02" "aaaa" "free" "c05076de33000356" "c05076de33002641" "" 0 0 "";
   device "1b01" "bbbb" "active" "c05076de33000357" "c05076de33002642"
          "USER1" int64_max 1 "P"]
  [mk_template "P" "two paths" "" 0 2]
  []
  [mk_tf "1a01" "P" 0; mk_tf "1a02" "P" 0; mk_tf "1b01" "P" 1].

Definition idle (d : tables) : conn := mk_conn d false [].

(** A device is listed in a batch when its [fcp_id] equals one of the ids
  (NOCASE). *)
Definition listed (fcp_ids : list string) (r : fcp_row) : bool :=
existsb (fun i => fcp_id r =~ i) fcp_ids.

(** The tables with every row of template [i] removed from [template],
  [template_sp_mapping] and [template_fcp_mapping]. *)
Definition without_template (i : string) (d : tables) : tables :=
set_template_fcp_mapping
  (filter (fun r => negb (tf_tmpl_id r =~ i)) (template_fcp_mapping d))
  (set_template_sp_mapping
     (filter (fun r => negb (sp_tmpl_id r =~ i)) (template_sp_mapping d))
     (set_template
        (filter (fun t => negb (t_id t =~ i)) (template d)) d)).

(** Statements that leave table [template] alone. *)
Definition keeps_template {A} (m : M A) : Prop :=
forall w, template (db (snd (m w))) = template (db w).

(** Computations that keep a property of the tables, whether they return,
    raise or are rolled back. *)
Definition preserves {A} (P : tables -> Prop) (m : M A) : Prop :=
forall w, P (db w) -> P (db (snd (m w))).

(** Computations that return, whatever the state they start from. *)
Definition succeeds {A} (m : M A) : Prop :=
forall w, exists a w', m w = (Ok a, w').

(** Computations that raise no [SDKConflictError]. *)
Definition is_conflict (e : exn) : bool :=
match e with SDKConflictError _ _ => true | _ => false end.

Definition no_conflict {A} (m : M A) : Prop :=
forall w e, fst (m w) = Raise e -> is_conflict e = false.

(** A device in use: its [connections] or its [reserved] is not zero. *)
Definition in_use (f : fcp_row) : Prop :=
connections f <> 0 \/ reserved f <> 0.

Section EditSpec.

Variable expand_fcp_list : string -> list (Z * list string).

(** The device [x] is in the device list of the request. *)
Definition requested (fcp_devices : string) (x : string) : Prop :=
  exists pf, In pf (expand_fcp_list fcp_devices) /\ In x (snd pf).

(** The device [x] of template [i] is left out of the request while it is
    in use and allocated from template [i]. *)
Definition blocks_removal (i fcp_devices : string) (d : tables) (x : string)
  : Prop :=
  ~ requested fcp_devices x
  /\ (exists m, In m (template_fcp_mapping d)
                /\ (tf_tmpl_id m =~ i) = true /\ tf_fcp_id m = x)
  /\ (exists f, In f (fcp d) /\ fcp_id f = x /\ in_use f
                /\ (tmpl_id f =~ i) = true).

(** Every device that [template_fcp_mapping] holds for template [i] is in
    the device list of the request. *)
Definition only_requested (i fcp_devices : string) (d : tables) : Prop :=
  forall m, In m (template_fcp_mapping d) -> (tf_tmpl_id m =~ i) = true ->
            requested fcp_devices (tf_fcp_id m).

(** The request names no device that template [i] does not hold yet. *)
Definition adds_no_device (i fcp_devices : string) (d : tables) : Prop :=
  forall x, requested fcp_devices x ->
            exists m, In m (template_fcp_mapping d)
                      /\ (tf_tmpl_id m =~ i) = true /\ tf_fcp_id m = x.

End EditSpec.

(** ["1a02;1b01"] expanded by [utils.expand_fcp_list]. *)
Definition expand_example (s : string) : list (Z * list string) :=
[(0, ["1a02"]); (1, ["1b01"])].

(** Template ["P"] with ["1a01"] reserved by guest ["USER1"] from another
  template, ["Q"]. *)
Definition tables_P_other : tables :=
mk_tables
  [device "1a01" "aaaa" "active" "c05076de33000355" "c05076de33002641"
          "USER1" 0 1 "Q";
   device "1a02" "aaaa" "free" "c05076de33000356" "c05076de33002641" "" 0 0 "";
   device "1b01" "bbbb" "free" "c05076de33000357" "c05076de33002642" "" 0 0 ""]
  [mk_template "P" "two paths" "" 0 2; mk_template "Q" "one path" "" 0 1]
  []
  [mk_tf "1a01" "P" 0; mk_tf "1a02" "P" 0; mk_tf "1b01" "P" 1;
   mk_tf "1a01" "Q" 0].

(** ** The allocation engine, seen from the tables *)

(** Path [p] of template [t] has an available device on PCHID [g] (upper
    case). *)
Definition free_on (t : string) (d : tables) (p : Z) (g : string) : Prop :=
  exists r, In r (free_rows t d) /\ tf_path (fst r) = p
            /\ Str.upper (pchid (snd r)) = g.

(** [g] is listed for path [p] in a [dict] of PCHIDs per path. *)
Definition listed_for {V} (free : list (Z * list V)) (p : Z) (g : V) : Prop :=
  exists l, In (p, l) free /\ In g l.

(** Template ["T1"] of two paths; the device ["1a00"] is free and unused
    but has no NPIV WWPN. *)
Definition tables_no_wwpn : tables :=
  mk_tables
    [device "1a00" "aaaa" "free" "" "c05076de33002641" "" 0 0 "";
     device "1a01" "aaaa" "free" "c05076de33000356" "c05076de33002641" "" 0 0 "";
     device "1b00" "bbbb" "free" "c05076de33000357" "c05076de33002642" "" 0 0 ""]
    [mk_template "T1" "same index" "" 0 (-1)]
    []
    [mk_tf "1a00" "T1" 0; mk_tf "1a01" "T1" 0; mk_tf "1b00" "T1" 1].

(** A capacity snapshot with room on both PCHIDs. *)
Definition pchid_info_free : list (string * capacity) :=
  [("AAAA", mk_capacity 0 2); ("BBBB", mk_capacity 0 1)].

(** The free capacity of PCHID [g] in the snapshot: [max - allocated]. *)
Definition free_capacity (pchid_info : list (string * capacity)) (g : string)
  : option Z :=
  dict_get String.eqb g (free_count_in_pchid_info pchid_info).

(** The number of times PCHID [g] is used within the PCHIDs [gs] of a
    combination. *)
Definition uses (gs : list string) (g : string) : nat :=
  count_occ string_dec gs g.

(** The weight of PCHID [g] within a combination: its free capacity
    divided by the number of times it is used. *)
Definition group_weight (pchid_info : list (string * capacity))
  (gs : list string) (g : string) : option Q :=
  option_map (fun f => f # Pos.of_nat (uses gs g)) (free_capacity pchid_info g).

(** [w] is the weight of a combination using the PCHIDs [gs]: the minimum
    of the weights of its PCHIDs. *)
Definition is_weight (pchid_info : list (string * capacity))
  (gs : list string) (w : Q) : Prop :=
  (forall g, In g gs ->
     exists q, group_weight pchid_info gs g = Some q /\ (w <= q)%Q)
  /\ (exists g, In g gs /\ group_weight pchid_info gs g = Some w).

(** A candidate combination for [k] paths: [k] of the free paths, in the
    order of [free_path_idx], each with one of the PCHIDs holding free
    devices of the path. *)
Definition candidate (free_pchids_per_path : list (Z * list string)) (k : nat)
  (c : comb) : Prop :=
  In (map fst c)
     (combinations (sort_by Z.leb (map fst free_pchids_per_path)) k)
  /\ Forall (fun pg => listed_for free_pchids_per_path (fst pg) (snd pg)) c.

(** PCHID [g], of free capacity [f], is short in one of the combinations
    [cs]: its weight there is below 1. *)
Definition shortfall (pchid_info : list (string * capacity)) (cs : list comb)
  (g : string) (f : Z) : Prop :=
  free_capacity pchid_info g = Some f
  /\ exists c, In c cs /\ In g (map snd c)
               /\ (f # Pos.of_nat (uses (map snd c) g) < 1)%Q.

Section Selection.

Variable pchid_info : list (string * capacity).
Variable free : list (Z * list string).

(** Every candidate for [k] paths has a weight: the snapshot knows each of
    its PCHIDs. *)
Definition weighable (k : Z) : Prop :=
  forall c, candidate free (Z.to_nat k) c ->
            exists w, is_weight pchid_info (map snd c) w.

(** No candidate for [k] paths survives: each has a weight below 1. *)
Definition exhausted (k : Z) : Prop :=
  forall c, candidate free (Z.to_nat k) c ->
            exists w, is_weight pchid_info (map snd c) w /\ (w < 1)%Q.

(** [final] is a best candidate for [k] paths: it survives, no candidate
    weighs more, and no candidate of the same weight uses more distinct
    PCHIDs. *)
Definition best (k : Z) (final : comb) : Prop :=
  candidate free (Z.to_nat k) final
  /\ exists w,
       is_weight pchid_info (map snd final) w /\ (1 <= w)%Q
       /\ (forall c w', candidate free (Z.to_nat k) c ->
                        is_weight pchid_info (map snd c) w' -> (w' <= w)%Q)
       /\ (forall c w', candidate free (Z.to_nat k) c ->
                        is_weight pchid_info (map snd c) w' -> (w' == w)%Q ->
                        (pchid_count c <= pchid_count final)%nat).

(** PCHID [g], of free capacity [f], is short in a candidate for [k]
    paths. *)
Definition short_at (k : Z) (g : string) (f : Z) : Prop :=
  free_capacity pchid_info g = Some f
  /\ exists c, candidate free (Z.to_nat k) c /\ In g (map snd c)
               /\ (f # Pos.of_nat (uses (map snd c) g) < 1)%Q.

End Selection.

(** What [get_fcp_devices] returns once its loop has run. *)
Definition after_loop (fcp_template_id : string)
  (tried : res (list fcp_item * option (list (string * Z))))
  : res (list fcp_item * reason) :=
  in_fcp_conn
    (tried' <~ tried ;;
     let '(fcp_list, without) := tried' in
     match fcp_list with
     | _ :: _ => Ok (fcp_list, NoReason)
     | [] =>
         match without with
         | None => Raise UnboundLocalError
         | Some w =>
             Ok ([], NotEnoughFreeCapacity (sorted_items w) fcp_template_id)
         end
     end).



(** ** Device State Manager: the other statements on table [fcp] *)

(** The FCP info queried from z/VM:
    [(fcp_id, wwpn_npiv, wwpn_phy, chpid, pchid, state, owner)]. *)
Definition zvm_fcp_info : Type :=
  (string * string * string * string * string * string * string)%type.

Definition info_fcp_id (info : zvm_fcp_info) : string :=
  let '(i, _, _, _, _, _, _) := info in i.

(** The row an [INSERT INTO fcp (fcp_id, wwpn_npiv, wwpn_phy, chpid, pchid,
    state, owner)] adds: the usage columns take their defaults. *)
Definition new_fcp_row (info : zvm_fcp_info) : fcp_row :=
  let '(i, npiv, phy, chp, pch, st, own) := info in
  mk_fcp i "" 0 0 npiv phy chp pch st own "".

(** The primary key [fcp_id] makes a second row for an id an
    [sqlite3.IntegrityError]. *)
Definition insert_fcp_record (info : zvm_fcp_info) : M unit :=
  rows <- query fcp ;;
  if existsb (fun r => fcp_id r =~ info_fcp_id info) rows
  then raise IntegrityError
  else execute (fun d => set_fcp (fcp d ++ [new_fcp_row info]) d).

Definition bulk_insert_zvm_fcp_info_into_fcp_table
  (fcp_info_list : list zvm_fcp_info) : M unit :=
  get_fcp_conn (executemany insert_fcp_record fcp_info_list).

Definition bulk_delete_from_fcp_table (fcp_id_list : list string) : M unit :=
  get_fcp_conn
    (executemany
       (fun i => execute (fun d =>
          set_fcp (filter (fun r => negb (fcp_id r =~ i)) (fcp d)) d))
       fcp_id_list).

(** [SET wwpn_npiv=?, wwpn_phy=?, chpid=?, pchid=?, state=?, owner=?]. *)
Definition set_zvm_info (info : zvm_fcp_info) (r : fcp_row) : fcp_row :=
  let '(_, npiv, phy, chp, pch, st, own) := info in
  mk_fcp (fcp_id r) (assigner_id r) (connections r) (reserved r)
         npiv phy chp pch st own (tmpl_id r).

Definition bulk_update_zvm_fcp_info_in_fcp_table
  (fcp_info_list : list zvm_fcp_info) : M unit :=
  get_fcp_conn
    (executemany
       (fun info => execute
          (update_fcp (fun r => fcp_id r =~ info_fcp_id info)
                      (set_zvm_info info)))
       fcp_info_list).

Definition set_state (v : string) (r : fcp_row) : fcp_row :=
  mk_fcp (fcp_id r) (assigner_id r) (connections r) (reserved r) (wwpn_npiv r)
         (wwpn_phy r) (chpid r) (pchid r) v (owner r) (tmpl_id r).

Definition bulk_update_state_in_fcp_table (fcp_id_list : list string)
  (new_state : string) : M unit :=
  get_fcp_conn
    (executemany
       (fun i => execute
          (update_fcp (fun r => fcp_id r =~ i) (set_state new_state)))
       fcp_id_list).

(** [SET assigner_id=?, reserved=?, connections=?, tmpl_id=?]. *)
Definition set_usage (a : string) (r c : Z) (t : string) (row : fcp_row)
  : fcp_row :=
  mk_fcp (fcp_id row) a c r (wwpn_npiv row) (wwpn_phy row) (chpid row)
         (pchid row) (state row) (owner row) t.

Definition reset_fcps_of_assigner (userid : string) : M unit :=
  get_fcp_conn
    (execute (update_fcp (fun r => assigner_id r =~ userid)
                         (set_usage "" 0 0 "")) ;;;
     LOG DEBUG).

(** [get_all_fcps_of_assigner(assigner_id=None)]: [None] and [''] both
    select every row. *)
Definition get_all_fcps_of_assigner (assigner : option string)
  : M (list fcp_row) :=
  let given :=
    match assigner with
    | Some a => Str.nonempty a
    | None => false
    end in
  get_fcp_conn
    (fcp_info <-
       query (fun d =>
                match assigner with
                | Some a =>
                    if given
                    then filter (fun r => assigner_id r =~ a) (fcp d)
                    else fcp d
                | None => fcp d
                end) ;;
     match fcp_info with
     | [] => raise SDKObjectNotExistError
     | _ => ret fcp_info
     end).

(** [get_usage_of_fcp]: [(assigner_id, reserved, connections, tmpl_id)]. *)
Definition get_usage_of_fcp (i : string) : M (string * Z * Z * string) :=
  get_fcp_conn
    (fcp_info <- query (select_fcp i) ;;
     match fcp_info with
     | None => LOG ERROR ;;; raise SDKObjectNotExistError
     | Some row =>
         ret (assigner_id row, reserved row, connections row, tmpl_id row)
     end).

Definition update_usage_of_fcp (i assigner : string) (r c : Z)
  (fcp_template_id : string) : M unit :=
  get_fcp_conn
    (execute (update_fcp (fun x => fcp_id x =~ i)
                         (set_usage assigner r c fcp_template_id))).


Definition get_all : M (list fcp_row) := get_fcp_conn (query fcp).

(** ** Queries over several tables, continued *)

(** The [WHERE] clause shared by [get_allocated_fcps_from_assigner] and
    [get_reserved_fcps_from_assigner], apart from the usage test. *)
Definition of_assigner (assigner fcp_template_id : string)
  (r : tf_row * fcp_row) : bool :=
  (tf_tmpl_id (fst r) =~ fcp_template_id)
  && (assigner_id (snd r) =~ assigner).

(** [ORDER BY tf.fcp_id ASC]. *)
Definition by_tf_fcp_id (a b : tf_row * fcp_row) : bool :=
  is_le (Str.nocase_compare (tf_fcp_id (fst a)) (tf_fcp_id (fst b))).

(** The rows hold [fcp_id, wwpn_npiv, wwpn_phy, path, pchid]. *)
Definition get_allocated_fcps_from_assigner (assigner fcp_template_id : string)
  (d : tables) : list fcp_item :=
  map tuple_of
    (sort_by by_tf_fcp_id
       (filter (fun r =>
                  of_assigner assigner fcp_template_id r
                  && (negb (connections (snd r) =? 0)
                      || negb (reserved (snd r) =? 0))
                  && (tmpl_id (snd r) =~ fcp_template_id))
               (inner_join d))).

(** The rows hold [fcp_id, wwpn_npiv, wwpn_phy, connections, path, pchid]:
    the item and the [connections] column. *)
Definition get_reserved_fcps_from_assigner (assigner fcp_template_id : string)
  (d : tables) : list (fcp_item * Z) :=
  map (fun r => (tuple_of r, connections (snd r)))
    (sort_by by_tf_fcp_id
       (filter (fun r =>
                  of_assigner assigner fcp_template_id r
                  && negb (reserved (snd r) =? 0)
                  && (tmpl_id (snd r) =~ fcp_template_id))
               (inner_join d))).

(** [fcp.connections<>0 OR fcp.reserved<>0]. *)
Definition in_use_b (f : fcp_row) : bool :=
  negb (connections f =? 0) || negb (reserved f =? 0).

(** [DELETE FROM template_fcp_mapping WHERE fcp_id NOT IN (SELECT fcp_id
    FROM fcp WHERE fcp.connections<>0 OR fcp.reserved<>0) AND tmpl_id=? AND
    fcp_id=?], for one record. *)
Definition delete_free_tf_record (record : string * string) : M unit :=
  let '(fcp_template_id, i) := record in
  execute (fun d =>
    set_template_fcp_mapping
      (filter (fun r =>
                 negb (negb (existsb (fun f => in_use_b f
                                               && (tf_fcp_id r =~ fcp_id f))
                                     (fcp d))
                       && (tf_tmpl_id r =~ fcp_template_id)
                       && (tf_fcp_id r =~ i)))
              (template_fcp_mapping d)) d).

Definition bulk_delete_fcp_from_template (fcp_id_list : list string)
  (fcp_template_id : string) : M unit :=
  get_fcp_conn
    (executemany delete_free_tf_record
       (map (fun i => (fcp_template_id, i)) fcp_id_list)).

(** [template LEFT OUTER JOIN template_sp_mapping ON
    template.id=template_sp_mapping.tmpl_id]. *)
Definition template_left_join (d : tables)
  : list (template_row * option string) :=
  flat_map
    (fun t =>
       match filter (fun s => t_id t =~ sp_tmpl_id s) (template_sp_mapping d)
       with
       | [] => [(t, None)]
       | ss => map (fun s => (t, Some (sp_name s))) ss
       end)
    (template d).

Definition get_fcp_templates (template_id_list : list string) (d : tables)
  : list (template_row * option string) :=
  match template_id_list with
  | [] => template_left_join d
  | _ => filter (fun r => existsb (fun j => t_id (fst r) =~ j) template_id_list)
                (template_left_join d)
  end.

(** [get_host_default_fcp_template(host_default=True)]:
    [WHERE t.is_default=1] or [WHERE t.is_default=0]. *)
Definition get_host_default_fcp_template (host_default : bool) (d : tables)
  : list (template_row * option string) :=
  filter (fun r => is_default (fst r) =? (if host_default then 1 else 0))
         (template_left_join d).

(** [template_sp_mapping AS ts INNER JOIN template AS t ON ts.tmpl_id=t.id]. *)
Definition sp_inner_join (d : tables) : list (template_row * string) :=
  flat_map
    (fun s => map (fun t => (t, sp_name s))
                  (filter (fun t => sp_tmpl_id s =~ t_id t) (template d)))
    (template_sp_mapping d).

Definition get_sp_default_fcp_template (sp_host_list : list string)
  (d : tables) : list (template_row * string) :=
  let every :=
    match sp_host_list with
    | [x] => String.eqb (Str.lower x) "all"
    | _ => false
    end in
  if every then sp_inner_join d
  else flat_map (fun sp_host => filter (fun r => snd r =~ sp_host)
                                       (sp_inner_join d))
                sp_host_list.

(** [fcp INNER JOIN template AS t ON fcp.tmpl_id=t.id LEFT OUTER JOIN
    template_sp_mapping AS ts ON fcp.tmpl_id=ts.tmpl_id WHERE
    fcp.assigner_id=?]. *)
Definition get_fcp_template_by_assigner_id (assigner : string) (d : tables)
  : list (template_row * option string) :=
  flat_map
    (fun f =>
       flat_map
         (fun t =>
            match filter (fun s => tmpl_id f =~ sp_tmpl_id s)
                         (template_sp_mapping d) with
            | [] => [(t, None)]
            | ss => map (fun s => (t, Some (sp_name s))) ss
            end)
         (filter (fun t => tmpl_id f =~ t_id t) (template d)))
    (filter (fun f => assigner_id f =~ assigner) (fcp d)).

(** No row of the four tables refers to the template id [i]. *)
Definition unused_template_id (i : string) (d : tables) : Prop :=
  (forall t, In t (template d) -> (t_id t =~ i) = false)
  /\ (forall r, In r (template_fcp_mapping d) -> (tf_tmpl_id r =~ i) = false)
  /\ (forall s, In s (template_sp_mapping d) -> (sp_tmpl_id s =~ i) = false)
  /\ (forall f, In f (fcp d) -> (tmpl_id f =~ i) = false).

(** The rows [create_fcp_template] adds to [template_fcp_mapping]. *)
Definition new_tf_rows (i : string) (fcp_devices_by_path : list (Z * list string))
  : list tf_row :=
  flat_map (fun pf => map (fun x => mk_tf x i (fst pf)) (snd pf))
           fcp_devices_by_path.

(** The primary key of [template_sp_mapping]. *)
Definition sp_primary_key (d : tables) : Prop :=
  NoDup (map (fun s => Str.lower (sp_name s)) (template_sp_mapping d)).

(** Computations that leave table [fcp] alone, whatever they return. *)
Definition keeps_fcp {A} (m : M A) : Prop :=
  forall w, fcp (db (snd (m w))) = fcp (db w).

(** [get_wwpn_phy_from_pchids]: PCHID (upper case) as key, physical WWPN as
    value; a later row of [SELECT DISTINCT pchid, wwpn_phy] replaces the
    value of an earlier one. *)
Definition get_wwpn_phy_from_pchids (pchids : list string) (d : tables)
  : list (string * string) :=
  let raw :=
    distinct (fun a b : string * string => (fst a =~ fst b) && (snd a =~ snd b))
      (map (fun f => (pchid f, wwpn_phy f))
           (filter (fun f => existsb (fun p => pchid f =~ p) pchids) (fcp d)))
  in
  fold_left
    (fun acc item => dict_set String.eqb (Str.upper (fst item)) (snd item) acc)
    raw [].
(** * Properties *)

(** ** The transaction monad *)

Lemma conn_eta (w : conn) :
  mk_conn (db w) (in_transaction w) (journal w) = w.
Proof. destruct w; reflexivity. Qed.

Lemma tables_eta (d : tables) :
  mk_tables (fcp d) (template d) (template_sp_mapping d)
            (template_fcp_mapping d) = d.
Proof. destruct d; reflexivity. Qed.

(** A block entered with no transaction alive: [BEGIN], the body, then
    [COMMIT] or [ROLLBACK]. *)
Lemma get_fcp_conn_outer {A} (body : M A) (w : conn) :
  in_transaction w = false ->
  get_fcp_conn body w =
  match body (mk_conn (db w) true (journal w)) with
  | (Ok a, w1) => (Ok a, mk_conn (db w1) false (journal w1))
  | (Raise e, w1) =>
      (Raise (if is_sdk_exception e then e else SDKGuestOperationError),
       mk_conn (db w) false (journal w1 ++ [ERROR]))
  end.
Proof. intros H. unfold get_fcp_conn. rewrite H. reflexivity. Qed.

(** A block entered inside a transaction leaves [COMMIT] and [ROLLBACK] to
    the block that began it. *)
Lemma get_fcp_conn_nested {A} (body : M A) (w : conn) :
  in_transaction w = true ->
  get_fcp_conn body w =
  match body w with
  | (Ok a, w1) => (Ok a, w1)
  | (Raise e, w1) =>
      (Raise (if is_sdk_exception e then e else SDKGuestOperationError),
       mk_conn (db w1) (in_transaction w1) (journal w1 ++ [ERROR]))
  end.
Proof. intros H. unfold get_fcp_conn. rewrite H. reflexivity. Qed.

Lemma executemany_execute {P} (f : P -> tables -> tables) (ps : list P)
  (w : conn) :
  executemany (fun p => execute (f p)) ps w =
  (Ok tt, mk_conn (fold_left (fun d p => f p d) ps (db w))
                  (in_transaction w) (journal w)).
Proof.
  revert w. induction ps as [|p ps IH]; intros w; simpl.
  - unfold ret. now rewrite conn_eta.
  - unfold bind, execute at 1. rewrite IH. reflexivity.
Qed.

(** ** Updates of table [fcp] *)

Lemma find_update (cond : fcp_row -> bool) (f : fcp_row -> fcp_row)
  (l : list fcp_row) :
  (forall r, cond (f r) = cond r) ->
  find cond (map (fun r => if cond r then f r else r) l)
  = option_map f (find cond l).
Proof.
  intros Hf. induction l as [|r l IH]; simpl; [reflexivity|].
  destruct (cond r) eqn:E.
  - now rewrite Hf, E.
  - now rewrite E.
Qed.

Lemma update_fcp_batch (f : fcp_row -> fcp_row) (ids : list string)
  (d : tables) :
  (forall r, fcp_id (f r) = fcp_id r) ->
  (forall r, f (f r) = f r) ->
  fold_left (fun d i => update_fcp (fun r => fcp_id r =~ i) f d) ids d
  = set_fcp (map (fun r => if existsb (fun i => fcp_id r =~ i) ids
                           then f r else r) (fcp d)) d.
Proof.
  intros Hid Hidem. revert d. induction ids as [|i ids IH]; intros d; simpl.
  - unfold set_fcp. rewrite map_id. symmetry. apply tables_eta.
  - rewrite IH. unfold update_fcp, set_fcp. simpl. f_equal.
    rewrite map_map. apply map_ext. intros r.
    destruct (fcp_id r =~ i) eqn:E; simpl.
    + rewrite Hid. destruct (existsb _ ids); [apply Hidem | reflexivity].
    + reflexivity.
Qed.

(** ** Device State Manager *)

Lemma select_fcp_update (dev : string) (c : Z) (d : tables) :
  select_fcp dev (update_fcp (fun x => fcp_id x =~ dev) (set_connections c) d)
  = option_map (set_connections c) (select_fcp dev d).
Proof.
  unfold select_fcp, update_fcp, set_fcp. cbn [fcp].
  now rewrite find_update.
Qed.

(** What a top-level call of [decrease_connections] does to a device that
    is present. *)
Lemma decrease_connections_run (dev : string) (row : fcp_row) (w : conn) :
  in_transaction w = false ->
  select_fcp dev (db w) = Some row ->
  decrease_connections dev w =
  if connections row =? 0 then
    (Raise SDKObjectNotExistError,
     mk_conn (db w) false ((journal w ++ [ERROR]) ++ [ERROR]))
  else
    let c := Z.max 0 (connections row - 1) in
    (Ok c,
     mk_conn (update_fcp (fun x => fcp_id x =~ dev) (set_connections c) (db w))
             false
             (if connections row <? 0 then journal w ++ [WARNING]
              else journal w)).
Proof.
  intros Htx Hrow. unfold decrease_connections.
  rewrite get_fcp_conn_outer by assumption.
  unfold bind at 1. unfold query at 1. cbn [db]. rewrite Hrow.
  destruct (connections row =? 0) eqn:E0; [reflexivity|].
  apply Z.eqb_neq in E0.
  destruct (connections row - 1 <? 0) eqn:E1.
  - apply Z.ltb_lt in E1.
    assert (Hneg : (connections row <? 0) = true) by (apply Z.ltb_lt; lia).
    rewrite Hneg. cbv zeta.
    replace (Z.max 0 (connections row - 1)) with 0 by lia.
    unfold bind, LOG, ret, execute, fetchone_connections, query, bind, ret.
    cbn [db journal in_transaction].
    rewrite select_fcp_update, Hrow. reflexivity.
  - apply Z.ltb_ge in E1.
    assert (Hneg : (connections row <? 0) = false) by (apply Z.ltb_ge; lia).
    rewrite Hneg. cbv zeta.
    replace (Z.max 0 (connections row - 1)) with (connections row - 1) by lia.
    unfold bind, LOG, ret, execute, fetchone_connections, query, bind, ret.
    cbn [db journal in_transaction].
    rewrite select_fcp_update, Hrow. reflexivity.
Qed.

(** C1 (as the code has it). For a device present in table [fcp],
    [decrease_connections] never leaves its counter below zero.  At a
    counter of 0 it does not clamp: it raises the object-not-exist error and
    leaves the tables as they were.  A positive counter is decreased by 1
    and the new value returned; a negative stored counter is set to 0, with
    a warning logged. *)
Theorem decrease_connections_never_negative (dev : string) (row : fcp_row)
  (w : conn) :
  in_transaction w = false ->
  select_fcp dev (db w) = Some row ->
  let r := fst (decrease_connections dev w) in
  let w' := snd (decrease_connections dev w) in
  (exists row', select_fcp dev (db w') = Some row' /\ 0 <= connections row')
  /\ (connections row = 0 ->
      r = Raise SDKObjectNotExistError /\ db w' = db w)
  /\ (connections row <> 0 ->
      let c := Z.max 0 (connections row - 1) in
      r = Ok c
      /\ db w' = update_fcp (fun x => fcp_id x =~ dev) (set_connections c) (db w)
      /\ journal w' = journal w ++ (if connections row <? 0 then [WARNING]
                                    else [])).
Proof.
  intros Htx Hrow. cbv zeta.
  rewrite (@decrease_connections_run dev row w Htx Hrow).
  destruct (connections row =? 0) eqn:E0.
  - apply Z.eqb_eq in E0. cbn [fst snd db].
    split; [exists row; split; [assumption | lia] |].
    split; [intros _; split; reflexivity | intros H; contradiction].
  - apply Z.eqb_neq in E0. cbn [fst snd db journal].
    split.
    + exists (set_connections (Z.max 0 (connections row - 1)) row).
      rewrite select_fcp_update, Hrow. split; [reflexivity | cbn; lia].
    + split; [intros H; contradiction | intros _].
      split; [reflexivity | split; [reflexivity |]].
      destruct (connections row <? 0); [reflexivity | now rewrite app_nil_r].
Qed.

(** A device with no connection: decrementing raises. *)
Lemma decrease_connections_witness :
  let r := fst (decrease_connections "1A02" (idle tables_P_inuse)) in
  let w' := snd (decrease_connections "1A02" (idle tables_P_inuse)) in
  (exists row', select_fcp "1A02" (db w') = Some row' /\ 0 <= connections row')
  /\ r = Raise SDKObjectNotExistError.
Proof.
  pose proof (@decrease_connections_never_negative "1A02"
    (device "1a02" "aaaa" "free" "c05076de33000356" "c05076de33002641" "" 0 0 "")
    (idle tables_P_inuse) eq_refl eq_refl) as H.
  cbv zeta in H. destruct H as [H1 [H2 _]].
  split; [exact H1 | exact (proj1 (H2 eq_refl))].
Defined.

(** C1 at a counter of 0: with [connections = 0] the call does not return,
    it raises. *)
Lemma decrease_connections_at_zero_raises :
  select_fcp "1a02" tables_P_inuse
  = Some (device "1a02" "aaaa" "free" "c05076de33000356" "c05076de33002641"
                 "" 0 0 "")
  /\ ~ (exists c w', decrease_connections "1a02" (idle tables_P_inuse)
                     = (Ok c, w')).
Proof.
  split; [reflexivity|].
  intros [c [w' H]]. vm_compute in H. discriminate H.
Qed.

Lemma unreserve_fcps_run (fcp_ids : list string) (w : conn) :
  unreserve_fcps fcp_ids w =
  (Ok tt,
   mk_conn
     (set_fcp
        (map (fun r => if existsb (fun i => fcp_id r =~ i) fcp_ids
                       then set_tmpl_id "" (set_reserved 0 r) else r)
             (fcp (db w)))
        (db w))
     (in_transaction w) (journal w)).
Proof.
  assert (Hnil : forall l : list fcp_row,
             map (fun r => if existsb (fun i => fcp_id r =~ i) []
                           then set_tmpl_id "" (set_reserved 0 r) else r) l = l).
  { intros l. cbn. apply map_id. }
  destruct fcp_ids as [|i ids].
  - unfold unreserve_fcps, ret. rewrite Hnil. unfold set_fcp.
    now rewrite tables_eta, conn_eta.
  - unfold unreserve_fcps, get_fcp_conn.
    destruct (in_transaction w) eqn:E.
    + rewrite executemany_execute. rewrite E.
      now rewrite update_fcp_batch by reflexivity.
    + rewrite executemany_execute. cbn [db journal in_transaction].
      now rewrite update_fcp_batch by reflexivity.
Qed.

Lemma reserve_fcps_run (fcp_ids : list string) (assigner tmpl : string)
  (w : conn) :
  reserve_fcps fcp_ids assigner tmpl w =
  (Ok tt,
   mk_conn
     (set_fcp
        (map (fun r => if existsb (fun i => fcp_id r =~ i) fcp_ids
                       then set_tmpl_id tmpl
                              (set_assigner_id assigner (set_reserved 1 r))
                       else r)
             (fcp (db w)))
        (db w))
     (in_transaction w) (journal w)).
Proof.
  unfold reserve_fcps, get_fcp_conn.
  destruct (in_transaction w) eqn:E.
  - rewrite executemany_execute. rewrite E.
    now rewrite update_fcp_batch by reflexivity.
  - rewrite executemany_execute. cbn [db journal in_transaction].
    now rewrite update_fcp_batch by reflexivity.
Qed.

(** C9 (as the code has it). [unreserve_fcps] sets [reserved] to 0 and
    [tmpl_id] to [''] on each listed device and leaves its [assigner_id]
    and [connections] as they were; [reserve_fcps] sets [reserved] to 1 and
    assigns [assigner_id] and [tmpl_id] on each listed device.  Both always
    return, inside one transaction; every field of a device that is not
    listed, and every other table, is unchanged. *)
Theorem reserve_unreserve_effect (fcp_ids : list string)
  (assigner tmpl : string) (w : conn) :
  (let w' := snd (unreserve_fcps fcp_ids w) in
   fst (unreserve_fcps fcp_ids w) = Ok tt
   /\ Forall2
        (fun r r' =>
           if listed fcp_ids r
           then r' = mk_fcp (fcp_id r) (assigner_id r) (connections r) 0
                            (wwpn_npiv r) (wwpn_phy r) (chpid r) (pchid r)
                            (state r) (owner r) ""
           else r' = r)
        (fcp (db w)) (fcp (db w'))
   /\ template (db w') = template (db w)
   /\ template_sp_mapping (db w') = template_sp_mapping (db w)
   /\ template_fcp_mapping (db w') = template_fcp_mapping (db w)
   /\ in_transaction w' = in_transaction w)
  /\
  (let w' := snd (reserve_fcps fcp_ids assigner tmpl w) in
   fst (reserve_fcps fcp_ids assigner tmpl w) = Ok tt
   /\ Forall2
        (fun r r' =>
           if listed fcp_ids r
           then r' = mk_fcp (fcp_id r) assigner (connections r) 1
                            (wwpn_npiv r) (wwpn_phy r) (chpid r) (pchid r)
                            (state r) (owner r) tmpl
           else r' = r)
        (fcp (db w)) (fcp (db w'))
   /\ template (db w') = template (db w)
   /\ template_sp_mapping (db w') = template_sp_mapping (db w)
   /\ template_fcp_mapping (db w') = template_fcp_mapping (db w)
   /\ in_transaction w' = in_transaction w).
Proof.
  assert (HF : forall (f : fcp_row -> fcp_row) (l : list fcp_row),
             Forall2 (fun r r' => if listed fcp_ids r then r' = f r else r' = r)
                     l (map (fun r => if listed fcp_ids r then f r else r) l)).
  { intros f l. induction l as [|r l IH]; cbn [map]; constructor; [|exact IH].
    destruct (listed fcp_ids r); reflexivity. }
  split; cbv zeta.
  - rewrite unreserve_fcps_run. cbn [fst snd db set_fcp fcp template
      template_sp_mapping template_fcp_mapping in_transaction].
    repeat split. apply (HF (fun r => set_tmpl_id "" (set_reserved 0 r))).
  - rewrite reserve_fcps_run. cbn [fst snd db set_fcp fcp template
      template_sp_mapping template_fcp_mapping in_transaction].
    repeat split.
    apply (HF (fun r => set_tmpl_id tmpl
                          (set_assigner_id assigner (set_reserved 1 r)))).
Qed.

(** C9 on a reserved device: [unreserve_fcps] leaves [assigner_id] in
    place. *)
Lemma unreserve_keeps_assigner_id :
  option_map assigner_id
    (select_fcp "1a01" (db (snd (unreserve_fcps ["1a01"] (idle tables_P_inuse)))))
  = Some "USER1".
Proof. vm_compute. reflexivity. Qed.








(** C10 at the largest counter: guest ["USER1"] holds ["1b01"], whose
    counter is 2^63 - 1; the increment is not stored and nothing is
    returned. *)
Lemma increase_connections_at_int64_max :
  select_fcp_of_assigner "1B01" "USER1" tables_P_maxed <> None
  /\ fst (increase_connections_by_assigner "1B01" "USER1" (idle tables_P_maxed))
     = Raise SDKGuestOperationError
  /\ db (snd (increase_connections_by_assigner "1B01" "USER1"
                (idle tables_P_maxed)))
     = tables_P_maxed.
Proof. vm_compute. repeat split. discriminate. Qed.

(** ** Template Manager *)

Lemma fcp_template_exist_in_db_iff (i : string) (d : tables) :
  fcp_template_exist_in_db i d = true
  <-> exists t, In t (template d) /\ (t_id t =~ i) = true.
Proof.
  unfold fcp_template_exist_in_db.
  destruct (filter (fun t => t_id t =~ i) (template d)) as [|t l] eqn:E.
  - split; [discriminate|]. intros [t [Hin Ht]].
    assert (H : In t (filter (fun t => t_id t =~ i) (template d)))
      by (apply filter_In; now split).
    rewrite E in H. destruct H.
  - split; [intros _ | reflexivity].
    assert (H : In t (filter (fun t => t_id t =~ i) (template d)))
      by (rewrite E; now left).
    apply filter_In in H. now exists t.
Qed.

(** The tables once template [i] is removed from [template],
    [template_sp_mapping] and [template_fcp_mapping]. *)
Lemma delete_fcp_template_run (i : string) (w : conn) :
  in_transaction w = false ->
  delete_fcp_template i w =
  if fcp_template_exist_in_db i (db w) then
    match get_inuse_fcp_device_by_fcp_template i (db w) with
    | [] => (Ok tt, mk_conn (without_template i (db w)) false
                            (journal w ++ [INFO]))
    | l => (Raise (SDKConflictError 22 l),
            mk_conn (db w) false (journal w ++ [ERROR]))
    end
  else (Raise SDKObjectNotExistError,
        mk_conn (db w) false (journal w ++ [ERROR])).
Proof.
  intros Htx. unfold delete_fcp_template.
  rewrite get_fcp_conn_outer by assumption.
  unfold bind at 1. unfold query at 1. cbn [db].
  destruct (fcp_template_exist_in_db i (db w)); [|reflexivity].
  unfold bind at 1. unfold ret at 1.
  unfold bind at 1. unfold query at 1. cbn [db].
  destruct (get_inuse_fcp_device_by_fcp_template i (db w)); reflexivity.
Qed.

(** C6. [delete_fcp_template] raises the object-not-exist error when no
    template has the id, raises the conflict error when some device row
    carries the id as [tmpl_id], and otherwise removes the template row and
    every row of the template in [template_sp_mapping] and
    [template_fcp_mapping], in one transaction.  On either failure the four
    tables are as before. *)
Theorem delete_fcp_template_spec (i : string) (w : conn) :
  in_transaction w = false ->
  let r := fst (delete_fcp_template i w) in
  let w' := snd (delete_fcp_template i w) in
  in_transaction w' = false
  /\ ((forall t, In t (template (db w)) -> (t_id t =~ i) = false) ->
      r = Raise SDKObjectNotExistError /\ db w' = db w)
  /\ ((exists t, In t (template (db w)) /\ (t_id t =~ i) = true) ->
      (exists f, In f (fcp (db w)) /\ (tmpl_id f =~ i) = true) ->
      (exists l, r = Raise (SDKConflictError 22 l)) /\ db w' = db w)
  /\ ((exists t, In t (template (db w)) /\ (t_id t =~ i) = true) ->
      (forall f, In f (fcp (db w)) -> (tmpl_id f =~ i) = false) ->
      r = Ok tt
      /\ fcp (db w') = fcp (db w)
      /\ template (db w')
         = filter (fun t => negb (t_id t =~ i)) (template (db w))
      /\ template_sp_mapping (db w')
         = filter (fun s => negb (sp_tmpl_id s =~ i))
                  (template_sp_mapping (db w))
      /\ template_fcp_mapping (db w')
         = filter (fun m => negb (tf_tmpl_id m =~ i))
                  (template_fcp_mapping (db w))).
Proof.
  intros Htx. cbv zeta. rewrite (@delete_fcp_template_run i w Htx).
  destruct (fcp_template_exist_in_db i (db w)) eqn:Ex.
  - apply fcp_template_exist_in_db_iff in Ex.
    destruct (get_inuse_fcp_device_by_fcp_template i (db w)) as [|x l] eqn:Eu.
    + cbn [fst snd db in_transaction]. split; [reflexivity|].
      split; [|split].
      * intros Hno. destruct Ex as [t [Hin Ht]]. rewrite (Hno t Hin) in Ht.
        discriminate.
      * intros _ [f [Hin Hf]]. exfalso.
        assert (H : In (fcp_id f) (get_inuse_fcp_device_by_fcp_template i (db w))).
        { unfold get_inuse_fcp_device_by_fcp_template. apply in_map.
          apply filter_In. now split. }
        rewrite Eu in H. destruct H.
      * intros _ _. repeat split.
    + cbn [fst snd db in_transaction]. split; [reflexivity|].
      split; [|split].
      * intros Hno. destruct Ex as [t [Hin Ht]]. rewrite (Hno t Hin) in Ht.
        discriminate.
      * intros _ _. split; [now exists (x :: l) | reflexivity].
      * intros _ Hfree. exfalso.
        assert (H : In x (get_inuse_fcp_device_by_fcp_template i (db w)))
          by (rewrite Eu; now left).
        unfold get_inuse_fcp_device_by_fcp_template in H.
        apply in_map_iff in H. destruct H as [f [_ Hf]].
        apply filter_In in Hf. destruct Hf as [Hin Hf].
        rewrite (Hfree f Hin) in Hf. discriminate.
  - cbn [fst snd db in_transaction]. split; [reflexivity|].
    assert (Hno : ~ exists t, In t (template (db w)) /\ (t_id t =~ i) = true).
    { intros H. apply fcp_template_exist_in_db_iff in H. congruence. }
    split; [|split].
    + intros _. split; reflexivity.
    + intros H. contradiction.
    + intros H. contradiction.
Qed.

(** Template ["P"] cannot be deleted while ["1a01"] is allocated from it,
    and is deleted once no device is. *)
Lemma delete_fcp_template_witness :
  (exists l, fst (delete_fcp_template "p" (idle tables_P_inuse))
             = Raise (SDKConflictError 22 l))
  /\ fst (delete_fcp_template "p" (idle tables_P)) = Ok tt
  /\ template (db (snd (delete_fcp_template "p" (idle tables_P)))) = [].
Proof.
  pose proof (@delete_fcp_template_spec "p" (idle tables_P_inuse) eq_refl)
    as [_ [_ [Hbusy _]]].
  pose proof (@delete_fcp_template_spec "p" (idle tables_P) eq_refl)
    as [_ [_ [_ Hfree]]].
  split; [|split].
  - apply Hbusy.
    + exists (mk_template "P" "two paths" "" 0 2). split; [now left | reflexivity].
    + eexists. split; [left; reflexivity | reflexivity].
  - apply Hfree.
    + exists (mk_template "P" "two paths" "" 0 2). split; [now left | reflexivity].
    + intros f Hin. cbn in Hin.
      destruct Hin as [<-|[<-|[<-|[]]]]; reflexivity.
  - assert (Hex : exists t, In t (template (db (idle tables_P)))
                            /\ (t_id t =~ "p") = true)
      by (exists (mk_template "P" "two paths" "" 0 2);
          split; [now left | reflexivity]).
    assert (Hno : forall f, In f (fcp (db (idle tables_P))) ->
                            (tmpl_id f =~ "p") = false).
    { intros f Hin. cbn in Hin.
      destruct Hin as [<-|[<-|[<-|[]]]]; reflexivity. }
    destruct (Hfree Hex Hno) as [_ [_ [Ht _]]]. rewrite Ht. reflexivity.
Defined.

Lemma keeps_template_bind {A B} (m : M A) (k : A -> M B) :
  keeps_template m -> (forall a, keeps_template (k a)) ->
  keeps_template (bind m k).
Proof.
  intros Hm Hk w. unfold bind. specialize (Hm w).
  destruct (m w) as [[a|e] w1]; cbn [snd] in *.
  - now rewrite Hk.
  - exact Hm.
Qed.

Lemma keeps_template_executemany {P} (stmt : P -> M unit) (ps : list P) :
  (forall p, keeps_template (stmt p)) -> keeps_template (executemany stmt ps).
Proof.
  intros H. induction ps as [|p ps IH]; cbn [executemany].
  - intros w. reflexivity.
  - apply keeps_template_bind; [apply H | intros _; exact IH].
Qed.

Lemma keeps_template_insert_tf (rec : string * string * Z) :
  keeps_template (insert_tf_record rec).
Proof.
  destruct rec as [[t i] p]. intros w. unfold insert_tf_record, bind, query.
  destruct (existsb _ _); reflexivity.
Qed.

Lemma keeps_template_insert_sp (rec : string * string) :
  keeps_template (insert_sp_record rec).
Proof.
  destruct rec as [t s]. intros w. unfold insert_sp_record, bind, query.
  destruct (existsb _ _); reflexivity.
Qed.

Lemma keeps_template_update_sp (rec : string * string) :
  keeps_template (update_sp_record rec).
Proof. destruct rec as [t s]. intros w. reflexivity. Qed.

Lemma existsb_of_map {A B} (f : B -> bool) (g : A -> B) (l : list A) :
  existsb f (map g l) = existsb (fun x => f (g x)) l.
Proof.
  induction l as [|x l IH]; [reflexivity|]. cbn [map existsb]. now rewrite IH.
Qed.

Lemma existsb_template_absent (i : string) (l : list template_row) :
  filter (fun t => t_id t =~ i) l = [] ->
  existsb (fun r => t_id r =~ i) l = false.
Proof.
  induction l as [|t l IH]; [reflexivity|]. cbn [filter existsb].
  destruct (t_id t =~ i); [discriminate | exact IH].
Qed.

(** A top-level [create_fcp_template] either fails and leaves the tables as
    they were, or appends the new row to [template] after clearing the
    flag of the others when [host_default] is set. *)
Lemma create_fcp_template_template (i name description : string)
  (fcp_devices_by_path : list (Z * list string)) (host_default : bool)
  (default_sp_list : list string) (min_count : option Z) (w : conn)
  (r : res unit) (w' : conn) :
  in_transaction w = false ->
  create_fcp_template i name description fcp_devices_by_path
    host_default default_sp_list min_count w = (r, w') ->
  in_transaction w' = false
  /\ (r <> Ok tt -> db w' = db w)
  /\ (r = Ok tt ->
      fcp_template_exist_in_db i (db w) = false
      /\ template (db w')
         = template (if host_default then clear_is_default (db w) else db w)
           ++ [new_template_row i name description host_default min_count]).
Proof.
  intros Htx Hrun. unfold create_fcp_template in Hrun.
  rewrite get_fcp_conn_outer in Hrun by assumption.
  unfold bind at 1 in Hrun. unfold query at 1 in Hrun. cbn [db] in Hrun.
  destruct (fcp_template_exist_in_db i (db w)) eqn:Ex.
  { cbn in Hrun. injection Hrun as <- <-. cbn [db in_transaction].
    split; [reflexivity|]. split; [reflexivity|]. intros H. discriminate H. }
  unfold bind at 1 in Hrun. unfold ret at 1 in Hrun.
  unfold bind at 1 in Hrun. unfold query at 1 in Hrun. cbn [db] in Hrun.
  set (w0 := mk_conn (db w) true (journal w)) in Hrun.
  assert (Hclr : exists w1,
    (if host_default then execute clear_is_default else ret tt) w0 = (Ok tt, w1)
    /\ template (db w1)
       = template (if host_default then clear_is_default (db w) else db w)
    /\ existsb (fun r => t_id r =~ i) (template (db w1)) = false).
  { unfold fcp_template_exist_in_db in Ex.
    assert (Hf : filter (fun t => t_id t =~ i) (template (db w)) = [])
      by (destruct (filter _ _); [reflexivity | discriminate]).
    apply existsb_template_absent in Hf.
    destruct host_default; eexists; (split; [reflexivity|]); cbn [db w0].
    - split; [reflexivity|]. cbn [clear_is_default set_template template].
      rewrite existsb_of_map. exact Hf.
    - split; [reflexivity | exact Hf]. }
  destruct Hclr as [w1 [Hclr [Ht1 Hab]]].
  unfold bind at 1 in Hrun. rewrite Hclr in Hrun.
  unfold bind at 1 in Hrun. unfold insert_template_record at 1 in Hrun.
  unfold bind at 1 in Hrun. unfold query at 1 in Hrun. cbn [db] in Hrun.
  cbn [t_id new_template_row] in Hrun. rewrite Hab in Hrun.
  unfold execute at 1 in Hrun. cbn [db in_transaction journal] in Hrun.
  match type of Hrun with
  | context [bind ?m ?k ?w2] =>
      assert (Hkeep : keeps_template (bind m k));
      [| specialize (Hkeep w2); destruct (bind m k w2) as [[[]|e] w3] ]
  end.
  { apply keeps_template_bind;
      [apply keeps_template_executemany; apply keeps_template_insert_tf|].
    intros _. apply keeps_template_bind;
      [apply keeps_template_executemany; apply keeps_template_insert_sp|].
    intros _. apply keeps_template_executemany. apply keeps_template_update_sp. }
  - injection Hrun as <- <-. cbn [fst snd db in_transaction] in *.
    split; [reflexivity|]. split; [intros H; now contradiction H|].
    intros _. split; [reflexivity|]. rewrite Hkeep.
    cbn [db set_template template]. rewrite Ht1. reflexivity.
  - injection Hrun as <- <-. cbn [fst snd db in_transaction] in *.
    split; [reflexivity|]. split; [reflexivity|]. intros H.
    destruct (is_sdk_exception e); discriminate H.
Qed.

Lemma no_default_after_clear (l : list template_row) :
  filter (fun t => negb (is_default t =? 0))
         (map (fun t => mk_template (t_id t) (t_name t) (t_description t) 0
                                    (min_fcp_paths_count t)) l) = [].
Proof. induction l as [|t l IH]; [reflexivity | exact IH]. Qed.

(** The row [create_fcp_template] stores for a template. *)
Lemma host_defaults_after_create (i name description : string)
  (fcp_devices_by_path : list (Z * list string)) (host_default : bool)
  (default_sp_list : list string) (min_count : option Z) (w : conn) :
  in_transaction w = false ->
  let w' := snd (create_fcp_template i name description fcp_devices_by_path
                   host_default default_sp_list min_count w) in
  in_transaction w' = false
  /\ (at_most_one_default (db w) -> at_most_one_default (db w'))
  /\ (host_default = true ->
      fst (create_fcp_template i name description fcp_devices_by_path
             host_default default_sp_list min_count w) = Ok tt ->
      host_defaults (db w')
      = [new_template_row i name description true min_count]).
Proof.
  intros Htx. cbv zeta.
  destruct (create_fcp_template i name description fcp_devices_by_path
              host_default default_sp_list min_count w) as [r w'] eqn:Hrun.
  destruct (@create_fcp_template_template _ _ _ _ _ _ _ _ _ _ Htx Hrun)
    as [Htx' [Hfail Hok]].
  cbn [fst snd]. split; [exact Htx'|]. split.
  - intros Hinv. destruct r as [[]|e].
    + destruct (Hok eq_refl) as [_ Ht].
      unfold at_most_one_default, host_defaults in *. rewrite Ht.
      rewrite filter_app, length_app.
      destruct host_default.
      * cbn [clear_is_default set_template template]. rewrite no_default_after_clear.
        cbn. lia.
      * cbn. rewrite Nat.add_0_r. exact Hinv.
    + rewrite Hfail by discriminate. exact Hinv.
  - intros -> ->. destruct (Hok eq_refl) as [_ Ht].
    unfold host_defaults. rewrite Ht, filter_app.
    cbn [clear_is_default set_template template]. rewrite no_default_after_clear.
    reflexivity.
Qed.

(** C7. At most one template holds the host-default flag: a
    [create_fcp_template] never takes a table with at most one default to
    one with more, and with [host_default] true it first clears
    [is_default] on every existing template inside its transaction.
    Creating template [T] with host default true and then template [U]
    with host default true leaves the row of [U] as the only one with
    [is_default] set. *)
Theorem host_default_is_unique (T nameT descT : string)
  (devicesT : list (Z * list string)) (spT : list string) (minT : option Z)
  (U nameU descU : string)
  (devicesU : list (Z * list string)) (spU : list string) (minU : option Z)
  (hd : bool) (w : conn) :
  in_transaction w = false ->
  let after_T := snd (create_fcp_template T nameT descT devicesT true spT minT w) in
  let after_U := snd (create_fcp_template U nameU descU devicesU true spU minU
                        after_T) in
  (at_most_one_default (db w) ->
   at_most_one_default
     (db (snd (create_fcp_template T nameT descT devicesT hd spT minT w))))
  /\ (fst (create_fcp_template T nameT descT devicesT true spT minT w) = Ok tt ->
      host_defaults (db after_T)
      = [new_template_row T nameT descT true minT])
  /\ (fst (create_fcp_template U nameU descU devicesU true spU minU after_T)
      = Ok tt ->
      host_defaults (db after_U)
      = [new_template_row U nameU descU true minU]).
Proof.
  intros Htx. cbv zeta.
  pose proof (@host_defaults_after_create T nameT descT devicesT hd spT minT
                w Htx) as [_ [Hinv _]].
  pose proof (@host_defaults_after_create T nameT descT devicesT true spT minT
                w Htx) as [Htx' [_ HT]].
  cbv zeta in Htx'.
  pose proof (@host_defaults_after_create U nameU descU devicesU true spU minU
                _ Htx') as [_ [_ HU]].
  split; [exact Hinv|]. split; [exact (HT eq_refl) | exact (HU eq_refl)].
Qed.

(** Two templates created as host default on empty tables. *)
Lemma host_default_is_unique_witness :
  map t_id
    (host_defaults
       (db (snd (create_fcp_template "U" "second" "" [(0, ["1b01"])] true
                   ["sp1"] (Some 1)
                   (snd (create_fcp_template "T" "first" "" [(0, ["1a01"])]
                           true ["sp1"] None
                           (idle (mk_tables [] [] [] []))))))))
  = ["U"].
Proof.
  pose proof (@host_default_is_unique
    "T" "first" "" [(0, ["1a01"])] ["sp1"] None
    "U" "second" "" [(0, ["1b01"])] ["sp1"] (Some 1) true
    (idle (mk_tables [] [] [] [])) eq_refl) as H.
  cbv zeta in H. destruct H as [_ [_ HU]].
  rewrite (HU eq_refl). reflexivity.
Defined.

(** *** Computations that raise no conflict *)

Lemma no_conflict_ret {A} (a : A) : no_conflict (ret a).
Proof. intros w e H. discriminate H. Qed.

Lemma no_conflict_query {A} (q : tables -> A) : no_conflict (query q).
Proof. intros w e H. discriminate H. Qed.

Lemma no_conflict_execute (f : tables -> tables) : no_conflict (execute f).
Proof. intros w e H. discriminate H. Qed.

Lemma no_conflict_LOG (l : level) : no_conflict (LOG l).
Proof. intros w e H. discriminate H. Qed.

Lemma no_conflict_raise {A} (e : exn) :
  is_conflict e = false -> no_conflict (@raise A e).
Proof. intros He w e' H. injection H as <-. exact He. Qed.

Lemma no_conflict_bind {A B} (m : M A) (k : A -> M B) :
  no_conflict m -> (forall a, no_conflict (k a)) -> no_conflict (bind m k).
Proof.
  intros Hm Hk w e. unfold bind. specialize (Hm w).
  destruct (m w) as [[a|e'] w1]; cbn [fst] in *.
  - apply Hk.
  - intros H. injection H as <-. now apply Hm.
Qed.

Lemma no_conflict_executemany {P} (stmt : P -> M unit) (ps : list P) :
  (forall p, no_conflict (stmt p)) -> no_conflict (executemany stmt ps).
Proof.
  intros H. induction ps as [|p ps IH]; cbn [executemany].
  - apply no_conflict_ret.
  - apply no_conflict_bind; [apply H | intros _; exact IH].
Qed.

Lemma no_conflict_get_fcp_conn {A} (body : M A) :
  no_conflict body -> no_conflict (get_fcp_conn body).
Proof.
  intros Hb w e. unfold get_fcp_conn.
  set (w0 := if in_transaction w then w else _).
  specialize (Hb w0). destruct (body w0) as [[a|e'] w1]; cbn [fst] in *.
  - discriminate.
  - intros H. injection H as <-. specialize (Hb e' eq_refl).
    destruct e'; try reflexivity; discriminate Hb.
Qed.

Lemma no_conflict_read {A} (q : tables -> res A) :
  (forall d e, q d = Raise e -> is_conflict e = false) -> no_conflict (read q).
Proof. intros H w e Hr. exact (H _ _ Hr). Qed.

Create HintDb conflict.
#[local] Hint Resolve no_conflict_ret no_conflict_query no_conflict_execute
  no_conflict_LOG no_conflict_bind no_conflict_executemany
  no_conflict_get_fcp_conn : conflict.

Lemma no_conflict_insert_tf (rec : string * string * Z) :
  no_conflict (insert_tf_record rec).
Proof.
  destruct rec as [[t i] p]. unfold insert_tf_record.
  apply no_conflict_bind; [auto with conflict|]. intros rows.
  destruct (existsb _ rows);
    [now apply no_conflict_raise | auto with conflict].
Qed.

Lemma no_conflict_insert_sp (rec : string * string) :
  no_conflict (insert_sp_record rec).
Proof.
  destruct rec as [t s]. unfold insert_sp_record.
  apply no_conflict_bind; [auto with conflict|]. intros rows.
  destruct (existsb _ rows);
    [now apply no_conflict_raise | auto with conflict].
Qed.

Lemma no_conflict_update_basic_info
  (record : string * string * pyflag * Z * string) :
  no_conflict (update_basic_info_of_fcp_template record).
Proof.
  destruct record as [[[[n d] h] m] i]. unfold update_basic_info_of_fcp_template.
  apply no_conflict_get_fcp_conn. apply no_conflict_bind; [|auto with conflict].
  destruct (is_True h); auto with conflict.
Qed.

Lemma no_conflict_bulk_set_sp (i : string) (sps : list string) :
  no_conflict (bulk_set_sp_default_by_fcp_template i sps).
Proof.
  unfold bulk_set_sp_default_by_fcp_template.
  apply no_conflict_get_fcp_conn.
  repeat (apply no_conflict_bind; [auto with conflict | intros _]).
  apply no_conflict_executemany. apply no_conflict_insert_sp.
Qed.

Lemma getitem_not_conflict {V} (k : string) (d : list (string * V)) (e : exn) :
  getitem k d = Raise e -> is_conflict e = false.
Proof.
  unfold getitem. destruct (dict_get _ _ _); [discriminate|].
  intros H. now injection H as <-.
Qed.

Lemma first_not_conflict {A} (l : list A) (e : exn) :
  first l = Raise e -> is_conflict e = false.
Proof. destruct l; [|discriminate]. intros H. now injection H as <-. Qed.

Lemma get_min_fcp_paths_count_not_conflict (i : string) (d : tables) (e : exn) :
  get_min_fcp_paths_count i d = Raise e -> is_conflict e = false.
Proof.
  unfold get_min_fcp_paths_count.
  destruct (if negb (Str.nonempty i) then None else _);
    [discriminate|]. intros H. now injection H as <-.
Qed.

(** *** Python sets and dicts *)

Lemma mem_In (x : string) (l : list string) :
  mem String.eqb x l = true <-> In x l.
Proof.
  unfold mem. rewrite existsb_exists. split.
  - intros [y [Hin Hy]]. apply String.eqb_eq in Hy. now subst.
  - intros Hin. exists x. split; [assumption | apply String.eqb_refl].
Qed.

Lemma distinct_In (x : string) (l : list string) :
  In x (distinct String.eqb l) <-> In x l.
Proof.
  induction l as [|y l IH]; [reflexivity|]. cbn [distinct]. split.
  - intros [->|Hin]; [now left|]. apply filter_In in Hin. right. now apply IH.
  - intros [->|Hin]; [now left|].
    destruct (String.eqb_spec y x) as [->|Hne]; [now left|].
    right. apply filter_In. split; [now apply IH|].
    apply negb_true_iff. now apply String.eqb_neq.
Qed.

Lemma set_diff_In (x : string) (a b : list string) :
  In x (set_diff a b) <-> In x a /\ ~ In x b.
Proof.
  unfold set_diff. rewrite filter_In, distinct_In, negb_true_iff.
  rewrite <- (mem_In x b). destruct (mem String.eqb x b); intuition congruence.
Qed.

Lemma set_inter_In (x : string) (a b : list string) :
  In x (set_inter a b) <-> In x a /\ In x b.
Proof. unfold set_inter. now rewrite filter_In, distinct_In, mem_In. Qed.

Lemma dict_set_keys {V} (k k' : string) (v : V) (d : list (string * V)) :
  In k (map fst (dict_set String.eqb k' v d)) <-> k = k' \/ In k (map fst d).
Proof.
  induction d as [|[k0 v0] d IH]; cbn [dict_set map fst In].
  - intuition.
  - destruct (String.eqb_spec k0 k') as [->|Hne]; cbn [map fst In].
    + intuition.
    + rewrite IH. intuition.
Qed.

Lemma dict_get_set {V} (k k' : string) (v : V) (d : list (string * V)) :
  dict_get String.eqb k (dict_set String.eqb k' v d)
  = if String.eqb k' k then Some v else dict_get String.eqb k d.
Proof.
  induction d as [|[k0 v0] d IH]; cbn [dict_set dict_get].
  - reflexivity.
  - destruct (String.eqb_spec k0 k') as [->|Hne]; cbn [dict_get].
    + destruct (String.eqb k' k); reflexivity.
    + rewrite IH. destruct (String.eqb_spec k0 k) as [->|Hne'].
      * destruct (String.eqb_spec k' k) as [->|]; [congruence | reflexivity].
      * reflexivity.
Qed.

Section EditProofs.

Variable expand_fcp_list : string -> list (Z * list string).

Lemma fcp_from_input_keys (s x : string) :
  In x (map fst (fcp_from_input_of expand_fcp_list s))
  <-> requested expand_fcp_list s x.
Proof.
  unfold fcp_from_input_of, requested.
  assert (Hinner : forall (p : Z) (ids : list string) (acc : list (string * Z)),
    In x (map fst (fold_left (fun acc' i => dict_set String.eqb i p acc')
                             ids acc))
    <-> In x ids \/ In x (map fst acc)).
  { intros p ids. induction ids as [|i ids IH]; intros acc; cbn [fold_left In].
    - intuition.
    - rewrite IH, dict_set_keys. intuition. }
  assert (Houter : forall (l : list (Z * list string)) (acc : list (string * Z)),
    In x (map fst (fold_left
            (fun acc pf =>
               fold_left (fun acc' i => dict_set String.eqb i (fst pf) acc')
                         (snd pf) acc) l acc))
    <-> (exists pf, In pf l /\ In x (snd pf)) \/ In x (map fst acc)).
  { induction l as [|pf l IH]; intros acc; cbn [fold_left].
    - split; [now right | intros [[pf [[] _]]|H]; exact H].
    - rewrite IH, Hinner. split.
      + intros [[pf' [Hin Hx]]|[Hx|Hx]].
        * left. exists pf'. split; [now right | assumption].
        * left. exists pf. split; [now left | assumption].
        * now right.
      + intros [[pf' [[<-|Hin] Hx]]|Hx].
        * right. now left.
        * left. now exists pf'.
        * right. now right. }
  rewrite Houter. cbn [map In]. intuition.
Qed.

Lemma fcp_in_db_get (rows : list (tf_row * option fcp_row)) (x : string)
  (row : tf_row * option fcp_row) :
  dict_get String.eqb x (fcp_in_db_of rows) = Some row ->
  In row rows /\ tf_fcp_id (fst row) = x.
Proof.
  unfold fcp_in_db_of.
  assert (H : forall acc,
    dict_get String.eqb x
      (fold_left (fun acc row => dict_set String.eqb (tf_fcp_id (fst row))
                                          row acc) rows acc) = Some row ->
    (In row rows /\ tf_fcp_id (fst row) = x)
    \/ dict_get String.eqb x acc = Some row).
  { induction rows as [|r rows IH]; intros acc Hget; cbn [fold_left] in Hget.
    - now right.
    - destruct (IH _ Hget) as [[Hin Hk]|Hacc].
      + left. split; [now right | assumption].
      + rewrite dict_get_set in Hacc.
        destruct (String.eqb_spec (tf_fcp_id (fst r)) x) as [Hk|Hk].
        * injection Hacc as <-. left. split; [now left | assumption].
        * now right. }
  intros Hget. destruct (H [] Hget) as [Hok|Hbad]; [exact Hok | discriminate].
Qed.

End EditProofs.

Lemma left_join_In (d : tables) (m : tf_row) (f : fcp_row) :
  In (m, Some f) (left_join d) ->
  In m (template_fcp_mapping d) /\ In f (fcp d)
  /\ (tf_fcp_id m =~ fcp_id f) = true.
Proof.
  unfold left_join. rewrite in_flat_map. intros [m' [Hm Hin]].
  destruct (filter (fun f0 => tf_fcp_id m' =~ fcp_id f0) (fcp d))
    as [|f0 fs] eqn:E.
  - destruct Hin as [Heq|[]]. discriminate Heq.
  - apply in_map_iff in Hin. destruct Hin as [f1 [Heq Hf1]].
    injection Heq as <- <-. rewrite <- E in Hf1. apply filter_In in Hf1.
    destruct Hf1 as [Hf1 Hj]. now repeat split.
Qed.

(** Two rows of [fcp] with the same key (NOCASE) are one row. *)
Lemma fcp_primary_key_unique (d : tables) (f g : fcp_row) :
  fcp_primary_key d -> In f (fcp d) -> In g (fcp d) ->
  Str.lower (fcp_id f) = Str.lower (fcp_id g) -> f = g.
Proof.
  unfold fcp_primary_key. induction (fcp d) as [|r l IH]; intros Hnd Hf Hg Heq.
  - destruct Hf.
  - cbn [map] in Hnd. inversion Hnd as [|x xs Hnotin Hnd']; subst.
    destruct Hf as [->|Hf], Hg as [->|Hg].
    + reflexivity.
    + exfalso. apply Hnotin. rewrite Heq.
      now apply (in_map (fun r => Str.lower (fcp_id r))).
    + exfalso. apply Hnotin. rewrite <- Heq.
      now apply (in_map (fun r => Str.lower (fcp_id r))).
    + now apply IH.
Qed.

Section EditTheorems.

Variable expand_fcp_list : string -> list (Z * list string).

(** Every device that the removal check names blocks the removal. *)
Lemma not_allow_for_del_blocks (i s x : string) (d : tables) :
  fcp_primary_key d ->
  In x (not_allow_for_del_of
          (fcp_from_input_of expand_fcp_list s)
          (fcp_in_db_of (snd (get_fcp_templates_details [i] d)))
          (get_inuse_fcp_device_by_fcp_template i d)) ->
  blocks_removal expand_fcp_list i s d x.
Proof.
  intros Hpk Hin. unfold not_allow_for_del_of in Hin.
  apply set_inter_In in Hin. destruct Hin as [Hdel Huse].
  apply filter_In in Hdel. destruct Hdel as [Hdel Hrow].
  apply set_diff_In in Hdel. destruct Hdel as [_ Hnot].
  rewrite fcp_from_input_keys in Hnot.
  destruct (dict_get String.eqb x _) as [[m o]|] eqn:Hget; [|discriminate].
  apply fcp_in_db_get in Hget. destruct Hget as [Hdetail Hkey].
  cbn [fst] in Hkey. unfold row_in_use in Hrow. cbn [snd] in Hrow.
  destruct o as [f|]; [|discriminate].
  unfold get_fcp_templates_details in Hdetail. cbn [snd] in Hdetail.
  apply filter_In in Hdetail. destruct Hdetail as [Hjoin Hwant].
  cbn [fst existsb] in Hwant. rewrite orb_false_r in Hwant.
  apply left_join_In in Hjoin. destruct Hjoin as [Hm [Hf Hmf]].
  unfold get_inuse_fcp_device_by_fcp_template in Huse.
  apply in_map_iff in Huse. destruct Huse as [f' [Hid Hf']].
  apply filter_In in Hf'. destruct Hf' as [Hf' Htmpl].
  assert (f = f') as <-.
  { apply (@fcp_primary_key_unique d); try assumption.
    unfold Str.nocase_eqb in Hmf. apply String.eqb_eq in Hmf.
    rewrite <- Hmf. congruence. }
  split; [exact Hnot|]. split.
  - exists m. now repeat split.
  - exists f. repeat split; try assumption.
    unfold in_use. apply orb_true_iff in Hrow.
    destruct Hrow as [H|H]; apply negb_true_iff, Z.eqb_neq in H; tauto.
Qed.

(** The validation of the minimum path count changes nothing; it raises
    the conflict of code 23 or, with no stored minimum, a [TypeError]. *)
Lemma _validate_min_fcp_paths_count_run (fcp_devices : option string)
  (min_count : option Z) (i : string) (w : conn) :
  _validate_min_fcp_paths_count expand_fcp_list fcp_devices min_count i w
  = (Ok tt, w)
  \/ (exists w1,
        _validate_min_fcp_paths_count expand_fcp_list fcp_devices min_count i w
        = (Raise (SDKConflictError 23 []), w1))
  \/ (exists w1,
        _validate_min_fcp_paths_count expand_fcp_list fcp_devices min_count i w
        = (Raise TypeError, w1)).
Proof.
  unfold _validate_min_fcp_paths_count, bind, query, ret, raise, LOG.
  destruct fcp_devices as [s|], min_count as [m|]; cbn [orb negb];
    repeat match goal with
           | |- context [if ?b then _ else _] => destruct b; cbn [orb negb]
           | |- context [match get_min_fcp_paths_count_from_db ?a ?b with
                         | Some _ => _ | None => _ end] =>
               destruct (get_min_fcp_paths_count_from_db a b)
           end;
    first [ now left
          | right; left; eexists; reflexivity
          | right; right; eexists; reflexivity ].
Qed.

(** The DML of [edit_fcp_devices] and what follows the device list in
    [edit_fcp_template] raise no conflict. *)
Lemma edit_fcp_devices_run (i s : string)
  (fcp_detail : list (tf_row * option fcp_row)) (w : conn) :
  let L := not_allow_for_del_of (fcp_from_input_of expand_fcp_list s)
             (fcp_in_db_of fcp_detail)
             (get_inuse_fcp_device_by_fcp_template i (db w)) in
  match L with
  | _ :: _ =>
      edit_fcp_devices expand_fcp_list i s fcp_detail w
      = (Raise (SDKConflictError 24 L), w)
  | [] =>
      forall e, fst (edit_fcp_devices expand_fcp_list i s fcp_detail w)
                = Raise e -> is_conflict e = false
  end.
Proof.
  cbv zeta.
  destruct (not_allow_for_del_of _ _ _) as [|x L] eqn:EL.
  2:{ unfold edit_fcp_devices. unfold bind at 1. unfold query at 1.
      rewrite EL. reflexivity. }
  unfold edit_fcp_devices. unfold bind at 1. unfold query at 1. rewrite EL.
  cbv beta iota.
  match goal with
  | |- forall e, fst (bind ?m ?k ?w0) = _ -> _ =>
      assert (H : no_conflict (bind m k)); [|intros e; apply H]
  end.
  apply no_conflict_bind; [auto with conflict | intros _].
  apply no_conflict_bind; [auto with conflict | intros _].
  apply no_conflict_bind.
  { unfold bulk_delete_fcp_device_from_fcp_template.
    apply no_conflict_get_fcp_conn, no_conflict_executemany.
    intros [t x]. apply no_conflict_execute. }
  intros _. apply no_conflict_bind; [auto with conflict | intros _].
  apply no_conflict_bind.
  { apply no_conflict_read. intros d e.
    induction (set_diff _ _) as [|y l IH]; cbn [fold_right]; [discriminate|].
    destruct (getitem y _) as [p|e'] eqn:Eg.
    - destruct (fold_right _ _ l) as [l'|e'']; [discriminate|].
      intros H. injection H as <-. now apply IH.
    - intros H. injection H as <-. exact (getitem_not_conflict _ _ Eg). }
  intros recs. apply no_conflict_bind.
  { unfold bulk_insert_fcp_device_into_fcp_template.
    apply no_conflict_get_fcp_conn, no_conflict_executemany.
    apply no_conflict_insert_tf. }
  intros _. apply no_conflict_bind; [auto with conflict | intros _].
  apply no_conflict_executemany. intros y.
  apply no_conflict_bind.
  { apply no_conflict_read. intros d e. apply getitem_not_conflict. }
  intros p. apply no_conflict_bind.
  { apply no_conflict_read. intros d e. apply getitem_not_conflict. }
  intros row. destruct (negb _); [|auto with conflict].
  apply no_conflict_bind; [|auto with conflict].
  unfold update_path_of_fcp_device. auto with conflict.
Qed.

Lemma bind_raise_inv {A B} (m : M A) (k : A -> M B) (w : conn) (e : exn) :
  fst (bind m k w) = Raise e ->
  fst (m w) = Raise e
  \/ exists a w1, m w = (Ok a, w1) /\ fst (k a w1) = Raise e.
Proof.
  unfold bind. destruct (m w) as [[a|e'] w1]; cbn [fst].
  - intros H. right. exists a, w1. split; [reflexivity | exact H].
  - intros H. left. injection H as <-. reflexivity.
Qed.

(** What follows the device list in [edit_fcp_template]. *)
Lemma edit_tail_no_conflict (i : string)
  (name description : option string) (host_default : option bool)
  (default_sp_list : option (list string)) (min_count : option Z)
  (tmpl_basic : list (template_row * option string))
  (k : list (template_row * option string) -> M edited_template) :
  (forall a, no_conflict (k a)) ->
  no_conflict
    ((match name, description, host_default, min_count with
      | None, None, None, None => ret tt
      | _, _, _, _ =>
          LOG INFO ;;;
          t0 <- read (fun _ => first tmpl_basic) ;;
          update_basic_info_of_fcp_template
            (match name with Some n => n | None => t_name (fst t0) end,
             match description with
             | Some x => x
             | None => t_description (fst t0)
             end,
             match host_default with
             | Some b => PyBool b
             | None => PyInt (is_default (fst t0))
             end,
             match min_count with
             | Some m => m
             | None => min_fcp_paths_count (fst t0)
             end,
             i) ;;;
          LOG INFO
      end) ;;;
     (match default_sp_list with
      | None => ret tt
      | Some sps =>
          LOG INFO ;;;
          bulk_set_sp_default_by_fcp_template i sps ;;;
          LOG INFO
      end) ;;;
     tmpl_basic' <-
       query (fun d => fst (get_fcp_templates_details [i] d)) ;;
     k tmpl_basic').
Proof.
  intros Hk.
  assert (Hupd : forall (n : option string) (ds : option string)
                   (h : option bool) (mc : option Z),
    no_conflict
      (LOG INFO ;;;
       t0 <- read (fun _ => first tmpl_basic) ;;
       update_basic_info_of_fcp_template
         (match n with Some n => n | None => t_name (fst t0) end,
          match ds with Some x => x | None => t_description (fst t0) end,
          match h with
          | Some b => PyBool b
          | None => PyInt (is_default (fst t0))
          end,
          match mc with
          | Some m => m
          | None => min_fcp_paths_count (fst t0)
          end,
          i) ;;;
       LOG INFO)).
  { intros n ds h mc.
    apply no_conflict_bind; [auto with conflict | intros _].
    apply no_conflict_bind.
    { apply no_conflict_read. intros d e. apply first_not_conflict. }
    intros t0. apply no_conflict_bind; [|auto with conflict].
    apply no_conflict_update_basic_info. }
  apply no_conflict_bind.
  { destruct name as [n|];
      [exact (Hupd (Some n) description host_default min_count)|].
    destruct description as [ds|];
      [exact (Hupd None (Some ds) host_default min_count)|].
    destruct host_default as [h|];
      [exact (Hupd None None (Some h) min_count)|].
    destruct min_count as [mc|];
      [exact (Hupd None None None (Some mc)) | apply no_conflict_ret]. }
  intros _. apply no_conflict_bind.
  { destruct default_sp_list as [sps|]; [|auto with conflict].
    apply no_conflict_bind; [auto with conflict | intros _].
    apply no_conflict_bind; [|auto with conflict].
    apply no_conflict_bulk_set_sp. }
  intros _. apply no_conflict_bind; [auto with conflict | exact Hk].
Qed.

(** In an edit of the device list of a template that keeps the path
    count, a conflict of code 24 names only devices left out of the new
    list that are in use and allocated from this template, and leaves the
    tables as they were; when every device left out that is in use carries
    the id of another template, or none, the edit raises no such
    conflict. *)
Lemma edit_fcp_template_conflict_24 (i s : string)
  (name description : option string) (host_default : option bool)
  (default_sp_list : option (list string)) (min_count : option Z)
  (w : conn) (r : res edited_template) (w' : conn) :
  in_transaction w = false ->
  fcp_primary_key (db w) ->
  Z.of_nat (List.length (filter Str.nonempty (split ";" s)))
  = get_path_count i (db w) ->
  edit_fcp_template expand_fcp_list i name description (Some s)
    host_default default_sp_list min_count w = (r, w') ->
  (forall L, r = Raise (SDKConflictError 24 L) ->
     L <> [] /\ db w' = db w
     /\ forall x, In x L -> blocks_removal expand_fcp_list i s (db w) x)
  /\ ((forall f, In f (fcp (db w)) ->
                 ~ requested expand_fcp_list s (fcp_id f) ->
                 in_use f -> (tmpl_id f =~ i) = false) ->
      forall L, r <> Raise (SDKConflictError 24 L)).
Proof.
  intros Htx Hpk Hcount Hrun.
  set (Lb := not_allow_for_del_of (fcp_from_input_of expand_fcp_list s)
               (fcp_in_db_of (snd (get_fcp_templates_details [i] (db w))))
               (get_inuse_fcp_device_by_fcp_template i (db w))).
  assert (Hblocks : forall x, In x Lb ->
                     blocks_removal expand_fcp_list i s (db w) x)
    by (intros x; now apply not_allow_for_del_blocks).
  (* the exception leaving the block is the conflict of the check, or
     no conflict of code 24 *)
  assert (Hbody : forall e, r = Raise e -> is_conflict e = true ->
            db w' = db w
            /\ (e = SDKConflictError 23 []
                \/ (Lb <> [] /\ e = SDKConflictError 24 Lb))).
  { intros e -> Hc. unfold edit_fcp_template in Hrun.
    rewrite get_fcp_conn_outer in Hrun by assumption.
    set (w0 := mk_conn (db w) true (journal w)) in Hrun.
    match type of Hrun with
    | (let (_, _) := ?b w0 in _) = _ => set (body := b) in Hrun
    end.
    destruct (body w0) as [[a|e0] w1] eqn:Eb; [discriminate Hrun|].
    injection Hrun as He <-. cbn [db]. split; [reflexivity|].
    assert (He0 : e0 = e).
    { destruct e0; cbn in He; try (subst e; discriminate Hc); exact He. }
    subst e0. clear He.
    assert (Hfst : fst (body w0) = Raise e) by now rewrite Eb.
    clear Eb. subst body.
    unfold bind at 1 in Hfst. unfold query at 1 in Hfst.
    destruct (fcp_template_exist_in_db i (db w0)).
    2:{ cbn in Hfst. injection Hfst as <-. discriminate Hc. }
    unfold bind at 1 in Hfst. unfold ret at 1 in Hfst.
    unfold bind at 1 in Hfst. unfold bind at 1 in Hfst.
    unfold query at 1 in Hfst. cbn [db w0] in Hfst.
    rewrite Hcount, Z.eqb_refl in Hfst. cbn [negb] in Hfst.
    unfold ret at 1 in Hfst.
    unfold bind at 1 in Hfst.
    destruct (_validate_min_fcp_paths_count_run (Some s) min_count i w0)
      as [Hv|[[wv Hv]|[wv Hv]]]; rewrite Hv in Hfst.
    2:{ injection Hfst as <-. now left. }
    2:{ injection Hfst as <-. discriminate Hc. }
    unfold bind at 1 in Hfst. unfold query at 1 in Hfst.
    unfold bind at 1 in Hfst. unfold query at 1 in Hfst.
    unfold bind at 1 in Hfst. unfold query at 1 in Hfst.
    cbn [db w0] in Hfst.
    destruct (get_fcp_templates_details [i] (db w)) as [tb fd] eqn:Ed.
    cbn [snd] in Lb.
    pose proof (edit_fcp_devices_run i s fd w0) as Hdev.
    cbv zeta in Hdev. cbn [db w0] in Hdev. fold Lb in Hdev.
    apply bind_raise_inv in Hfst.
    destruct Lb as [|x L] eqn:EL.
    - exfalso. destruct Hfst as [Hfst|[[] [w2 [_ Hfst]]]].
      + rewrite (Hdev _ Hfst) in Hc. discriminate Hc.
      + revert Hfst. clear - Hc.
        match goal with
        | |- fst (?t w2) = _ -> _ => assert (Ht : no_conflict t)
        end.
        { apply edit_tail_no_conflict. intros tb'.
          apply no_conflict_bind; [auto with conflict | intros fl].
          apply no_conflict_bind; [auto with conflict | intros al].
          apply no_conflict_bind.
          { apply no_conflict_read. intros d e'. apply first_not_conflict. }
          intros t1. apply no_conflict_bind; [|auto with conflict].
          apply no_conflict_read. intros d e'.
          apply get_min_fcp_paths_count_not_conflict. }
        intros Hfst. rewrite (Ht _ _ Hfst) in Hc. discriminate Hc.
    - right. split; [discriminate|].
      destruct Hfst as [Hfst|[[] [w2 [Hok _]]]].
      + rewrite Hdev in Hfst. now injection Hfst as <-.
      + rewrite Hdev in Hok. discriminate Hok. }
  split.
  - intros L ->. destruct (Hbody _ eq_refl eq_refl) as [Hdb [H23|[Hne H24]]].
    + discriminate H23.
    + injection H24 as HL. rewrite HL.
      split; [exact Hne | split; [exact Hdb | exact Hblocks]].
  - intros Hother L ->.
    destruct (Hbody _ eq_refl eq_refl) as [_ [H23|[Hne H24]]].
    + discriminate H23.
    + destruct Lb as [|x Lb'] eqn:EL; [now apply Hne|].
      destruct (Hblocks x (or_introl eq_refl)) as [Hreq [_ [f [Hf [Hid [Hu Ht]]]]]].
      subst x. rewrite (Hother f Hf Hreq Hu) in Ht. discriminate Ht.
Qed.

End EditTheorems.

(** ** Allocation Engine *)

(** *** Strings *)

Lemma upper_lower_ascii (c : ascii) :
  Str.upper_ascii (Str.lower_ascii c) = Str.upper_ascii c.
Proof. destruct c as [[] [] [] [] [] [] [] []]; reflexivity. Qed.

Lemma lower_upper_ascii (c : ascii) :
  Str.lower_ascii (Str.upper_ascii c) = Str.lower_ascii c.
Proof. destruct c as [[] [] [] [] [] [] [] []]; reflexivity. Qed.

Lemma upper_lower (s : string) : Str.upper (Str.lower s) = Str.upper s.
Proof.
  induction s as [|c s IH]; [reflexivity|].
  cbn [Str.upper Str.lower]. now rewrite upper_lower_ascii, IH.
Qed.

Lemma lower_upper (s : string) : Str.lower (Str.upper s) = Str.lower s.
Proof.
  induction s as [|c s IH]; [reflexivity|].
  cbn [Str.upper Str.lower]. now rewrite lower_upper_ascii, IH.
Qed.

Lemma nocase_eqb_refl (a : string) : (a =~ a) = true.
Proof. apply String.eqb_refl. Qed.

Lemma nocase_eqb_sym (a b : string) : (a =~ b) = (b =~ a).
Proof. apply String.eqb_sym. Qed.

Lemma nocase_eqb_lower (a b : string) :
  (a =~ b) = true <-> Str.lower a = Str.lower b.
Proof. apply String.eqb_eq. Qed.

Lemma nocase_eqb_upper (a b : string) :
  (a =~ b) = true -> Str.upper a = Str.upper b.
Proof.
  intros H. apply nocase_eqb_lower in H.
  rewrite <- (upper_lower a), <- (upper_lower b). now rewrite H.
Qed.

Lemma nocase_eqb_upper_r (a : string) : (a =~ Str.upper a) = true.
Proof. apply nocase_eqb_lower. now rewrite lower_upper. Qed.

(** *** Sorting and [DISTINCT] *)

Lemma insert_sorted_In {A} (leb : A -> A -> bool) (x y : A) (l : list A) :
  In y (insert_sorted leb x l) <-> y = x \/ In y l.
Proof.
  induction l as [|z l IH]; cbn [insert_sorted In].
  - intuition.
  - destruct (leb x z); cbn [In]; [intuition|]. rewrite IH. intuition.
Qed.

Lemma sort_by_In {A} (leb : A -> A -> bool) (y : A) (l : list A) :
  In y (sort_by leb l) <-> In y l.
Proof.
  unfold sort_by. induction l as [|x l IH]; cbn [fold_right In]; [reflexivity|].
  rewrite insert_sorted_In, IH. intuition.
Qed.

Lemma insert_sorted_length {A} (leb : A -> A -> bool) (x : A) (l : list A) :
  List.length (insert_sorted leb x l) = S (List.length l).
Proof.
  induction l as [|z l IH]; [reflexivity|]. cbn [insert_sorted].
  destruct (leb x z); cbn [List.length]; [reflexivity | now rewrite IH].
Qed.

Lemma sort_by_length {A} (leb : A -> A -> bool) (l : list A) :
  List.length (sort_by leb l) = List.length l.
Proof.
  unfold sort_by. induction l as [|x l IH]; [reflexivity|].
  cbn [fold_right]. now rewrite insert_sorted_length, IH.
Qed.

Lemma insert_sorted_NoDup {A} (leb : A -> A -> bool) (x : A) (l : list A) :
  ~ In x l -> NoDup l -> NoDup (insert_sorted leb x l).
Proof.
  induction l as [|z l IH]; intros Hx Hnd; cbn [insert_sorted].
  - constructor; [intros [] | constructor].
  - destruct (leb x z); [now constructor|].
    inversion Hnd as [|? ? Hz Hnd']; subst. constructor.
    + rewrite insert_sorted_In. intros [->|H]; [apply Hx; now left | now apply Hz].
    + apply IH; [|assumption]. intros H. apply Hx. now right.
Qed.

Lemma sort_by_NoDup {A} (leb : A -> A -> bool) (l : list A) :
  NoDup l -> NoDup (sort_by leb l).
Proof.
  unfold sort_by. induction l as [|x l IH]; intros Hnd; [constructor|].
  inversion Hnd as [|? ? Hx Hnd']; subst. cbn [fold_right].
  apply insert_sorted_NoDup; [|now apply IH].
  fold (sort_by leb l). now rewrite sort_by_In.
Qed.

Lemma distinct_incl {A} (eqb : A -> A -> bool) (x : A) (l : list A) :
  In x (distinct eqb l) -> In x l.
Proof.
  induction l as [|y l IH]; [intros []|]. cbn [distinct].
  intros [->|H]; [now left|]. apply filter_In in H. right. now apply IH.
Qed.

(** Every element has a representative left by [distinct]. *)
Lemma distinct_repr {A} (eqb : A -> A -> bool) (x : A) (l : list A) :
  (forall a, eqb a a = true) ->
  (forall a b c, eqb a b = true -> eqb b c = true -> eqb a c = true) ->
  In x l -> exists y, In y (distinct eqb l) /\ eqb y x = true.
Proof.
  intros Hrefl Htrans. induction l as [|z l IH]; [intros []|].
  cbn [distinct]. intros [->|Hin].
  - exists x. split; [now left | apply Hrefl].
  - destruct (IH Hin) as [y [Hy Hyx]].
    destruct (eqb z y) eqn:E.
    + exists z. split; [now left | now apply (Htrans z y x)].
    + exists y. split; [|assumption]. right. apply filter_In.
      split; [assumption | now rewrite E].
Qed.

(** *** [dict]s keyed by path *)

Lemma dict_setdefault_append_keys {V} (k k' : Z) (v : V) (d : list (Z * list V)) :
  In k' (map fst (dict_setdefault_append k v d))
  <-> k' = k \/ In k' (map fst d).
Proof.
  induction d as [|[k0 l0] d IH]; cbn [dict_setdefault_append map fst In].
  - intuition.
  - destruct (Z.eqb_spec k0 k) as [->|Hne]; cbn [map fst In].
    + intuition.
    + rewrite IH. intuition.
Qed.

Lemma dict_setdefault_append_NoDup {V} (k : Z) (v : V) (d : list (Z * list V)) :
  NoDup (map fst d) -> NoDup (map fst (dict_setdefault_append k v d)).
Proof.
  induction d as [|[k0 l0] d IH]; intros Hnd; cbn [dict_setdefault_append map fst].
  - constructor; [intros [] | constructor].
  - cbn [map fst] in Hnd. inversion Hnd as [|? ? Hk Hnd']; subst.
    destruct (Z.eqb_spec k0 k) as [->|Hne]; cbn [map fst].
    + now constructor.
    + constructor; [|now apply IH].
      rewrite dict_setdefault_append_keys. intros [->|H]; [now apply Hne | now apply Hk].
Qed.

Lemma dict_setdefault_append_listed {V} (k k' : Z) (v v' : V)
  (d : list (Z * list V)) :
  listed_for (dict_setdefault_append k v d) k' v'
  <-> (k' = k /\ v' = v) \/ listed_for d k' v'.
Proof.
  unfold listed_for.
  induction d as [|[k0 l0] d IH]; cbn [dict_setdefault_append].
  - split.
    + intros [l [[Heq|[]] Hv]]. injection Heq as <- <-.
      destruct Hv as [<-|[]]. now left.
    + intros [[-> ->]|[l [[] _]]]. exists [v]. split; now left.
  - destruct (Z.eqb_spec k0 k) as [->|Hne].
    + split.
      * intros [l [[Heq|Hin] Hv]].
        -- injection Heq as <- <-. apply in_app_iff in Hv.
           destruct Hv as [Hv|[<-|[]]]; [|now left].
           right. exists l0. split; [now left | assumption].
        -- right. exists l. split; [now right | assumption].
      * intros [[-> ->]|[l [[Heq|Hin] Hv]]].
        -- exists (l0 ++ [v]). split; [now left|].
           apply in_app_iff. right. now left.
        -- injection Heq as <- <-. exists (l0 ++ [v]). split; [now left|].
           apply in_app_iff. now left.
        -- exists l. split; [now right | assumption].
    + split.
      * intros [l [[Heq|Hin] Hv]].
        -- injection Heq as <- <-. right. exists l0. split; [now left | assumption].
        -- assert (H : exists l, In (k', l) (dict_setdefault_append k v d)
                                 /\ In v' l) by now exists l.
           apply IH in H. destruct H as [H|[l' [Hin' Hv']]]; [now left|].
           right. exists l'. split; [now right | assumption].
      * intros [Hnew|[l [[Heq|Hin] Hv]]].
        -- assert (H : exists l, In (k', l) (dict_setdefault_append k v d)
                                 /\ In v' l) by (apply IH; now left).
           destruct H as [l [Hin Hv]]. exists l. split; [now right | assumption].
        -- injection Heq as <- <-. exists l0. split; [now left | assumption].
        -- assert (H : exists l', In (k', l') (dict_setdefault_append k v d)
                                  /\ In v' l').
           { apply IH. right. now exists l. }
           destruct H as [l' [Hin' Hv']]. exists l'. split; [now right | assumption].
Qed.

Lemma dict_setdefault_append_nonempty {V} (k : Z) (v : V)
  (d : list (Z * list V)) :
  (forall p l, In (p, l) d -> l <> []) ->
  forall p l, In (p, l) (dict_setdefault_append k v d) -> l <> [].
Proof.
  induction d as [|[k0 l0] d IH]; intros Hd p l; cbn [dict_setdefault_append].
  - intros [Heq|[]]. injection Heq as <- <-. discriminate.
  - destruct (Z.eqb_spec k0 k) as [->|Hne].
    + intros [Heq|Hin].
      * injection Heq as <- <-. destruct l0; discriminate.
      * apply (Hd p). now right.
    + intros [Heq|Hin].
      * injection Heq as <- <-. apply (Hd k0). now left.
      * apply (IH (fun p l H => Hd p l (or_intror H)) p l Hin).
Qed.

(** With distinct keys, [d[k]] is the list paired with [k]. *)
Lemma dict_get_In {V} (k : Z) (l : V) (d : list (Z * V)) :
  NoDup (map fst d) ->
  (dict_get Z.eqb k d = Some l <-> In (k, l) d).
Proof.
  induction d as [|[k0 l0] d IH]; intros Hnd; cbn [dict_get In].
  - split; [discriminate | intros []].
  - cbn [map fst] in Hnd. inversion Hnd as [|? ? Hk Hnd']; subst.
    destruct (Z.eqb_spec k0 k) as [->|Hne].
    + split.
      * intros H. injection H as <-. now left.
      * intros [Heq|Hin]; [now injection Heq as <- |].
        exfalso. apply Hk. apply in_map_iff. now exists (k, l).
    + rewrite (IH Hnd'). split; [now right|].
      intros [Heq|Hin]; [injection Heq as -> _; now contradiction Hne | assumption].
Qed.

(** *** [get_free_pchids_by_fcp_template] *)

Lemma path_pchid_eqb_refl (a : Z * string) : path_pchid_eqb a a = true.
Proof.
  unfold path_pchid_eqb. now rewrite Z.eqb_refl, nocase_eqb_refl.
Qed.

Lemma path_pchid_eqb_trans (a b c : Z * string) :
  path_pchid_eqb a b = true -> path_pchid_eqb b c = true ->
  path_pchid_eqb a c = true.
Proof.
  unfold path_pchid_eqb. rewrite !andb_true_iff, !Z.eqb_eq, !nocase_eqb_lower.
  intros [-> ->] [-> ->]. now split.
Qed.

Lemma fold_setdefault_append_spec (rows : list (Z * string))
  (acc : list (Z * list string)) :
  let free := fold_left
                (fun pchids item =>
                   dict_setdefault_append (fst item) (Str.upper (snd item))
                                          pchids) rows acc in
  (NoDup (map fst acc) -> NoDup (map fst free))
  /\ (forall p g, listed_for free p g
                  <-> (exists x, In x rows /\ fst x = p /\ Str.upper (snd x) = g)
                      \/ listed_for acc p g)
  /\ ((forall p l, In (p, l) acc -> l <> []) ->
      forall p l, In (p, l) free -> l <> []).
Proof.
  revert acc. induction rows as [|x rows IH]; intros acc; cbn [fold_left].
  - split; [tauto|]. split; [|tauto]. intros p g. split; [now right|].
    intros [[x [[] _]]|H]; exact H.
  - destruct (IH (dict_setdefault_append (fst x) (Str.upper (snd x)) acc))
      as [Hnd [Hl Hne]]. cbv zeta in *. split; [|split].
    + intros H. now apply Hnd, dict_setdefault_append_NoDup.
    + intros p g. rewrite Hl, dict_setdefault_append_listed. split.
      * intros [[y [Hy Hpg]]|[[-> ->]|H]].
        -- left. exists y. split; [now right | assumption].
        -- left. exists x. split; [now left | now split].
        -- now right.
      * intros [[y [[<-|Hy] [Hp Hg]]]|H].
        -- right. left. now split.
        -- left. now exists y.
        -- right. now right.
    + intros H. apply Hne. now apply dict_setdefault_append_nonempty.
Qed.

(** The PCHIDs per path are the available devices of the template, and its
    keys are the paths with such a device, each once. *)
Lemma get_free_pchids_by_fcp_template_spec (t : string) (d : tables) :
  let free := get_free_pchids_by_fcp_template t d in
  NoDup (map fst free)
  /\ (forall p g, listed_for free p g <-> free_on t d p g)
  /\ (forall p l, In (p, l) free -> l <> []).
Proof.
  cbv zeta. unfold get_free_pchids_by_fcp_template.
  destruct (fold_setdefault_append_spec
              (sort_by path_pchid_leb
                 (distinct path_pchid_eqb
                    (map (fun r => (tf_path (fst r), pchid (snd r)))
                         (free_rows t d)))) []) as [Hnd [Hl Hne]].
  cbv zeta in *. split; [apply Hnd; constructor|]. split.
  - intros p g. rewrite Hl. unfold free_on. split.
    + intros [[x [Hx [Hp Hg]]]|[l [[] _]]].
      apply sort_by_In, distinct_incl, in_map_iff in Hx.
      destruct Hx as [r [<- Hr]]. now exists r.
    + intros [r [Hr [Hp Hg]]]. left.
      destruct (@distinct_repr _ path_pchid_eqb
                  (tf_path (fst r), pchid (snd r))
                  (map (fun r => (tf_path (fst r), pchid (snd r)))
                       (free_rows t d))
                  path_pchid_eqb_refl path_pchid_eqb_trans)
        as [y [Hy Heq]].
      { apply in_map_iff. now exists r. }
      exists y. split; [now apply sort_by_In|].
      unfold path_pchid_eqb in Heq. cbn [fst snd] in Heq.
      apply andb_true_iff in Heq. destruct Heq as [Hp' Hg'].
      apply Z.eqb_eq in Hp'. apply nocase_eqb_upper in Hg'.
      split; congruence.
  - apply Hne. intros p l [].
Qed.

(** *** Strategy B: too few free paths *)

(** C5. When the paths of a template holding an available device are fewer
    than its effective minimum path count (the stored
    [min_fcp_paths_count], a stored [-1] standing for the path count of
    the template), [get_fcp_devices] raises nothing: it returns an empty
    device list with a non-empty reason, which tells the free path count
    and the minimum, or that no free device is left when there is none. *)
Theorem get_fcp_devices_below_minimum (t : string)
  (pchid_info : list (string * capacity)) (rand : nat -> nat) (d : tables)
  (m : Z) :
  Str.nonempty t = true ->
  get_min_fcp_paths_count_from_db t d = Some m ->
  let min_path_count := if m =? -1 then get_path_count t d else m in
  let free_path_count :=
    Z.of_nat (List.length (get_free_pchids_by_fcp_template t d)) in
  free_path_count < min_path_count ->
  exists r,
    get_fcp_devices t pchid_info rand d = Ok ([], r)
    /\ format_of r <> ""
    /\ (free_path_count = 0 -> r = NoFreeDeviceLeft t)
    /\ (free_path_count <> 0 ->
        r = FreePathCountBelowMinimum t free_path_count min_path_count).
Proof.
  intros Ht Hm. cbv zeta. intros Hlt. unfold get_fcp_devices.
  destruct (get_free_pchids_by_fcp_template t d) as [|e free] eqn:Ef.
  - exists (NoFreeDeviceLeft t). cbn [in_fcp_conn List.length Z.of_nat].
    repeat split; [discriminate | intros H; now contradiction H].
  - unfold get_min_fcp_paths_count. rewrite Ht, Hm. cbn [negb rbind].
    assert (Hmin : (match (if m =? -1 then Some (get_path_count t d) else Some m)
                    with
                    | Some m0 => Ok m0
                    | None => Raise SDKObjectNotExistError
                    end)
                   = Ok (if m =? -1 then get_path_count t d else m))
      by (destruct (m =? -1); reflexivity).
    rewrite Hmin. cbn [rbind].
    apply Z.ltb_lt in Hlt. rewrite Hlt. cbn [in_fcp_conn].
    eexists. split; [reflexivity|]. split; [discriminate|].
    split; [intros H; discriminate H | reflexivity].
Qed.

(** Template ["P"] asks for two paths; with ["1b01"] taken only path 0 has
    an available device. *)
Lemma get_fcp_devices_below_minimum_witness :
  exists r,
    get_fcp_devices "P" [] (fun _ => O) tables_P_inuse = Ok ([], r)
    /\ format_of r <> ""
    /\ r = FreePathCountBelowMinimum "P" 1 2.
Proof.
  destruct (@get_fcp_devices_below_minimum "P" [] (fun _ => O) tables_P_inuse 2
              eq_refl eq_refl eq_refl) as [r [Hrun [Hne [_ Hr]]]].
  exists r. split; [exact Hrun|]. split; [exact Hne|].
  apply Hr. discriminate.
Defined.

(** *** [itertools] *)

Lemma combinations_spec {A} (l : list A) (k : nat) (x : list A) :
  In x (combinations l k) -> List.length x = k /\ incl x l /\ (NoDup l -> NoDup x).
Proof.
  revert k x. induction l as [|a l IH]; intros k x Hin.
  - destruct k; cbn in Hin; [|destruct Hin].
    destruct Hin as [<-|[]]. repeat split; [intros y [] | constructor].
  - destruct k as [|k]; cbn [combinations] in Hin.
    + destruct Hin as [<-|[]]. repeat split; [intros y [] | constructor].
    + apply in_app_iff in Hin. destruct Hin as [Hin|Hin].
      * apply in_map_iff in Hin. destruct Hin as [y [<- Hy]].
        destruct (IH _ _ Hy) as [Hlen [Hincl Hnd]]. split; [|split].
        -- cbn. now rewrite Hlen.
        -- intros z [<-|Hz]; [now left | right; now apply Hincl].
        -- intros H. inversion H as [|? ? Ha Hl]; subst. constructor.
           ++ intros Hay. apply Ha. now apply Hincl.
           ++ now apply Hnd.
      * destruct (IH _ _ Hin) as [Hlen [Hincl Hnd]]. split; [|split].
        -- exact Hlen.
        -- intros z Hz. right. now apply Hincl.
        -- intros H. inversion H; subst. now apply Hnd.
Qed.


Lemma product_spec {A} (ls : list (list A)) (x : list A) :
  In x (product ls) <-> Forall2 (fun a l => In a l) x ls.
Proof.
  revert x. induction ls as [|l ls IH]; intros x; cbn [product].
  - split.
    + intros [<-|[]]. constructor.
    + intros H. inversion H. now left.
  - rewrite in_flat_map. split.
    + intros [a [Ha Hx]]. apply in_map_iff in Hx. destruct Hx as [y [<- Hy]].
      constructor; [assumption | now apply IH].
    + intros H. inversion H as [|a ? y ? Ha Hy]; subst.
      exists a. split; [assumption|]. apply in_map_iff. exists y.
      split; [reflexivity | now apply IH].
Qed.


(** *** The monad of results *)

Lemma mapM_Ok {A B} (f : A -> res B) (l : list A) (ys : list B) :
  mapM f l = Ok ys <-> Forall2 (fun x y => f x = Ok y) l ys.
Proof.
  revert ys. induction l as [|x l IH]; intros ys; cbn [mapM].
  - split.
    + intros H. injection H as <-. constructor.
    + intros H. now inversion H.
  - split.
    + destruct (f x) as [y|e] eqn:Ef; cbn [rbind]; [|discriminate].
      destruct (mapM f l) as [ys'|e] eqn:Em; cbn [rbind]; [|discriminate].
      intros H. injection H as <-. constructor; [assumption | now apply IH].
    + intros H. inversion H as [|? y ? ys' Hy Hys]; subst.
      rewrite Hy. cbn [rbind]. apply IH in Hys. now rewrite Hys.
Qed.

Lemma mapM_total {A B} (f : A -> res B) (l : list A) :
  (forall x, In x l -> exists y, f x = Ok y) -> exists ys, mapM f l = Ok ys.
Proof.
  induction l as [|x l IH]; intros H; cbn [mapM]; [now eexists|].
  destruct (H x (or_introl eq_refl)) as [y Hy]. rewrite Hy.
  destruct (IH (fun z Hz => H z (or_intror Hz))) as [ys Hys]. rewrite Hys.
  now eexists.
Qed.

Lemma choice_In {A} (r : nat) (l : list A) :
  l <> [] -> exists x, choice r l = Ok x /\ In x l.
Proof.
  intros Hl. unfold choice. destruct l as [|a l]; [now contradiction Hl|].
  destruct (nth_error (a :: l) (r mod List.length (a :: l))) as [x|] eqn:E.
  - exists x. split; [reflexivity | now apply nth_error_In in E].
  - exfalso. apply nth_error_None in E.
    assert (H : (r mod List.length (a :: l) < List.length (a :: l))%nat)
      by (apply Nat.mod_upper_bound; discriminate).
    lia.
Qed.

Lemma choice_Ok_In {A} (r : nat) (l : list A) (x : A) :
  choice r l = Ok x -> In x l.
Proof.
  unfold choice. destruct l as [|a l]; [discriminate|].
  destruct (nth_error _ _) as [y|] eqn:E; [|discriminate].
  intros H. injection H as <-. now apply nth_error_In in E.
Qed.

(** *** The candidate combinations *)

Lemma concat_mapM_In {A B} (f : A -> res (list B)) (l : list A)
  (ys : list (list B)) (z : B) :
  mapM f l = Ok ys ->
  (In z (List.concat ys) <-> exists x y, In x l /\ f x = Ok y /\ In z y).
Proof.
  rewrite mapM_Ok. intros H. induction H as [|x y l ys Hxy H IH]; cbn [List.concat].
  - split; [intros [] | intros [x [y [[] _]]]].
  - rewrite in_app_iff, IH. split.
    + intros [Hz|[x' [y' [Hx' [Hf Hz]]]]].
      * exists x, y. repeat split; [now left | assumption | assumption].
      * exists x', y'. repeat split; [now right | assumption | assumption].
    + intros [x' [y' [[<-|Hx'] [Hf Hz]]]].
      * left. rewrite Hxy in Hf. now injection Hf as <-.
      * right. now exists x', y'.
Qed.

Section Candidates.

Variable free : list (Z * list string).
Hypothesis free_keys : NoDup (map fst free).

Lemma getitem_path_listed (p : Z) (l : list string) (g : string) :
  getitem_path p free = Ok l -> (In g l <-> listed_for free p g).
Proof.
  unfold getitem_path. destruct (dict_get Z.eqb p free) as [l'|] eqn:E;
    [|discriminate]. intros H. injection H as ->.
  apply (@dict_get_In _ p l free free_keys) in E. unfold listed_for. split.
  - intros Hg. now exists l.
  - intros [l' [Hin Hg]]. apply (@dict_get_In _ p l' free free_keys) in Hin.
    apply (@dict_get_In _ p l free free_keys) in E. congruence.
Qed.

Lemma getitem_path_total (pic : list Z) :
  incl pic (map fst free) ->
  exists lists, mapM (fun idx => getitem_path idx free) pic = Ok lists.
Proof.
  intros Hincl. apply mapM_total. intros p Hp. apply Hincl in Hp.
  apply in_map_iff in Hp. destruct Hp as [[p' l] [<- Hin]]. cbn [fst].
  exists l. unfold getitem_path.
  apply (@dict_get_In _ p' l free free_keys) in Hin. now rewrite Hin.
Qed.

Lemma combine_product_In (pic : list Z) (lists : list (list string)) (c : comb) :
  mapM (fun idx => getitem_path idx free) pic = Ok lists ->
  (In c (map (combine pic) (product lists))
   <-> map fst c = pic
       /\ Forall (fun pg => listed_for free (fst pg) (snd pg)) c).
Proof.
  rewrite mapM_Ok. intros H. revert c.
  induction H as [|p l pic lists Hp H IH]; intros c.
  - cbn. split.
    + intros [<-|[]]. split; [reflexivity | constructor].
    + intros [Hc _]. destruct c; [now left | discriminate].
  - rewrite in_map_iff. split.
    + intros [x [<- Hx]]. apply product_spec in Hx.
      inversion Hx as [|g ? y ? Hg Hy]; subst. cbn [combine map fst].
      assert (Hc : In (combine pic y) (map (combine pic) (product lists)))
        by (apply in_map, product_spec; assumption).
      apply IH in Hc. destruct Hc as [Hfst Hall]. split; [now rewrite Hfst|].
      constructor; [|assumption]. cbn [fst snd].
      now apply (@getitem_path_listed p l g Hp).
    + intros [Hfst Hall]. destruct c as [|[p' g] c]; [discriminate|].
      cbn [map fst] in Hfst. injection Hfst as -> Hfst.
      inversion Hall as [|? ? Hpg Hall']; subst. cbn [fst snd] in Hpg.
      assert (Hc : In c (map (combine (map fst c)) (product lists)))
        by (apply IH; now split).
      apply in_map_iff in Hc. destruct Hc as [y [Hy Hyin]].
      exists (g :: y). split; [cbn [combine]; now rewrite Hy|].
      apply product_spec. constructor; [|now apply product_spec].
      now apply (@getitem_path_listed p l g Hp).
Qed.

(** The combinations enumerated for a path count are the candidates. *)
Lemma pchids_per_path_combinations_of_spec (k : Z) :
  0 <= k ->
  exists cs,
    pchids_per_path_combinations_of free (sort_by Z.leb (map fst free)) k
    = Ok cs
    /\ forall c, In c cs <-> candidate free (Z.to_nat k) c.
Proof.
  intros Hk. unfold pchids_per_path_combinations_of.
  apply Z.ltb_ge in Hk. rewrite Hk.
  set (idx := sort_by Z.leb (map fst free)).
  set (step := fun path_idx_comb : list Z => _).
  assert (Htot : exists per_choice,
            mapM step (combinations idx (Z.to_nat k)) = Ok per_choice).
  { apply mapM_total. intros pic Hpic. subst step. cbv beta.
    destruct (@getitem_path_total pic) as [lists Hl].
    - intros p Hp. apply combinations_spec in Hpic.
      destruct Hpic as [_ [Hincl _]]. apply Hincl in Hp.
      now apply sort_by_In in Hp.
    - rewrite Hl. cbn [rbind]. now eexists. }
  destruct Htot as [per_choice Hpc]. rewrite Hpc. cbn [rbind].
  eexists. split; [reflexivity|]. intros c.
  rewrite (@concat_mapM_In _ _ step _ _ c Hpc). unfold candidate. fold idx. split.
  - intros [pic [r [Hpic [Hr Hc]]]]. subst step. cbv beta in Hr.
    destruct (mapM (fun idx0 => getitem_path idx0 free) pic) as [lists|] eqn:El;
      [|discriminate]. cbn [rbind] in Hr. injection Hr as <-.
    apply (@combine_product_In pic lists c El) in Hc.
    destruct Hc as [<- Hall]. now split.
  - intros [Hpic Hall]. exists (map fst c).
    destruct (@getitem_path_total (map fst c)) as [lists Hl].
    { intros p Hp. apply combinations_spec in Hpic.
      destruct Hpic as [_ [Hincl _]]. apply Hincl in Hp.
      now apply sort_by_In in Hp. }
    exists (map (combine (map fst c)) (product lists)).
    split; [assumption|]. split.
    + subst step. cbv beta. now rewrite Hl.
    + apply (@combine_product_In (map fst c) lists c Hl). now split.
Qed.

(** A candidate takes distinct paths, as many as asked for. *)
Lemma candidate_paths (k : nat) (c : comb) :
  candidate free k c -> List.length c = k /\ NoDup (map fst c).
Proof.
  intros [Hpic _]. apply combinations_spec in Hpic.
  destruct Hpic as [Hlen [_ Hnd]]. rewrite length_map in Hlen.
  split; [assumption|]. apply Hnd. now apply sort_by_NoDup.
Qed.


End Candidates.

(** *** Weights *)

Lemma Qlt_bool_iff (x y : Q) : Qlt_bool x y = true <-> (x < y)%Q.
Proof.
  unfold Qlt_bool. rewrite negb_true_iff. split.
  - intros H. apply Qnot_le_lt. intros Hle. apply Qle_bool_iff in Hle. congruence.
  - intros H. destruct (Qle_bool y x) eqn:E; [|reflexivity].
    apply Qle_bool_iff in E. exfalso. now apply (Qlt_not_le x y).
Qed.

Lemma Qlt_bool_false (x y : Q) : Qlt_bool x y = false <-> (y <= x)%Q.
Proof.
  unfold Qlt_bool. rewrite negb_false_iff. apply Qle_bool_iff.
Qed.

Lemma py_min_spec (l : list Q) (w : Q) :
  py_min l = Ok w -> In w l /\ forall x, In x l -> (w <= x)%Q.
Proof.
  destruct l as [|x l]; [discriminate|]. cbn [py_min]. intros H.
  injection H as <-. revert x. induction l as [|y l IH]; intros x; cbn [fold_left].
  - split; [now left|]. intros z [<-|[]]. apply Qle_refl.
  - destruct (Qlt_bool y x) eqn:E.
    + destruct (IH y) as [Hin Hle]. apply Qlt_bool_iff in E. split.
      * destruct Hin as [<-|Hin]; [right; now left | right; now right].
      * intros z [<-|[<-|Hz]].
        -- apply Qle_trans with y; [apply Hle; now left | now apply Qlt_le_weak].
        -- apply Hle. now left.
        -- apply Hle. now right.
    + destruct (IH x) as [Hin Hle]. apply Qlt_bool_false in E. split.
      * destruct Hin as [<-|Hin]; [now left | right; now right].
      * intros z [<-|[<-|Hz]].
        -- apply Hle. now left.
        -- apply Qle_trans with x; [apply Hle; now left | assumption].
        -- apply Hle. now right.
Qed.

Lemma py_max_spec (l : list Q) (w : Q) :
  py_max l = Ok w -> In w l /\ forall x, In x l -> (x <= w)%Q.
Proof.
  destruct l as [|x l]; [discriminate|]. cbn [py_max]. intros H.
  injection H as <-. revert x. induction l as [|y l IH]; intros x; cbn [fold_left].
  - split; [now left|]. intros z [<-|[]]. apply Qle_refl.
  - destruct (Qlt_bool x y) eqn:E.
    + destruct (IH y) as [Hin Hle]. apply Qlt_bool_iff in E. split.
      * destruct Hin as [<-|Hin]; [right; now left | right; now right].
      * intros z [<-|[<-|Hz]].
        -- apply Qle_trans with y; [now apply Qlt_le_weak | apply Hle; now left].
        -- apply Hle. now left.
        -- apply Hle. now right.
    + destruct (IH x) as [Hin Hle]. apply Qlt_bool_false in E. split.
      * destruct Hin as [<-|Hin]; [now left | right; now right].
      * intros z [<-|[<-|Hz]].
        -- apply Hle. now left.
        -- apply Qle_trans with x; [assumption | apply Hle; now left].
        -- apply Hle. now right.
Qed.

Lemma py_max_nat_spec (l : list nat) (w : nat) :
  py_max_nat l = Ok w -> In w l /\ forall x, In x l -> (x <= w)%nat.
Proof.
  destruct l as [|x l]; [discriminate|]. cbn [py_max_nat]. intros H.
  injection H as <-. revert x. induction l as [|y l IH]; intros x; cbn [fold_left].
  - split; [now left|]. intros z [<-|[]]. lia.
  - destruct (IH (Nat.max x y)) as [Hin Hle]. split.
    + destruct Hin as [Hin|Hin]; [|right; now right].
      destruct (Nat.max_spec x y) as [[_ Hm]|[_ Hm]]; rewrite Hm in *.
      * right. now left.
      * now left.
    + intros z [<-|[<-|Hz]].
      * specialize (Hle _ (or_introl eq_refl)). lia.
      * specialize (Hle _ (or_introl eq_refl)). lia.
      * apply Hle. now right.
Qed.

Lemma Forall2_map_left {A B C} (R : B -> C -> Prop) (f : A -> B)
  (l : list A) (l' : list C) :
  Forall2 R (map f l) l' <-> Forall2 (fun x y => R (f x) y) l l'.
Proof.
  revert l'. induction l as [|x l IH]; intros l'; cbn [map].
  - split; intros H; inversion H; constructor.
  - split; intros H; inversion H; subst; constructor;
      try assumption; now apply IH.
Qed.

(** [weights_of] pairs every PCHID of the combination with its free
    capacity and its weight. *)
Lemma weights_of_spec (info : list (string * capacity)) (gs : list string)
  (ws : list (string * Z * Q)) :
  weights_of (free_count_in_pchid_info info) gs = Ok ws ->
  (forall g f q, In (g, f, q) ws <->
     In g gs /\ free_capacity info g = Some f
     /\ q = f # Pos.of_nat (uses gs g))
  /\ (forall g, In g gs -> free_capacity info g <> None).
Proof.
  unfold weights_of, comb_fcp_count_per_pchid. rewrite mapM_Ok, Forall2_map_left.
  cbn [fst snd]. fold (uses gs). unfold free_capacity.
  intros H.
  assert (Hgen : forall g f q, In (g, f, q) ws <->
     In g (distinct String.eqb gs)
     /\ dict_get String.eqb g (free_count_in_pchid_info info) = Some f
     /\ q = f # Pos.of_nat (uses gs g)).
  { induction H as [|g0 w l ws Hw H IH]; intros g f q.
    - split; [intros [] | intros [[] _]].
    - unfold getitem in Hw.
      destruct (dict_get String.eqb g0 _) as [f0|] eqn:E; [|discriminate].
      cbn [rbind] in Hw. injection Hw as <-. cbn [In]. rewrite IH. split.
      + intros [Heq|[Hin [Hf Hq]]].
        * injection Heq as <- <- <-. repeat split; [now left | assumption].
        * repeat split; [now right | assumption | assumption].
      + intros [[<-|Hin] [Hf Hq]].
        * left. rewrite E in Hf. injection Hf as <-. now rewrite Hq.
        * right. now repeat split. }
  split.
  - intros g f q. rewrite Hgen, distinct_In. reflexivity.
  - intros g Hg. apply (proj2 (distinct_In g gs)) in Hg.
    clear Hgen. induction H as [|g0 w l ws Hw H IH]; [destruct Hg|].
    destruct Hg as [<-|Hg]; [|now apply IH].
    unfold getitem in Hw. destruct (dict_get String.eqb g0 _); discriminate.
Qed.

Lemma weights_of_total (info : list (string * capacity)) (gs : list string) :
  (forall g, In g gs -> free_capacity info g <> None) ->
  exists ws, weights_of (free_count_in_pchid_info info) gs = Ok ws.
Proof.
  intros H. unfold weights_of. apply mapM_total. intros [g n] Hin.
  unfold comb_fcp_count_per_pchid in Hin. apply in_map_iff in Hin.
  destruct Hin as [g' [Heq Hg']]. injection Heq as <- <-.
  apply (proj1 (distinct_In g' gs)) in Hg'. specialize (H _ Hg'). unfold free_capacity in H.
  cbn [fst snd]. unfold getitem.
  destruct (dict_get String.eqb g' _) as [f|]; [|now contradiction H].
  cbn [rbind]. now eexists.
Qed.

Lemma dict_set_In {V} (k k' : string) (v v' : V) (d : list (string * V)) :
  NoDup (map fst d) ->
  NoDup (map fst (dict_set String.eqb k' v' d))
  /\ (In (k, v) (dict_set String.eqb k' v' d)
      <-> (k = k' /\ v = v') \/ (k <> k' /\ In (k, v) d)).
Proof.
  induction d as [|[k0 v0] d IH]; intros Hnd; cbn [dict_set].
  - split; [constructor; [intros [] | constructor]|]. cbn [In]. split.
    + intros [H|[]]. injection H as <- <-. now left.
    + intros [[-> ->]|[_ []]]. now left.
  - cbn [map fst] in Hnd. inversion Hnd as [|? ? Hk Hnd']; subst.
    destruct (String.eqb_spec k0 k') as [->|Hne].
    + split; [exact Hnd|]. cbn [In]. split.
      * intros [H|H].
        -- injection H as <- <-. now left.
        -- right. split; [|now right]. intros ->. apply Hk.
           apply in_map_iff. now exists (k', v).
      * intros [[-> ->]|[Hne [H|H]]].
        -- now left.
        -- injection H as -> _. now contradiction Hne.
        -- now right.
    + destruct (IH Hnd') as [Hnd'' Hin]. split.
      * cbn [map fst]. constructor; [|assumption].
        rewrite dict_set_keys. intros [->|H]; [now apply Hne | now apply Hk].
      * cbn [In]. rewrite Hin. split.
        -- intros [H|[[-> ->]|[Hk' H]]].
           ++ injection H as <- <-. right. split; [assumption | now left].
           ++ now left.
           ++ right. split; [assumption | now right].
        -- intros [[-> ->]|[Hk' [H|H]]].
           ++ right. now left.
           ++ now left.
           ++ right. right. now split.
Qed.

Section Weights.

Variable pchid_info : list (string * capacity).

(** The PCHIDs recorded by one pass over the weights of a combination. *)
Lemma record_without_enough_free_cap_spec (ws : list (string * Z * Q))
  (bad : list (string * Z)) :
  NoDup (map fst bad) ->
  (forall g f, In (g, f) bad -> free_capacity pchid_info g = Some f) ->
  (forall g f q, In (g, f, q) ws -> free_capacity pchid_info g = Some f) ->
  let bad' := record_without_enough_free_cap ws bad in
  NoDup (map fst bad')
  /\ (forall g f, In (g, f) bad'
                  <-> In (g, f) bad
                      \/ exists q, In (g, f, q) ws /\ (q < 1)%Q).
Proof.
  cbv zeta. unfold record_without_enough_free_cap. revert bad.
  induction ws as [|[[g0 f0] q0] ws IH]; intros bad Hnd Hbad Hws; cbn [fold_left].
  - split; [assumption|]. intros g f. split; [now left|].
    intros [H|[q [[] _]]]. exact H.
  - assert (Hws' : forall g f q, In (g, f, q) ws ->
                                 free_capacity pchid_info g = Some f)
      by (intros g f q H; apply (Hws g f q); now right).
    assert (Hf0 : free_capacity pchid_info g0 = Some f0)
      by (apply (Hws g0 f0 q0); now left).
    destruct (Qlt_bool q0 1) eqn:E.
    + destruct (@dict_set_In _ g0 g0 f0 f0 bad Hnd) as [Hnd' _].
      destruct (IH (dict_set String.eqb g0 f0 bad) Hnd') as [Hnd'' Hin];
        [|assumption|].
      { intros g f H. apply (@dict_set_In _ g g0 f f0 bad Hnd) in H.
        destruct H as [[-> ->]|[_ H]]; [assumption | now apply Hbad]. }
      split; [assumption|]. intros g f. rewrite Hin. split.
      * intros [H|[q [Hq Hlt]]].
        -- apply (@dict_set_In _ g g0 f f0 bad Hnd) in H.
           destruct H as [[-> ->]|[_ H]]; [|now left].
           right. exists q0. split; [now left | now apply Qlt_bool_iff].
        -- right. exists q. split; [now right | assumption].
      * intros [H|[q [[Heq|Hq] Hlt]]].
        -- left. apply (@dict_set_In _ g g0 f f0 bad Hnd).
           destruct (string_dec g g0) as [->|Hne]; [|right; now split].
           left. split; [reflexivity|]. apply Hbad in H. congruence.
        -- injection Heq as <- <- <-. left.
           apply (@dict_set_In _ g0 g0 f0 f0 bad Hnd). now left.
        -- right. now exists q.
    + destruct (IH bad Hnd Hbad Hws') as [Hnd' Hin]. split; [assumption|].
      intros g f. rewrite Hin. split.
      * intros [H|[q [Hq Hlt]]]; [now left|]. right. exists q.
        split; [now right | assumption].
      * intros [H|[q [[Heq|Hq] Hlt]]]; [now left | | right; now exists q].
        injection Heq as <- <- <-. apply Qlt_bool_iff in Hlt. congruence.
Qed.

(** One combination weighed: its weight is the minimum of the weights of
    its PCHIDs, and the PCHIDs of weight below 1 are recorded. *)
Lemma weigh_spec (gs : list string) (bad bad' : list (string * Z)) (w : Q) :
  NoDup (map fst bad) ->
  (forall g f, In (g, f) bad -> free_capacity pchid_info g = Some f) ->
  weigh (free_count_in_pchid_info pchid_info) gs bad = Ok (w, bad') ->
  is_weight pchid_info gs w
  /\ NoDup (map fst bad')
  /\ (forall g f, In (g, f) bad'
                  <-> In (g, f) bad
                      \/ (In g gs /\ free_capacity pchid_info g = Some f
                          /\ (f # Pos.of_nat (uses gs g) < 1)%Q)).
Proof.
  intros Hnd Hbad. unfold weigh.
  destruct (weights_of _ gs) as [ws|] eqn:Ews; [|discriminate]. cbn [rbind].
  destruct (py_min (map snd ws)) as [w'|] eqn:Emin; [|discriminate].
  cbn [rbind]. intros H. injection H as <- <-.
  destruct (weights_of_spec _ _ Ews) as [Hws Hcov].
  destruct (@record_without_enough_free_cap_spec ws bad Hnd Hbad) as [Hnd' Hin].
  { intros g f q H. now apply Hws in H. }
  destruct (py_min_spec _ Emin) as [Hmem Hle]. split; [|split].
  - split.
    + intros g Hg. specialize (Hcov g Hg).
      destruct (free_capacity pchid_info g) as [f|] eqn:Ef; [|now contradiction Hcov].
      exists (f # Pos.of_nat (uses gs g)). unfold group_weight. rewrite Ef.
      split; [reflexivity|]. apply Hle. apply in_map_iff.
      exists (g, f, f # Pos.of_nat (uses gs g)). split; [reflexivity|].
      apply Hws. now repeat split.
    + apply in_map_iff in Hmem. destruct Hmem as [[[g f] q] [Hq Hin']].
      cbn [snd] in Hq. subst q. apply Hws in Hin'.
      destruct Hin' as [Hg [Hf Hq]]. exists g. split; [assumption|].
      unfold group_weight. rewrite Hf. cbn [option_map]. now rewrite Hq.
  - exact Hnd'.
  - intros g f. rewrite Hin. split.
    + intros [H|[q [Hq Hlt]]]; [now left|]. right. apply Hws in Hq.
      destruct Hq as [Hg [Hf ->]]. now repeat split.
    + intros [H|[Hg [Hf Hlt]]]; [now left|]. right.
      exists (f # Pos.of_nat (uses gs g)). split; [|assumption].
      apply Hws. now repeat split.
Qed.

Lemma weigh_total (gs : list string) (bad : list (string * Z)) (w : Q) :
  is_weight pchid_info gs w ->
  exists w' bad',
    weigh (free_count_in_pchid_info pchid_info) gs bad = Ok (w', bad').
Proof.
  intros [Hall [g [Hg Hw]]]. unfold weigh.
  destruct (@weights_of_total pchid_info gs) as [ws Hws].
  { intros g' Hg'. destruct (Hall g' Hg') as [q [Hq _]].
    unfold group_weight in Hq.
    destruct (free_capacity pchid_info g'); [discriminate | discriminate]. }
  rewrite Hws. cbn [rbind].
  destruct (weights_of_spec _ _ Hws) as [Hspec _].
  unfold group_weight in Hw.
  destruct (free_capacity pchid_info g) as [f|] eqn:Ef; [|discriminate].
  assert (Hin : In (g, f, f # Pos.of_nat (uses gs g)) ws)
    by (apply Hspec; now repeat split).
  destruct ws as [|x ws]; [destruct Hin|]. cbn [map py_min rbind].
  now eexists _, _.
Qed.

(** Two weights of one combination agree. *)
Lemma is_weight_le (gs : list string) (w w' : Q) :
  is_weight pchid_info gs w -> is_weight pchid_info gs w' -> (w <= w')%Q.
Proof.
  intros [Hall _] [_ [g [Hg Hw']]]. destruct (Hall g Hg) as [q [Hq Hle]].
  rewrite Hw' in Hq. now injection Hq as <-.
Qed.

End Weights.

Section CalculateWeight.

Variable pchid_info : list (string * capacity).

Lemma _calculate_weight_raise (cs : list comb) (e : exn)
  (step : res (list (comb * Q) * list (string * Z)) -> comb ->
          res (list (comb * Q) * list (string * Z))) :
  (forall c, step (Raise e) c = Raise e) ->
  fold_left step cs (Raise e) = Raise e.
Proof.
  intros H. induction cs as [|c cs IH]; [reflexivity|].
  cbn [fold_left]. now rewrite H.
Qed.

(** The loop of [_calculate_weight], from any turn on. *)
Lemma _calculate_weight_fold (cs : list comb) (done ws : list (comb * Q))
  (bad0 bad : list (string * Z)) :
  NoDup (map fst bad0) ->
  (forall g f, In (g, f) bad0 <-> shortfall pchid_info (map fst done) g f) ->
  Forall (fun cw => is_weight pchid_info (map snd (fst cw)) (snd cw)) done ->
  fold_left
    (fun acc c =>
       st <~ acc ;;
       let '(done, without) := st in
       ww <~ weigh (free_count_in_pchid_info pchid_info) (map snd c) without ;;
       Ok (done ++ [(c, fst ww)], snd ww))
    cs (Ok (done, bad0)) = Ok (ws, bad) ->
  map fst ws = map fst done ++ cs
  /\ Forall (fun cw => is_weight pchid_info (map snd (fst cw)) (snd cw)) ws
  /\ (forall g f, In (g, f) bad <-> shortfall pchid_info (map fst ws) g f).
Proof.
  revert done bad0. induction cs as [|c cs IH]; intros done bad0 Hnd Hbad Hdone;
    cbn [fold_left].
  - intros H. injection H as <- <-. rewrite app_nil_r.
    split; [reflexivity | split; assumption].
  - cbn [rbind].
    destruct (weigh (free_count_in_pchid_info pchid_info) (map snd c) bad0)
      as [[w bad1]|e] eqn:Ew; cbn [rbind fst snd].
    2:{ rewrite _calculate_weight_raise; [discriminate | reflexivity]. }
    assert (Hcons : forall g f, In (g, f) bad0 ->
                                free_capacity pchid_info g = Some f)
      by (intros g f H; apply Hbad in H; exact (proj1 H)).
    destruct (@weigh_spec pchid_info _ _ _ _ Hnd Hcons Ew) as [Hw [Hnd1 Hbad1]].
    intros Hfold.
    assert (H1 : forall g f, In (g, f) bad1
                   <-> shortfall pchid_info (map fst (done ++ [(c, w)])) g f).
    { intros g f. rewrite Hbad1, Hbad, map_app. cbn [map fst].
      unfold shortfall. split.
      * intros [[Hf [c' [Hc' H]]]|[Hg [Hf Hlt]]].
        -- split; [assumption|]. exists c'. split; [|assumption].
           apply in_app_iff. now left.
        -- split; [assumption|]. exists c. split; [|now split].
           apply in_app_iff. right. now left.
      * intros [Hf [c' [Hc' [Hg Hlt]]]]. apply in_app_iff in Hc'.
        destruct Hc' as [Hc'|[<-|[]]].
        -- left. split; [assumption|]. now exists c'.
        -- right. now repeat split. }
    assert (H2 : Forall (fun cw => is_weight pchid_info (map snd (fst cw))
                                             (snd cw)) (done ++ [(c, w)])).
    { apply Forall_app. split; [assumption|].
      constructor; [assumption | constructor]. }
    destruct (IH _ _ Hnd1 H1 H2 Hfold) as [Hfst [Hall Hsh]].
    rewrite map_app, <- app_assoc in Hfst.
    split; [exact Hfst | split; assumption].
Qed.

(** [_calculate_weight]: every combination gets its weight, and the PCHIDs
    recorded are those short in some combination. *)
Lemma _calculate_weight_spec (cs : list comb) (ws : list (comb * Q))
  (bad : list (string * Z)) :
  _calculate_weight pchid_info cs [] = Ok (ws, bad) ->
  map fst ws = cs
  /\ Forall (fun cw => is_weight pchid_info (map snd (fst cw)) (snd cw)) ws
  /\ (forall g f, In (g, f) bad <-> shortfall pchid_info cs g f).
Proof.
  unfold _calculate_weight. intros H.
  destruct (@_calculate_weight_fold cs [] ws [] bad) as [Hfst [Hall Hsh]];
    try assumption.
  - constructor.
  - intros g f. unfold shortfall. split; [intros [] | intros [_ [c [[] _]]]].
  - constructor.
  - cbn [map app] in Hfst. rewrite Hfst in Hsh.
    split; [exact Hfst | split; assumption].
Qed.

Lemma _calculate_weight_total (cs : list comb) :
  (forall c, In c cs -> exists w, is_weight pchid_info (map snd c) w) ->
  exists ws bad, _calculate_weight pchid_info cs [] = Ok (ws, bad).
Proof.
  unfold _calculate_weight. intros H.
  assert (Hgen : forall (done : list (comb * Q)) (bad : list (string * Z)),
    exists ws bad',
      fold_left
        (fun acc c =>
           st <~ acc ;;
           let '(done, without) := st in
           ww <~ weigh (free_count_in_pchid_info pchid_info) (map snd c)
                       without ;;
           Ok (done ++ [(c, fst ww)], snd ww))
        cs (Ok (done, bad)) = Ok (ws, bad')).
  { induction cs as [|c cs IH]; intros done bad; cbn [fold_left].
    - now eexists _, _.
    - destruct (H c (or_introl eq_refl)) as [w Hw].
      destruct (@weigh_total pchid_info (map snd c) bad w Hw)
        as [w' [bad' Hweigh]].
      cbn [rbind]. rewrite Hweigh. cbn [rbind fst snd].
      apply IH. intros c' Hc'. apply H. now right. }
  apply Hgen.
Qed.

End CalculateWeight.

(** *** The two filters of Strategy B *)

Lemma select_stages (valid : list (comb * Q)) :
  valid <> [] ->
  exists heaviest spread,
    _select_max_weight valid = Ok heaviest
    /\ _select_most_distributed_pchids heaviest = Ok spread
    /\ spread <> []
    /\ forall c, In c spread ->
         exists w, In (c, w) valid
           /\ (forall c' w', In (c', w') valid -> (w' <= w)%Q)
           /\ (forall c' w', In (c', w') valid -> (w' == w)%Q ->
                 (pchid_count c' <= pchid_count c)%nat).
Proof.
  intros Hne. unfold _select_max_weight, _select_most_distributed_pchids.
  destruct (py_max (map snd valid)) as [mx|e] eqn:Emx.
  2:{ destruct valid; [now contradiction Hne | discriminate Emx]. }
  destruct (py_max_spec _ Emx) as [Hmx Hub]. cbn [rbind].
  set (heaviest := filter (fun c => Qeq_bool (snd c) mx) valid).
  assert (Hh : forall c w, In (c, w) heaviest <-> In (c, w) valid /\ (w == mx)%Q).
  { intros c w. unfold heaviest. rewrite filter_In. cbn [snd].
    now rewrite Qeq_bool_iff. }
  assert (Hhne : heaviest <> []).
  { apply in_map_iff in Hmx. destruct Hmx as [[c w] [Hw Hin]]. cbn [snd] in Hw.
    subst w. assert (H : In (c, mx) heaviest) by (apply Hh; split;
      [assumption | apply Qeq_refl]).
    intros E. rewrite E in H. destruct H. }
  destruct (py_max_nat (map pchid_count (map fst heaviest))) as [mc|e] eqn:Emc.
  2:{ destruct heaviest; [now contradiction Hhne | discriminate Emc]. }
  destruct (py_max_nat_spec _ Emc) as [Hmc Hubc].
  exists heaviest. rewrite Emc. cbn [rbind].
  eexists. split; [reflexivity|]. split; [reflexivity|]. split.
  - apply in_map_iff in Hmc. destruct Hmc as [c [Hc Hin]].
    assert (H : In c (filter (fun c0 => (pchid_count c0 =? mc)%nat)
                             (map fst heaviest)))
      by (apply filter_In; split; [assumption | now apply Nat.eqb_eq]).
    intros E. rewrite E in H. destruct H.
  - intros c Hc. apply filter_In in Hc. destruct Hc as [Hc Hcnt].
    apply Nat.eqb_eq in Hcnt. apply in_map_iff in Hc.
    destruct Hc as [[c0 w] [Heq Hin]]. cbn [fst] in Heq. subst c0.
    apply Hh in Hin. destruct Hin as [Hin Hw]. exists w.
    split; [assumption|]. split.
    + intros c' w' Hin'. rewrite Hw. apply Hub. apply in_map_iff.
      now exists (c', w').
    + intros c' w' Hin' Heq. rewrite Hcnt. apply Hubc.
      apply in_map, in_map_iff. exists (c', w'). split; [reflexivity|].
      apply Hh. split; [assumption|]. now rewrite Heq.
Qed.

Lemma _remove_invalid_weight_In (ws : list (comb * Q)) (c : comb) (w : Q) :
  In (c, w) (_remove_invalid_weight ws) <-> In (c, w) ws /\ (1 <= w)%Q.
Proof.
  unfold _remove_invalid_weight. rewrite filter_In. cbn [snd].
  now rewrite negb_true_iff, Qlt_bool_false.
Qed.

(** *** One device per chosen path *)

Lemma upper_upper_ascii (c : ascii) :
  Str.upper_ascii (Str.upper_ascii c) = Str.upper_ascii c.
Proof. destruct c as [[] [] [] [] [] [] [] []]; reflexivity. Qed.

Lemma upper_upper (s : string) : Str.upper (Str.upper s) = Str.upper s.
Proof.
  induction s as [|c s IH]; [reflexivity|].
  cbn [Str.upper]. now rewrite upper_upper_ascii, IH.
Qed.

Lemma choose_each_Ok {A} (rand : nat -> nat) (n : nat) (ls : list (list A))
  (xs : list A) :
  choose_each rand n ls = Ok xs -> Forall2 (fun x l => In x l) xs ls.
Proof.
  revert n xs. induction ls as [|l ls IH]; intros n xs; cbn [choose_each].
  - intros H. injection H as <-. constructor.
  - destruct (choice (rand n) l) as [x|] eqn:Ec; cbn [rbind]; [|discriminate].
    destruct (choose_each rand (S n) ls) as [ys|] eqn:Er; cbn [rbind];
      [|discriminate].
    intros H. injection H as <-. constructor.
    + now apply choice_Ok_In in Ec.
    + now apply (IH (S n)).
Qed.

Lemma choose_each_total {A} (rand : nat -> nat) (n : nat) (ls : list (list A)) :
  Forall (fun l => l <> []) ls -> exists xs, choose_each rand n ls = Ok xs.
Proof.
  revert n. induction ls as [|l ls IH]; intros n H; cbn [choose_each].
  - now eexists.
  - inversion H as [|? ? Hl Hls]; subst.
    destruct (@choice_In _ (rand n) l Hl) as [x [Hx _]]. rewrite Hx.
    destruct (IH (S n) Hls) as [xs Hxs]. rewrite Hxs. cbn [rbind]. now eexists.
Qed.

Lemma dict_append_map {V} (k : Z) (v : V) (D : list (Z * list V)) :
  NoDup (map fst D) -> In k (map fst D) ->
  dict_append k v D
  = Ok (map (fun e => if fst e =? k then (fst e, snd e ++ [v]) else e) D).
Proof.
  induction D as [|[k0 l0] D IH]; intros Hnd Hin; [destruct Hin|].
  cbn [dict_append map fst snd]. cbn [map fst] in Hnd, Hin.
  inversion Hnd as [|? ? Hk Hnd']; subst.
  destruct (Z.eqb_spec k0 k) as [->|Hne].
  - f_equal. f_equal. rewrite <- (map_id D) at 1. apply map_ext_in.
    intros [k1 l1] H1. cbn [fst snd].
    destruct (Z.eqb_spec k1 k) as [->|]; [|reflexivity].
    exfalso. apply Hk. apply in_map_iff. now exists (k, l1).
  - destruct Hin as [->|Hin]; [now contradiction Hne|].
    rewrite (IH Hnd' Hin). reflexivity.
Qed.

Lemma NoDup_fst_inj {K V} (l : list (K * V)) (k : K) (v v' : V) :
  NoDup (map fst l) -> In (k, v) l -> In (k, v') l -> v = v'.
Proof.
  induction l as [|[a b] l IH]; intros Hnd Hv Hv'; [destruct Hv|].
  cbn [map fst] in Hnd. inversion Hnd as [|? ? Ha Hl]; subst.
  destruct Hv as [E1|Hv], Hv' as [E2|Hv'].
  - congruence.
  - injection E1 as -> ->. exfalso. apply Ha. apply in_map_iff.
    now exists (k, v').
  - injection E2 as -> ->. exfalso. apply Ha. apply in_map_iff.
    now exists (k, v).
  - now apply IH.
Qed.

Lemma Forall2_map_eq {A B} (f : A -> B) (P : A -> B -> Prop)
  (xs : list A) (ys : list B) :
  Forall2 P xs ys -> (forall x y, In y ys -> P x y -> f x = y) ->
  map f xs = ys.
Proof.
  intros H. induction H as [|x y xs ys Hxy H IH]; intros Hf; [reflexivity|].
  cbn [map]. f_equal.
  - apply Hf; [now left | assumption].
  - apply IH. intros x' y' Hy'. apply Hf. now right.
Qed.

Lemma Forall2_In_l {A B} (P : A -> B -> Prop) (xs : list A) (ys : list B) :
  Forall2 P xs ys -> forall x, In x xs -> exists y, In y ys /\ P x y.
Proof.
  intros H. induction H as [|x y xs ys Hxy H IH]; intros x' Hin; [destruct Hin|].
  destruct Hin as [<-|Hin].
  - exists y. split; [now left | assumption].
  - destruct (IH x' Hin) as [y' [Hy' Hp]]. exists y'. split; [now right | assumption].
Qed.

(** [tmp_dict]: the rows of [fcps], as devices, by path. *)
Lemma tmp_dict_spec (fcps : list (tf_row * fcp_row))
  (D : list (Z * list fcp_item)) :
  NoDup (map fst D) ->
  (forall f, In f fcps -> In (tf_path (fst f)) (map fst D)) ->
  fold_left
    (fun acc f => dct <~ acc ;; dict_append (tf_path (fst f)) (item_of f) dct)
    fcps (Ok D)
  = Ok (map (fun e =>
               (fst e,
                snd e ++ map item_of
                           (filter (fun f => tf_path (fst f) =? fst e) fcps)))
            D).
Proof.
  revert D. induction fcps as [|f fcps IH]; intros D Hnd Hin; cbn [fold_left].
  - f_equal. rewrite <- (map_id D) at 1. apply map_ext. intros [k l].
    cbn. now rewrite app_nil_r.
  - cbn [rbind]. rewrite dict_append_map;
      [|assumption | apply Hin; now left].
    rewrite IH.
    + f_equal. rewrite map_map. apply map_ext. intros [k l]. cbn [fst snd filter].
      rewrite (Z.eqb_sym (tf_path (fst f)) k).
      destruct (k =? tf_path (fst f)); cbn [fst snd map].
      * now rewrite <- app_assoc.
      * reflexivity.
    + rewrite map_map.
      replace (map (fun x => fst (if fst x =? tf_path (fst f)
                                  then (fst x, snd x ++ [item_of f]) else x)) D)
        with (map fst D); [assumption|].
      apply map_ext. intros [k l]. cbn [fst snd].
      now destruct (k =? tf_path (fst f)).
    + intros f' Hf'. rewrite map_map.
      replace (map (fun x => fst (if fst x =? tf_path (fst f)
                                  then (fst x, snd x ++ [item_of f]) else x)) D)
        with (map fst D); [apply Hin; now right|].
      apply map_ext. intros [k l]. cbn [fst snd].
      now destruct (k =? tf_path (fst f)).
Qed.

(** [_get_one_random_fcp_combinations] returns, for every path of the
    chosen combination, an available device of the template from the
    PCHID chosen for the path. *)
Lemma _get_one_random_fcp_combinations_spec (t : string) (final : comb)
  (rand : nat -> nat) (d : tables) :
  final <> [] ->
  NoDup (map fst final) ->
  Forall (fun pg => free_on t d (fst pg) (snd pg)) final ->
  exists devices,
    _get_one_random_fcp_combinations t final rand d = Ok devices
    /\ map (fun it => (i_path it, i_pchid it)) devices = final
    /\ forall it, In it devices ->
         exists r, In r (free_rows t d) /\ it = item_of r.
Proof.
  intros Hne Hnd Hfree. unfold _get_one_random_fcp_combinations.
  destruct final as [|pg0 final0] eqn:Efinal; [now contradiction Hne|].
  rewrite <- Efinal in *. clear Hne.
  set (fcps := sort_by _ _).
  assert (Hfcps : forall f, In f fcps <->
            In f (free_rows t d)
            /\ existsb (fun pp => (tf_path (fst f) =? fst pp)
                                  && (pchid (snd f) =~ snd pp)) final = true).
  { intros f. unfold fcps. now rewrite sort_by_In, filter_In. }
  rewrite tmp_dict_spec.
  2:{ rewrite map_map. cbn [fst]. exact Hnd. }
  2:{ intros f Hf. apply Hfcps in Hf. destruct Hf as [_ Hex].
      apply existsb_exists in Hex. destruct Hex as [pp [Hpp Hm]].
      apply andb_true_iff in Hm. destruct Hm as [Hp _]. apply Z.eqb_eq in Hp.
      rewrite map_map. cbn [fst]. rewrite Hp. now apply in_map. }
  cbn [rbind]. rewrite !map_map. cbn [fst snd app].
  set (L := fun pg : Z * string =>
              map item_of (filter (fun f => tf_path (fst f) =? fst pg) fcps)).
  (* what a device listed for a path looks like *)
  assert (HL : forall pg it, In pg final -> In it (L pg) ->
            (i_path it, i_pchid it) = pg
            /\ exists r, In r (free_rows t d) /\ it = item_of r).
  { intros [p g] it Hpg Hit. unfold L in Hit. apply in_map_iff in Hit.
    destruct Hit as [f [<- Hf]]. apply filter_In in Hf. cbn [fst] in Hf.
    destruct Hf as [Hf Hp]. apply Z.eqb_eq in Hp. apply Hfcps in Hf.
    destruct Hf as [Hrow Hex]. split; [|now exists f].
    apply existsb_exists in Hex. destruct Hex as [[p' g'] [Hpp Hm]].
    cbn [fst snd] in Hm. apply andb_true_iff in Hm. destruct Hm as [Hp' Hg'].
    apply Z.eqb_eq in Hp'. apply nocase_eqb_upper in Hg'.
    assert (Heq : (p', g') = (p, g)).
    { assert (Hpe : p' = p) by congruence. rewrite Hpe in Hpp |- *. f_equal.
      exact (@NoDup_fst_inj _ _ final p g' g Hnd Hpp Hpg). }
    injection Heq as -> ->. cbn [item_of i_path i_pchid]. f_equal; [assumption|].
    rewrite Hg'. rewrite Forall_forall in Hfree.
    destruct (Hfree _ Hpg) as [r [_ [_ Hg]]]. cbn [snd] in Hg.
    rewrite <- Hg. apply upper_upper. }
  destruct (@choose_each_total _ rand 1%nat (map L final)) as [devices Hdev].
  { apply Forall_forall. intros l Hl. apply in_map_iff in Hl.
    destruct Hl as [[p g] [<- Hpg]]. rewrite Forall_forall in Hfree.
    destruct (Hfree _ Hpg) as [r [Hr [Hp Hg]]]. cbn [fst snd] in Hp, Hg.
    assert (Hin : In (item_of r) (L (p, g))).
    { unfold L. apply in_map, filter_In. cbn [fst]. split.
      - apply Hfcps. split; [assumption|]. apply existsb_exists.
        exists (p, g). split; [assumption|]. cbn [fst snd].
        rewrite Hp, Z.eqb_refl, <- Hg. cbn [andb]. apply nocase_eqb_upper_r.
      - now apply Z.eqb_eq. }
    intros E. rewrite E in Hin. destruct Hin. }
  exists devices. split; [exact Hdev|].
  apply choose_each_Ok in Hdev. apply Forall2_flip in Hdev.
  apply Forall2_map_left in Hdev. apply Forall2_flip in Hdev.
  split.
  - apply (Forall2_map_eq _ Hdev). intros it pg Hpg Hit. now apply HL.
  - intros it Hin. destruct (Forall2_In_l Hdev it Hin) as [pg [Hpg Hit]].
    now apply (HL pg it).
Qed.

(** *** The loop over the path counts *)

Section TryPathCounts.

Variable t : string.
Variable pchid_info : list (string * capacity).
Variable rand : nat -> nat.
Variable d : tables.

Let free := get_free_pchids_by_fcp_template t d.
Let idx := sort_by Z.leb (map fst free).

Lemma is_weight_nonempty (gs : list string) (w : Q) :
  is_weight pchid_info gs w -> gs <> [].
Proof. intros [_ [g [Hg _]]] E. rewrite E in Hg. destruct Hg. Qed.

Lemma candidate_free_on (k : nat) (c : comb) :
  candidate free k c -> Forall (fun pg => free_on t d (fst pg) (snd pg)) c.
Proof.
  intros [_ Hall]. apply Forall_forall. intros pg Hpg.
  rewrite Forall_forall in Hall.
  now apply (proj1 (proj2 (get_free_pchids_by_fcp_template_spec t d))), Hall.
Qed.

(** One turn of the loop.  A negative path count is refused by
    [itertools.combinations]. *)
Lemma try_path_counts_negative (k : Z) (rest : list Z)
  (wo : option (list (string * Z))) :
  k < 0 ->
  try_path_counts t pchid_info rand d free idx (k :: rest) wo = Raise ValueError.
Proof.
  intros Hk. cbn [try_path_counts]. unfold pchids_per_path_combinations_of.
  apply Z.ltb_lt in Hk. now rewrite Hk.
Qed.

Lemma try_path_counts_step (k : Z) (rest : list Z)
  (wo : option (list (string * Z))) :
  0 <= k ->
  (exists e, try_path_counts t pchid_info rand d free idx (k :: rest) wo
             = Raise e
             /\ ~ weighable pchid_info free k)
  \/ (exists bad,
        exhausted pchid_info free k
        /\ (forall g f, In (g, f) bad <-> short_at pchid_info free k g f)
        /\ try_path_counts t pchid_info rand d free idx (k :: rest) wo
           = try_path_counts t pchid_info rand d free idx rest (Some bad))
  \/ (exists bad final devices,
        weighable pchid_info free k
        /\ best pchid_info free k final
        /\ try_path_counts t pchid_info rand d free idx (k :: rest) wo
           = Ok (devices, Some bad)
        /\ map (fun it => (i_path it, i_pchid it)) devices = final
        /\ devices <> []
        /\ forall it, In it devices ->
             exists r, In r (free_rows t d) /\ it = item_of r).
Proof.
  intros Hk.
  destruct (get_free_pchids_by_fcp_template_spec t d) as [Hkeys [Hlisted Hne]].
  fold free in Hkeys, Hlisted, Hne.
  destruct (@pchids_per_path_combinations_of_spec free Hkeys k Hk)
    as [cs [Hcs Hcand]]. fold idx in Hcs.
  cbn [try_path_counts]. rewrite Hcs. cbn [rbind].
  destruct (_calculate_weight pchid_info cs []) as [[ws bad]|e] eqn:Ecalc.
  2:{ left. exists e. split; [reflexivity|]. intros Hw.
      destruct (@_calculate_weight_total pchid_info cs) as [ws [bad H]].
      - intros c Hc. apply Hw. now apply Hcand.
      - rewrite H in Ecalc. discriminate Ecalc. }
  cbn [rbind].
  destruct (_calculate_weight_spec _ _ Ecalc) as [Hfst [Hall Hbad]].
  assert (Hws : forall c w, In (c, w) ws ->
            candidate free (Z.to_nat k) c /\ is_weight pchid_info (map snd c) w).
  { intros c w Hin. rewrite Forall_forall in Hall. split.
    - apply Hcand. rewrite <- Hfst. apply in_map_iff. now exists (c, w).
    - exact (Hall _ Hin). }
  assert (Hws' : forall c, candidate free (Z.to_nat k) c ->
                           exists w, In (c, w) ws).
  { intros c Hc. apply Hcand in Hc. rewrite <- Hfst in Hc.
    apply in_map_iff in Hc. destruct Hc as [[c' w] [<- Hin]]. now exists w. }
  assert (Hweighable : weighable pchid_info free k).
  { intros c Hc. destruct (Hws' c Hc) as [w Hin]. exists w. now apply Hws. }
  assert (Hshort : forall g f, In (g, f) bad <-> short_at pchid_info free k g f).
  { intros g f. rewrite Hbad. unfold shortfall, short_at. split.
    - intros [Hf [c [Hc H]]]. split; [assumption|]. exists c.
      split; [now apply Hcand | assumption].
    - intros [Hf [c [Hc H]]]. split; [assumption|]. exists c.
      split; [now apply Hcand | assumption]. }
  destruct (_remove_invalid_weight ws) as [|v valid] eqn:Evalid.
  - right. left. exists bad. split; [|split; [assumption | reflexivity]].
    intros c Hc. destruct (Hws' c Hc) as [w Hin]. exists w.
    split; [now apply Hws|].
    destruct (Qlt_le_dec w 1) as [Hlt|Hle]; [assumption|]. exfalso.
    assert (H : In (c, w) (_remove_invalid_weight ws))
      by (apply _remove_invalid_weight_In; now split).
    rewrite Evalid in H. destruct H.
  - right. right.
    destruct (@select_stages (v :: valid))
      as [heaviest [spread [Hh [Hs [Hsne Hbest]]]]]; [discriminate|].
    rewrite Hh. cbn [rbind]. rewrite Hs. cbn [rbind].
    destruct (@choice_In _ (rand 0%nat) spread Hsne) as [final [Hch Hfin]].
    rewrite Hch. cbn [rbind].
    rewrite <- Evalid in Hbest.
    destruct (Hbest final Hfin) as [w [Hin [Hmax Hspread]]].
    apply _remove_invalid_weight_In in Hin. destruct Hin as [Hin Hle].
    destruct (Hws _ _ Hin) as [Hcandf Hwf].
    destruct (@candidate_paths free Hkeys _ _ Hcandf) as [Hlen Hnd].
    destruct (@_get_one_random_fcp_combinations_spec t final rand d)
      as [devices [Hdev [Hmap Havail]]].
    + apply (is_weight_nonempty) in Hwf. intros E. apply Hwf. now rewrite E.
    + exact Hnd.
    + now apply (@candidate_free_on (Z.to_nat k)).
    + rewrite Hdev. cbn [rbind]. exists bad, final, devices.
      split; [assumption|]. split; [|split; [reflexivity|]].
      * split; [assumption|]. exists w. split; [assumption|].
        split; [assumption|]. split.
        -- intros c w' Hc Hw'. destruct (Hws' c Hc) as [w'' Hin''].
           destruct (Hws _ _ Hin'') as [_ Hw''].
           destruct (Qlt_le_dec w'' 1) as [Hlt|Hge].
           ++ apply Qle_trans with w''; [now apply (@is_weight_le pchid_info (map snd c))|].
              apply Qle_trans with 1%Q; [now apply Qlt_le_weak | assumption].
           ++ apply Qle_trans with w''; [now apply (@is_weight_le pchid_info (map snd c))|].
              apply (Hmax c). apply _remove_invalid_weight_In. now split.
        -- intros c w' Hc Hw' Heq. destruct (Hws' c Hc) as [w'' Hin''].
           destruct (Hws _ _ Hin'') as [_ Hw''].
           assert (Hww : (w'' == w')%Q).
           { apply Qle_antisym;
               now apply (@is_weight_le pchid_info (map snd c)). }
           apply (Hspread c w'').
           ++ apply _remove_invalid_weight_In. split; [assumption|].
              rewrite Hww, Heq. assumption.
           ++ now rewrite Hww.
      * split; [assumption|]. split; [|assumption].
        intros E. rewrite E in Hmap. cbn in Hmap.
        apply is_weight_nonempty in Hwf. apply Hwf. now rewrite <- Hmap.
Qed.




(** A device list that is not empty comes from the first path count, in
    the order tried, that is not exhausted, and from a best candidate for
    it. *)
Lemma try_path_counts_inv (ks : list Z) (wo wo' : option (list (string * Z)))
  (devices : list fcp_item) :
  try_path_counts t pchid_info rand d free idx ks wo = Ok (devices, wo') ->
  devices <> [] ->
  exists ks1 k ks2 final,
    ks = ks1 ++ k :: ks2
    /\ (forall k', In k' ks1 -> exhausted pchid_info free k')
    /\ 0 <= k
    /\ weighable pchid_info free k
    /\ best pchid_info free k final
    /\ map (fun it => (i_path it, i_pchid it)) devices = final
    /\ forall it, In it devices ->
         exists r, In r (free_rows t d) /\ it = item_of r.
Proof.
  revert wo. induction ks as [|k rest IH]; intros wo Hrun Hne.
  - cbn in Hrun. injection Hrun as <- _. now contradiction Hne.
  - destruct (Z_lt_le_dec k 0) as [Hneg|Hk].
    { rewrite try_path_counts_negative in Hrun by assumption. discriminate. }
    destruct (@try_path_counts_step k rest wo Hk)
      as [[e [He _]]|[[bad [Hex [_ Hstep]]]|[bad [final [dv [Hw [Hb [Hstep [Hmap [_ Hav]]]]]]]]]].
    + rewrite He in Hrun. discriminate.
    + rewrite Hstep in Hrun.
      destruct (IH _ Hrun Hne) as [ks1 [k0 [ks2 [final [-> [H1 H2]]]]]].
      exists (k :: ks1), k0, ks2, final. split; [reflexivity|].
      split; [|exact H2]. intros k' [<-|Hk']; [assumption | now apply H1].
    + rewrite Hstep in Hrun. injection Hrun as <- _.
      exists [], k, rest, final. split; [reflexivity|].
      split; [intros k' []|]. split; [assumption|]. split; [assumption|].
      split; [assumption|]. split; [assumption | exact Hav].
Qed.


End TryPathCounts.

(** *** [reversed(range(lo, hi))] *)

Lemma reversed_range_nil (lo hi : Z) : hi <= lo -> reversed_range lo hi = [].
Proof.
  intros H. unfold reversed_range.
  replace (Z.to_nat (hi - lo)) with O by lia. reflexivity.
Qed.

Lemma reversed_range_cons (lo hi : Z) :
  lo < hi -> reversed_range lo hi = (hi - 1) :: reversed_range lo (hi - 1).
Proof.
  intros H. unfold reversed_range.
  replace (Z.to_nat (hi - lo)) with (S (Z.to_nat (hi - 1 - lo))) by lia.
  cbn [seq map]. f_equal; [lia|]. rewrite <- seq_shift, map_map.
  apply map_ext. intros i. lia.
Qed.

Lemma reversed_range_In (lo hi k : Z) :
  In k (reversed_range lo hi) <-> lo <= k < hi.
Proof.
  unfold reversed_range. rewrite in_map_iff. split.
  - intros [i [<- Hi]]. apply in_seq in Hi. lia.
  - intros H. exists (Z.to_nat (hi - 1 - k)). split; [lia|].
    apply in_seq. lia.
Qed.

Lemma reversed_range_before (lo hi k : Z) (ks1 ks2 : list Z) :
  reversed_range lo hi = ks1 ++ k :: ks2 ->
  forall k', k < k' < hi -> In k' ks1.
Proof.
  revert hi. induction ks1 as [|a ks1 IH]; intros hi Heq k' Hk'.
  - exfalso. destruct (Z_lt_le_dec lo hi) as [Hlt|Hle].
    + rewrite reversed_range_cons in Heq by assumption. cbn [app] in Heq.
      injection Heq as Hk _. lia.
    + rewrite reversed_range_nil in Heq by assumption. discriminate.
  - destruct (Z_lt_le_dec lo hi) as [Hlt|Hle].
    + rewrite reversed_range_cons in Heq by assumption. cbn [app] in Heq.
      injection Heq as Ha Heq. destruct (Z.eq_dec k' (hi - 1)) as [->|Hne].
      * left. now symmetry.
      * right. apply (IH (hi - 1)); [now symmetry in Heq |- *; rewrite Heq | lia].
    + rewrite reversed_range_nil in Heq by assumption. discriminate.
Qed.



(** *** Strategy B as a whole *)




Section StrategyBTheorems.

Variable t : string.
Variable pchid_info : list (string * capacity).
Variable rand : nat -> nat.
Variable d : tables.

Lemma get_fcp_devices_loop (m : Z) :
  get_free_pchids_by_fcp_template t d <> [] ->
  get_min_fcp_paths_count t d = Ok m ->
  m <= Z.of_nat (List.length (get_free_pchids_by_fcp_template t d)) ->
  get_fcp_devices t pchid_info rand d
  = after_loop t
      (try_path_counts t pchid_info rand d
         (get_free_pchids_by_fcp_template t d)
         (sort_by Z.leb (map fst (get_free_pchids_by_fcp_template t d)))
         (reversed_range m
            (Z.of_nat (List.length (get_free_pchids_by_fcp_template t d)) + 1))
         None).
Proof.
  intros Hne Hm Hle. unfold get_fcp_devices, after_loop.
  destruct (get_free_pchids_by_fcp_template t d) as [|e l] eqn:Ef;
    [now contradiction Hne|].
  rewrite Hm. cbn [rbind]. apply Z.ltb_ge in Hle. rewrite Hle. reflexivity.
Qed.

(** A device list that is not empty has gone through the loop. *)
Lemma get_fcp_devices_inv (devices : list fcp_item) (r : reason) :
  get_fcp_devices t pchid_info rand d = Ok (devices, r) ->
  devices <> [] ->
  exists m wo,
    get_min_fcp_paths_count t d = Ok m
    /\ m <= Z.of_nat (List.length (get_free_pchids_by_fcp_template t d))
    /\ r = NoReason
    /\ try_path_counts t pchid_info rand d
         (get_free_pchids_by_fcp_template t d)
         (sort_by Z.leb (map fst (get_free_pchids_by_fcp_template t d)))
         (reversed_range m
            (Z.of_nat (List.length (get_free_pchids_by_fcp_template t d)) + 1))
         None
       = Ok (devices, wo).
Proof.
  intros Hrun Hne.
  destruct (get_free_pchids_by_fcp_template t d) as [|e l] eqn:Ef.
  { unfold get_fcp_devices in Hrun. rewrite Ef in Hrun.
    cbn in Hrun. injection Hrun as <- _. now contradiction Hne. }
  destruct (get_min_fcp_paths_count t d) as [m|e0] eqn:Em.
  2:{ unfold get_fcp_devices in Hrun.
      rewrite Ef, Em in Hrun. cbn in Hrun. discriminate Hrun. }
  destruct (Z_lt_le_dec (Z.of_nat (List.length (e :: l))) m) as [Hlt|Hle].
  { unfold get_fcp_devices in Hrun.
    rewrite Ef, Em in Hrun. cbn [rbind] in Hrun.
    apply Z.ltb_lt in Hlt. rewrite Hlt in Hrun. cbn in Hrun.
    injection Hrun as <- _. now contradiction Hne. }
  rewrite (@get_fcp_devices_loop m) in Hrun;
    [|rewrite Ef; discriminate | assumption | now rewrite Ef].
  rewrite Ef in Hrun. unfold after_loop in Hrun.
  destruct (try_path_counts _ _ _ _ _ _ _ _) as [[fcp_list wo]|e1] eqn:Et
    in Hrun; [|discriminate Hrun].
  cbn [rbind] in Hrun. exists m, wo.
  destruct fcp_list as [|it its].
  - destruct wo; cbn in Hrun; [|discriminate Hrun].
    injection Hrun as <- _. now contradiction Hne.
  - cbn in Hrun. injection Hrun as <- <-.
    split; [reflexivity|]. split; [assumption|]. split; [reflexivity|].
    exact Et.
Qed.

End StrategyBTheorems.

(** Every non-empty answer of Strategy B comes from the first path count,
    going down from the free path count, that is not exhausted; it is a best
    candidate for that count, made of available rows. *)
Lemma get_fcp_devices_sound (t : string) (pchid_info : list (string * capacity))
  (rand : nat -> nat) (d : tables) (devices : list fcp_item) (r : reason) :
  get_fcp_devices t pchid_info rand d = Ok (devices, r) ->
  devices <> [] ->
  exists m k final,
    get_min_fcp_paths_count t d = Ok m
    /\ m <= k <= Z.of_nat (List.length (get_free_pchids_by_fcp_template t d))
    /\ (forall k',
          k < k' <= Z.of_nat (List.length (get_free_pchids_by_fcp_template t d)) ->
          exhausted pchid_info (get_free_pchids_by_fcp_template t d) k')
    /\ 0 <= k
    /\ best pchid_info (get_free_pchids_by_fcp_template t d) k final
    /\ map (fun it => (i_path it, i_pchid it)) devices = final
    /\ r = NoReason
    /\ forall it, In it devices ->
         exists row, In row (free_rows t d) /\ it = item_of row.
Proof.
  intros Hrun Hne.
  destruct (@get_fcp_devices_inv t pchid_info rand d devices r Hrun Hne)
    as [m [wo [Hm [Hle [Hr Htry]]]]].
  destruct (@try_path_counts_inv t pchid_info rand d _ None wo devices Htry Hne)
    as [ks1 [k [ks2 [final [Eks [Hex [H0 [_ [Hbest [Hmap Hrows]]]]]]]]]].
  exists m, k, final.
  assert (Hk : In k (reversed_range m
            (Z.of_nat (List.length (get_free_pchids_by_fcp_template t d)) + 1))).
  { rewrite Eks. apply in_or_app. right. now left. }
  apply reversed_range_In in Hk.
  split; [exact Hm|]. split; [lia|]. split.
  { intros k' Hk'. apply Hex.
    apply (@reversed_range_before _ _ _ _ _ Eks k'). lia. }
  split; [exact H0|]. split; [exact Hbest|]. split; [exact Hmap|].
  split; [exact Hr | exact Hrows].
Qed.

(** The candidates and their weights, as the code computes them, decide
    whether a path count is weighable, exhausted or not. *)
Lemma candidates_by_run (pchid_info : list (string * capacity))
  (free : list (Z * list string)) (k : Z) (cs : list comb)
  (ws : list (comb * Q)) (bad : list (string * Z)) :
  NoDup (map fst free) -> 0 <= k ->
  pchids_per_path_combinations_of free (sort_by Z.leb (map fst free)) k = Ok cs ->
  _calculate_weight pchid_info cs [] = Ok (ws, bad) ->
  forall c, candidate free (Z.to_nat k) c <->
            exists w, In (c, w) ws /\ is_weight pchid_info (map snd c) w.
Proof.
  intros Hkeys H0 Hcs Hws c.
  destruct (@pchids_per_path_combinations_of_spec free Hkeys k H0)
    as [cs' [Hcs' Hcand]].
  rewrite Hcs in Hcs'. injection Hcs' as <-.
  destruct (@_calculate_weight_spec pchid_info cs ws bad Hws)
    as [Hfst [Hall _]].
  rewrite <- Hcand. rewrite Forall_forall in Hall. split.
  - intros Hc. rewrite <- Hfst in Hc. apply in_map_iff in Hc.
    destruct Hc as [[c' w] [E Hin]]. cbn in E. subst c'.
    exists w. split; [exact Hin|]. exact (Hall _ Hin).
  - intros [w [Hin _]]. rewrite <- Hfst.
    apply in_map_iff. now exists (c, w).
Qed.



Lemma not_exhausted_by_run (pchid_info : list (string * capacity))
  (free : list (Z * list string)) (k : Z) (cs : list comb)
  (ws : list (comb * Q)) (bad : list (string * Z)) :
  NoDup (map fst free) -> 0 <= k ->
  pchids_per_path_combinations_of free (sort_by Z.leb (map fst free)) k = Ok cs ->
  _calculate_weight pchid_info cs [] = Ok (ws, bad) ->
  _remove_invalid_weight ws <> [] ->
  ~ exhausted pchid_info free k.
Proof.
  intros Hkeys H0 Hcs Hws Hsome Hex.
  destruct (_remove_invalid_weight ws) as [|[c w] l] eqn:E;
    [now apply Hsome|].
  assert (Hin : In (c, w) (_remove_invalid_weight ws))
    by (rewrite E; now left).
  apply _remove_invalid_weight_In in Hin. destruct Hin as [Hin Hge].
  assert (Hc : candidate free (Z.to_nat k) c).
  { apply (@candidates_by_run pchid_info free k cs ws bad Hkeys H0 Hcs Hws).
    exists w. split; [exact Hin|].
    destruct (@_calculate_weight_spec pchid_info cs ws bad Hws)
      as [_ [Hall _]].
    rewrite Forall_forall in Hall. exact (Hall _ Hin). }
  destruct (Hex c Hc) as [w' [Hw' Hlt]].
  destruct (@_calculate_weight_spec pchid_info cs ws bad Hws) as [_ [Hall _]].
  rewrite Forall_forall in Hall. pose proof (Hall _ Hin) as Hw. cbn in Hw.
  pose proof (@is_weight_le pchid_info (map snd c) w w' Hw Hw') as Hle.
  apply (Qlt_irrefl 1). apply Qle_lt_trans with w; [exact Hge|].
  now apply Qle_lt_trans with w'.
Qed.




(** Strategy B returns available devices only. *)
Lemma get_fcp_devices_available (t : string)
  (pchid_info : list (string * capacity)) (rand : nat -> nat) (d : tables)
  (devices : list fcp_item) (r : reason) :
  get_fcp_devices t pchid_info rand d = Ok (devices, r) ->
  forall it, In it devices ->
    exists row, In row (inner_join d)
                /\ (tf_tmpl_id (fst row) =~ t) = true
                /\ available (snd row) = true
                /\ it = item_of row.
Proof.
  intros Hrun it Hit.
  assert (Hne : devices <> []) by (intros E; rewrite E in Hit; destruct Hit).
  destruct (@get_fcp_devices_sound t pchid_info rand d devices r Hrun Hne)
    as [m [k [final [_ [_ [_ [_ [_ [_ [_ Hrows]]]]]]]]]].
  destruct (Hrows it Hit) as [row [Hrow E]]. exists row.
  unfold free_rows in Hrow. apply filter_In in Hrow.
  destruct Hrow as [Hin Hb]. apply andb_true_iff in Hb.
  destruct Hb as [Ht Ha]. now repeat split.
Qed.



Lemma choice_singleton {A} (r : nat) (x : A) : choice r [x] = Ok x.
Proof. unfold choice. cbn [List.length]. now rewrite Nat.mod_1_r. Qed.

(** C2. Strategy A returns a device that is not available: on template
    ["T1"], whose device ["1a00"] is free, unreserved and unattached but
    has no NPIV WWPN, [get_fcp_devices_with_same_index] answers with
    ["1A00"] and an empty WWPN, whatever the random draw; Strategy B, on
    the same tables, does not return it. *)
Theorem get_fcp_devices_with_same_index_not_available (rand : nat -> nat) :
  exists devices,
    get_fcp_devices_with_same_index "T1" pchid_info_free rand tables_no_wwpn
    = Ok (devices, NoReason)
    /\ In (mk_item "1A00" "" "c05076de33002641" 0 "AAAA") devices
    /\ (forall row, In row (fcp tables_no_wwpn) ->
          Str.upper (fcp_id row) = "1A00" -> available row = false)
    /\ forall devices' r,
         get_fcp_devices "T1" pchid_info_free rand tables_no_wwpn
         = Ok (devices', r) ->
         ~ In "1A00" (map i_fcp_id devices').
Proof.
  exists [mk_item "1A00" "" "c05076de33002641" 0 "AAAA";
          mk_item "1B00" "c05076de33000357" "c05076de33002642" 1 "BBBB"].
  split; [|split; [now left | split]].
  - unfold get_fcp_devices_with_same_index.
    cbv -[choice]. rewrite choice_singleton. reflexivity.
  - intros row Hrow Hid. cbn in Hrow.
    destruct Hrow as [<-|[<-|[<-|[]]]];
      [reflexivity | discriminate Hid | discriminate Hid].
  - intros devices' r Hrun Hin. apply in_map_iff in Hin.
    destruct Hin as [it [Hid Hit]].
    destruct (@get_fcp_devices_available "T1" pchid_info_free rand
                tables_no_wwpn devices' r Hrun it Hit)
      as [row [Hrow [_ [Hav E]]]].
    subst it. cbn in Hrow.
    destruct Hrow as [<-|[<-|[<-|[]]]];
      [discriminate Hav | discriminate Hid | discriminate Hid].
Qed.

(** ** The other statements on table [fcp] *)

Lemma update_usage_of_fcp_run (i a : string) (r c : Z) (t : string) (w : conn) :
  in_transaction w = false ->
  update_usage_of_fcp i a r c t w
  = (Ok tt,
     mk_conn (update_fcp (fun x => fcp_id x =~ i) (set_usage a r c t) (db w))
             false (journal w)).
Proof.
  intros Hw. unfold update_usage_of_fcp.
  rewrite get_fcp_conn_outer by exact Hw. reflexivity.
Qed.

Lemma get_usage_of_fcp_run (i : string) (w : conn) :
  in_transaction w = false ->
  get_usage_of_fcp i w
  = match select_fcp i (db w) with
    | Some row =>
        (Ok (assigner_id row, reserved row, connections row, tmpl_id row),
         mk_conn (db w) false (journal w))
    | None =>
        (Raise SDKObjectNotExistError,
         mk_conn (db w) false ((journal w ++ [ERROR]) ++ [ERROR]))
    end.
Proof.
  intros Hw. unfold get_usage_of_fcp.
  rewrite get_fcp_conn_outer by exact Hw.
  unfold bind, query. cbn [db journal in_transaction].
  destruct (select_fcp i (db w)) as [row|]; reflexivity.
Qed.

Lemma select_fcp_update_key (i : string) (f : fcp_row -> fcp_row) (d : tables) :
  (forall r, fcp_id (f r) = fcp_id r) ->
  select_fcp i (update_fcp (fun x => fcp_id x =~ i) f d)
  = option_map f (select_fcp i d).
Proof.
  intros Hf. unfold select_fcp, update_fcp, set_fcp. cbn [fcp].
  apply (@find_update (fun x => fcp_id x =~ i) f (fcp d)).
  intros r. now rewrite Hf.
Qed.

Lemma update_fcp_none (cond : fcp_row -> bool) (f : fcp_row -> fcp_row)
  (d : tables) :
  (forall x, In x (fcp d) -> cond x = false) -> update_fcp cond f d = d.
Proof.
  intros H. destruct d as [fs ts ss ms]. unfold update_fcp, set_fcp.
  cbn [fcp template template_sp_mapping template_fcp_mapping] in *.
  f_equal. rewrite <- (map_id fs) at 2. apply map_ext_in.
  intros x Hx. now rewrite (H x Hx).
Qed.

(** X1. [update_usage_of_fcp] followed by [get_usage_of_fcp] gives back the
    values written when the device exists; on a device that does not exist
    the update changes nothing and the read raises the object-not-exist
    error.  Rows of other devices are left as they were. *)
Theorem update_usage_then_get_usage (i a : string) (r c : Z) (t : string)
  (w : conn) :
  in_transaction w = false ->
  let w1 := snd (update_usage_of_fcp i a r c t w) in
  fst (update_usage_of_fcp i a r c t w) = Ok tt
  /\ in_transaction w1 = false
  /\ (select_fcp i (db w) <> None ->
      fst (get_usage_of_fcp i w1) = Ok (a, r, c, t))
  /\ (select_fcp i (db w) = None ->
      db w1 = db w
      /\ fst (get_usage_of_fcp i w1) = Raise SDKObjectNotExistError)
  /\ (forall row, In row (fcp (db w)) -> (fcp_id row =~ i) = false ->
        In row (fcp (db w1))).
Proof.
  intros Hw. rewrite update_usage_of_fcp_run by exact Hw.
  cbn [fst snd]. split; [reflexivity|]. split; [reflexivity|].
  split; [|split].
  - intros Hex. rewrite get_usage_of_fcp_run by reflexivity.
    cbn [db]. rewrite select_fcp_update_key by reflexivity.
    destruct (select_fcp i (db w)) as [row|]; [reflexivity|].
    now contradiction Hex.
  - intros Hnone. cbn [db].
    assert (E : update_fcp (fun x => fcp_id x =~ i) (set_usage a r c t) (db w)
                = db w).
    { apply update_fcp_none. intros x Hx.
      exact (find_none _ _ Hnone x Hx). }
    split; [exact E|].
    rewrite get_usage_of_fcp_run by reflexivity. cbn [db].
    rewrite E, Hnone. reflexivity.
  - intros row Hrow Hid. cbn [db]. unfold update_fcp, set_fcp. cbn [fcp].
    apply in_map_iff. exists row. now rewrite Hid.
Qed.

Lemma update_usage_then_get_usage_witness :
  fst (get_usage_of_fcp "1A02"
         (snd (update_usage_of_fcp "1A02" "USER2" 1 2 "P" (idle tables_P))))
  = Ok ("USER2", 1, 2, "P").
Proof.
  apply (proj1 (proj2 (proj2 (@update_usage_then_get_usage
                  "1A02" "USER2" 1 2 "P" (idle tables_P) eq_refl)))).
  discriminate.
Defined.

Lemma fold_update_fcp_keeps {P B} (key : P -> string)
  (f : P -> fcp_row -> fcp_row) (g : fcp_row -> B) (ps : list P) (d : tables) :
  (forall p r, g (f p r) = g r) ->
  map g (fcp (fold_left
                (fun d p => update_fcp (fun r => fcp_id r =~ key p) (f p) d)
                ps d))
  = map g (fcp d).
Proof.
  intros Hg. revert d. induction ps as [|p ps IH]; intros d; [reflexivity|].
  cbn [fold_left]. rewrite IH. unfold update_fcp, set_fcp. cbn [fcp].
  rewrite map_map. apply map_ext. intros r.
  destruct (fcp_id r =~ key p); [apply Hg | reflexivity].
Qed.

Lemma fold_update_fcp_others {P} (key : P -> string)
  (f : P -> fcp_row -> fcp_row) (ps : list P) (d : tables) :
  let d' := fold_left
              (fun d p => update_fcp (fun r => fcp_id r =~ key p) (f p) d)
              ps d in
  template d' = template d
  /\ template_sp_mapping d' = template_sp_mapping d
  /\ template_fcp_mapping d' = template_fcp_mapping d.
Proof.
  revert d. induction ps as [|p ps IH]; intros d; [now repeat split|].
  cbn [fold_left]. cbv zeta in IH.
  destruct (IH (update_fcp (fun r => fcp_id r =~ key p) (f p) d))
    as [H1 [H2 H3]].
  rewrite H1, H2, H3. now repeat split.
Qed.

Lemma find_proj {B} (g : fcp_row -> B) (c : B -> bool) (l1 l2 : list fcp_row) :
  map g l1 = map g l2 ->
  option_map g (find (fun r => c (g r)) l1)
  = option_map g (find (fun r => c (g r)) l2).
Proof.
  revert l2. induction l1 as [|x l1 IH]; intros [|y l2] E;
    try discriminate E; [reflexivity|].
  cbn [map] in E. injection E as Exy E. cbn [find]. rewrite Exy.
  destruct (c (g y)); [cbn; now rewrite Exy | now apply IH].
Qed.

(** The key and the usage columns of a row decide what
    [get_usage_of_fcp] answers. *)
Lemma get_usage_of_fcp_proj (i : string) (w1 w2 : conn) :
  in_transaction w1 = false -> in_transaction w2 = false ->
  map (fun r => (fcp_id r,
                 (assigner_id r, reserved r, connections r, tmpl_id r)))
      (fcp (db w1))
  = map (fun r => (fcp_id r,
                   (assigner_id r, reserved r, connections r, tmpl_id r)))
        (fcp (db w2)) ->
  fst (get_usage_of_fcp i w1) = fst (get_usage_of_fcp i w2).
Proof.
  intros H1 H2 E.
  rewrite !get_usage_of_fcp_run by assumption. unfold select_fcp.
  pose proof (@find_proj _
                (fun r => (fcp_id r,
                   (assigner_id r, reserved r, connections r, tmpl_id r)))
                (fun b => fst b =~ i) _ _ E) as Hf.
  cbn [fst] in Hf.
  destruct (find (fun r => fcp_id r =~ i) (fcp (db w1))) as [r1|];
    destruct (find (fun r => fcp_id r =~ i) (fcp (db w2))) as [r2|];
    cbn in Hf; try discriminate Hf; [|reflexivity].
  injection Hf as _ Ha Hr Hc Ht. cbn [fst]. now rewrite Ha, Hr, Hc, Ht.
Qed.

(** X2. The two updates that bring the hypervisor's view into table [fcp],
    [bulk_update_zvm_fcp_info_in_fcp_table] and
    [bulk_update_state_in_fcp_table], always succeed, keep the rows and
    their ids in place and never change a usage column: for every device,
    [get_usage_of_fcp] answers after the update what it answered before.
    The other tables are left alone. *)
Theorem zvm_updates_keep_usage (fcp_info_list : list zvm_fcp_info)
  (fcp_id_list : list string) (new_state : string) (w : conn) :
  in_transaction w = false ->
  (forall w1,
     w1 = snd (bulk_update_zvm_fcp_info_in_fcp_table fcp_info_list w)
     \/ w1 = snd (bulk_update_state_in_fcp_table fcp_id_list new_state w) ->
     map fcp_id (fcp (db w1)) = map fcp_id (fcp (db w))
     /\ (forall i, fst (get_usage_of_fcp i w1) = fst (get_usage_of_fcp i w))
     /\ template (db w1) = template (db w)
     /\ template_sp_mapping (db w1) = template_sp_mapping (db w)
     /\ template_fcp_mapping (db w1) = template_fcp_mapping (db w))
  /\ fst (bulk_update_zvm_fcp_info_in_fcp_table fcp_info_list w) = Ok tt
  /\ fst (bulk_update_state_in_fcp_table fcp_id_list new_state w) = Ok tt.
Proof.
  intros Hw.
  unfold bulk_update_zvm_fcp_info_in_fcp_table, bulk_update_state_in_fcp_table.
  rewrite !get_fcp_conn_outer by exact Hw.
  rewrite !executemany_execute. cbn [fst snd db].
  split; [|split; reflexivity].
  intros w1 [E|E]; subst w1; cbn [db].
  - split; [apply (@fold_update_fcp_keeps _ _ info_fcp_id set_zvm_info fcp_id);
            now intros [[[[[[? ?] ?] ?] ?] ?] ?] ?|].
    split.
    + intros i. apply get_usage_of_fcp_proj; [reflexivity | exact Hw|].
      cbn [db].
      apply (@fold_update_fcp_keeps _ _ info_fcp_id set_zvm_info).
      now intros [[[[[[? ?] ?] ?] ?] ?] ?] ?.
    + apply (@fold_update_fcp_others _ info_fcp_id set_zvm_info).
  - split; [apply (@fold_update_fcp_keeps _ _ (fun i => i)
                     (fun _ => set_state new_state) fcp_id); reflexivity|].
    split.
    + intros i. apply get_usage_of_fcp_proj; [reflexivity | exact Hw|].
      cbn [db].
      apply (@fold_update_fcp_keeps _ _ (fun i => i)
               (fun _ => set_state new_state)).
      reflexivity.
    + apply (@fold_update_fcp_others _ (fun i => i)
               (fun _ => set_state new_state)).
Qed.

Lemma zvm_updates_keep_usage_witness :
  fst (get_usage_of_fcp "1b01"
         (snd (bulk_update_state_in_fcp_table ["1b01"] "notfound"
                 (idle tables_P_inuse))))
  = Ok ("USER1", 1, 2, "P").
Proof.
  rewrite (proj1 (proj2 (proj1 (@zvm_updates_keep_usage [] ["1b01"] "notfound"
                    (idle tables_P_inuse) eq_refl) _ (or_intror eq_refl)))).
  reflexivity.
Defined.

Lemma existsb_fcp_id_In (i : string) (rows : list fcp_row) :
  existsb (fun r => fcp_id r =~ i) rows = true
  <-> In (Str.lower i) (map (fun r => Str.lower (fcp_id r)) rows).
Proof.
  rewrite existsb_exists, in_map_iff. split.
  - intros [r [Hr E]]. exists r. split; [|exact Hr].
    now apply nocase_eqb_lower.
  - intros [r [E Hr]]. exists r. split; [exact Hr|].
    now apply nocase_eqb_lower.
Qed.

Lemma new_fcp_row_id (info : zvm_fcp_info) :
  fcp_id (new_fcp_row info) = info_fcp_id info.
Proof. now destruct info as [[[[[[? ?] ?] ?] ?] ?] ?]. Qed.

Lemma executemany_insert_fcp_cons (info : zvm_fcp_info)
  (l : list zvm_fcp_info) (w : conn) :
  executemany insert_fcp_record (info :: l) w
  = if existsb (fun r => fcp_id r =~ info_fcp_id info) (fcp (db w))
    then (Raise IntegrityError, w)
    else executemany insert_fcp_record l
           (mk_conn (set_fcp (fcp (db w) ++ [new_fcp_row info]) (db w))
                    (in_transaction w) (journal w)).
Proof.
  cbn [executemany]. unfold bind, insert_fcp_record, bind, query.
  destruct (existsb _ _); reflexivity.
Qed.

(** A batch of [INSERT]s into [fcp]: it goes through when the ids of the
    table and of the batch are pairwise distinct, and stops at the first
    [IntegrityError] otherwise. *)
Lemma executemany_insert_fcp_record (l : list zvm_fcp_info) (w : conn) :
  (NoDup (map Str.lower (map fcp_id (fcp (db w)) ++ map info_fcp_id l)) ->
   executemany insert_fcp_record l w
   = (Ok tt, mk_conn (set_fcp (fcp (db w) ++ map new_fcp_row l) (db w))
                     (in_transaction w) (journal w)))
  /\ (~ NoDup (map Str.lower (map fcp_id (fcp (db w)) ++ map info_fcp_id l)) ->
      NoDup (map Str.lower (map fcp_id (fcp (db w)))) ->
      exists w', executemany insert_fcp_record l w = (Raise IntegrityError, w')
                 /\ journal w' = journal w).
Proof.
  revert w. induction l as [|info l IH]; intros w.
  - cbn [map executemany]. rewrite app_nil_r. split.
    + intros _. unfold ret, set_fcp. rewrite app_nil_r.
      now rewrite tables_eta, conn_eta.
    + intros Hn Hd. now contradiction Hn.
  - rewrite executemany_insert_fcp_cons.
    set (w1 := mk_conn (set_fcp (fcp (db w) ++ [new_fcp_row info]) (db w))
                       (in_transaction w) (journal w)).
    assert (Hids : map Str.lower (map fcp_id (fcp (db w1))
                                  ++ map info_fcp_id l)
                   = map Str.lower (map fcp_id (fcp (db w))
                                    ++ map info_fcp_id (info :: l))).
    { unfold w1. cbn [db set_fcp fcp]. rewrite (map_app fcp_id).
      cbn [map]. rewrite new_fcp_row_id. now rewrite <- app_assoc. }
    destruct (existsb (fun r => fcp_id r =~ info_fcp_id info) (fcp (db w)))
      eqn:Ex.
    + split.
      * intros Hnd. exfalso. apply existsb_fcp_id_In in Ex.
        rewrite map_app in Hnd. cbn [map] in Hnd.
        apply NoDup_remove_2 in Hnd. apply Hnd. apply in_or_app. left.
        now rewrite map_map.
      * intros _ _. exists w. split; reflexivity.
    + assert (Hnew : ~ In (Str.lower (info_fcp_id info))
                          (map (fun r => Str.lower (fcp_id r)) (fcp (db w)))).
      { intros Hin. apply existsb_fcp_id_In in Hin. congruence. }
      destruct (IH w1) as [IHok IHbad]. rewrite Hids in IHok, IHbad.
      split.
      * intros Hnd. rewrite (IHok Hnd). unfold w1.
        cbn [db set_fcp fcp template template_sp_mapping template_fcp_mapping
             in_transaction journal].
        unfold set_fcp. now rewrite <- app_assoc.
      * intros Hn Hd. destruct (IHbad Hn) as [w' [Hrun Hj]].
        -- unfold w1. cbn [db set_fcp fcp]. rewrite map_app, map_app.
           cbn [map]. rewrite new_fcp_row_id.
           apply NoDup_app_remove_r with (l' := []).
           rewrite <- app_assoc. cbn [app].
           apply NoDup_Add with (a := Str.lower (info_fcp_id info))
                                (l := map Str.lower (map fcp_id (fcp (db w)))).
           ++ rewrite <- (app_nil_r (map Str.lower (map fcp_id (fcp (db w)))))
                at 1.
              apply Add_app.
           ++ split; [exact Hd|]. now rewrite map_map.
        -- exists w'. split; [exact Hrun | exact Hj].
Qed.

(** X3. [bulk_insert_zvm_fcp_info_into_fcp_table] is all or nothing.  On a
    table that respects its primary key, a batch whose ids are new and
    pairwise distinct (NOCASE) is appended in order, each device with the
    default usage: no assigner, no connection, not reserved, no template.
    Any other batch raises [SDKGuestOperationError] and leaves the tables
    as they were. *)
Theorem bulk_insert_zvm_fcp_info_all_or_nothing
  (fcp_info_list : list zvm_fcp_info) (w : conn) :
  in_transaction w = false ->
  fcp_primary_key (db w) ->
  let r := fst (bulk_insert_zvm_fcp_info_into_fcp_table fcp_info_list w) in
  let w1 := snd (bulk_insert_zvm_fcp_info_into_fcp_table fcp_info_list w) in
  (NoDup (map Str.lower
            (map fcp_id (fcp (db w)) ++ map info_fcp_id fcp_info_list)) ->
   r = Ok tt
   /\ db w1 = set_fcp (fcp (db w) ++ map new_fcp_row fcp_info_list) (db w)
   /\ fcp_primary_key (db w1)
   /\ Forall (fun row => assigner_id row = "" /\ connections row = 0
                         /\ reserved row = 0 /\ tmpl_id row = "")
             (map new_fcp_row fcp_info_list))
  /\ (~ NoDup (map Str.lower
                 (map fcp_id (fcp (db w)) ++ map info_fcp_id fcp_info_list)) ->
      r = Raise SDKGuestOperationError /\ db w1 = db w).
Proof.
  intros Hw Hpk. cbv zeta. unfold bulk_insert_zvm_fcp_info_into_fcp_table.
  rewrite get_fcp_conn_outer by exact Hw.
  destruct (@executemany_insert_fcp_record fcp_info_list
              (mk_conn (db w) true (journal w))) as [Hok Hbad].
  cbn [db] in Hok, Hbad. split.
  - intros Hnd. rewrite (Hok Hnd). cbn [fst snd db]. split; [reflexivity|].
    split; [reflexivity|]. split.
    + unfold fcp_primary_key, set_fcp. cbn [fcp].
      rewrite map_app in Hnd. rewrite map_app.
      rewrite !map_map in Hnd. rewrite !map_map.
      erewrite (map_ext (fun x => Str.lower (fcp_id (new_fcp_row x))));
        [exact Hnd|].
      intros a. now rewrite new_fcp_row_id.
    + apply Forall_forall. intros row Hrow. apply in_map_iff in Hrow.
      destruct Hrow as [[[[[[[? ?] ?] ?] ?] ?] ?] [<- _]]. now repeat split.
  - intros Hn. destruct (Hbad Hn) as [w' [Hrun _]].
    { unfold fcp_primary_key in Hpk. now rewrite map_map. }
    rewrite Hrun. cbn [fst snd db is_sdk_exception]. now split.
Qed.

Lemma bulk_insert_zvm_fcp_info_all_or_nothing_witness :
  fst (bulk_insert_zvm_fcp_info_into_fcp_table
         [("1c01", "c05076de33000358", "c05076de33002643", "27", "cccc",
           "free", "");
          ("1A01", "c05076de33000359", "c05076de33002643", "27", "cccc",
           "free", "")]
         (idle tables_P))
  = Raise SDKGuestOperationError
  /\ db (snd (bulk_insert_zvm_fcp_info_into_fcp_table
         [("1c01", "c05076de33000358", "c05076de33002643", "27", "cccc",
           "free", "");
          ("1A01", "c05076de33000359", "c05076de33002643", "27", "cccc",
           "free", "")]
         (idle tables_P)))
     = tables_P.
Proof.
  apply (@bulk_insert_zvm_fcp_info_all_or_nothing
           [("1c01", "c05076de33000358", "c05076de33002643", "27", "cccc",
             "free", "");
            ("1A01", "c05076de33000359", "c05076de33002643", "27", "cccc",
             "free", "")]
           (idle tables_P) eq_refl).
  - unfold fcp_primary_key. vm_compute.
    repeat (constructor; [cbn; intuition discriminate|]). constructor.
  - vm_compute. intros Hnd.
    apply NoDup_cons_iff in Hnd. destruct Hnd as [Hin _].
    apply Hin. cbn. intuition.
Defined.

Lemma fold_delete_fcp (ids : list string) (d : tables) :
  fold_left
    (fun d i => set_fcp (filter (fun r => negb (fcp_id r =~ i)) (fcp d)) d)
    ids d
  = set_fcp (filter (fun r => negb (listed ids r)) (fcp d)) d.
Proof.
  revert d. induction ids as [|i ids IH]; intros d.
  - cbn [fold_left]. unfold listed. cbn [existsb negb].
    rewrite forallb_filter_id; [|now apply forallb_forall].
    unfold set_fcp. now rewrite tables_eta.
  - cbn [fold_left]. rewrite IH. unfold set_fcp. cbn [fcp template
      template_sp_mapping template_fcp_mapping]. f_equal.
    induction (fcp d) as [|r rs IHr]; [reflexivity|].
    unfold listed in *. cbn [filter existsb].
    destruct (fcp_id r =~ i); cbn [negb orb filter]; [exact IHr|].
    destruct (existsb (fun i0 => fcp_id r =~ i0) ids); cbn [negb];
      [exact IHr | now rewrite IHr].
Qed.

Lemma bulk_delete_from_fcp_table_run (ids : list string) (w : conn) :
  in_transaction w = false ->
  bulk_delete_from_fcp_table ids w
  = (Ok tt,
     mk_conn (set_fcp (filter (fun r => negb (listed ids r)) (fcp (db w)))
                      (db w))
             false (journal w)).
Proof.
  intros Hw. unfold bulk_delete_from_fcp_table.
  rewrite get_fcp_conn_outer by exact Hw.
  rewrite executemany_execute. cbn [db journal]. now rewrite fold_delete_fcp.
Qed.

(** X4. [bulk_delete_from_fcp_table] always succeeds.  Afterwards no listed
    device is left in [fcp], whatever its usage was, so that
    [get_usage_of_fcp] raises the object-not-exist error for it; the rows of
    the other devices are kept in order.  The rows of
    [template_fcp_mapping] stay: a deleted device is still listed in its
    templates, and the device query of [get_fcp_templates_details] shows it
    with the columns of [fcp] empty. *)
Theorem bulk_delete_from_fcp_table_effect (fcp_id_list : list string)
  (w : conn) :
  in_transaction w = false ->
  let w1 := snd (bulk_delete_from_fcp_table fcp_id_list w) in
  fst (bulk_delete_from_fcp_table fcp_id_list w) = Ok tt
  /\ in_transaction w1 = false
  /\ (forall i, In i fcp_id_list ->
        fst (get_usage_of_fcp i w1) = Raise SDKObjectNotExistError)
  /\ fcp (db w1)
     = filter (fun r => negb (listed fcp_id_list r)) (fcp (db w))
  /\ template_fcp_mapping (db w1) = template_fcp_mapping (db w)
  /\ (forall m i, In m (template_fcp_mapping (db w)) -> In i fcp_id_list ->
        (tf_fcp_id m =~ i) = true ->
        In (m, None) (snd (get_fcp_templates_details [] (db w1)))).
Proof.
  intros Hw. rewrite bulk_delete_from_fcp_table_run by exact Hw.
  cbn [fst snd db in_transaction].
  split; [reflexivity|]. split; [reflexivity|].
  assert (Hgone : forall i x,
            In i fcp_id_list ->
            In x (filter (fun r => negb (listed fcp_id_list r)) (fcp (db w))) ->
            (fcp_id x =~ i) = false).
  { intros i x Hi Hx. apply filter_In in Hx. destruct Hx as [_ Hx].
    apply negb_true_iff in Hx. unfold listed in Hx.
    destruct (fcp_id x =~ i) eqn:E; [|reflexivity].
    assert (H : existsb (fun j => fcp_id x =~ j) fcp_id_list = true)
      by (apply existsb_exists; now exists i).
    congruence. }
  split; [|split; [reflexivity | split; [reflexivity|]]].
  - intros i Hi. rewrite get_usage_of_fcp_run by reflexivity.
    cbn [db]. unfold select_fcp, set_fcp. cbn [fcp].
    destruct (find _ _) as [x|] eqn:Ef; [|reflexivity].
    apply find_some in Ef. destruct Ef as [Hx Hid].
    rewrite (Hgone i x Hi Hx) in Hid. discriminate Hid.
  - intros m i Hm Hi Hmi. unfold get_fcp_templates_details. cbn [snd].
    apply filter_In. split; [|reflexivity].
    unfold left_join, set_fcp. cbn [fcp template_fcp_mapping].
    apply in_flat_map. exists m. split; [exact Hm|].
    destruct (filter (fun f => tf_fcp_id m =~ fcp_id f) _) as [|f fs] eqn:Ef;
      [now left|].
    exfalso.
    assert (Hf : In f (filter (fun f => tf_fcp_id m =~ fcp_id f)
                         (filter (fun r => negb (listed fcp_id_list r))
                                 (fcp (db w)))))
      by (rewrite Ef; now left).
    apply filter_In in Hf. destruct Hf as [Hf Hmf].
    pose proof (Hgone i f Hi Hf) as Hfi.
    apply nocase_eqb_lower in Hmi. apply nocase_eqb_lower in Hmf.
    assert (Hc : (fcp_id f =~ i) = true)
      by (apply nocase_eqb_lower; congruence).
    congruence.
Qed.

Lemma bulk_delete_from_fcp_table_effect_witness :
  fst (get_usage_of_fcp "1b01"
         (snd (bulk_delete_from_fcp_table ["1b01"] (idle tables_P_inuse))))
  = Raise SDKObjectNotExistError
  /\ In (mk_tf "1b01" "P" 1, None)
        (snd (get_fcp_templates_details []
                (db (snd (bulk_delete_from_fcp_table ["1b01"]
                            (idle tables_P_inuse)))))).
Proof.
  pose proof (@bulk_delete_from_fcp_table_effect ["1b01"]
                (idle tables_P_inuse) eq_refl) as H.
  cbv zeta in H. destruct H as [_ [_ [Hgone [_ [_ Hrow]]]]]. split.
  - apply Hgone. now left.
  - apply (Hrow (mk_tf "1b01" "P" 1) "1b01").
    + cbn. right. right. now left.
    + now left.
    + reflexivity.
Defined.

Lemma nocase_eqb_empty (u : string) :
  Str.nonempty u = true -> ("" =~ u) = false.
Proof. destruct u; [discriminate | reflexivity]. Qed.

Lemma reset_fcps_of_assigner_run (userid : string) (w : conn) :
  in_transaction w = false ->
  reset_fcps_of_assigner userid w
  = (Ok tt,
     mk_conn (update_fcp (fun r => assigner_id r =~ userid)
                         (set_usage "" 0 0 "") (db w))
             false (journal w ++ [DEBUG])).
Proof.
  intros Hw. unfold reset_fcps_of_assigner.
  rewrite get_fcp_conn_outer by exact Hw. reflexivity.
Qed.

(** X5. [reset_fcps_of_assigner] always succeeds.  For a user id that is not
    empty, the devices of that assigner (NOCASE) lose their assigner, their
    connections, their reservation and their template at once, the other
    rows are unchanged, and [get_all_fcps_of_assigner] then raises the
    object-not-exist error for the user. *)
Theorem reset_fcps_of_assigner_effect (userid : string) (w : conn) :
  in_transaction w = false ->
  Str.nonempty userid = true ->
  let w1 := snd (reset_fcps_of_assigner userid w) in
  fst (reset_fcps_of_assigner userid w) = Ok tt
  /\ Forall2
       (fun x x' =>
          if assigner_id x =~ userid
          then x' = set_usage "" 0 0 "" x
          else x' = x)
       (fcp (db w)) (fcp (db w1))
  /\ template (db w1) = template (db w)
  /\ template_sp_mapping (db w1) = template_sp_mapping (db w)
  /\ template_fcp_mapping (db w1) = template_fcp_mapping (db w)
  /\ fst (get_all_fcps_of_assigner (Some userid) w1)
     = Raise SDKObjectNotExistError.
Proof.
  intros Hw Hu. rewrite reset_fcps_of_assigner_run by exact Hw.
  cbn [fst snd db]. split; [reflexivity|].
  unfold update_fcp, set_fcp.
  cbn [fcp template template_sp_mapping template_fcp_mapping].
  split; [|split; [reflexivity | split; [reflexivity | split; [reflexivity|]]]].
  - induction (fcp (db w)) as [|x l IH]; cbn [map]; constructor; [|exact IH].
    destruct (assigner_id x =~ userid); reflexivity.
  - unfold get_all_fcps_of_assigner. rewrite Hu.
    rewrite get_fcp_conn_outer by reflexivity.
    unfold bind, query. cbn [db fcp].
    assert (E : filter (fun r => assigner_id r =~ userid)
                  (map (fun r => if assigner_id r =~ userid
                                 then set_usage "" 0 0 "" r else r)
                       (fcp (db w))) = []).
    { induction (fcp (db w)) as [|x l IH]; [reflexivity|].
      cbn [map filter]. destruct (assigner_id x =~ userid) eqn:Ex.
      - cbn [set_usage assigner_id]. now rewrite (nocase_eqb_empty _ Hu).
      - now rewrite Ex. }
    rewrite E. reflexivity.
Qed.

Lemma reset_fcps_of_assigner_effect_witness :
  fst (get_all_fcps_of_assigner (Some "user1")
         (snd (reset_fcps_of_assigner "user1" (idle tables_P_inuse))))
  = Raise SDKObjectNotExistError.
Proof.
  apply (@reset_fcps_of_assigner_effect "user1" (idle tables_P_inuse)
           eq_refl eq_refl).
Defined.



Lemma set_connections_same (row : fcp_row) (c : Z) :
  set_connections (connections row) (set_connections c row) = row.
Proof. now destruct row. Qed.

Lemma tables_ext (d d' : tables) :
  fcp d = fcp d' -> template d = template d' ->
  template_sp_mapping d = template_sp_mapping d' ->
  template_fcp_mapping d = template_fcp_mapping d' -> d = d'.
Proof. destruct d, d'; cbn; intros; subst; reflexivity. Qed.



(** ** The selection strategies and the rest of the allocator *)




(** Rows reserved by [reserve_fcps] are not available. *)
Lemma reserved_not_available (fcp_ids : list string) (a t : string)
  (w : conn) (row : fcp_row) :
  In row (fcp (db (snd (reserve_fcps fcp_ids a t w)))) ->
  listed fcp_ids row = true -> available row = false.
Proof.
  rewrite reserve_fcps_run. cbn [snd db set_fcp fcp]. intros Hin Hl.
  apply in_map_iff in Hin. destruct Hin as [x [E Hx]].
  assert (Hid : fcp_id row = fcp_id x).
  { rewrite <- E. now destruct (existsb _ _). }
  unfold listed in Hl. rewrite Hid in Hl. rewrite Hl in E. subst row.
  unfold available. cbn [set_tmpl_id set_assigner_id set_reserved reserved].
  now rewrite andb_false_r.
Qed.

(** *** Strategy A *)


Lemma index_In {A} (l : list A) (i : nat) (x : A) :
  index l i = Ok x -> In x l.
Proof.
  unfold index. destruct (nth_error l i) as [y|] eqn:E; [|discriminate].
  intros H. injection H as <-. exact (nth_error_In _ _ E).
Qed.

Lemma Forall2_In_r {A B} (P : A -> B -> Prop) (xs : list A) (ys : list B) :
  Forall2 P xs ys -> forall y, In y ys -> exists x, In x xs /\ P x y.
Proof.
  induction 1 as [|x y xs ys Hxy _ IH]; intros z Hz; [destruct Hz|].
  destruct Hz as [<-|Hz].
  - exists x. split; [now left | exact Hxy].
  - destruct (IH z Hz) as [x' [Hx' Hp]]. exists x'. split; [now right|exact Hp].
Qed.

(** The rows taken by the inner loop for one index: one per further path,
    each found free by the test made in Python. *)
Lemma pair_up_spec (fcps : list (tf_row * fcp_row)) (idx : nat)
  (count_per_path : list nat) (s : nat) (pair c : list fcp_item) :
  pair_up fcps idx count_per_path s pair = Ok (Some c) ->
  exists added,
    c = pair ++ added
    /\ List.length added = (List.length count_per_path - 1)%nat
    /\ Forall (fun it => exists row, In row fcps
                                     /\ free_in_python row = true
                                     /\ it = tuple_of row) added.
Proof.
  revert s pair. induction count_per_path as [|n rest IH]; intros s pair.
  - cbn. intros H. injection H as <-. exists []. rewrite app_nil_r.
    now repeat split.
  - destruct rest as [|n' rest'].
    + cbn. intros H. injection H as <-. exists []. rewrite app_nil_r.
      now repeat split.
    + cbn [pair_up].
      destruct (index fcps (s + n + idx)) as [row|e] eqn:Ei; [|discriminate].
      cbn [rbind].
      destruct ((idx <? n')%nat && free_in_python row) eqn:Ec;
        [|discriminate].
      intros H. apply andb_true_iff in Ec. destruct Ec as [_ Hfree].
      destruct (IH _ _ H) as [added [Ec [Hlen Hall]]].
      exists (tuple_of row :: added). split; [|split].
      * rewrite Ec, <- app_assoc. reflexivity.
      * cbn [List.length] in *. lia.
      * constructor; [|exact Hall].
        exists row. split; [exact (index_In _ _ Ei)|]. now split.
Qed.









Lemma inner_join_In (d : tables) (row : tf_row * fcp_row) :
  In row (inner_join d) ->
  In (fst row) (template_fcp_mapping d) /\ In (snd row) (fcp d)
  /\ (tf_fcp_id (fst row) =~ fcp_id (snd row)) = true.
Proof.
  unfold inner_join. intros H. apply in_flat_map in H.
  destruct H as [tf [Htf H]]. apply in_map_iff in H.
  destruct H as [f [<- Hf]]. apply filter_In in Hf. now cbn.
Qed.



(** *** The devices of an assigner *)

Lemma join_row_update (g : fcp_row -> fcp_row) (tf : tf_row)
  (fs : list fcp_row) :
  (forall f, fcp_id (g f) = fcp_id f) ->
  map (pair tf) (filter (fun f => tf_fcp_id tf =~ fcp_id f) (map g fs))
  = map (fun r => (fst r, g (snd r)))
        (map (pair tf) (filter (fun f => tf_fcp_id tf =~ fcp_id f) fs)).
Proof.
  intros Hg. induction fs as [|f fs IHf]; [reflexivity|].
  cbn [map filter]. rewrite Hg.
  destruct (tf_fcp_id tf =~ fcp_id f); cbn [map fst snd]; now rewrite IHf.
Qed.

Lemma inner_join_update (g : fcp_row -> fcp_row) (d : tables) :
  (forall f, fcp_id (g f) = fcp_id f) ->
  inner_join (set_fcp (map g (fcp d)) d)
  = map (fun r => (fst r, g (snd r))) (inner_join d).
Proof.
  intros Hg. unfold inner_join, set_fcp. cbn [fcp template_fcp_mapping].
  induction (template_fcp_mapping d) as [|tf l IH]; [reflexivity|].
  cbn [flat_map]. rewrite map_app, IH. f_equal.
  now apply join_row_update.
Qed.

(** X10. After [reserve_fcps], every listed device of the template that is
    in table [fcp] is among the devices [get_reserved_fcps_from_assigner]
    and [get_allocated_fcps_from_assigner] report for the assigner and the
    template.  On any tables the reserved devices are among the allocated
    ones.  After [unreserve_fcps] no listed device is reported as allocated
    to anyone from a template with a non-empty id, even when it still has
    connections. *)
Theorem reserved_devices_of_assigner (fcp_ids : list string) (a t : string)
  (w : conn) :
  (forall row,
     In row (inner_join (db w)) ->
     (tf_tmpl_id (fst row) =~ t) = true ->
     listed fcp_ids (snd row) = true ->
     In (fcp_id (snd row))
        (map (fun x => i_fcp_id (fst x))
             (get_reserved_fcps_from_assigner a t
                (db (snd (reserve_fcps fcp_ids a t w)))))
     /\ In (fcp_id (snd row))
           (map i_fcp_id
                (get_allocated_fcps_from_assigner a t
                   (db (snd (reserve_fcps fcp_ids a t w))))))
  /\ (forall a' t' x,
        In x (get_reserved_fcps_from_assigner a' t' (db w)) ->
        In (fst x) (get_allocated_fcps_from_assigner a' t' (db w)))
  /\ (forall a' t' x i,
        Str.nonempty t' = true ->
        In x (get_allocated_fcps_from_assigner a' t'
                (db (snd (unreserve_fcps fcp_ids w)))) ->
        In i fcp_ids -> (i_fcp_id x =~ i) = false).
Proof.
  split; [|split].
  - intros row Hrow Ht Hl. rewrite reserve_fcps_run. cbn [snd db].
    set (g := fun r => if existsb (fun i => fcp_id r =~ i) fcp_ids
                       then set_tmpl_id t (set_assigner_id a (set_reserved 1 r))
                       else r).
    assert (Hg : forall f, fcp_id (g f) = fcp_id f)
      by (intros f; unfold g; now destruct (existsb _ _)).
    assert (Hin : In (fst row, g (snd row))
                     (inner_join (set_fcp (map g (fcp (db w))) (db w)))).
    { rewrite (inner_join_update g (db w) Hg). apply in_map_iff. now exists row. }
    assert (Eg : g (snd row)
                 = set_tmpl_id t (set_assigner_id a (set_reserved 1 (snd row)))).
    { unfold g. unfold listed in Hl. now rewrite Hl. }
    split.
    + unfold get_reserved_fcps_from_assigner. rewrite map_map. cbn [fst].
      apply in_map_iff. exists (fst row, g (snd row)). split.
      * cbn [tuple_of i_fcp_id snd]. apply Hg.
      * apply sort_by_In. apply filter_In. split; [exact Hin|].
        unfold of_assigner. cbn [fst snd]. rewrite Eg, Ht.
        cbn [set_tmpl_id set_assigner_id set_reserved assigner_id reserved
             tmpl_id].
        now rewrite !nocase_eqb_refl.
    + unfold get_allocated_fcps_from_assigner. rewrite map_map.
      apply in_map_iff. exists (fst row, g (snd row)). split.
      * cbn [tuple_of i_fcp_id snd]. apply Hg.
      * apply sort_by_In. apply filter_In. split; [exact Hin|].
        unfold of_assigner. cbn [fst snd]. rewrite Eg, Ht.
        cbn [set_tmpl_id set_assigner_id set_reserved assigner_id reserved
             connections tmpl_id].
        rewrite !nocase_eqb_refl. cbn. now rewrite orb_true_r.
  - intros a' t' x Hx. unfold get_reserved_fcps_from_assigner in Hx.
    apply in_map_iff in Hx. destruct Hx as [row [<- Hrow]].
    apply sort_by_In in Hrow. apply filter_In in Hrow.
    destruct Hrow as [Hj Hc]. cbn [fst].
    unfold get_allocated_fcps_from_assigner. apply in_map_iff.
    exists row. split; [reflexivity|]. apply sort_by_In. apply filter_In.
    split; [exact Hj|].
    apply andb_true_iff in Hc. destruct Hc as [Hc Htm].
    apply andb_true_iff in Hc. destruct Hc as [Ha Hr].
    now rewrite Ha, Hr, Htm, orb_true_r.
  - intros a' t' x i Ht' Hx Hi. rewrite unreserve_fcps_run in Hx.
    cbn [snd db] in Hx. unfold get_allocated_fcps_from_assigner in Hx.
    apply in_map_iff in Hx. destruct Hx as [row [<- Hrow]].
    apply sort_by_In in Hrow. apply filter_In in Hrow.
    destruct Hrow as [Hj Hc]. apply andb_true_iff in Hc.
    destruct Hc as [_ Htm]. cbn [tuple_of i_fcp_id].
    destruct (inner_join_In _ _ Hj) as [_ [Hf _]].
    unfold set_fcp in Hf. cbn [fcp] in Hf. apply in_map_iff in Hf.
    destruct Hf as [f [Ef _]].
    destruct (fcp_id (snd row) =~ i) eqn:Ei; [|reflexivity].
    exfalso.
    assert (Hid : fcp_id (snd row) = fcp_id f)
      by (rewrite <- Ef; now destruct (existsb _ _)).
    assert (Hl : existsb (fun j => fcp_id f =~ j) fcp_ids = true).
    { apply existsb_exists. exists i. split; [exact Hi|]. now rewrite <- Hid. }
    rewrite Hl in Ef. rewrite <- Ef in Htm.
    cbn [set_tmpl_id tmpl_id] in Htm.
    rewrite (nocase_eqb_empty _ Ht') in Htm. discriminate Htm.
Qed.

Lemma reserved_devices_of_assigner_witness :
  In "1a01"
     (map (fun x => i_fcp_id (fst x))
          (get_reserved_fcps_from_assigner "USER1" "P"
             (db (snd (reserve_fcps ["1A01"] "USER1" "P" (idle tables_P)))))).
Proof.
  apply (proj1 (proj1 (@reserved_devices_of_assigner ["1A01"] "USER1" "P"
                         (idle tables_P))
                  (mk_tf "1a01" "P" 0,
                   device "1a01" "aaaa" "free" "c05076de33000355"
                          "c05076de33002641" "" 0 0 "")
                  (or_introl eq_refl) eq_refl eq_refl)).
Defined.

(** *** [bulk_delete_fcp_from_template] *)

Lemma filter_twice {A} (p q : A -> bool) (l : list A) :
  filter p (filter q l) = filter (fun x => q x && p x) l.
Proof.
  induction l as [|x l IH]; [reflexivity|]. cbn [filter].
  destruct (q x); cbn [filter andb]; [|exact IH].
  destruct (p x); now rewrite IH.
Qed.

Lemma bulk_delete_fcp_from_template_run (ids : list string) (t : string)
  (w : conn) :
  in_transaction w = false ->
  bulk_delete_fcp_from_template ids t w
  = (Ok tt,
     mk_conn
       (set_template_fcp_mapping
          (filter (fun r =>
                     negb (negb (existsb (fun f => in_use_b f
                                                   && (tf_fcp_id r =~ fcp_id f))
                                         (fcp (db w)))
                           && (tf_tmpl_id r =~ t)
                           && existsb (fun i => tf_fcp_id r =~ i) ids))
                  (template_fcp_mapping (db w)))
          (db w))
       false (journal w)).
Proof.
  intros Hw. unfold bulk_delete_fcp_from_template.
  rewrite get_fcp_conn_outer by exact Hw.
  assert (H : forall w0,
    executemany delete_free_tf_record (map (fun i => (t, i)) ids) w0
    = (Ok tt,
       mk_conn
         (set_template_fcp_mapping
            (filter (fun r =>
               negb (negb (existsb (fun f => in_use_b f
                                             && (tf_fcp_id r =~ fcp_id f))
                                   (fcp (db w0)))
                     && (tf_tmpl_id r =~ t)
                     && existsb (fun i => tf_fcp_id r =~ i) ids))
               (template_fcp_mapping (db w0)))
            (db w0))
         (in_transaction w0) (journal w0))).
  { induction ids as [|i ids IH]; intros w0.
    - cbn [map executemany existsb]. unfold ret. f_equal.
      rewrite forallb_filter_id.
      + unfold set_template_fcp_mapping. now rewrite tables_eta, conn_eta.
      + apply forallb_forall. intros x _. now rewrite andb_false_r.
    - cbn [map executemany]. unfold bind at 1.
      unfold delete_free_tf_record at 1. unfold execute at 1.
      rewrite IH. cbn [db in_transaction journal set_template_fcp_mapping fcp
                       template template_sp_mapping template_fcp_mapping].
      f_equal. f_equal. unfold set_template_fcp_mapping.
      cbn [fcp template template_sp_mapping template_fcp_mapping]. f_equal.
      rewrite filter_twice. apply filter_ext. intros r. cbn [existsb].
      destruct (existsb (fun f => in_use_b f && (tf_fcp_id r =~ fcp_id f))
                        (fcp (db w0)));
        destruct (tf_tmpl_id r =~ t);
        destruct (tf_fcp_id r =~ i);
        destruct (existsb (fun i0 => tf_fcp_id r =~ i0) ids); reflexivity. }
  rewrite H. reflexivity.
Qed.

(** X11. [bulk_delete_fcp_from_template] always succeeds and changes table
    [template_fcp_mapping] only.  It removes exactly the rows of the
    template whose device is listed and is not in use: a row whose device
    has a connection or a reservation stays, whoever holds it, and so does
    every row of another template. *)
Theorem bulk_delete_fcp_from_template_spare_in_use (fcp_id_list : list string)
  (t : string) (w : conn) :
  in_transaction w = false ->
  let w1 := snd (bulk_delete_fcp_from_template fcp_id_list t w) in
  fst (bulk_delete_fcp_from_template fcp_id_list t w) = Ok tt
  /\ fcp (db w1) = fcp (db w)
  /\ template (db w1) = template (db w)
  /\ template_sp_mapping (db w1) = template_sp_mapping (db w)
  /\ forall r,
       In r (template_fcp_mapping (db w1))
       <-> In r (template_fcp_mapping (db w))
           /\ ((exists f, In f (fcp (db w)) /\ in_use f
                          /\ (tf_fcp_id r =~ fcp_id f) = true)
               \/ (tf_tmpl_id r =~ t) = false
               \/ (forall i, In i fcp_id_list -> (tf_fcp_id r =~ i) = false)).
Proof.
  intros Hw. rewrite bulk_delete_fcp_from_template_run by exact Hw.
  cbn [fst snd db set_template_fcp_mapping fcp template template_sp_mapping
       template_fcp_mapping].
  split; [reflexivity|]. split; [reflexivity|]. split; [reflexivity|].
  split; [reflexivity|]. intros r. rewrite filter_In.
  apply and_iff_compat_l. rewrite negb_true_iff.
  rewrite !andb_false_iff, negb_false_iff. split.
  - intros [[Hu|Ht]|Hl].
    + left. apply existsb_exists in Hu. destruct Hu as [f [Hf Hc]].
      apply andb_true_iff in Hc. destruct Hc as [Hu Hid].
      exists f. split; [exact Hf|]. split; [|exact Hid].
      unfold in_use_b in Hu. unfold in_use. apply orb_true_iff in Hu.
      destruct Hu as [Hu|Hu]; apply negb_true_iff in Hu;
        apply Z.eqb_neq in Hu; [now left | now right].
    + right. now left.
    + right. right. intros i Hi.
      destruct (tf_fcp_id r =~ i) eqn:E; [|reflexivity].
      assert (H : existsb (fun j => tf_fcp_id r =~ j) fcp_id_list = true)
        by (apply existsb_exists; now exists i).
      congruence.
  - intros [[f [Hf [Hu Hid]]]|[Ht|Hl]].
    + left. left. apply existsb_exists. exists f. split; [exact Hf|].
      rewrite Hid, andb_true_r. unfold in_use_b.
      destruct Hu as [Hu|Hu]; apply Z.eqb_neq in Hu; rewrite Hu;
        [reflexivity | now rewrite orb_true_r].
    + left. now right.
    + right. destruct (existsb _ fcp_id_list) eqn:E; [|reflexivity].
      apply existsb_exists in E. destruct E as [i [Hi Hid]].
      rewrite (Hl i Hi) in Hid. discriminate Hid.
Qed.

Lemma bulk_delete_fcp_from_template_spare_in_use_witness :
  template_fcp_mapping
    (db (snd (bulk_delete_fcp_from_template ["1a01"; "1a02"] "P"
                (idle tables_P_inuse))))
  = [mk_tf "1a01" "P" 0; mk_tf "1b01" "P" 1]
  /\ fst (bulk_delete_fcp_from_template ["1a01"; "1a02"] "P"
            (idle tables_P_inuse)) = Ok tt.
Proof.
  split; [reflexivity|].
  apply (@bulk_delete_fcp_from_template_spare_in_use ["1a01"; "1a02"] "P"
           (idle tables_P_inuse) eq_refl).
Defined.

(** *** Creating and deleting a template *)

Lemma existsb_tf_key (i t : string) (rows : list tf_row) :
  existsb (fun r => (tf_fcp_id r =~ i) && (tf_tmpl_id r =~ t)) rows = true
  <-> In (Str.lower i, Str.lower t)
         (map (fun r => (Str.lower (tf_fcp_id r), Str.lower (tf_tmpl_id r)))
              rows).
Proof.
  rewrite existsb_exists, in_map_iff. split.
  - intros [r [Hr E]]. apply andb_true_iff in E. destruct E as [E1 E2].
    apply nocase_eqb_lower in E1. apply nocase_eqb_lower in E2.
    exists r. split; [congruence | exact Hr].
  - intros [r [E Hr]]. injection E as E1 E2. exists r. split; [exact Hr|].
    apply andb_true_iff. split; now apply nocase_eqb_lower.
Qed.

(** A batch of [INSERT]s into [template_fcp_mapping] whose keys are new and
    pairwise distinct goes through. *)
Lemma executemany_insert_tf_record (recs : list (string * string * Z))
  (w : conn) :
  (forall rec, In rec recs ->
     ~ In (Str.lower (snd (fst rec)), Str.lower (fst (fst rec)))
          (map (fun r => (Str.lower (tf_fcp_id r), Str.lower (tf_tmpl_id r)))
               (template_fcp_mapping (db w)))) ->
  NoDup (map (fun rec => (Str.lower (snd (fst rec)), Str.lower (fst (fst rec))))
             recs) ->
  executemany insert_tf_record recs w
  = (Ok tt,
     mk_conn
       (set_template_fcp_mapping
          (template_fcp_mapping (db w)
           ++ map (fun rec => mk_tf (snd (fst rec)) (fst (fst rec)) (snd rec))
                  recs)
          (db w))
       (in_transaction w) (journal w)).
Proof.
  revert w. induction recs as [|[[t i] p] recs IH]; intros w Hnew Hnd.
  - cbn [map executemany]. unfold ret, set_template_fcp_mapping.
    now rewrite app_nil_r, tables_eta, conn_eta.
  - cbn [executemany]. unfold bind at 1. unfold insert_tf_record at 1.
    unfold bind at 1. unfold query at 1.
    destruct (existsb _ (template_fcp_mapping (db w))) eqn:Ex.
    { exfalso. apply existsb_tf_key in Ex.
      exact (Hnew (t, i, p) (or_introl eq_refl) Ex). }
    unfold execute at 1. rewrite IH.
    + cbn [db in_transaction journal set_template_fcp_mapping fcp template
           template_sp_mapping template_fcp_mapping map fst snd].
      unfold set_template_fcp_mapping.
      cbn [fcp template template_sp_mapping template_fcp_mapping].
      now rewrite <- app_assoc.
    + intros rec Hrec.
      cbn [db set_template_fcp_mapping template_fcp_mapping].
      rewrite map_app, in_app_iff. cbn [map tf_fcp_id tf_tmpl_id In].
      intros [H|[H|[]]].
      * exact (Hnew rec (or_intror Hrec) H).
      * cbn [map fst snd] in Hnd. apply NoDup_cons_iff in Hnd.
        apply (proj1 Hnd). rewrite H. apply in_map_iff. now exists rec.
    + cbn [map] in Hnd. now apply NoDup_cons_iff in Hnd.
Qed.

Lemma new_tf_rows_keys (i : string) (devs : list (Z * list string)) :
  map (fun rec : string * string * Z =>
         (Str.lower (snd (fst rec)), Str.lower (fst (fst rec))))
      (flat_map (fun pf => map (fun x => (i, x, fst pf)) (snd pf)) devs)
  = map (fun x => (x, Str.lower i))
        (map Str.lower (List.concat (map snd devs))).
Proof.
  induction devs as [|[p l] devs IH]; [reflexivity|].
  cbn [flat_map map List.concat fst snd]. rewrite !map_app, IH. f_equal.
  rewrite !map_map. reflexivity.
Qed.

Lemma new_tf_rows_map (i : string) (devs : list (Z * list string)) :
  map (fun rec : string * string * Z =>
         mk_tf (snd (fst rec)) (fst (fst rec)) (snd rec))
      (flat_map (fun pf => map (fun x => (i, x, fst pf)) (snd pf)) devs)
  = new_tf_rows i devs.
Proof.
  unfold new_tf_rows. induction devs as [|[p l] devs IH]; [reflexivity|].
  cbn [flat_map fst snd]. rewrite map_app, IH. f_equal.
  now rewrite map_map.
Qed.

Lemma NoDup_map_injective {A B} (f : A -> B) (l : list A) :
  (forall a b, f a = f b -> a = b) -> NoDup l -> NoDup (map f l).
Proof.
  intros Hf. induction 1 as [|x l Hx _ IH]; cbn [map]; constructor;
    [|exact IH].
  intros Hin. apply in_map_iff in Hin. destruct Hin as [y [E Hy]].
  apply Hf in E. now subst y.
Qed.

Lemma filter_none {A} (p : A -> bool) (l : list A) :
  (forall x, In x l -> p x = false) -> filter p l = [].
Proof.
  induction l as [|x l IH]; intros H; [reflexivity|]. cbn [filter].
  rewrite (H x (or_introl eq_refl)). apply IH. intros y Hy. apply H.
  now right.
Qed.

Lemma filter_all {A} (p : A -> bool) (l : list A) :
  (forall x, In x l -> p x = true) -> filter p l = l.
Proof.
  intros H. apply forallb_filter_id. now apply forallb_forall.
Qed.

(** [create_fcp_template] without host default and storage providers, on
    an id that no row refers to and for devices that are pairwise
    distinct. *)
Lemma create_fcp_template_run (i name description : string)
  (devs : list (Z * list string)) (min_count : option Z) (w : conn) :
  in_transaction w = false ->
  unused_template_id i (db w) ->
  NoDup (map Str.lower (List.concat (map snd devs))) ->
  create_fcp_template i name description devs false [] min_count w
  = (Ok tt,
     mk_conn
       (mk_tables (fcp (db w))
          (template (db w)
           ++ [new_template_row i name description false min_count])
          (template_sp_mapping (db w))
          (template_fcp_mapping (db w) ++ new_tf_rows i devs))
       false (journal w)).
Proof.
  intros Hw [Ht [Htf [Hsp Hf]]] Hnd. unfold create_fcp_template.
  rewrite get_fcp_conn_outer by exact Hw.
  unfold bind at 1. unfold query at 1. cbn [db].
  assert (Hex : fcp_template_exist_in_db i (db w) = false).
  { unfold fcp_template_exist_in_db. now rewrite (filter_none _ _ Ht). }
  rewrite Hex. unfold bind at 1. unfold ret at 1.
  unfold bind at 1. unfold query at 1.
  cbn [filter map]. unfold bind at 1. unfold ret at 1.
  unfold bind at 1. unfold insert_template_record at 1.
  unfold bind at 1. unfold query at 1. cbn [db].
  assert (Hex2 : existsb (fun r => t_id r
                            =~ t_id (new_template_row i name description false
                                       min_count))
                         (template (db w)) = false).
  { apply existsb_template_absent. now apply filter_none. }
  rewrite Hex2. unfold execute at 1. cbn [db in_transaction journal].
  unfold bind at 1. rewrite executemany_insert_tf_record.
  - cbn [executemany]. unfold bind, ret.
    cbn [db in_transaction journal set_template set_template_fcp_mapping
         fcp template template_sp_mapping template_fcp_mapping].
    now rewrite new_tf_rows_map.
  - intros [[t x] p] Hrec Hin. cbn [fst snd] in Hin.
    cbn [db set_template template_fcp_mapping] in Hin.
    apply in_flat_map in Hrec. destruct Hrec as [pf [_ Hrec]].
    apply in_map_iff in Hrec. destruct Hrec as [y [E _]].
    injection E as <- <- _.
    apply in_map_iff in Hin. destruct Hin as [r [E Hr]].
    injection E as _ E. apply nocase_eqb_lower in E.
    rewrite (Htf r Hr) in E. discriminate E.
  - rewrite new_tf_rows_keys.
    apply NoDup_map_injective; [|exact Hnd].
    intros a b E. now injection E.
Qed.

Lemma new_template_row_id (i name description : string) (h : bool)
  (m : option Z) : t_id (new_template_row i name description h m) = i.
Proof. reflexivity. Qed.

Lemma new_tf_rows_tmpl (i : string) (devs : list (Z * list string))
  (r : tf_row) : In r (new_tf_rows i devs) -> tf_tmpl_id r = i.
Proof.
  unfold new_tf_rows. intros H. apply in_flat_map in H.
  destruct H as [pf [_ H]]. apply in_map_iff in H.
  now destruct H as [x [<- _]].
Qed.

(** X12. On an id that no row of the four tables refers to, and for
    devices that are pairwise distinct (NOCASE), [create_fcp_template]
    without host default and storage providers succeeds: the template
    exists and its devices are appended to [template_fcp_mapping].
    Creating it a second time raises [SDKObjectAlreadyExistError] and
    changes nothing, and [delete_fcp_template] then succeeds and gives back
    the four tables as they were before the creation. *)
Theorem create_then_delete_fcp_template (i name description : string)
  (devs : list (Z * list string)) (min_count : option Z) (w : conn) :
  in_transaction w = false ->
  unused_template_id i (db w) ->
  NoDup (map Str.lower (List.concat (map snd devs))) ->
  let w1 := snd (create_fcp_template i name description devs false []
                   min_count w) in
  fst (create_fcp_template i name description devs false [] min_count w)
  = Ok tt
  /\ fcp_template_exist_in_db i (db w1) = true
  /\ template_fcp_mapping (db w1)
     = template_fcp_mapping (db w) ++ new_tf_rows i devs
  /\ fst (create_fcp_template i name description devs false [] min_count w1)
     = Raise SDKObjectAlreadyExistError
  /\ db (snd (create_fcp_template i name description devs false [] min_count
                w1)) = db w1
  /\ fst (delete_fcp_template i w1) = Ok tt
  /\ db (snd (delete_fcp_template i w1)) = db w.
Proof.
  intros Hw Hun Hnd. cbv zeta.
  rewrite (@create_fcp_template_run i name description devs min_count w
             Hw Hun Hnd).
  cbn [fst snd db fcp template template_sp_mapping template_fcp_mapping].
  destruct Hun as [Ht [Htf [Hsp Hf]]].
  set (d1 := mk_tables (fcp (db w))
               (template (db w)
                ++ [new_template_row i name description false min_count])
               (template_sp_mapping (db w))
               (template_fcp_mapping (db w) ++ new_tf_rows i devs)).
  assert (Hex : fcp_template_exist_in_db i d1 = true).
  { apply fcp_template_exist_in_db_iff.
    exists (new_template_row i name description false min_count). split.
    - unfold d1. cbn [template]. apply in_or_app. right. now left.
    - apply nocase_eqb_refl. }
  split; [reflexivity|]. split; [exact Hex|]. split; [reflexivity|].
  assert (Hagain :
    create_fcp_template i name description devs false [] min_count
      (mk_conn d1 false (journal w))
    = (Raise SDKObjectAlreadyExistError,
       mk_conn d1 false (journal w ++ [ERROR]))).
  { unfold create_fcp_template. rewrite get_fcp_conn_outer by reflexivity.
    unfold bind at 1. unfold query at 1. cbn [db]. rewrite Hex.
    reflexivity. }
  rewrite Hagain. cbn [fst snd db].
  split; [reflexivity|]. split; [reflexivity|].
  rewrite delete_fcp_template_run by reflexivity. cbn [db]. rewrite Hex.
  assert (Hin : get_inuse_fcp_device_by_fcp_template i d1 = []).
  { unfold get_inuse_fcp_device_by_fcp_template, d1. cbn [fcp].
    now rewrite (filter_none _ _ Hf). }
  rewrite Hin. cbn [fst snd db]. split; [reflexivity|].
  unfold without_template, d1, set_template_fcp_mapping,
    set_template_sp_mapping, set_template.
  cbn [fcp template template_sp_mapping template_fcp_mapping].
  apply tables_ext;
    cbn [fcp template template_sp_mapping template_fcp_mapping].
  - reflexivity.
  - rewrite filter_app. cbn [filter]. rewrite new_template_row_id.
    rewrite nocase_eqb_refl. cbn [negb]. rewrite app_nil_r.
    apply filter_all. intros t Hin'. now rewrite (Ht t Hin').
  - apply filter_all. intros s Hs. now rewrite (Hsp s Hs).
  - rewrite filter_app. rewrite (filter_all _ (template_fcp_mapping (db w))).
    + rewrite filter_none; [now rewrite app_nil_r|].
      intros r Hr. rewrite (new_tf_rows_tmpl _ _ _ Hr).
      now rewrite nocase_eqb_refl.
    + intros r Hr. now rewrite (Htf r Hr).
Qed.

Lemma create_then_delete_fcp_template_witness :
  db (snd (delete_fcp_template "R"
             (snd (create_fcp_template "R" "r" "" [(0, ["1a01"]); (1, ["1b01"])]
                     false [] None (idle tables_P)))))
  = tables_P.
Proof.
  apply (@create_then_delete_fcp_template "R" "r" ""
           [(0, ["1a01"]); (1, ["1b01"])] None (idle tables_P) eq_refl).
  - unfold unused_template_id. cbn.
    repeat split; intros x H;
      repeat (destruct H as [<-|H]; [reflexivity|]); destruct H.
  - cbn. repeat (constructor; [cbn; intuition discriminate|]). constructor.
Defined.

Lemma filter_filter_negb {A} (p : A -> bool) (l : list A) :
  filter p (filter (fun x => negb (p x)) l) = [].
Proof.
  apply filter_none. intros x Hx. apply filter_In in Hx.
  destruct Hx as [_ Hx]. now apply negb_true_iff in Hx.
Qed.

Lemma find_filter_negb {A} (p : A -> bool) (l : list A) :
  find p (filter (fun x => negb (p x)) l) = None.
Proof.
  destruct (find p _) as [x|] eqn:E; [|reflexivity].
  apply find_some in E. destruct E as [Hx Hp]. apply filter_In in Hx.
  destruct Hx as [_ Hx]. rewrite Hp in Hx. discriminate Hx.
Qed.

(** X13. Once [delete_fcp_template] has succeeded the template is gone for
    every other operation: it does not exist, it has no path, both
    selection strategies answer with an empty list and their reason for a
    template without devices, its minimum path count cannot be read, and
    a second deletion raises the object-not-exist error. *)
Theorem deleted_template_is_gone (i : string) (w : conn)
  (pchid_info : list (string * capacity)) (rand : nat -> nat) :
  in_transaction w = false ->
  fst (delete_fcp_template i w) = Ok tt ->
  let w1 := snd (delete_fcp_template i w) in
  fcp_template_exist_in_db i (db w1) = false
  /\ get_path_count i (db w1) = 0
  /\ get_min_fcp_paths_count i (db w1) = Raise SDKObjectNotExistError
  /\ get_fcp_devices i pchid_info rand (db w1) = Ok ([], NoFreeDeviceLeft i)
  /\ get_fcp_devices_with_same_index i pchid_info rand (db w1)
     = Ok ([], NoDeviceInTemplate i)
  /\ fst (delete_fcp_template i w1) = Raise SDKObjectNotExistError
  /\ db (snd (delete_fcp_template i w1)) = db w1.
Proof.
  intros Hw. rewrite delete_fcp_template_run by exact Hw.
  destruct (fcp_template_exist_in_db i (db w)); [|discriminate].
  destruct (get_inuse_fcp_device_by_fcp_template i (db w)); [|discriminate].
  intros _. cbn [snd db].
  set (d1 := without_template i (db w)).
  assert (Htpl : template d1
                 = filter (fun t => negb (t_id t =~ i)) (template (db w)))
    by reflexivity.
  assert (Htf : template_fcp_mapping d1
                = filter (fun r => negb (tf_tmpl_id r =~ i))
                         (template_fcp_mapping (db w)))
    by reflexivity.
  assert (Hex : fcp_template_exist_in_db i d1 = false).
  { unfold fcp_template_exist_in_db. rewrite Htpl.
    now rewrite (filter_filter_negb (fun t => t_id t =~ i)). }
  assert (Hrows : filter (fun r => tf_tmpl_id r =~ i) (template_fcp_mapping d1)
                  = []).
  { rewrite Htf. apply (filter_filter_negb (fun r => tf_tmpl_id r =~ i)). }
  assert (Hfree : free_rows i d1 = []).
  { unfold free_rows. apply filter_none. intros row Hrow.
    destruct (inner_join_In _ _ Hrow) as [Hin _].
    rewrite Htf in Hin. apply filter_In in Hin. destruct Hin as [_ Hin].
    apply negb_true_iff in Hin. now rewrite Hin. }
  split; [exact Hex|]. split.
  { unfold get_path_count, paths_of_template. now rewrite Hrows. }
  split.
  { unfold get_min_fcp_paths_count, get_min_fcp_paths_count_from_db.
    rewrite Htpl. rewrite (find_filter_negb (fun t => t_id t =~ i)).
    now destruct (negb (Str.nonempty i)). }
  split.
  { unfold get_fcp_devices, get_free_pchids_by_fcp_template.
    rewrite Hfree. reflexivity. }
  split.
  { unfold get_fcp_devices_with_same_index. rewrite Hrows. reflexivity. }
  rewrite delete_fcp_template_run by reflexivity. cbn [db]. rewrite Hex.
  now split.
Qed.

Lemma deleted_template_is_gone_witness :
  get_fcp_devices "P" pchid_info_free (fun _ => O)
    (db (snd (delete_fcp_template "P" (idle tables_P))))
  = Ok ([], NoFreeDeviceLeft "P").
Proof.
  apply (@deleted_template_is_gone "P" (idle tables_P) pchid_info_free
           (fun _ => O) eq_refl eq_refl).
Defined.

(** *** The host default under [update_basic_info_of_fcp_template] *)

Lemma filter_key_length (i : string) (l : list template_row) :
  NoDup (map (fun t => Str.lower (t_id t)) l) ->
  (List.length (filter (fun t => t_id t =~ i) l) <= 1)%nat.
Proof.
  induction l as [|x l IH]; intros Hnd; [cbn; lia|].
  cbn [map] in Hnd. apply NoDup_cons_iff in Hnd. destruct Hnd as [Hx Hnd].
  cbn [filter]. destruct (t_id x =~ i) eqn:Ex; [|now apply IH].
  rewrite filter_none; [cbn; lia|].
  intros y Hy. destruct (t_id y =~ i) eqn:Ey; [|reflexivity].
  exfalso. apply Hx. apply in_map_iff. exists y. split; [|exact Hy].
  apply nocase_eqb_lower in Ex. apply nocase_eqb_lower in Ey. congruence.
Qed.

Lemma filter_length_le {A} (p : A -> bool) (l : list A) :
  (List.length (filter p l) <= List.length l)%nat.
Proof.
  induction l as [|x l IH]; [cbn; lia|]. cbn [filter].
  destruct (p x); cbn [List.length]; lia.
Qed.

Lemma update_basic_info_of_fcp_template_run (name description : string)
  (host_default : pyflag) (m : Z) (i : string) (w : conn) :
  in_transaction w = false ->
  update_basic_info_of_fcp_template (name, description, host_default, m, i) w
  = (Ok tt,
     mk_conn
       (set_template
          (map (fun t =>
                  if t_id t =~ i
                  then mk_template (t_id t) name description
                                   (flag_column host_default) m
                  else t)
               (template (if is_True host_default
                          then clear_is_default (db w) else db w)))
          (if is_True host_default then clear_is_default (db w) else db w))
       false (journal w)).
Proof.
  intros Hw. unfold update_basic_info_of_fcp_template.
  rewrite get_fcp_conn_outer by exact Hw.
  destruct (is_True host_default); reflexivity.
Qed.

(** X14. [update_basic_info_of_fcp_template], given a Python [bool] as
    host default, always succeeds and keeps the primary key of [template]
    and the rule of at most one host default.  With [True] the host
    defaults afterwards are the rows of the edited template, so none when
    the template does not exist: the flag of every other template is
    cleared either way. *)
Theorem update_basic_info_keeps_one_default (name description : string)
  (b : bool) (m : Z) (i : string) (w : conn) :
  in_transaction w = false ->
  template_primary_key (db w) ->
  at_most_one_default (db w) ->
  let w1 := snd (update_basic_info_of_fcp_template
                   (name, description, PyBool b, m, i) w) in
  fst (update_basic_info_of_fcp_template (name, description, PyBool b, m, i) w)
  = Ok tt
  /\ template_primary_key (db w1)
  /\ at_most_one_default (db w1)
  /\ (b = true ->
      host_defaults (db w1)
      = map (fun t => mk_template (t_id t) name description 1 m)
            (filter (fun t => t_id t =~ i) (template (db w)))).
Proof.
  intros Hw Hpk Hone. cbv zeta.
  rewrite update_basic_info_of_fcp_template_run by exact Hw.
  cbn [fst snd db]. split; [reflexivity|].
  assert (Hdef : b = true ->
    host_defaults
      (set_template
         (map (fun t => if t_id t =~ i
                        then mk_template (t_id t) name description
                                         (flag_column (PyBool b)) m
                        else t)
              (template (if is_True (PyBool b)
                         then clear_is_default (db w) else db w)))
         (if is_True (PyBool b) then clear_is_default (db w) else db w))
    = map (fun t => mk_template (t_id t) name description 1 m)
          (filter (fun t => t_id t =~ i) (template (db w)))).
  { intros ->. cbn [is_True flag_column].
    unfold host_defaults, clear_is_default, set_template. cbn [template].
    induction (template (db w)) as [|x l IH]; [reflexivity|].
    cbn [map filter t_id]. destruct (t_id x =~ i); cbn [is_default filter];
      cbn; now rewrite IH. }
  split; [|split; [|exact Hdef]].
  - unfold template_primary_key in *.
    destruct b; cbn [is_True]; unfold clear_is_default, set_template;
      cbn [template]; rewrite ?map_map;
      (erewrite map_ext; [exact Hpk|]); intros t; cbn [t_id];
      now destruct (t_id t =~ i).
  - unfold at_most_one_default in *. destruct b.
    + rewrite (Hdef eq_refl). rewrite length_map.
      now apply filter_key_length.
    + cbn [is_True flag_column]. unfold host_defaults, set_template in *.
      cbn [template].
      apply Nat.le_trans
        with (List.length (filter (fun t => negb (is_default t =? 0))
                                  (template (db w)))); [|exact Hone].
      clear. induction (template (db w)) as [|x l IH]; [cbn; lia|].
      cbn [map filter]. destruct (t_id x =~ i); cbn [is_default];
        [cbn [Z.eqb negb] |];
        destruct (negb (is_default x =? 0)); cbn [List.length]; lia.
Qed.

Lemma update_basic_info_keeps_one_default_witness :
  host_defaults
    (db (snd (update_basic_info_of_fcp_template
                ("q", "", PyBool true, 1, "Q") (idle tables_P_other))))
  = [mk_template "Q" "q" "" 1 1].
Proof.
  apply (@update_basic_info_keeps_one_default "q" "" true 1 "Q"
           (idle tables_P_other) eq_refl).
  - unfold template_primary_key. cbn.
    repeat (constructor; [cbn; intuition discriminate|]). constructor.
  - unfold at_most_one_default. cbn. lia.
  - reflexivity.
Defined.

(** *** [bulk_set_sp_default_by_fcp_template] *)

Lemma existsb_sp_name_In (sp : string) (rows : list sp_row) :
  existsb (fun r => sp_name r =~ sp) rows = true
  <-> In (Str.lower sp) (map (fun r => Str.lower (sp_name r)) rows).
Proof.
  rewrite existsb_exists, in_map_iff. split.
  - intros [r [Hr E]]. exists r. split; [|exact Hr].
    now apply nocase_eqb_lower.
  - intros [r [E Hr]]. exists r. split; [exact Hr|].
    now apply nocase_eqb_lower.
Qed.

Lemma executemany_insert_sp_cons (t sp : string)
  (l : list (string * string)) (w : conn) :
  executemany insert_sp_record ((t, sp) :: l) w
  = if existsb (fun r => sp_name r =~ sp) (template_sp_mapping (db w))
    then (Raise IntegrityError, w)
    else executemany insert_sp_record l
           (mk_conn (set_template_sp_mapping
                       (template_sp_mapping (db w) ++ [mk_sp sp t]) (db w))
                    (in_transaction w) (journal w)).
Proof.
  cbn [executemany]. unfold bind, insert_sp_record, bind, query.
  destruct (existsb _ _); reflexivity.
Qed.

Lemma executemany_insert_sp_record (l : list (string * string)) (w : conn) :
  (NoDup (map Str.lower (map sp_name (template_sp_mapping (db w))
                         ++ map snd l)) ->
   executemany insert_sp_record l w
   = (Ok tt,
      mk_conn (set_template_sp_mapping
                 (template_sp_mapping (db w)
                  ++ map (fun rec => mk_sp (snd rec) (fst rec)) l) (db w))
              (in_transaction w) (journal w)))
  /\ (~ NoDup (map Str.lower (map sp_name (template_sp_mapping (db w))
                              ++ map snd l)) ->
      NoDup (map Str.lower (map sp_name (template_sp_mapping (db w)))) ->
      exists w', executemany insert_sp_record l w = (Raise IntegrityError, w')).
Proof.
  revert w. induction l as [|[t sp] l IH]; intros w.
  - cbn [map executemany]. rewrite app_nil_r. split.
    + intros _. unfold ret, set_template_sp_mapping. rewrite app_nil_r.
      now rewrite tables_eta, conn_eta.
    + intros Hn Hd. now contradiction Hn.
  - rewrite executemany_insert_sp_cons.
    set (w1 := mk_conn (set_template_sp_mapping
                          (template_sp_mapping (db w) ++ [mk_sp sp t]) (db w))
                       (in_transaction w) (journal w)).
    assert (Hids : map Str.lower (map sp_name (template_sp_mapping (db w1))
                                  ++ map snd l)
                   = map Str.lower (map sp_name (template_sp_mapping (db w))
                                    ++ map snd ((t, sp) :: l))).
    { unfold w1. cbn [db set_template_sp_mapping template_sp_mapping].
      rewrite (map_app sp_name). cbn [map sp_name snd].
      now rewrite <- app_assoc. }
    destruct (existsb (fun r => sp_name r =~ sp) (template_sp_mapping (db w)))
      eqn:Ex.
    + split.
      * intros Hnd. exfalso. apply existsb_sp_name_In in Ex.
        rewrite map_app in Hnd. cbn [map snd] in Hnd.
        apply NoDup_remove_2 in Hnd. apply Hnd. apply in_or_app. left.
        now rewrite map_map.
      * intros _ _. now exists w.
    + assert (Hnew : ~ In (Str.lower sp)
                          (map (fun r => Str.lower (sp_name r))
                               (template_sp_mapping (db w)))).
      { intros Hin. apply existsb_sp_name_In in Hin. congruence. }
      destruct (IH w1) as [IHok IHbad]. rewrite Hids in IHok, IHbad.
      split.
      * intros Hnd. rewrite (IHok Hnd). unfold w1.
        cbn [db set_template_sp_mapping fcp template template_sp_mapping
             template_fcp_mapping in_transaction journal map fst snd].
        unfold set_template_sp_mapping. now rewrite <- app_assoc.
      * intros Hn Hd. apply (IHbad Hn).
        unfold w1. cbn [db set_template_sp_mapping template_sp_mapping].
        rewrite map_app, map_app. cbn [map sp_name].
        apply NoDup_app_remove_r with (l' := []).
        rewrite <- app_assoc. cbn [app].
        apply NoDup_Add with (a := Str.lower sp)
          (l := map Str.lower (map sp_name (template_sp_mapping (db w)))).
        -- rewrite <- (app_nil_r
                         (map Str.lower
                              (map sp_name (template_sp_mapping (db w)))))
             at 1.
           apply Add_app.
        -- split; [exact Hd|]. now rewrite map_map.
Qed.

Lemma fold_delete_sp (names : list string) (d : tables) :
  fold_left
    (fun d sp =>
       set_template_sp_mapping
         (filter (fun r => negb (sp_name r =~ sp)) (template_sp_mapping d)) d)
    names d
  = set_template_sp_mapping
      (filter (fun r => negb (existsb (fun sp => sp_name r =~ sp) names))
              (template_sp_mapping d)) d.
Proof.
  revert d. induction names as [|sp names IH]; intros d.
  - cbn [fold_left existsb negb]. rewrite filter_all by reflexivity.
    unfold set_template_sp_mapping. now rewrite tables_eta.
  - cbn [fold_left]. rewrite IH. unfold set_template_sp_mapping.
    cbn [fcp template template_sp_mapping template_fcp_mapping]. f_equal.
    rewrite filter_twice. apply filter_ext. intros r. cbn [existsb].
    now destruct (sp_name r =~ sp).
Qed.

Lemma NoDup_map_filter {R K} (keep : R -> bool) (key : R -> K)
  (rows : list R) :
  NoDup (map key rows) -> NoDup (map key (filter keep rows)).
Proof.
  intros Hnd. induction rows as [|x rows IH]; [constructor|].
  cbn [map] in Hnd. apply NoDup_cons_iff in Hnd. destruct Hnd as [Hx Hnd].
  cbn [filter]. destruct (keep x); [|now apply IH].
  cbn [map]. constructor; [|now apply IH].
  intros Hin. apply Hx. apply in_map_iff in Hin.
  destruct Hin as [y [E Hy]]. apply filter_In in Hy.
  apply in_map_iff. exists y. now split.
Qed.

Lemma bulk_set_sp_default_run (template_id : string)
  (sp_name_list : list string) (w : conn) :
  in_transaction w = false ->
  bulk_set_sp_default_by_fcp_template template_id sp_name_list w
  = match executemany insert_sp_record
            (map (fun sp => (template_id, sp)) sp_name_list)
            (mk_conn
               (mk_tables (fcp (db w)) (template (db w))
                  (filter
                     (fun s => negb (sp_tmpl_id s =~ template_id)
                               && negb (existsb (fun sp => sp_name s =~ sp)
                                                sp_name_list))
                     (template_sp_mapping (db w)))
                  (template_fcp_mapping (db w)))
               true (journal w)) with
    | (Ok a, w1) => (Ok a, mk_conn (db w1) false (journal w1))
    | (Raise e, w1) =>
        (Raise (if is_sdk_exception e then e else SDKGuestOperationError),
         mk_conn (db w) false (journal w1 ++ [ERROR]))
    end.
Proof.
  intros Hw. unfold bulk_set_sp_default_by_fcp_template.
  rewrite get_fcp_conn_outer by exact Hw.
  unfold bind at 1. unfold execute at 1. cbn [db in_transaction journal].
  unfold bind at 1. rewrite executemany_execute. rewrite fold_delete_sp.
  unfold set_template_sp_mapping.
  cbn [db in_transaction journal fcp template template_sp_mapping
       template_fcp_mapping].
  now rewrite filter_twice.
Qed.

(** X15. [bulk_set_sp_default_by_fcp_template] is all or nothing.  On a
    table that respects its primary key and for storage providers that are
    pairwise distinct (NOCASE), it succeeds: the providers whose default is
    the template are afterwards exactly the listed ones, every row of
    another template for an unlisted provider is kept, the primary key
    still holds and the other tables are unchanged.  A provider listed
    twice raises [SDKGuestOperationError] and leaves the tables as they
    were. *)
Theorem bulk_set_sp_default_all_or_nothing (template_id : string)
  (sp_name_list : list string) (w : conn) :
  in_transaction w = false ->
  sp_primary_key (db w) ->
  let r := fst (bulk_set_sp_default_by_fcp_template template_id sp_name_list w)
  in
  let w1 := snd (bulk_set_sp_default_by_fcp_template template_id sp_name_list
                   w) in
  (NoDup (map Str.lower sp_name_list) ->
   r = Ok tt
   /\ template_sp_mapping (db w1)
      = filter (fun s => negb (sp_tmpl_id s =~ template_id)
                         && negb (existsb (fun sp => sp_name s =~ sp)
                                          sp_name_list))
               (template_sp_mapping (db w))
        ++ map (fun sp => mk_sp sp template_id) sp_name_list
   /\ filter (fun s => sp_tmpl_id s =~ template_id)
             (template_sp_mapping (db w1))
      = map (fun sp => mk_sp sp template_id) sp_name_list
   /\ sp_primary_key (db w1)
   /\ fcp (db w1) = fcp (db w)
   /\ template (db w1) = template (db w)
   /\ template_fcp_mapping (db w1) = template_fcp_mapping (db w))
  /\ (~ NoDup (map Str.lower sp_name_list) ->
      r = Raise SDKGuestOperationError /\ db w1 = db w).
Proof.
  intros Hw Hpk. cbv zeta. rewrite bulk_set_sp_default_run by exact Hw.
  set (kept := filter (fun s => negb (sp_tmpl_id s =~ template_id)
                                && negb (existsb (fun sp => sp_name s =~ sp)
                                                 sp_name_list))
                      (template_sp_mapping (db w))).
  set (w2 := mk_conn _ true (journal w)).
  assert (Hkept : NoDup (map Str.lower (map sp_name kept))).
  { rewrite map_map. unfold kept. apply NoDup_map_filter. exact Hpk. }
  assert (Hdisj : forall a, In a (map Str.lower (map sp_name kept)) ->
                            ~ In a (map Str.lower sp_name_list)).
  { intros a Ha Hb. rewrite map_map in Ha. apply in_map_iff in Ha.
    destruct Ha as [s [<- Hs]]. apply in_map_iff in Hb.
    destruct Hb as [sp [E Hsp]]. unfold kept in Hs. apply filter_In in Hs.
    destruct Hs as [_ Hs]. apply andb_true_iff in Hs. destruct Hs as [_ Hs].
    apply negb_true_iff in Hs.
    assert (H : existsb (fun sp0 => sp_name s =~ sp0) sp_name_list = true).
    { apply existsb_exists. exists sp. split; [exact Hsp|].
      apply nocase_eqb_lower. now symmetry. }
    congruence. }
  destruct (@executemany_insert_sp_record
              (map (fun sp => (template_id, sp)) sp_name_list) w2)
    as [Hok Hbad].
  assert (Esnd : map snd (map (fun sp : string => (template_id, sp))
                              sp_name_list) = sp_name_list).
  { rewrite map_map. cbn [snd]. apply map_id. }
  unfold w2, set_template_sp_mapping in Hok, Hbad.
  cbn [db in_transaction journal fcp template template_sp_mapping
       template_fcp_mapping] in Hok, Hbad.
  fold kept in Hok, Hbad.
  rewrite Esnd, map_app in Hok, Hbad. split.
  - intros Hnd. fold w2. unfold w2. fold kept. rewrite Hok.
    2:{ apply NoDup_app; assumption. }
    cbn [fst snd db in_transaction template_sp_mapping fcp template
         template_fcp_mapping set_template_sp_mapping].
    rewrite map_map. cbn [fst snd].
    split; [reflexivity|]. split; [reflexivity|]. split.
    { rewrite filter_app. rewrite filter_none.
      - cbn [app]. apply filter_all. intros s Hs. apply in_map_iff in Hs.
        destruct Hs as [sp [<- _]]. apply nocase_eqb_refl.
      - intros s Hs. unfold kept in Hs. apply filter_In in Hs.
        destruct Hs as [_ Hs]. apply andb_true_iff in Hs.
        destruct Hs as [Hs _]. now apply negb_true_iff in Hs. }
    split.
    { unfold sp_primary_key. cbn [template_sp_mapping].
      rewrite map_app. rewrite <- (map_map sp_name Str.lower kept).
      rewrite (map_map (fun sp => mk_sp sp template_id)). cbn [sp_name].
      apply NoDup_app; assumption. }
    now repeat split.
  - intros Hn. fold w2. unfold w2. fold kept.
    destruct Hbad as [w' Hrun].
    + intros Hnd. apply Hn. exact (NoDup_app_remove_l _ _ Hnd).
    + exact Hkept.
    + rewrite Hrun. cbn [fst snd db is_sdk_exception]. now split.
Qed.

Lemma bulk_set_sp_default_all_or_nothing_witness :
  fst (bulk_set_sp_default_by_fcp_template "P" ["sp1"; "SP1"] (idle tables_P))
  = Raise SDKGuestOperationError
  /\ db (snd (bulk_set_sp_default_by_fcp_template "P" ["sp1"; "SP1"]
                (idle tables_P))) = tables_P.
Proof.
  apply (@bulk_set_sp_default_all_or_nothing "P" ["sp1"; "SP1"]
           (idle tables_P) eq_refl).
  - unfold sp_primary_key. cbn. constructor.
  - cbn. intros Hnd. apply NoDup_cons_iff in Hnd. destruct Hnd as [Hin _].
    apply Hin. now left.
Defined.

(** *** When the selection strategies raise *)

Lemma is_weight_exists (pchid_info : list (string * capacity))
  (gs : list string) :
  gs <> [] ->
  (forall g, In g gs -> free_capacity pchid_info g <> None) ->
  exists w, is_weight pchid_info gs w.
Proof.
  intros Hne Hknown.
  destruct (@weights_of_total pchid_info gs Hknown) as [ws Hws].
  destruct (@weights_of_spec pchid_info gs ws Hws) as [Hin _].
  destruct gs as [|g gs']; [now contradiction Hne|].
  destruct (free_capacity pchid_info g) as [f|] eqn:Ef;
    [|exfalso; apply (Hknown g (or_introl eq_refl)); exact Ef].
  assert (Hg : In (g, f, f # Pos.of_nat (uses (g :: gs') g)) ws).
  { apply Hin. split; [now left|]. now split. }
  destruct (map snd ws) as [|q qs] eqn:Eq.
  { apply (in_map snd) in Hg. rewrite Eq in Hg. destruct Hg. }
  assert (Hw : exists w bad',
             weigh (free_count_in_pchid_info pchid_info) (g :: gs') []
             = Ok (w, bad')).
  { unfold weigh. rewrite Hws. cbn [rbind]. rewrite Eq. cbn [py_min rbind].
    eexists. eexists. reflexivity. }
  destruct Hw as [w [bad' Hw]]. exists w.
  apply (@weigh_spec pchid_info (g :: gs') [] bad' w (NoDup_nil _)
           (fun g0 f0 H => False_ind _ H) Hw).
Qed.





(** *** Strategy A does not raise on tables that hold every mapped device *)

Lemma distinct_Z_NoDup (l : list Z) : NoDup (distinct Z.eqb l).
Proof.
  induction l as [|x l IH]; cbn [distinct]; constructor.
  - intros H. apply filter_In in H. destruct H as [_ H].
    now rewrite Z.eqb_refl in H.
  - now apply NoDup_filter.
Qed.

Lemma distinct_Z_In (x : Z) (l : list Z) : In x l -> In x (distinct Z.eqb l).
Proof.
  intros H.
  destruct (@distinct_repr _ Z.eqb x l Z.eqb_refl) as [y [Hy E]];
    [|exact H|].
  - intros a b c Hab Hbc. apply Z.eqb_eq in Hab. apply Z.eqb_eq in Hbc.
    apply Z.eqb_eq. congruence.
  - apply Z.eqb_eq in E. now subst y.
Qed.

Lemma list_sum_step (a : nat) (l : list nat) :
  list_sum (a :: l) = (a + list_sum l)%nat.
Proof. reflexivity. Qed.

Lemma sum_indicator (x : Z) (D : list Z) :
  NoDup D -> In x D ->
  list_sum (map (fun p => if p =? x then 1%nat else 0%nat) D) = 1%nat.
Proof.
  induction 1 as [|y D Hy Hnd IH]; intros Hin; [destruct Hin|].
  cbn [map]. rewrite list_sum_step. destruct Hin as [->|Hin].
  - rewrite Z.eqb_refl.
    assert (E : list_sum (map (fun p => if p =? x then 1%nat else 0%nat) D)
                = 0%nat).
    { clear IH Hnd. induction D as [|z D IHD]; [reflexivity|].
      cbn [map]. rewrite list_sum_step. destruct (z =? x) eqn:Ez.
      - apply Z.eqb_eq in Ez. subst z. exfalso. apply Hy. now left.
      - rewrite IHD; [reflexivity|]. intros H. apply Hy. now right. }
    rewrite E. reflexivity.
  - destruct (y =? x) eqn:Ey.
    + apply Z.eqb_eq in Ey. subst y. now contradiction Hy.
    + now rewrite (IH Hin).
Qed.

Lemma sum_counts (D l : list Z) :
  NoDup D -> (forall x, In x l -> In x D) ->
  list_sum (map (fun p => List.length (filter (Z.eqb p) l)) D)
  = List.length l.
Proof.
  intros Hnd. induction l as [|x l IH]; intros Hin.
  - cbn [filter List.length]. induction D as [|p D IHD]; [reflexivity|].
    cbn [map]. rewrite list_sum_step. cbn [Nat.add]. apply IHD.
    + now apply NoDup_cons_iff in Hnd.
    + intros x [].
  - assert (E : forall D',
      list_sum (map (fun p => List.length (filter (Z.eqb p) (x :: l))) D')
      = (list_sum (map (fun p => if (p =? x)%Z then 1%nat else 0%nat) D')
         + list_sum (map (fun p => List.length (filter (Z.eqb p) l)) D'))%nat).
    { induction D' as [|p D' IHD']; [reflexivity|].
      cbn [map]. rewrite !list_sum_step, IHD'. cbn [filter].
      destruct (p =? x); cbn [List.length]; lia. }
    rewrite E, IH, (@sum_indicator x D Hnd).
    + reflexivity.
    + apply Hin. now left.
    + intros y Hy. apply Hin. now right.
Qed.

Lemma count_by_path_sum (paths : list Z) :
  list_sum (count_by_path paths) = List.length paths.
Proof.
  unfold count_by_path. apply sum_counts.
  - apply sort_by_NoDup. apply distinct_Z_NoDup.
  - intros x Hx. apply sort_by_In. now apply distinct_Z_In.
Qed.

Lemma fold_min_le (l : list nat) (x : nat) :
  (fold_left Nat.min l x <= x)%nat
  /\ forall c, In c l -> (fold_left Nat.min l x <= c)%nat.
Proof.
  revert x. induction l as [|y l IH]; intros x.
  - split; [cbn; lia | intros c []].
  - cbn [fold_left]. destruct (IH (Nat.min x y)) as [H1 H2]. split; [lia|].
    intros c [<-|Hc]; [lia | now apply H2].
Qed.

Lemma py_min_nat_le (l : list nat) (m : nat) :
  py_min_nat l = Ok m -> forall c, In c l -> (m <= c)%nat.
Proof.
  destruct l as [|x l]; [discriminate|]. cbn [py_min_nat].
  intros H. injection H as <-. destruct (fold_min_le l x) as [H1 H2].
  intros c [<-|Hc]; [exact H1 | now apply H2].
Qed.

(** With one row of [fcp] for each row of the template in
    [template_fcp_mapping], the join has as many rows as the template has
    devices. *)
Lemma join_length (t : string) (d : tables) :
  (forall m, In m (template_fcp_mapping d) -> (tf_tmpl_id m =~ t) = true ->
     List.length (filter (fun f => tf_fcp_id m =~ fcp_id f) (fcp d)) = 1%nat) ->
  List.length (filter (fun r => tf_tmpl_id (fst r) =~ t) (inner_join d))
  = List.length (filter (fun r => tf_tmpl_id r =~ t) (template_fcp_mapping d)).
Proof.
  unfold inner_join. induction (template_fcp_mapping d) as [|m ms IH];
    intros H; [reflexivity|].
  cbn [flat_map filter]. rewrite filter_app, length_app.
  rewrite IH by (intros m' Hm'; apply H; now right).
  assert (E : filter (fun r : tf_row * fcp_row => tf_tmpl_id (fst r) =~ t)
                (map (pair m)
                     (filter (fun f => tf_fcp_id m =~ fcp_id f) (fcp d)))
              = if tf_tmpl_id m =~ t
                then map (pair m)
                         (filter (fun f => tf_fcp_id m =~ fcp_id f) (fcp d))
                else []).
  { induction (filter (fun f => tf_fcp_id m =~ fcp_id f) (fcp d))
      as [|f fs IHf]; [now destruct (tf_tmpl_id m =~ t)|].
    cbn [map filter fst]. rewrite IHf.
    now destruct (tf_tmpl_id m =~ t). }
  rewrite E. destruct (tf_tmpl_id m =~ t) eqn:Et; [|reflexivity].
  rewrite length_map, (H m (or_introl eq_refl) Et). reflexivity.
Qed.

Lemma index_total {A} (l : list A) (i : nat) :
  (i < List.length l)%nat -> exists x, index l i = Ok x.
Proof.
  intros H. unfold index. destruct (nth_error l i) as [x|] eqn:E.
  - now exists x.
  - apply nth_error_None in E. lia.
Qed.

Lemma pair_up_total (fcps : list (tf_row * fcp_row)) (idx : nat)
  (count_per_path : list nat) (s : nat) (pair : list fcp_item) :
  (s + list_sum count_per_path <= List.length fcps)%nat ->
  (forall c, In c count_per_path -> (idx < c)%nat) ->
  exists o, pair_up fcps idx count_per_path s pair = Ok o.
Proof.
  revert s pair. induction count_per_path as [|n rest IH]; intros s pair Hs Hc.
  - now eexists.
  - destruct rest as [|n' rest']; [now eexists|].
    cbn [pair_up].
    assert (Hn' : (idx < n')%nat) by (apply Hc; right; now left).
    rewrite !list_sum_step in Hs.
    destruct (@index_total _ fcps (s + n + idx)) as [row Hrow]; [lia|].
    rewrite Hrow. cbn [rbind].
    destruct ((idx <? n')%nat && free_in_python row); [|now eexists].
    apply IH.
    + rewrite list_sum_step. lia.
    + intros c Hin. apply Hc. now right.
Qed.

Lemma _remove_invalid_combinations_total (pchid_info : list (string * capacity))
  (cs kept0 : list (list fcp_item)) (bad0 : list (string * Z)) :
  NoDup (map fst bad0) ->
  (forall g f, In (g, f) bad0 -> free_capacity pchid_info g = Some f) ->
  (forall c, In c cs ->
     exists w, is_weight pchid_info
                 (map (fun it => Str.upper (i_pchid it)) c) w) ->
  exists kept bad,
    fold_left
      (fun acc c =>
         st <~ acc ;;
         let '(kept, without) := st in
         ww <~ weigh (free_count_in_pchid_info pchid_info)
                     (map (fun it => Str.upper (i_pchid it)) c) without ;;
         Ok (if Qlt_bool (fst ww) 1 then kept else kept ++ [c], snd ww))
      cs (Ok (kept0, bad0)) = Ok (kept, bad).
Proof.
  revert kept0 bad0. induction cs as [|c cs IH]; intros kept0 bad0 Hnd Hcons Hw.
  - now exists kept0, bad0.
  - cbn [fold_left rbind].
    destruct (Hw c (or_introl eq_refl)) as [w Hcw].
    destruct (@weigh_total pchid_info _ bad0 w Hcw) as [w' [bad' Hrun]].
    rewrite Hrun. cbn [rbind fst snd].
    destruct (@weigh_spec pchid_info _ _ _ _ Hnd Hcons Hrun)
      as [_ [Hnd1 Hbad1]].
    apply IH.
    + exact Hnd1.
    + intros g f H. apply Hbad1 in H. destruct H as [H|[_ [H _]]];
        [now apply Hcons | exact H].
    + intros c' Hc'. apply Hw. now right.
Qed.

(** X17. [get_fcp_devices_with_same_index] does not raise on tables that
    hold, in [fcp], exactly one row for each device of the template, with a
    capacity snapshot that knows the PCHID of each of these devices: every
    index it computes into the joined rows is in range, and it returns a
    list of devices and a reason. *)
Theorem get_fcp_devices_with_same_index_total (t : string)
  (pchid_info : list (string * capacity)) (rand : nat -> nat) (d : tables) :
  (forall m, In m (template_fcp_mapping d) -> (tf_tmpl_id m =~ t) = true ->
     List.length (filter (fun f => tf_fcp_id m =~ fcp_id f) (fcp d)) = 1%nat) ->
  (forall row, In row (inner_join d) -> (tf_tmpl_id (fst row) =~ t) = true ->
     free_capacity pchid_info (Str.upper (pchid (snd row))) <> None) ->
  exists devices r,
    get_fcp_devices_with_same_index t pchid_info rand d = Ok (devices, r).
Proof.
  intros Hint Hcov. unfold get_fcp_devices_with_same_index. cbv zeta.
  set (paths := map tf_path (filter (fun r => tf_tmpl_id r =~ t)
                                    (template_fcp_mapping d))).
  set (fcps := sort_by _ (filter (fun r => tf_tmpl_id (fst r) =~ t)
                                 (inner_join d))).
  assert (Hlen : List.length fcps = list_sum (count_by_path paths)).
  { unfold fcps. rewrite sort_by_length, (join_length t d Hint).
    rewrite count_by_path_sum. unfold paths. now rewrite length_map. }
  assert (Hfcps : forall row, In row fcps ->
            free_capacity pchid_info (Str.upper (pchid (snd row))) <> None).
  { intros row Hrow. unfold fcps in Hrow. apply sort_by_In in Hrow.
    apply filter_In in Hrow. destruct Hrow as [Hj Ht]. now apply Hcov. }
  destruct (count_by_path paths) as [|n0 ns] eqn:Ec; [now eexists; eexists|].
  rewrite <- Ec in *.
  destruct (_ <? _)%nat; [now eexists; eexists|].
  destruct (py_min_nat (count_by_path paths)) as [shortest|e] eqn:Emin.
  2:{ rewrite Ec in Emin. discriminate Emin. }
  pose proof (py_min_nat_le _ Emin) as Hshort.
  assert (Hn0 : (n0 <= list_sum (count_by_path paths))%nat).
  { rewrite Ec, list_sum_step. lia. }
  assert (Hs0 : (shortest <= n0)%nat).
  { apply Hshort. rewrite Ec. now left. }
  cbn [rbind].
  destruct (@mapM_total _ _
              (fun i => row <~ index fcps i ;;
                        Ok (if free_in_python row then [(i, [tuple_of row])]
                            else []))
              (seq 0 shortest)) as [fcp_pair_map Emap].
  { intros i Hi. apply in_seq in Hi.
    destruct (@index_total _ fcps i) as [row Hrow]; [lia|].
    rewrite Hrow. cbn [rbind]. now eexists. }
  rewrite Emap. cbn [rbind].
  assert (Hentry : forall e, In e (List.concat fcp_pair_map) ->
            (fst e < shortest)%nat
            /\ exists row, In row fcps /\ snd e = [tuple_of row]).
  { intros e He. apply (proj1 (@concat_mapM_In _ _ _ _ _ e Emap)) in He.
    destruct He as [i [y [Hi [Hy Hey]]]]. apply in_seq in Hi.
    destruct (index fcps i) as [row|e0] eqn:Ei; [|discriminate Hy].
    cbn [rbind] in Hy. destruct (free_in_python row); injection Hy as <-;
      [|destruct Hey].
    destruct Hey as [<-|[]]. cbn [fst snd]. split; [lia|].
    exists row. split; [exact (index_In _ _ Ei) | reflexivity]. }
  destruct (@mapM_total _ _
              (fun e => pair_up fcps (fst e) (count_by_path paths) 0 (snd e))
              (List.concat fcp_pair_map)) as [paired Epaired].
  { intros e He. destruct (Hentry e He) as [Hlt _].
    apply pair_up_total; [lia|].
    intros c Hc. specialize (Hshort c Hc). lia. }
  rewrite Epaired. cbn [rbind].
  set (combos := flat_map _ paired).
  assert (Hcombos : forall c, In c combos ->
            exists w, is_weight pchid_info
                        (map (fun it => Str.upper (i_pchid it)) c) w).
  { intros c Hc. unfold combos in Hc. apply in_flat_map in Hc.
    destruct Hc as [[c'|] [Hp Hc]]; [|destruct Hc].
    destruct Hc as [<-|[]]. apply mapM_Ok in Epaired.
    destruct (@Forall2_In_r _ _ _ _ _ Epaired (Some c') Hp) as [e [He Hpair]].
    destruct (Hentry e He) as [_ [row0 [Hrow0 Esnd]]].
    destruct (@pair_up_spec _ _ _ _ _ _ Hpair) as [added [Ec' [_ Hall]]].
    rewrite Esnd in Ec'. apply is_weight_exists.
    - rewrite Ec'. discriminate.
    - intros g Hg. apply in_map_iff in Hg. destruct Hg as [it [<- Hit]].
      rewrite Ec' in Hit. cbn [app] in Hit. destruct Hit as [<-|Hit].
      + cbn [tuple_of i_pchid]. now apply Hfcps.
      + rewrite Forall_forall in Hall.
        destruct (Hall it Hit) as [row [Hrow [_ ->]]].
        cbn [tuple_of i_pchid]. now apply Hfcps. }
  destruct combos as [|c0 cs] eqn:Ecombos; [now eexists; eexists|].
  rewrite <- Ecombos in *. unfold _remove_invalid_combinations.
  destruct (@_remove_invalid_combinations_total pchid_info combos [] []
              (NoDup_nil _) (fun g f H => False_ind _ H) Hcombos)
    as [kept [bad Hrem]].
  rewrite Hrem. cbn [rbind].
  destruct kept as [|k0 ks] eqn:Ek; [now eexists; eexists|].
  destruct (@choice_In _ (rand 0%nat)
              (sort_by (fun a b => is_le (list_compare a b)) (k0 :: ks)))
    as [x [Hx _]].
  { intros E. apply (f_equal (@List.length _)) in E.
    rewrite sort_by_length in E. discriminate E. }
  rewrite Hx. cbn [rbind]. now eexists; eexists.
Qed.

Lemma get_fcp_devices_with_same_index_total_witness :
  exists devices r,
    get_fcp_devices_with_same_index "P" pchid_info_free (fun _ => O) tables_P
    = Ok (devices, r).
Proof.
  apply (@get_fcp_devices_with_same_index_total "P" pchid_info_free
           (fun _ => O) tables_P).
  - intros m Hm _. cbn in Hm.
    destruct Hm as [<-|[<-|[<-|[]]]]; reflexivity.
  - intros row Hrow _. vm_compute in Hrow.
    destruct Hrow as [<-|[<-|[<-|[]]]]; discriminate.
Defined.

(** *** The template manager leaves table [fcp] alone *)

Lemma keeps_fcp_ret {A} (a : A) : keeps_fcp (ret a).
Proof. intros w. reflexivity. Qed.

Lemma keeps_fcp_raise {A} (e : exn) : keeps_fcp (@raise A e).
Proof. intros w. reflexivity. Qed.

Lemma keeps_fcp_query {A} (q : tables -> A) : keeps_fcp (query q).
Proof. intros w. reflexivity. Qed.

Lemma keeps_fcp_read {A} (q : tables -> res A) : keeps_fcp (read q).
Proof. intros w. reflexivity. Qed.

Lemma keeps_fcp_LOG (l : level) : keeps_fcp (LOG l).
Proof. intros w. reflexivity. Qed.

Lemma keeps_fcp_execute (f : tables -> tables) :
  (forall d, fcp (f d) = fcp d) -> keeps_fcp (execute f).
Proof. intros H w. cbn. apply H. Qed.

Lemma keeps_fcp_bind {A B} (m : M A) (k : A -> M B) :
  keeps_fcp m -> (forall a, keeps_fcp (k a)) -> keeps_fcp (bind m k).
Proof.
  intros Hm Hk w. unfold bind. specialize (Hm w).
  destruct (m w) as [[a|e] w1]; cbn [snd] in *.
  - now rewrite Hk.
  - exact Hm.
Qed.

Lemma keeps_fcp_executemany {P} (stmt : P -> M unit) (ps : list P) :
  (forall p, keeps_fcp (stmt p)) -> keeps_fcp (executemany stmt ps).
Proof.
  intros H. induction ps as [|p ps IH]; cbn [executemany].
  - apply keeps_fcp_ret.
  - apply keeps_fcp_bind; [apply H | intros _; exact IH].
Qed.

Lemma keeps_fcp_get_fcp_conn {A} (body : M A) :
  keeps_fcp body -> keeps_fcp (get_fcp_conn body).
Proof.
  intros Hb w. unfold get_fcp_conn.
  destruct (in_transaction w) eqn:Et.
  - specialize (Hb w). destruct (body w) as [[a|e] w1]; exact Hb.
  - specialize (Hb (mk_conn (db w) true (journal w))).
    destruct (body _) as [[a|e] w1]; [exact Hb | reflexivity].
Qed.

Ltac keeps_fcp_step :=
  first
    [ apply keeps_fcp_ret | apply keeps_fcp_raise | apply keeps_fcp_query
    | apply keeps_fcp_read | apply keeps_fcp_LOG
    | apply keeps_fcp_execute; intros ?; reflexivity
    | apply keeps_fcp_get_fcp_conn
    | apply keeps_fcp_executemany; intros ?
    | apply keeps_fcp_bind; [|intros ?]
    | match goal with
      | |- keeps_fcp (let '(_, _) := ?x in _) => destruct x
      | |- keeps_fcp (match ?x with _ => _ end) => destruct x
      | |- keeps_fcp (if ?x then _ else _) => destruct x
      end ].

Ltac keeps_fcp_auto := repeat keeps_fcp_step.

(** X18. No operation of the template manager changes table [fcp],
    whatever it returns or raises and whether or not it runs inside
    another transaction: creating, editing and deleting a template,
    setting its basic info and its storage providers, and inserting,
    deleting and moving devices in [template_fcp_mapping] leave the rows of
    [fcp], hence the usage of every device, as they were. *)
Theorem template_manager_keeps_fcp
  (expand_fcp_list : string -> list (Z * list string)) :
  (forall i name description devs host_default sps min_count,
     keeps_fcp (create_fcp_template i name description devs host_default sps
                                    min_count))
  /\ (forall i name description devs host_default sps min_count,
        keeps_fcp (edit_fcp_template expand_fcp_list i name description devs
                                     host_default sps min_count))
  /\ (forall i, keeps_fcp (delete_fcp_template i))
  /\ (forall record, keeps_fcp (update_basic_info_of_fcp_template record))
  /\ (forall i sps, keeps_fcp (bulk_set_sp_default_by_fcp_template i sps))
  /\ (forall records, keeps_fcp (bulk_insert_fcp_device_into_fcp_template
                                   records))
  /\ (forall records, keeps_fcp (bulk_delete_fcp_device_from_fcp_template
                                   records))
  /\ (forall ids i, keeps_fcp (bulk_delete_fcp_from_template ids i))
  /\ (forall record, keeps_fcp (update_path_of_fcp_device record)).
Proof.
  assert (Htf : forall rec, keeps_fcp (insert_tf_record rec)).
  { intros [[t i] p]. unfold insert_tf_record. keeps_fcp_auto. }
  assert (Hsp : forall rec, keeps_fcp (insert_sp_record rec)).
  { intros [t s]. unfold insert_sp_record. keeps_fcp_auto. }
  assert (Hup : forall rec, keeps_fcp (update_sp_record rec)).
  { intros [t s]. unfold update_sp_record. keeps_fcp_auto. }
  assert (Hdel : forall rec, keeps_fcp (delete_tf_record rec)).
  { intros [t i]. unfold delete_tf_record. keeps_fcp_auto. }
  assert (Hfree : forall rec, keeps_fcp (delete_free_tf_record rec)).
  { intros [t i]. unfold delete_free_tf_record. keeps_fcp_auto. }
  assert (Hbasic : forall record,
            keeps_fcp (update_basic_info_of_fcp_template record)).
  { intros [[[[n ds] h] m] i]. unfold update_basic_info_of_fcp_template.
    keeps_fcp_auto. }
  assert (Hset : forall i sps,
            keeps_fcp (bulk_set_sp_default_by_fcp_template i sps)).
  { intros i sps. unfold bulk_set_sp_default_by_fcp_template.
    keeps_fcp_auto. apply Hsp. }
  assert (Hins : forall records,
            keeps_fcp (bulk_insert_fcp_device_into_fcp_template records)).
  { intros records. unfold bulk_insert_fcp_device_into_fcp_template.
    keeps_fcp_auto. apply Htf. }
  assert (Hbdel : forall records,
            keeps_fcp (bulk_delete_fcp_device_from_fcp_template records)).
  { intros records. unfold bulk_delete_fcp_device_from_fcp_template.
    keeps_fcp_auto. apply Hdel. }
  assert (Hpath : forall record, keeps_fcp (update_path_of_fcp_device record)).
  { intros [[p i] t]. unfold update_path_of_fcp_device. keeps_fcp_auto. }
  split; [|split; [|split; [|split; [|split; [|split; [|split; [|split]]]]]]];
    try assumption.
  - intros. unfold create_fcp_template, insert_template_record.
    keeps_fcp_auto; first [apply Htf | apply Hsp | apply Hup].
  - intros. unfold edit_fcp_template, _validate_min_fcp_paths_count,
      edit_fcp_devices.
    keeps_fcp_auto;
      try first [apply Hbasic | apply Hset | apply Hins | apply Hbdel
                | apply Hpath | apply Htf | apply Hsp | apply Hdel].
  - intros. unfold delete_fcp_template. keeps_fcp_auto.
  - intros. unfold bulk_delete_fcp_from_template. keeps_fcp_auto. apply Hfree.
Qed.

(** X19. [edit_fcp_template] rejects two requests before it changes
    anything.  For a template that is not in table [template] it raises the
    object-not-exist error.  For an existing template, a request that
    gives no device list and a [min_fcp_paths_count] greater than the
    number of paths of the template raises [SDKConflictError] with reason
    23.  In both cases the four tables are left as they were. *)
Theorem edit_fcp_template_rejects
  (expand_fcp_list : string -> list (Z * list string)) (i : string)
  (name description : option string) (host_default : option bool)
  (sps : option (list string)) (w : conn) :
  in_transaction w = false ->
  (fcp_template_exist_in_db i (db w) = false ->
   forall devs min_count,
     fst (edit_fcp_template expand_fcp_list i name description devs
            host_default sps min_count w) = Raise SDKObjectNotExistError
     /\ db (snd (edit_fcp_template expand_fcp_list i name description devs
                   host_default sps min_count w)) = db w)
  /\ (fcp_template_exist_in_db i (db w) = true ->
      forall m, m > get_path_count i (db w) -> m <> 0 ->
        fst (edit_fcp_template expand_fcp_list i name description None
               host_default sps (Some m) w) = Raise (SDKConflictError 23 [])
        /\ db (snd (edit_fcp_template expand_fcp_list i name description None
                      host_default sps (Some m) w)) = db w).
Proof.
  intros Hw. split.
  - intros Hex devs min_count.
    destruct (edit_fcp_template expand_fcp_list i name description devs
                host_default sps min_count w) as [r w1] eqn:E.
    unfold edit_fcp_template in E. rewrite get_fcp_conn_outer in E by exact Hw.
    unfold bind at 1 in E. unfold query at 1 in E. cbn [db] in E.
    rewrite Hex in E. unfold bind at 1 in E. unfold raise at 1 in E.
    injection E as <- <-. now split.
  - intros Hex m Hm Hm0.
    destruct (edit_fcp_template expand_fcp_list i name description None
                host_default sps (Some m) w) as [r w1] eqn:E.
    unfold edit_fcp_template in E. rewrite get_fcp_conn_outer in E by exact Hw.
    unfold bind at 1 in E. unfold query at 1 in E. cbn [db] in E.
    rewrite Hex in E. unfold bind at 1 in E. unfold ret at 1 in E.
    unfold bind at 1 in E. unfold ret at 1 in E.
    unfold bind at 1 in E. unfold _validate_min_fcp_paths_count at 1 in E.
    apply Z.eqb_neq in Hm0. rewrite Hm0 in E. cbn [negb orb] in E.
    unfold bind at 1 in E. unfold query at 1 in E. cbn [db] in E.
    unfold bind at 1 in E. unfold ret at 1 in E.
    apply Z.gt_lt in Hm. apply Z.gtb_lt in Hm. rewrite Hm in E.
    unfold bind at 1 in E. unfold LOG at 1 in E. unfold raise at 1 in E.
    injection E as <- <-. now split.
Qed.

Lemma edit_fcp_template_rejects_witness :
  fst (edit_fcp_template expand_example "P" None None None None None (Some 3)
         (idle tables_P))
  = Raise (SDKConflictError 23 [])
  /\ db (snd (edit_fcp_template expand_example "P" None None None None None
                (Some 3) (idle tables_P))) = tables_P.
Proof.
  apply (proj2 (@edit_fcp_template_rejects expand_example "P" None None None
                  None (idle tables_P) eq_refl) eq_refl 3).
  - reflexivity.
  - discriminate.
Defined.

(** *** The PCHIDs of a template *)

Lemma distinct_NoDup_map {A B} (eqb : A -> A -> bool) (f : A -> B)
  (l : list A) :
  (forall a b, f a = f b -> eqb a b = true) ->
  NoDup (map f (distinct eqb l)).
Proof.
  intros Hf. induction l as [|x l IH]; cbn [distinct map]; constructor.
  - intros Hin. apply in_map_iff in Hin. destruct Hin as [y [E Hy]].
    apply filter_In in Hy. destruct Hy as [_ Hy].
    rewrite (Hf x y (eq_sym E)) in Hy. discriminate Hy.
  - apply NoDup_map_filter. exact IH.
Qed.

Lemma upper_eq_nocase (a b : string) :
  Str.upper a = Str.upper b -> (a =~ b) = true.
Proof.
  intros E. apply nocase_eqb_lower.
  rewrite <- (lower_upper a), <- (lower_upper b). now rewrite E.
Qed.

Lemma nocase_eqb_trans (a b c : string) :
  (a =~ b) = true -> (b =~ c) = true -> (a =~ c) = true.
Proof.
  intros H1 H2. apply nocase_eqb_lower in H1. apply nocase_eqb_lower in H2.
  apply nocase_eqb_lower. congruence.
Qed.

Lemma upper_distinct_In (g : string) (l : list string) :
  In g (map Str.upper (distinct Str.nocase_eqb l))
  <-> exists x, In x l /\ Str.upper x = g.
Proof.
  rewrite in_map_iff. split.
  - intros [y [E Hy]]. exists y. split; [|exact E].
    exact (distinct_incl _ _ _ Hy).
  - intros [x [Hx E]].
    destruct (@distinct_repr _ Str.nocase_eqb x l nocase_eqb_refl
                nocase_eqb_trans Hx) as [y [Hy Eyx]].
    exists y. split; [|exact Hy]. rewrite <- E. now apply nocase_eqb_upper.
Qed.

(** X20. [get_pchids_by_fcp_template] and
    [get_pchids_from_all_fcp_templates] return PCHIDs in upper case without
    repetition.  A PCHID is returned for a template exactly when a device
    of the template that is in table [fcp] has it (NOCASE), and every PCHID
    of one template is among the PCHIDs of all templates. *)
Theorem pchids_of_templates (t : string) (d : tables) :
  NoDup (get_pchids_by_fcp_template t d)
  /\ NoDup (get_pchids_from_all_fcp_templates d)
  /\ (forall g, In g (get_pchids_by_fcp_template t d)
                <-> exists row, In row (inner_join d)
                                /\ (tf_tmpl_id (fst row) =~ t) = true
                                /\ Str.upper (pchid (snd row)) = g)
  /\ (forall g, In g (get_pchids_by_fcp_template t d) ->
                In g (get_pchids_from_all_fcp_templates d)
                /\ Str.upper g = g).
Proof.
  assert (Hin : forall g, In g (get_pchids_by_fcp_template t d)
                <-> exists row, In row (inner_join d)
                                /\ (tf_tmpl_id (fst row) =~ t) = true
                                /\ Str.upper (pchid (snd row)) = g).
  { intros g. unfold get_pchids_by_fcp_template. rewrite upper_distinct_In.
    split.
    - intros [x [Hx E]]. apply in_map_iff in Hx.
      destruct Hx as [row [<- Hrow]]. apply filter_In in Hrow.
      exists row. now repeat split.
    - intros [row [Hrow [Ht E]]]. exists (pchid (snd row)). split; [|exact E].
      apply in_map_iff. exists row. split; [reflexivity|].
      apply filter_In. now split. }
  split; [|split; [|split; [exact Hin|]]].
  - unfold get_pchids_by_fcp_template. apply distinct_NoDup_map.
    exact upper_eq_nocase.
  - unfold get_pchids_from_all_fcp_templates. apply distinct_NoDup_map.
    exact upper_eq_nocase.
  - intros g Hg. apply Hin in Hg. destruct Hg as [row [Hrow [_ E]]]. split.
    + unfold get_pchids_from_all_fcp_templates. apply upper_distinct_In.
      exists (pchid (snd row)). split; [|exact E].
      apply in_map_iff. now exists row.
    + rewrite <- E. apply upper_upper.
Qed.

(** X21. [get_free_pchids_by_fcp_template] has each path once as a key, no
    path with an empty list, and lists the PCHID [g] (upper case) for the
    path [p] exactly when the template has, on path [p], a device with
    PCHID [g] that is available: no connection, not reserved, state free
    and both WWPNs set.  It is empty exactly when the template has no
    available device. *)
Theorem free_pchids_per_path (t : string) (d : tables) :
  NoDup (map fst (get_free_pchids_by_fcp_template t d))
  /\ (forall p l, In (p, l) (get_free_pchids_by_fcp_template t d) -> l <> [])
  /\ (forall p g,
        listed_for (get_free_pchids_by_fcp_template t d) p g
        <-> exists row, In row (inner_join d)
                        /\ (tf_tmpl_id (fst row) =~ t) = true
                        /\ available (snd row) = true
                        /\ tf_path (fst row) = p
                        /\ Str.upper (pchid (snd row)) = g)
  /\ (get_free_pchids_by_fcp_template t d = [] <-> free_rows t d = []).
Proof.
  pose proof (@get_free_pchids_by_fcp_template_spec t d) as Hspec.
  cbv zeta in Hspec. destruct Hspec as [Hkeys [Hlisted Hne]].
  assert (Hfree : forall p g,
            listed_for (get_free_pchids_by_fcp_template t d) p g
            <-> exists row, In row (inner_join d)
                            /\ (tf_tmpl_id (fst row) =~ t) = true
                            /\ available (snd row) = true
                            /\ tf_path (fst row) = p
                            /\ Str.upper (pchid (snd row)) = g).
  { intros p g. rewrite Hlisted. unfold free_on, free_rows. split.
    - intros [row [Hrow [Hp Hg]]]. apply filter_In in Hrow.
      destruct Hrow as [Hj Hc]. apply andb_true_iff in Hc.
      exists row. now repeat split.
    - intros [row [Hj [Ht [Ha [Hp Hg]]]]]. exists row.
      split; [|now split]. apply filter_In. split; [exact Hj|].
      now rewrite Ht, Ha. }
  split; [exact Hkeys|]. split; [exact Hne|]. split; [exact Hfree|]. split.
  - intros E. destruct (free_rows t d) as [|row rows] eqn:Er; [reflexivity|].
    exfalso.
    assert (H : listed_for (get_free_pchids_by_fcp_template t d)
                  (tf_path (fst row)) (Str.upper (pchid (snd row)))).
    { apply Hlisted. exists row. split; [|now split]. rewrite Er. now left. }
    rewrite E in H. destruct H as [l [[] _]].
  - intros E. unfold get_free_pchids_by_fcp_template. now rewrite E.
Qed.

(** X22. The minimum path count of a template just created
    ([create_fcp_template] on an unused, non-empty id, without host default
    and storage providers).  Created without [min_fcp_paths_count], or
    with 0, the template stores -1 and [get_min_fcp_paths_count] answers
    the number of paths that were given at least one device; created with
    another value, other than -1, it answers that value. *)
Theorem create_fcp_template_min_count (i name description : string)
  (devs : list (Z * list string)) (min_count : option Z) (w : conn) :
  in_transaction w = false ->
  unused_template_id i (db w) ->
  NoDup (map Str.lower (List.concat (map snd devs))) ->
  Str.nonempty i = true ->
  let d1 := db (snd (create_fcp_template i name description devs false []
                       min_count w)) in
  (min_count = None \/ min_count = Some 0 ->
   get_min_fcp_paths_count_from_db i d1 = Some (-1)
   /\ get_min_fcp_paths_count i d1
      = Ok (Z.of_nat (List.length
                        (distinct Z.eqb (map tf_path (new_tf_rows i devs))))))
  /\ (forall m, min_count = Some m -> m <> 0 -> m <> -1 ->
        get_min_fcp_paths_count i d1 = Ok m).
Proof.
  intros Hw Hun Hnd Hi. cbv zeta.
  rewrite (@create_fcp_template_run i name description devs min_count w
             Hw Hun Hnd).
  cbn [snd db]. destruct Hun as [Ht [Htf _]].
  assert (Hfind : forall row,
    find (fun t => t_id t =~ i) (template (db w) ++ [row])
    = if t_id row =~ i then Some row else None).
  { intros row. induction (template (db w)) as [|x l IH].
    - cbn. now destruct (t_id row =~ i).
    - cbn [app find]. rewrite (Ht x (or_introl eq_refl)).
      apply IH. intros t0 H0. apply Ht. now right. }
  assert (Hstored :
    get_min_fcp_paths_count_from_db i
      (mk_tables (fcp (db w))
         (template (db w)
          ++ [new_template_row i name description false min_count])
         (template_sp_mapping (db w))
         (template_fcp_mapping (db w) ++ new_tf_rows i devs))
    = Some (min_fcp_paths_count
              (new_template_row i name description false min_count))).
  { unfold get_min_fcp_paths_count_from_db. cbn [template].
    rewrite Hfind. rewrite new_template_row_id, nocase_eqb_refl. reflexivity. }
  assert (Hpaths :
    get_path_count i
      (mk_tables (fcp (db w))
         (template (db w)
          ++ [new_template_row i name description false min_count])
         (template_sp_mapping (db w))
         (template_fcp_mapping (db w) ++ new_tf_rows i devs))
    = Z.of_nat (List.length
                  (distinct Z.eqb (map tf_path (new_tf_rows i devs))))).
  { unfold get_path_count, paths_of_template. cbn [template_fcp_mapping].
    rewrite filter_app, (filter_none _ _ Htf). cbn [app].
    rewrite filter_all; [reflexivity|].
    intros r Hr. rewrite (new_tf_rows_tmpl _ _ _ Hr). apply nocase_eqb_refl. }
  split.
  - intros Hmin. unfold get_min_fcp_paths_count. rewrite Hi. cbn [negb].
    rewrite Hstored, Hpaths.
    destruct Hmin as [-> | ->]; cbn; now split.
  - intros m -> Hm0 Hm1. unfold get_min_fcp_paths_count. rewrite Hi.
    cbn [negb]. rewrite Hstored. cbn [new_template_row min_fcp_paths_count].
    apply Z.eqb_neq in Hm0. rewrite Hm0.
    apply Z.eqb_neq in Hm1. now rewrite Hm1.
Qed.

Lemma create_fcp_template_min_count_witness :
  get_min_fcp_paths_count "R"
    (db (snd (create_fcp_template "R" "r" ""
                [(0, ["1a01"; "1a02"]); (1, ["1b01"])] false [] (Some 0)
                (idle tables_P))))
  = Ok 2.
Proof.
  assert (Hun : unused_template_id "R" (db (idle tables_P))).
  { unfold unused_template_id. cbn.
    repeat split; intros x H;
      repeat (destruct H as [<-|H]; [reflexivity|]); destruct H. }
  assert (Hnd : NoDup (map Str.lower
                         (List.concat
                            (map snd [(0, ["1a01"; "1a02"]); (1, ["1b01"])])))).
  { cbn. repeat (constructor; [cbn; intuition discriminate|]). constructor. }
  apply (proj1 (@create_fcp_template_min_count "R" "r" ""
                  [(0, ["1a01"; "1a02"]); (1, ["1b01"])] (Some 0)
                  (idle tables_P) eq_refl Hun Hnd eq_refl)).
  now right.
Defined.

(** *** Default templates of storage providers and templates of an assigner *)

Lemma bulk_set_sp_default_ok (template_id : string)
  (sp_name_list : list string) (w : conn) :
  in_transaction w = false ->
  sp_primary_key (db w) ->
  NoDup (map Str.lower sp_name_list) ->
  bulk_set_sp_default_by_fcp_template template_id sp_name_list w
  = (Ok tt,
     mk_conn
       (mk_tables (fcp (db w)) (template (db w))
          (filter (fun s => negb (sp_tmpl_id s =~ template_id)
                            && negb (existsb (fun sp => sp_name s =~ sp)
                                             sp_name_list))
                  (template_sp_mapping (db w))
           ++ map (fun sp => mk_sp sp template_id) sp_name_list)
          (template_fcp_mapping (db w)))
       false (journal w)).
Proof.
  intros Hw Hpk Hnd. rewrite bulk_set_sp_default_run by exact Hw.
  set (kept := filter _ (template_sp_mapping (db w))).
  destruct (@executemany_insert_sp_record
              (map (fun sp => (template_id, sp)) sp_name_list)
              (mk_conn (mk_tables (fcp (db w)) (template (db w)) kept
                                  (template_fcp_mapping (db w)))
                       true (journal w))) as [Hok _].
  cbn [db template_sp_mapping] in Hok. rewrite Hok.
  - unfold set_template_sp_mapping.
    cbn [db in_transaction journal fcp template template_sp_mapping
         template_fcp_mapping].
    now rewrite map_map.
  - rewrite map_map. cbn [snd]. rewrite map_id, map_app. apply NoDup_app.
    + rewrite map_map. unfold kept. now apply NoDup_map_filter.
    + exact Hnd.
    + intros a Ha Hb. rewrite map_map in Ha. apply in_map_iff in Ha.
      destruct Ha as [s [<- Hs]]. apply in_map_iff in Hb.
      destruct Hb as [sp [E Hsp]]. unfold kept in Hs. apply filter_In in Hs.
      destruct Hs as [_ Hs]. apply andb_true_iff in Hs. destruct Hs as [_ Hs].
      apply negb_true_iff in Hs.
      assert (H : existsb (fun sp0 => sp_name s =~ sp0) sp_name_list = true).
      { apply existsb_exists. exists sp. split; [exact Hsp|].
        apply nocase_eqb_lower. now symmetry. }
      congruence.
Qed.

(** X23. After [bulk_set_sp_default_by_fcp_template] has set a template as
    default for a list of pairwise distinct storage providers,
    [get_sp_default_fcp_template] asked for one of them, a name other than
    ['all'], answers with rows of that template only, and with at least one
    row when the template exists. *)
Theorem sp_default_after_set (template_id : string)
  (sp_name_list : list string) (sp : string) (w : conn) :
  in_transaction w = false ->
  sp_primary_key (db w) ->
  NoDup (map Str.lower sp_name_list) ->
  In sp sp_name_list ->
  Str.lower sp <> "all" ->
  let d1 := db (snd (bulk_set_sp_default_by_fcp_template template_id
                       sp_name_list w)) in
  (forall r, In r (get_sp_default_fcp_template [sp] d1) ->
     (t_id (fst r) =~ template_id) = true /\ (snd r =~ sp) = true)
  /\ (fcp_template_exist_in_db template_id (db w) = true ->
      get_sp_default_fcp_template [sp] d1 <> []).
Proof.
  intros Hw Hpk Hnd Hsp Hall. cbv zeta.
  rewrite (@bulk_set_sp_default_ok template_id sp_name_list w Hw Hpk Hnd).
  cbn [snd db]. unfold get_sp_default_fcp_template.
  apply String.eqb_neq in Hall. rewrite Hall. cbn [flat_map].
  rewrite app_nil_r. unfold sp_inner_join.
  cbn [template template_sp_mapping]. split.
  - intros r Hr. apply filter_In in Hr. destruct Hr as [Hr Hname].
    split; [|exact Hname]. apply in_flat_map in Hr.
    destruct Hr as [s [Hs Hr]]. apply in_map_iff in Hr.
    destruct Hr as [t [<- Ht]]. apply filter_In in Ht.
    destruct Ht as [_ Ht]. cbn [fst snd] in *.
    apply in_app_iff in Hs. destruct Hs as [Hs|Hs].
    + exfalso. apply filter_In in Hs. destruct Hs as [_ Hs].
      apply andb_true_iff in Hs. destruct Hs as [_ Hs].
      apply negb_true_iff in Hs.
      assert (H : existsb (fun sp0 => sp_name s =~ sp0) sp_name_list = true)
        by (apply existsb_exists; now exists sp).
      congruence.
    + apply in_map_iff in Hs. destruct Hs as [sp' [<- _]].
      cbn [sp_tmpl_id] in Ht. rewrite nocase_eqb_sym. exact Ht.
  - intros Hex. apply fcp_template_exist_in_db_iff in Hex.
    destruct Hex as [t [Ht Hid]].
    assert (Hin : In (t, sp)
      (filter (fun r : template_row * string => snd r =~ sp)
         (flat_map
            (fun s => map (fun t0 => (t0, sp_name s))
                          (filter (fun t0 => sp_tmpl_id s =~ t_id t0)
                                  (template (db w))))
            (filter (fun s => negb (sp_tmpl_id s =~ template_id)
                              && negb (existsb (fun sp0 => sp_name s =~ sp0)
                                               sp_name_list))
                    (template_sp_mapping (db w))
             ++ map (fun sp0 => mk_sp sp0 template_id) sp_name_list)))).
    { apply filter_In. split; [|apply nocase_eqb_refl].
      apply in_flat_map. exists (mk_sp sp template_id). split.
      - apply in_or_app. right. apply in_map_iff. now exists sp.
      - apply in_map_iff. exists t. split; [reflexivity|].
        apply filter_In. split; [exact Ht|]. cbn [sp_tmpl_id].
        rewrite nocase_eqb_sym. exact Hid. }
    intros E. rewrite E in Hin. destruct Hin.
Qed.

Lemma sp_default_after_set_witness :
  get_sp_default_fcp_template ["sp1"]
    (db (snd (bulk_set_sp_default_by_fcp_template "P" ["sp1"; "sp2"]
                (idle tables_P))))
  <> [].
Proof.
  apply (@sp_default_after_set "P" ["sp1"; "sp2"] "sp1" (idle tables_P)
           eq_refl).
  - unfold sp_primary_key. cbn. constructor.
  - cbn. repeat (constructor; [cbn; intuition discriminate|]). constructor.
  - now left.
  - discriminate.
  - reflexivity.
Defined.

(** X24. [get_fcp_template_by_assigner_id] follows the reservations.  After
    [reserve_fcps] has reserved, for an assigner and from an existing
    template, a device that is in table [fcp], the template is among the
    templates reported for the assigner.  After [reset_fcps_of_assigner]
    for a non-empty user id, no template is reported for that user. *)
Theorem templates_of_assigner (fcp_ids : list string) (a t : string)
  (w : conn) :
  (forall trow f,
     In trow (template (db w)) -> (t_id trow =~ t) = true ->
     In f (fcp (db w)) -> listed fcp_ids f = true ->
     exists sp,
       In (trow, sp)
          (get_fcp_template_by_assigner_id a
             (db (snd (reserve_fcps fcp_ids a t w)))))
  /\ (in_transaction w = false -> Str.nonempty a = true ->
      get_fcp_template_by_assigner_id a
        (db (snd (reset_fcps_of_assigner a w))) = []).
Proof.
  split.
  - intros trow f Htrow Hid Hf Hl. rewrite reserve_fcps_run. cbn [snd db].
    unfold get_fcp_template_by_assigner_id, set_fcp.
    cbn [fcp template template_sp_mapping].
    set (f' := set_tmpl_id t (set_assigner_id a (set_reserved 1 f))).
    assert (Hf' : In f' (filter (fun x => assigner_id x =~ a)
                    (map (fun r => if existsb (fun i => fcp_id r =~ i) fcp_ids
                                   then set_tmpl_id t
                                          (set_assigner_id a (set_reserved 1 r))
                                   else r) (fcp (db w))))).
    { apply filter_In. split.
      - apply in_map_iff. exists f. split; [|exact Hf].
        unfold listed in Hl. now rewrite Hl.
      - apply nocase_eqb_refl. }
    assert (Ht : In trow (filter (fun x => tmpl_id f' =~ t_id x)
                                 (template (db w)))).
    { apply filter_In. split; [exact Htrow|]. cbn [f' set_tmpl_id tmpl_id].
      rewrite nocase_eqb_sym. exact Hid. }
    destruct (filter (fun s => tmpl_id f' =~ sp_tmpl_id s)
                     (template_sp_mapping (db w))) as [|s ss] eqn:Es.
    + exists None. apply in_flat_map. exists f'. split; [exact Hf'|].
      apply in_flat_map. exists trow. split; [exact Ht|].
      rewrite Es. now left.
    + exists (Some (sp_name s)). apply in_flat_map. exists f'.
      split; [exact Hf'|]. apply in_flat_map. exists trow.
      split; [exact Ht|]. rewrite Es. now left.
  - intros Hw Ha. rewrite reset_fcps_of_assigner_run by exact Hw.
    cbn [snd db]. unfold get_fcp_template_by_assigner_id, update_fcp, set_fcp.
    cbn [fcp template template_sp_mapping].
    rewrite filter_none; [reflexivity|].
    intros x Hx. apply in_map_iff in Hx. destruct Hx as [y [<- _]].
    destruct (assigner_id y =~ a) eqn:Ey; [|exact Ey].
    cbn [set_usage assigner_id]. now apply nocase_eqb_empty.
Qed.

Lemma templates_of_assigner_witness :
  exists sp,
    In (mk_template "P" "two paths" "" 0 2, sp)
       (get_fcp_template_by_assigner_id "USER1"
          (db (snd (reserve_fcps ["1A01"] "USER1" "P" (idle tables_P))))).
Proof.
  apply (proj1 (@templates_of_assigner ["1A01"] "USER1" "P" (idle tables_P))
           (mk_template "P" "two paths" "" 0 2)
           (device "1a01" "aaaa" "free" "c05076de33000355" "c05076de33002641"
                   "" 0 0 "")).
  - now left.
  - reflexivity.
  - now left.
  - reflexivity.
Defined.

(** *** [get_wwpn_phy_from_pchids] *)

Lemma fold_dict_set_spec (raw : list (string * string))
  (acc : list (string * string)) :
  NoDup (map fst acc) ->
  let out := fold_left
               (fun acc item =>
                  dict_set String.eqb (Str.upper (fst item)) (snd item) acc)
               raw acc in
  NoDup (map fst out)
  /\ (forall k v, In (k, v) out ->
        In (k, v) acc
        \/ exists item, In item raw /\ Str.upper (fst item) = k
                        /\ snd item = v)
  /\ (forall k, In k (map fst acc) -> In k (map fst out))
  /\ (forall item, In item raw -> In (Str.upper (fst item)) (map fst out)).
Proof.
  revert acc. induction raw as [|item raw IH]; intros acc Hnd; cbn [fold_left].
  - split; [exact Hnd|]. split; [now left|]. split; [easy | intros ? []].
  - destruct (@dict_set_In _ (Str.upper (fst item)) (Str.upper (fst item))
                (snd item) (snd item) acc Hnd) as [Hnd1 Hself].
    destruct (IH _ Hnd1) as [H1 [H2 [H3 H4]]]. cbv zeta in *.
    split; [exact H1|]. split; [|split].
    + intros k v Hkv. destruct (H2 k v Hkv) as [Hin|[it [Hit E]]].
      * destruct (@dict_set_In _ k (Str.upper (fst item)) v (snd item) acc Hnd)
          as [_ Hiff].
        apply Hiff in Hin. destruct Hin as [[-> ->]|[_ Hin]].
        -- right. exists item. split; [now left | now split].
        -- now left.
      * right. exists it. split; [now right | exact E].
    + intros k Hk. apply H3. apply in_map_iff in Hk.
      destruct Hk as [[k' v] [<- Hkv]]. cbn [fst].
      destruct (String.eqb k' (Str.upper (fst item))) eqn:Ek.
      * apply String.eqb_eq in Ek. subst k'.
        apply (in_map fst _ (Str.upper (fst item), snd item)).
        apply Hself. now left.
      * apply (in_map fst _ (k', v)).
        destruct (@dict_set_In _ k' (Str.upper (fst item)) v (snd item) acc Hnd)
          as [_ Hiff].
        apply Hiff. right. split; [|exact Hkv].
        intros E. subst k'. now rewrite String.eqb_refl in Ek.
    + intros it [<-|Hit]; [|now apply H4].
      apply H3. apply (in_map fst _ (Str.upper (fst item), snd item)).
      apply Hself. now left.
Qed.

(** X25. [get_wwpn_phy_from_pchids] returns each PCHID at most once, in
    upper case.  Every entry gives the physical WWPN of a device of table
    [fcp] whose PCHID is that key and is one of the PCHIDs asked for
    (NOCASE), and every PCHID asked for that some device has is a key; for
    no PCHIDs the result is empty. *)
Theorem wwpn_phy_of_pchids (pchids : list string) (d : tables) :
  NoDup (map fst (get_wwpn_phy_from_pchids pchids d))
  /\ (forall g wwpn, In (g, wwpn) (get_wwpn_phy_from_pchids pchids d) ->
        exists f, In f (fcp d) /\ Str.upper (pchid f) = g
                  /\ wwpn_phy f = wwpn
                  /\ existsb (fun p => pchid f =~ p) pchids = true)
  /\ (forall f p, In f (fcp d) -> In p pchids -> (pchid f =~ p) = true ->
        In (Str.upper p) (map fst (get_wwpn_phy_from_pchids pchids d)))
  /\ get_wwpn_phy_from_pchids [] d = [].
Proof.
  unfold get_wwpn_phy_from_pchids. cbv zeta.
  set (rows := map (fun f => (pchid f, wwpn_phy f))
                   (filter (fun f => existsb (fun p => pchid f =~ p) pchids)
                           (fcp d))).
  set (eqb2 := fun a b : string * string =>
                 (fst a =~ fst b) && (snd a =~ snd b)).
  destruct (@fold_dict_set_spec (distinct eqb2 rows) [] (NoDup_nil _))
    as [H1 [H2 [_ H4]]].
  cbv zeta in *. split; [exact H1|]. split; [|split].
  - intros g wwpn Hin. destruct (H2 g wwpn Hin) as [[]|[item [Hitem [Eg Ew]]]].
    apply distinct_incl in Hitem. unfold rows in Hitem.
    apply in_map_iff in Hitem. destruct Hitem as [f [<- Hf]].
    apply filter_In in Hf. destruct Hf as [Hf Hl]. exists f.
    cbn [fst snd] in *. now repeat split.
  - intros f p Hf Hp Hfp.
    assert (Hrow : In (pchid f, wwpn_phy f) rows).
    { unfold rows. apply in_map_iff. exists f. split; [reflexivity|].
      apply filter_In. split; [exact Hf|]. apply existsb_exists.
      now exists p. }
    destruct (@distinct_repr _ eqb2 (pchid f, wwpn_phy f) rows) as [y [Hy E]].
    + intros a. unfold eqb2. now rewrite !nocase_eqb_refl.
    + intros a b c Hab Hbc. unfold eqb2 in *.
      apply andb_true_iff in Hab. apply andb_true_iff in Hbc.
      destruct Hab as [A1 A2]. destruct Hbc as [B1 B2].
      now rewrite (nocase_eqb_trans _ _ _ A1 B1), (nocase_eqb_trans _ _ _ A2 B2).
    + exact Hrow.
    + unfold eqb2 in E. apply andb_true_iff in E. destruct E as [E _].
      cbn [fst] in E.
      rewrite <- (nocase_eqb_upper _ _ Hfp), <- (nocase_eqb_upper _ _ E).
      now apply H4.
  - rewrite (filter_none _ (fcp d)); [reflexivity|]. intros x _. reflexivity.
Qed.

(** *** The host default as the queries see it *)

Lemma template_left_join_fst (d : tables) (r : template_row * option string) :
  In r (template_left_join d) -> In (fst r) (template d).
Proof.
  unfold template_left_join. intros H. apply in_flat_map in H.
  destruct H as [t [Ht H]].
  destruct (filter _ (template_sp_mapping d)) as [|s ss].
  - destruct H as [<-|[]]. exact Ht.
  - apply in_map_iff in H. destruct H as [s' [<- _]]. exact Ht.
Qed.

Lemma template_left_join_row (d : tables) (t : template_row) :
  In t (template d) -> exists sp, In (t, sp) (template_left_join d).
Proof.
  intros Ht. unfold template_left_join.
  destruct (filter (fun s => t_id t =~ sp_tmpl_id s) (template_sp_mapping d))
    as [|s ss] eqn:Es.
  - exists None. apply in_flat_map. exists t. split; [exact Ht|].
    rewrite Es. now left.
  - exists (Some (sp_name s)). apply in_flat_map. exists t.
    split; [exact Ht|]. rewrite Es. now left.
Qed.

(** X26. After [create_fcp_template] has created a template as host
    default, [get_host_default_fcp_template] answers with rows of the new
    template only, at least one, and the new template is in no row of the
    templates that are not host default. *)
Theorem host_default_after_create (i name description : string)
  (fcp_devices_by_path : list (Z * list string))
  (default_sp_list : list string) (min_count : option Z) (w : conn) :
  in_transaction w = false ->
  fst (create_fcp_template i name description fcp_devices_by_path true
         default_sp_list min_count w) = Ok tt ->
  let d1 := db (snd (create_fcp_template i name description
                       fcp_devices_by_path true default_sp_list min_count w))
  in
  get_host_default_fcp_template true d1 <> []
  /\ (forall r, In r (get_host_default_fcp_template true d1) ->
        fst r = new_template_row i name description true min_count)
  /\ (forall r, In r (get_host_default_fcp_template false d1) ->
        fst r <> new_template_row i name description true min_count).
Proof.
  intros Hw Hok.
  pose proof (@host_defaults_after_create i name description
                fcp_devices_by_path true default_sp_list min_count w Hw) as H.
  cbv zeta in H. destruct H as [_ [_ Hdef]]. specialize (Hdef eq_refl Hok).
  cbv zeta.
  set (d1 := db (snd (create_fcp_template i name description
                        fcp_devices_by_path true default_sp_list min_count w)))
    in *.
  set (new := new_template_row i name description true min_count) in *.
  assert (Hnew : In new (template d1)).
  { assert (H : In new (host_defaults d1)) by (rewrite Hdef; now left).
    unfold host_defaults in H. now apply filter_In in H. }
  split; [|split].
  - destruct (template_left_join_row d1 new Hnew) as [sp Hsp].
    intros E.
    assert (H : In (new, sp) (get_host_default_fcp_template true d1)).
    { unfold get_host_default_fcp_template. apply filter_In.
      split; [exact Hsp | reflexivity]. }
    rewrite E in H. destruct H.
  - intros r Hr. unfold get_host_default_fcp_template in Hr.
    apply filter_In in Hr. destruct Hr as [Hr H1].
    apply template_left_join_fst in Hr. apply Z.eqb_eq in H1.
    assert (H : In (fst r) (host_defaults d1)).
    { unfold host_defaults. apply filter_In. split; [exact Hr|].
      now rewrite H1. }
    rewrite Hdef in H. destruct H as [<-|[]]. reflexivity.
  - intros r Hr E. unfold get_host_default_fcp_template in Hr.
    apply filter_In in Hr. destruct Hr as [_ H0]. rewrite E in H0.
    discriminate H0.
Qed.

Lemma host_default_after_create_witness :
  get_host_default_fcp_template true
    (db (snd (create_fcp_template "R" "r" "" [(0, ["1a01"])] true [] None
                (idle tables_P))))
  <> [].
Proof.
  apply (@host_default_after_create "R" "r" "" [(0, ["1a01"])] [] None
           (idle tables_P) eq_refl eq_refl).
Defined.

(** *** Frames and runs of the statements *)

Lemma preserves_ret {A} (P : tables -> Prop) (a : A) : preserves P (ret a).
Proof. intros w H. exact H. Qed.

Lemma preserves_raise {A} (P : tables -> Prop) (e : exn) :
  preserves P (@raise A e).
Proof. intros w H. exact H. Qed.

Lemma preserves_query {A} (P : tables -> Prop) (q : tables -> A) :
  preserves P (query q).
Proof. intros w H. exact H. Qed.

Lemma preserves_read {A} (P : tables -> Prop) (q : tables -> res A) :
  preserves P (read q).
Proof. intros w H. exact H. Qed.

Lemma preserves_LOG (P : tables -> Prop) (l : level) : preserves P (LOG l).
Proof. intros w H. exact H. Qed.

Lemma preserves_execute (P : tables -> Prop) (f : tables -> tables) :
  (forall d, P d -> P (f d)) -> preserves P (execute f).
Proof. intros Hf w H. cbn. now apply Hf. Qed.

Lemma preserves_bind {A B} (P : tables -> Prop) (m : M A) (k : A -> M B) :
  preserves P m -> (forall a, preserves P (k a)) -> preserves P (bind m k).
Proof.
  intros Hm Hk w H. unfold bind. specialize (Hm w H).
  destruct (m w) as [[a|e] w1]; cbn [snd] in *.
  - now apply Hk.
  - exact Hm.
Qed.

Lemma preserves_executemany {Q} (P : tables -> Prop) (stmt : Q -> M unit)
  (ps : list Q) :
  (forall p, preserves P (stmt p)) -> preserves P (executemany stmt ps).
Proof.
  intros H. induction ps as [|p ps IH]; cbn [executemany].
  - apply preserves_ret.
  - apply preserves_bind; [apply H | intros _; exact IH].
Qed.

Lemma preserves_get_fcp_conn {A} (P : tables -> Prop) (body : M A) :
  preserves P body -> preserves P (get_fcp_conn body).
Proof.
  intros Hb w H. unfold get_fcp_conn. destruct (in_transaction w) eqn:Et.
  - specialize (Hb w H). destruct (body w) as [[a|e] w1]; exact Hb.
  - specialize (Hb (mk_conn (db w) true (journal w)) H).
    destruct (body _) as [[a|e] w1]; [exact Hb | exact H].
Qed.

Lemma succeeds_ret {A} (a : A) : succeeds (ret a).
Proof. intros w. now exists a, w. Qed.

Lemma succeeds_query {A} (q : tables -> A) : succeeds (query q).
Proof. intros w. now exists (q (db w)), w. Qed.

Lemma succeeds_LOG (l : level) : succeeds (LOG l).
Proof. intros w. eexists. eexists. reflexivity. Qed.

Lemma succeeds_execute (f : tables -> tables) : succeeds (execute f).
Proof. intros w. eexists. eexists. reflexivity. Qed.

Lemma succeeds_read {A} (q : tables -> res A) :
  (forall d, exists a, q d = Ok a) -> succeeds (read q).
Proof.
  intros H w. destruct (H (db w)) as [a Ha]. exists a, w.
  unfold read. now rewrite Ha.
Qed.

Lemma succeeds_bind {A B} (m : M A) (k : A -> M B) :
  succeeds m -> (forall a, succeeds (k a)) -> succeeds (bind m k).
Proof.
  intros Hm Hk w. destruct (Hm w) as [a [w1 E]].
  destruct (Hk a w1) as [b [w2 E2]]. exists b, w2.
  unfold bind. now rewrite E.
Qed.

Lemma succeeds_executemany {Q} (stmt : Q -> M unit) (ps : list Q) :
  (forall p, In p ps -> succeeds (stmt p)) -> succeeds (executemany stmt ps).
Proof.
  induction ps as [|p ps IH]; intros H; cbn [executemany].
  - apply succeeds_ret.
  - apply succeeds_bind; [apply H; now left|].
    intros _. apply IH. intros q Hq. apply H. now right.
Qed.

Lemma succeeds_get_fcp_conn {A} (body : M A) :
  succeeds body -> succeeds (get_fcp_conn body).
Proof.
  intros Hb w. unfold get_fcp_conn. destruct (in_transaction w).
  - destruct (Hb w) as [a [w1 E]]. rewrite E. now exists a, w1.
  - destruct (Hb (mk_conn (db w) true (journal w))) as [a [w1 E]].
    rewrite E. eexists. eexists. reflexivity.
Qed.

Lemma bind_ok_inv {A B} (m : M A) (k : A -> M B) (w w2 : conn) (b : B) :
  bind m k w = (Ok b, w2) ->
  exists a w1, m w = (Ok a, w1) /\ k a w1 = (Ok b, w2).
Proof.
  unfold bind. destruct (m w) as [[a|e] w1]; [|discriminate].
  intros H. now exists a, w1.
Qed.

(** [bulk_delete_fcp_device_from_fcp_template] returns, and leaves no row
    of [template_fcp_mapping] that one of its records names. *)
Lemma executemany_delete_tf (recs : list (string * string)) (w : conn) :
  exists w1,
    executemany delete_tf_record recs w = (Ok tt, w1)
    /\ fcp (db w1) = fcp (db w)
    /\ template (db w1) = template (db w)
    /\ template_sp_mapping (db w1) = template_sp_mapping (db w)
    /\ template_fcp_mapping (db w1)
       = filter (fun r => negb (existsb
                    (fun rec => (tf_tmpl_id r =~ fst rec)
                                && (tf_fcp_id r =~ snd rec)) recs))
                (template_fcp_mapping (db w)).
Proof.
  revert w. induction recs as [|[t i] recs IH]; intros w.
  - exists w. cbn [executemany existsb negb]. unfold ret.
    repeat split. now rewrite filter_all.
  - cbn [executemany]. unfold bind. unfold delete_tf_record at 1.
    unfold execute at 1.
    destruct (IH (mk_conn
                    (set_template_fcp_mapping
                       (filter (fun r => negb ((tf_tmpl_id r =~ t)
                                               && (tf_fcp_id r =~ i)))
                               (template_fcp_mapping (db w))) (db w))
                    (in_transaction w) (journal w)))
      as [w1 [E [Hf [Ht [Hs Hm]]]]].
    exists w1. rewrite E. split; [reflexivity|].
    cbn [db set_template_fcp_mapping fcp template template_sp_mapping
         template_fcp_mapping] in *.
    split; [exact Hf|]. split; [exact Ht|]. split; [exact Hs|].
    rewrite Hm, filter_twice. apply filter_ext. intros r.
    cbn [existsb fst snd]. now rewrite negb_orb.
Qed.

Ltac preserves_step :=
  first
    [ apply preserves_ret | apply preserves_raise | apply preserves_query
    | apply preserves_read | apply preserves_LOG
    | apply preserves_execute; intros ? ?; assumption
    | apply preserves_get_fcp_conn
    | apply preserves_executemany; intros ?
    | apply preserves_bind; [|intros ?]
    | match goal with
      | |- preserves _ (let '(_, _) := ?x in _) => destruct x
      | |- preserves _ (match ?x with _ => _ end) => destruct x
      | |- preserves _ (if ?x then _ else _) => destruct x
      end ].

Ltac preserves_auto := repeat preserves_step.

Lemma preserves_bind_read {A B} (P : tables -> Prop) (q : tables -> res A)
  (k : A -> M B) :
  (forall d a, q d = Ok a -> preserves P (k a)) ->
  preserves P (bind (read q) k).
Proof.
  intros H w Hw. unfold bind, read.
  destruct (q (db w)) as [a|e] eqn:E; [|exact Hw].
  now apply (H (db w) a E).
Qed.

Lemma fcp_in_db_keys (rows : list (tf_row * option fcp_row)) (x : string) :
  In x (map fst (fcp_in_db_of rows))
  <-> exists row, In row rows /\ tf_fcp_id (fst row) = x.
Proof.
  unfold fcp_in_db_of.
  assert (H : forall acc : list (string * (tf_row * option fcp_row)),
    In x (map fst (fold_left
            (fun acc row => dict_set String.eqb (tf_fcp_id (fst row)) row acc)
            rows acc))
    <-> (exists row, In row rows /\ tf_fcp_id (fst row) = x)
        \/ In x (map fst acc)).
  { induction rows as [|r rows IH]; intros acc; cbn [fold_left].
    - split; [now right | intros [[row [[] _]]|H]; exact H].
    - rewrite IH, dict_set_keys. split.
      + intros [[row [Hin Hx]]|[Hx|Hx]].
        * left. exists row. split; [now right | exact Hx].
        * left. exists r. split; [now left | now symmetry].
        * now right.
      + intros [[row [[<-|Hin] Hx]]|Hx].
        * right. left. now symmetry.
        * left. now exists row.
        * right. now right. }
  rewrite H. cbn [map In]. intuition.
Qed.

Lemma left_join_fst (d : tables) (row : tf_row * option fcp_row) :
  In row (left_join d) -> In (fst row) (template_fcp_mapping d).
Proof.
  unfold left_join. intros H. apply in_flat_map in H.
  destruct H as [m [Hm H]].
  destruct (filter _ (fcp d)) as [|f fs].
  - destruct H as [<-|[]]. exact Hm.
  - apply in_map_iff in H. destruct H as [f' [<- _]]. exact Hm.
Qed.

Lemma left_join_row (d : tables) (m : tf_row) :
  In m (template_fcp_mapping d) -> exists o, In (m, o) (left_join d).
Proof.
  intros Hm. unfold left_join.
  destruct (filter (fun f => tf_fcp_id m =~ fcp_id f) (fcp d)) as [|f fs] eqn:E.
  - exists None. apply in_flat_map. exists m. split; [exact Hm|].
    rewrite E. now left.
  - exists (Some f). apply in_flat_map. exists m. split; [exact Hm|].
    rewrite E. now left.
Qed.

(** The devices of the template in the tables are the keys of
    [fcp_in_db]. *)
Lemma fcp_in_db_mapped (i x : string) (d : tables) :
  In x (map fst (fcp_in_db_of (snd (get_fcp_templates_details [i] d))))
  <-> exists m, In m (template_fcp_mapping d)
                /\ (tf_tmpl_id m =~ i) = true /\ tf_fcp_id m = x.
Proof.
  rewrite fcp_in_db_keys. unfold get_fcp_templates_details. cbn [snd].
  split.
  - intros [row [Hrow Hx]]. apply filter_In in Hrow.
    destruct Hrow as [Hj Hw]. cbn [existsb] in Hw. rewrite orb_false_r in Hw.
    exists (fst row). split; [now apply left_join_fst|]. now split.
  - intros [m [Hm [Ht Hx]]]. destruct (left_join_row d m Hm) as [o Ho].
    exists (m, o). split; [|exact Hx]. apply filter_In.
    split; [exact Ho|]. cbn [fst existsb]. now rewrite Ht.
Qed.

Lemma bulk_delete_fcp_device_run (recs : list (string * string)) (w : conn) :
  exists w1,
    bulk_delete_fcp_device_from_fcp_template recs w = (Ok tt, w1)
    /\ fcp (db w1) = fcp (db w)
    /\ template (db w1) = template (db w)
    /\ template_sp_mapping (db w1) = template_sp_mapping (db w)
    /\ template_fcp_mapping (db w1)
       = filter (fun r => negb (existsb
                    (fun rec => (tf_tmpl_id r =~ fst rec)
                                && (tf_fcp_id r =~ snd rec)) recs))
                (template_fcp_mapping (db w)).
Proof.
  unfold bulk_delete_fcp_device_from_fcp_template, get_fcp_conn.
  destruct (in_transaction w).
  - destruct (executemany_delete_tf recs w) as [w1 [E H]].
    exists w1. now rewrite E.
  - destruct (executemany_delete_tf recs (mk_conn (db w) true (journal w)))
      as [w1 [E H]].
    rewrite E. eexists. split; [reflexivity|]. exact H.
Qed.

(** The rows inserted for [add_set] carry requested devices. *)
Lemma records_to_insert_requested (i : string) (input : list (string * Z))
  (add_set : list string) (recs : list (string * string * Z)) :
  fold_right
    (fun x acc =>
       match getitem x input, acc with
       | Ok p, Ok l => Ok ((i, x, p) :: l)
       | Raise e, _ => Raise e
       | _, Raise e => Raise e
       end)
    (Ok []) add_set = Ok recs ->
  forall rec, In rec recs -> fst (fst rec) = i /\ In (snd (fst rec)) add_set.
Proof.
  revert recs. induction add_set as [|x l IH]; intros recs; cbn [fold_right].
  - intros H. injection H as <-. intros rec [].
  - destruct (getitem x input) as [p|e]; [|discriminate].
    destruct (fold_right _ _ l) as [l'|e]; [|discriminate].
    intros H. injection H as <-. intros rec [<-|Hin].
    + cbn. split; [reflexivity | now left].
    + destruct (IH l' eq_refl rec Hin) as [H1 H2]. split; [exact H1|now right].
Qed.

Section RemovalProofs.

Variable expand_fcp_list : string -> list (Z * list string).

Lemma requested_dec (s x : string) :
  requested expand_fcp_list s x \/ ~ requested expand_fcp_list s x.
Proof.
  rewrite <- fcp_from_input_keys.
  destruct (in_dec string_dec x
              (map fst (fcp_from_input_of expand_fcp_list s))); tauto.
Qed.

(** After the [DELETE] of [del_set], the devices of the template are
    requested ones. *)
Lemma del_set_only_requested (i s : string) (d : tables) :
  let del_set :=
    set_diff
      (map fst (fcp_in_db_of (snd (get_fcp_templates_details [i] d))))
      (map fst (fcp_from_input_of expand_fcp_list s)) in
  forall r,
    In r (filter (fun r => negb (existsb
                    (fun rec => (tf_tmpl_id r =~ fst rec)
                                && (tf_fcp_id r =~ snd rec))
                    (map (pair i) del_set)))
                 (template_fcp_mapping d)) ->
    (tf_tmpl_id r =~ i) = true ->
    requested expand_fcp_list s (tf_fcp_id r).
Proof.
  cbv zeta. intros r Hr Ht. apply filter_In in Hr. destruct Hr as [Hr Hkeep].
  destruct (requested_dec s (tf_fcp_id r)) as [Hq|Hq]; [exact Hq|].
  exfalso. apply negb_true_iff in Hkeep.
  assert (Hex : existsb
            (fun rec => (tf_tmpl_id r =~ fst rec) && (tf_fcp_id r =~ snd rec))
            (map (pair i)
               (set_diff
                  (map fst (fcp_in_db_of
                              (snd (get_fcp_templates_details [i] d))))
                  (map fst (fcp_from_input_of expand_fcp_list s)))) = true).
  { apply existsb_exists. exists (i, tf_fcp_id r). split.
    - apply in_map. apply set_diff_In. split.
      + apply fcp_in_db_mapped. now exists r.
      + now rewrite fcp_from_input_keys.
    - cbn [fst snd]. rewrite Ht. apply nocase_eqb_refl. }
  rewrite Hex in Hkeep. discriminate Hkeep.
Qed.

(** What follows the [DELETE] in [edit_fcp_devices] keeps the devices of
    the template among the requested ones. *)
Lemma edit_fcp_devices_run_ok (i s : string) (w : conn) (w1 : conn) :
  edit_fcp_devices expand_fcp_list i s
    (snd (get_fcp_templates_details [i] (db w))) w = (Ok tt, w1) ->
  only_requested expand_fcp_list i s (db w1).
Proof.
  unfold edit_fcp_devices. intros H.
  apply bind_ok_inv in H. destruct H as [inuse [wa [E H]]].
  unfold query in E. injection E as <- <-.
  apply bind_ok_inv in H. destruct H as [u [wb [E H]]].
  destruct (not_allow_for_del_of _ _ _); [|discriminate E].
  unfold ret in E. injection E as <- <-.
  apply bind_ok_inv in H. destruct H as [u [wc [E H]]].
  unfold LOG in E. injection E as <- <-.
  apply bind_ok_inv in H. destruct H as [u [wd [E H]]].
  match type of E with
  | bulk_delete_fcp_device_from_fcp_template ?recs ?w0 = _ =>
      destruct (bulk_delete_fcp_device_run recs w0) as [w2 [E2 [_ [_ [_ Hm]]]]]
  end.
  rewrite E2 in E. injection E as <- <-. cbn [db] in Hm.
  assert (HP : only_requested expand_fcp_list i s (db w2)).
  { intros r Hr Ht. rewrite Hm in Hr.
    exact (del_set_only_requested i s (db w) r Hr Ht). }
  clear Hm E2.
  match type of H with
  | ?rest w2 = _ =>
      assert (Hrest : preserves (only_requested expand_fcp_list i s) rest)
  end.
  { apply preserves_bind; [apply preserves_LOG | intros _].
    apply preserves_bind_read. intros d0 recs Hrecs.
    apply preserves_bind.
    { unfold bulk_insert_fcp_device_into_fcp_template.
      apply preserves_get_fcp_conn.
      assert (Hall : forall rec, In rec recs ->
                fst (fst rec) = i
                /\ requested expand_fcp_list s (snd (fst rec))).
      { intros rec Hin.
        destruct (records_to_insert_requested _ _ _ Hrecs rec Hin) as [H1 H2].
        split; [exact H1|]. apply set_diff_In in H2.
        now apply fcp_from_input_keys. }
      clear Hrecs. induction recs as [|rec recs IH]; cbn [executemany].
      - apply preserves_ret.
      - apply preserves_bind.
        + destruct (Hall rec (or_introl eq_refl)) as [H1 H2].
          destruct rec as [[t y] p]. cbn [fst snd] in H1, H2. subst t.
          unfold insert_tf_record. apply preserves_bind;
            [apply preserves_query | intros rows].
          destruct (existsb _ rows); [apply preserves_raise|].
          apply preserves_execute. intros d1 Hd1 m Hin Ht.
          cbn [set_template_fcp_mapping template_fcp_mapping] in Hin.
          apply in_app_iff in Hin. destruct Hin as [Hin|[<-|[]]].
          * now apply Hd1.
          * exact H2.
        + intros _. apply IH. intros rec' Hin'. apply Hall. now right. }
    intros _. apply preserves_bind; [apply preserves_LOG | intros _].
    apply preserves_executemany. intros y.
    apply preserves_bind; [apply preserves_read | intros p].
    apply preserves_bind; [apply preserves_read | intros row].
    destruct (negb _); [|apply preserves_ret].
    apply preserves_bind; [|intros _; apply preserves_LOG].
    unfold update_path_of_fcp_device. apply preserves_get_fcp_conn.
    apply preserves_execute. intros d1 Hd1 m Hin Ht.
    cbn [set_template_fcp_mapping template_fcp_mapping] in Hin.
    apply in_map_iff in Hin. destruct Hin as [m0 [Em Hin]].
    destruct ((tf_fcp_id m0 =~ y) && (tf_tmpl_id m0 =~ i)).
    - subst m. cbn [tf_fcp_id tf_tmpl_id] in *. now apply Hd1.
    - subst m. now apply Hd1. }
  specialize (Hrest w2 HP). rewrite H in Hrest. exact Hrest.
Qed.

End RemovalProofs.

Lemma getitem_key {V} (k : string) (d : list (string * V)) :
  In k (map fst d) -> exists v, getitem k d = Ok v.
Proof.
  unfold getitem. induction d as [|[k0 v0] d IH]; cbn [map fst In dict_get].
  - intros [].
  - intros [->|Hin].
    + rewrite String.eqb_refl. now exists v0.
    + destruct (String.eqb k0 k); [now exists v0 | now apply IH].
Qed.

Lemma succeeds_bind_read {A B} (q : tables -> res A) (k : A -> M B) :
  (forall d, exists a, q d = Ok a /\ succeeds (k a)) ->
  succeeds (bind (read q) k).
Proof.
  intros H w. destruct (H (db w)) as [a [Ha Hk]].
  destruct (Hk w) as [b [w1 E]]. exists b, w1.
  unfold bind, read. now rewrite Ha.
Qed.

Lemma details_basic_nonempty (i : string) (d : tables) :
  fcp_template_exist_in_db i d = true ->
  exists t0 l, fst (get_fcp_templates_details [i] d) = t0 :: l.
Proof.
  intros Hex. unfold get_fcp_templates_details. cbn [fst existsb].
  unfold fcp_template_exist_in_db in Hex.
  rewrite (filter_ext (fun t => (t_id t =~ i) || false)
                      (fun t => t_id t =~ i)) by (intros t; apply orb_false_r).
  destruct (filter (fun t => t_id t =~ i) (template d)) as [|t l];
    [discriminate Hex|].
  cbn [flat_map].
  destruct (filter (fun s => t_id t =~ sp_tmpl_id s) (template_sp_mapping d))
    as [|sp sps]; cbn [map app]; eexists; eexists; reflexivity.
Qed.

Lemma get_min_fcp_paths_count_ok (i : string) (d : tables) :
  fcp_template_exist_in_db i d = true -> Str.nonempty i = true ->
  exists m, get_min_fcp_paths_count i d = Ok m.
Proof.
  intros Hex Hne. unfold get_min_fcp_paths_count. rewrite Hne. cbn [negb].
  apply fcp_template_exist_in_db_iff in Hex. destruct Hex as [t [Hin Ht]].
  unfold get_min_fcp_paths_count_from_db.
  destruct (find (fun t0 => t_id t0 =~ i) (template d)) as [t1|] eqn:Ef.
  - cbn [option_map]. destruct (min_fcp_paths_count t1 =? -1);
      eexists; reflexivity.
  - apply (find_none _ _ Ef) in Hin. cbn in Hin. congruence.
Qed.

Section RemovalTheorems.

Variable expand_fcp_list : string -> list (Z * list string).

(** A request that names only devices of the template and leaves out no
    device allocated from it passes [edit_fcp_devices]. *)
Lemma edit_fcp_devices_succeeds (i s : string)
  (fcp_detail : list (tf_row * option fcp_row)) (w : conn) :
  not_allow_for_del_of (fcp_from_input_of expand_fcp_list s)
    (fcp_in_db_of fcp_detail)
    (get_inuse_fcp_device_by_fcp_template i (db w)) = [] ->
  set_diff (map fst (fcp_from_input_of expand_fcp_list s))
           (map fst (fcp_in_db_of fcp_detail)) = [] ->
  exists w1, edit_fcp_devices expand_fcp_list i s fcp_detail w = (Ok tt, w1).
Proof.
  intros Hnone Hadd. unfold edit_fcp_devices.
  unfold bind at 1. unfold query at 1. rewrite Hnone, Hadd.
  unfold bind at 1. unfold ret at 1.
  match goal with
  | |- exists w1, ?m w = _ => assert (Hs : succeeds m)
  end.
  { apply succeeds_bind; [apply succeeds_LOG | intros _].
    apply succeeds_bind.
    { unfold bulk_delete_fcp_device_from_fcp_template.
      apply succeeds_get_fcp_conn, succeeds_executemany.
      intros [t x] _. apply succeeds_execute. }
    intros _. apply succeeds_bind; [apply succeeds_LOG | intros _].
    apply succeeds_bind_read. intros d. exists []. split; [reflexivity|].
    apply succeeds_bind.
    { unfold bulk_insert_fcp_device_into_fcp_template.
      apply succeeds_get_fcp_conn. cbn [executemany]. apply succeeds_ret. }
    intros _. apply succeeds_bind; [apply succeeds_LOG | intros _].
    apply succeeds_executemany. intros y Hy.
    apply set_inter_In in Hy. destruct Hy as [Hin Hdb].
    destruct (getitem_key _ _ Hin) as [p Hp].
    destruct (getitem_key _ _ Hdb) as [row Hrow].
    apply succeeds_bind_read. intros _. exists p. split; [exact Hp|].
    apply succeeds_bind_read. intros _. exists row. split; [exact Hrow|].
    destruct (negb _); [|apply succeeds_ret].
    apply succeeds_bind; [|intros _; apply succeeds_LOG].
    unfold update_path_of_fcp_device.
    apply succeeds_get_fcp_conn, succeeds_execute. }
  destruct (Hs w) as [[] [w1 E]]. now exists w1.
Qed.

Lemma validate_devices_ok (i s : string) (w : conn) :
  fcp_template_exist_in_db i (db w) = true ->
  (forall m, get_min_fcp_paths_count_from_db i (db w) = Some m ->
             m <= Z.of_nat (List.length (expand_fcp_list s))) ->
  _validate_min_fcp_paths_count expand_fcp_list (Some s) None i w = (Ok tt, w).
Proof.
  intros Hex Hmin. unfold _validate_min_fcp_paths_count. cbn [orb].
  destruct (Str.nonempty s); [|reflexivity].
  unfold bind at 1. unfold ret at 1. unfold bind at 1. unfold query at 1.
  destruct (get_min_fcp_paths_count_from_db i (db w)) as [m|] eqn:Em.
  - specialize (Hmin m eq_refl).
    assert (Hgt : (m >? Z.of_nat (List.length (expand_fcp_list s))) = false).
    { rewrite Z.gtb_ltb. apply Z.ltb_ge. exact Hmin. }
    now rewrite Hgt.
  - exfalso. apply fcp_template_exist_in_db_iff in Hex.
    destruct Hex as [t [Hin Ht]].
    unfold get_min_fcp_paths_count_from_db in Em.
    destruct (find (fun t0 => t_id t0 =~ i) (template (db w))) eqn:Ef;
      [discriminate Em|].
    apply (find_none _ _ Ef) in Hin. cbn in Hin. congruence.
Qed.

(** [edit_fcp_template] changes no row of table [fcp]. *)
Lemma edit_fcp_template_fcp (i : string) (name description devs : option string)
  (host_default : option bool) (sps : option (list string))
  (min_count : option Z) (F : list fcp_row) :
  preserves (fun d => fcp d = F)
    (edit_fcp_template expand_fcp_list i name description devs host_default
       sps min_count).
Proof.
  unfold edit_fcp_template, _validate_min_fcp_paths_count, edit_fcp_devices,
    update_basic_info_of_fcp_template, bulk_set_sp_default_by_fcp_template,
    bulk_insert_fcp_device_into_fcp_template,
    bulk_delete_fcp_device_from_fcp_template, update_path_of_fcp_device,
    clear_is_default.
  preserves_auto;
    try match goal with
        | |- preserves _ (insert_tf_record ?r) =>
            destruct r as [[? ?] ?]; unfold insert_tf_record; preserves_auto
        | |- preserves _ (insert_sp_record ?r) =>
            destruct r as [? ?]; unfold insert_sp_record; preserves_auto
        | |- preserves _ (update_sp_record ?r) =>
            destruct r as [? ?]; unfold update_sp_record; preserves_auto
        | |- preserves _ (delete_tf_record ?r) =>
            destruct r as [? ?]; unfold delete_tf_record; preserves_auto
        end.
Qed.

(** When the edit of a device list returns, the devices of the template
    are requested ones. *)
Lemma edit_fcp_template_ok_inv (i s : string)
  (name description : option string) (host_default : option bool)
  (default_sp_list : option (list string)) (min_count : option Z)
  (w : conn) (e : edited_template) (w' : conn) :
  in_transaction w = false ->
  edit_fcp_template expand_fcp_list i name description (Some s)
    host_default default_sp_list min_count w = (Ok e, w') ->
  only_requested expand_fcp_list i s (db w').
Proof.
  intros Hw Hrun. unfold edit_fcp_template in Hrun.
  rewrite get_fcp_conn_outer in Hrun by exact Hw.
  set (w0 := mk_conn (db w) true (journal w)) in Hrun.
  match type of Hrun with
  | (let (_, _) := ?b w0 in _) = _ => set (body := b) in Hrun
  end.
  destruct (body w0) as [[a|e0] w1] eqn:Eb; [|discriminate Hrun].
  injection Hrun as _ <-. cbn [db]. subst body.
  apply bind_ok_inv in Eb. destruct Eb as [ex [wa [E Eb]]].
  unfold query in E. injection E as <- <-.
  apply bind_ok_inv in Eb. destruct Eb as [u [wb [E Eb]]].
  destruct (fcp_template_exist_in_db i (db w));
    [|cbv beta iota delta [raise] in E; discriminate E].
  cbv beta iota delta [ret] in E. injection E as <- <-.
  apply bind_ok_inv in Eb. destruct Eb as [u1 [wc [E Eb]]].
  assert (Hc : db wc = db w0).
  { match type of E with
    | ?m w0 = _ =>
        assert (Hp : preserves (fun d => d = db w0) m) by preserves_auto;
        specialize (Hp w0 eq_refl); rewrite E in Hp; exact Hp
    end. }
  clear E.
  apply bind_ok_inv in Eb. destruct Eb as [u2 [wd [E Eb]]].
  assert (Hd : db wd = db w0).
  { match type of E with
    | ?m wc = _ =>
        assert (Hp : preserves (fun d => d = db w0) m)
          by (unfold _validate_min_fcp_paths_count; preserves_auto);
        specialize (Hp wc Hc); rewrite E in Hp; exact Hp
    end. }
  clear E.
  apply bind_ok_inv in Eb. destruct Eb as [ori [w2 [E Eb]]].
  unfold query in E. injection E as <- <-.
  apply bind_ok_inv in Eb. destruct Eb as [al [w2 [E Eb]]].
  unfold query in E. injection E as <- <-.
  apply bind_ok_inv in Eb. destruct Eb as [details [w2 [E Eb]]].
  unfold query in E. injection E as <- <-.
  destruct (get_fcp_templates_details [i] (db wd)) as [tb fd] eqn:Ed.
  apply bind_ok_inv in Eb. destruct Eb as [[] [we [E Eb]]].
  replace fd with (snd (get_fcp_templates_details [i] (db wd))) in E
    by now rewrite Ed.
  apply edit_fcp_devices_run_ok in E.
  match type of Eb with
  | ?tail we = _ =>
      assert (Hp : preserves (only_requested expand_fcp_list i s) tail)
  end.
  { unfold update_basic_info_of_fcp_template,
      bulk_set_sp_default_by_fcp_template, clear_is_default.
    preserves_auto;
      try match goal with
          | |- preserves _ (insert_sp_record ?r) =>
              destruct r as [? ?]; unfold insert_sp_record; preserves_auto
          | |- preserves _ (update_sp_record ?r) =>
              destruct r as [? ?]; unfold update_sp_record; preserves_auto
          end. }
  specialize (Hp we E). rewrite Eb in Hp. exact Hp.
Qed.

(** A request for the device list alone that names only devices of the
    template and leaves out no device allocated from it returns. *)
Lemma edit_fcp_template_removal_returns (i s : string) (w : conn) :
  in_transaction w = false ->
  Z.of_nat (List.length (filter Str.nonempty (split ";" s)))
  = get_path_count i (db w) ->
  fcp_template_exist_in_db i (db w) = true ->
  Str.nonempty i = true ->
  (forall m, get_min_fcp_paths_count_from_db i (db w) = Some m ->
             m <= Z.of_nat (List.length (expand_fcp_list s))) ->
  adds_no_device expand_fcp_list i s (db w) ->
  not_allow_for_del_of (fcp_from_input_of expand_fcp_list s)
    (fcp_in_db_of (snd (get_fcp_templates_details [i] (db w))))
    (get_inuse_fcp_device_by_fcp_template i (db w)) = [] ->
  exists e,
    fst (edit_fcp_template expand_fcp_list i None None (Some s) None None None
           w) = Ok e.
Proof.
  intros Hw Hcount Hex Hne Hmin Hadd Hnone.
  assert (Haddset :
    set_diff (map fst (fcp_from_input_of expand_fcp_list s))
      (map fst (fcp_in_db_of (snd (get_fcp_templates_details [i] (db w)))))
    = []).
  { destruct (set_diff _ _) as [|x l] eqn:E; [reflexivity|]. exfalso.
    assert (Hx : In x (x :: l)) by now left.
    rewrite <- E in Hx. apply set_diff_In in Hx. destruct Hx as [Hin Hnot].
    apply Hnot. apply fcp_in_db_mapped. apply (Hadd x).
    apply fcp_from_input_keys. exact Hin. }
  unfold edit_fcp_template. rewrite get_fcp_conn_outer by exact Hw.
  set (w0 := mk_conn (db w) true (journal w)).
  match goal with
  | |- exists e, fst (let (_, _) := ?b w0 in _) = _ =>
      assert (Hb : exists e w1, b w0 = (Ok e, w1))
  end.
  2:{ destruct Hb as [e [w1 Hb]]. rewrite Hb. now exists e. }
  unfold bind at 1. unfold query at 1. cbn [db w0]. rewrite Hex.
  unfold bind at 1. unfold ret at 1.
  unfold bind at 1. unfold bind at 1. unfold query at 1. cbn [db w0].
  rewrite Hcount, Z.eqb_refl. cbn [negb]. unfold ret at 1.
  unfold bind at 1. rewrite (validate_devices_ok i s w0 Hex Hmin).
  unfold bind at 1. unfold query at 1.
  unfold bind at 1. unfold query at 1.
  unfold bind at 1. unfold query at 1. cbn [db w0].
  destruct (get_fcp_templates_details [i] (db w)) as [tb fd] eqn:Ed.
  cbn [snd] in Hnone, Haddset.
  destruct (@edit_fcp_devices_succeeds i s fd w0 Hnone Haddset) as [w2 Hdev].
  assert (Ht : template (db w2) = template (db w)).
  { assert (Hp : preserves (fun d => template d = template (db w))
                   (edit_fcp_devices expand_fcp_list i s fd)).
    { unfold edit_fcp_devices, bulk_insert_fcp_device_into_fcp_template,
        bulk_delete_fcp_device_from_fcp_template, update_path_of_fcp_device.
      preserves_auto;
        try match goal with
            | |- preserves _ (insert_tf_record ?r) =>
                destruct r as [[? ?] ?]; unfold insert_tf_record;
                preserves_auto
            | |- preserves _ (delete_tf_record ?r) =>
                destruct r as [? ?]; unfold delete_tf_record; preserves_auto
            end. }
    specialize (Hp w0 eq_refl). now rewrite Hdev in Hp. }
  unfold bind at 1. rewrite Hdev.
  unfold bind at 1. unfold ret at 1.
  unfold bind at 1. unfold ret at 1.
  unfold bind at 1. unfold query at 1.
  unfold bind at 1. unfold query at 1.
  unfold bind at 1. unfold query at 1.
  assert (Hex2 : fcp_template_exist_in_db i (db w2) = true).
  { unfold fcp_template_exist_in_db in *. now rewrite Ht. }
  destruct (details_basic_nonempty i (db w2) Hex2) as [t1 [l1 Eb]].
  destruct (get_min_fcp_paths_count_ok i (db w2) Hex2 Hne) as [m Em].
  unfold bind at 1. unfold read at 1. rewrite Eb. cbn [first].
  unfold bind at 1. unfold read at 1. rewrite Em.
  unfold ret. eexists. eexists. reflexivity.
Qed.

(** C8. In an edit of the device list of a template that keeps the path
    count, a conflict of code 24 names only devices left out of the new
    list that are in use (non-zero [connections] or [reserved]) and
    allocated from this template ([tmpl_id] equal to its id), and leaves
    the tables as they were.  When the edit returns, every device that the
    template still holds is in the new list, so each device left out is
    removed, and table [fcp] is as it was.  When every device left out
    that is in use carries the id of another template, or none, the edit
    raises no such conflict; and it returns when, moreover, only the
    device list is edited, the template exists under a non-empty id, its
    stored minimum path count does not exceed the paths of the new list
    and the list names no device that the template does not hold yet. *)
Theorem edit_fcp_template_removed_devices (i s : string)
  (name description : option string) (host_default : option bool)
  (default_sp_list : option (list string)) (min_count : option Z)
  (w : conn) (r : res edited_template) (w' : conn) :
  in_transaction w = false ->
  fcp_primary_key (db w) ->
  Z.of_nat (List.length (filter Str.nonempty (split ";" s)))
  = get_path_count i (db w) ->
  edit_fcp_template expand_fcp_list i name description (Some s)
    host_default default_sp_list min_count w = (r, w') ->
  (forall L, r = Raise (SDKConflictError 24 L) ->
     L <> [] /\ db w' = db w
     /\ forall x, In x L -> blocks_removal expand_fcp_list i s (db w) x)
  /\ (forall e, r = Ok e ->
        only_requested expand_fcp_list i s (db w')
        /\ fcp (db w') = fcp (db w))
  /\ ((forall f, In f (fcp (db w)) ->
                 ~ requested expand_fcp_list s (fcp_id f) ->
                 in_use f -> (tmpl_id f =~ i) = false) ->
      (forall L, r <> Raise (SDKConflictError 24 L))
      /\ (name = None -> description = None -> host_default = None ->
          default_sp_list = None -> min_count = None ->
          fcp_template_exist_in_db i (db w) = true ->
          Str.nonempty i = true ->
          (forall m, get_min_fcp_paths_count_from_db i (db w) = Some m ->
                     m <= Z.of_nat (List.length (expand_fcp_list s))) ->
          adds_no_device expand_fcp_list i s (db w) ->
          exists e, r = Ok e)).
Proof.
  intros Htx Hpk Hcount Hrun.
  destruct (@edit_fcp_template_conflict_24 expand_fcp_list i s name description
              host_default default_sp_list min_count w r w' Htx Hpk Hcount
              Hrun) as [H24 Hno24].
  split; [exact H24|]. split.
  { intros e ->. split.
    - exact (@edit_fcp_template_ok_inv i s name description host_default
               default_sp_list min_count w e w' Htx Hrun).
    - pose proof (@edit_fcp_template_fcp i name description (Some s)
                    host_default default_sp_list min_count (fcp (db w)) w
                    eq_refl) as H.
      now rewrite Hrun in H. }
  intros Hother. split; [exact (Hno24 Hother)|].
  intros -> -> -> -> -> Hex Hne Hmin Hadd.
  assert (Hnone :
    not_allow_for_del_of (fcp_from_input_of expand_fcp_list s)
      (fcp_in_db_of (snd (get_fcp_templates_details [i] (db w))))
      (get_inuse_fcp_device_by_fcp_template i (db w)) = []).
  { destruct (not_allow_for_del_of _ _ _) as [|x L] eqn:E; [reflexivity|].
    exfalso.
    assert (Hx : In x (x :: L)) by now left.
    rewrite <- E in Hx.
    destruct (@not_allow_for_del_blocks expand_fcp_list i s x (db w) Hpk Hx)
      as [Hreq [_ [f [Hf [Hid [Hu Ht]]]]]].
    subst x. rewrite (Hother f Hf Hreq Hu) in Ht. discriminate Ht. }
  destruct (@edit_fcp_template_removal_returns i s w Htx Hcount Hex Hne Hmin
              Hadd Hnone) as [e He].
  exists e. now rewrite Hrun in He.
Qed.

End RemovalTheorems.

(** Dropping ["1a01"] from template ["P"]: refused while the device is
    reserved from ["P"]; while it is reserved from ["Q"] the edit returns
    and ["P"] holds the two devices of the new list only. *)
Lemma edit_fcp_template_removed_devices_witness :
  blocks_removal expand_example "P" "1a02;1b01" tables_P_inuse "1a01"
  /\ (exists e,
        fst (edit_fcp_template expand_example "P" None None (Some "1a02;1b01")
               None None None (idle tables_P_other)) = Ok e)
  /\ only_requested expand_example "P" "1a02;1b01"
       (db (snd (edit_fcp_template expand_example "P" None None
                   (Some "1a02;1b01") None None None (idle tables_P_other)))).
Proof.
  split.
  - destruct (edit_fcp_template expand_example "P" None None (Some "1a02;1b01")
                None None None (idle tables_P_inuse)) as [r w'] eqn:E.
    assert (Hpk : fcp_primary_key (db (idle tables_P_inuse))).
    { unfold fcp_primary_key. cbn.
      repeat constructor; cbn; intuition discriminate. }
    pose proof (@edit_fcp_template_removed_devices expand_example
      "P" "1a02;1b01" None None None None None (idle tables_P_inuse) r w'
      eq_refl Hpk eq_refl E) as [H _].
    assert (Hr : r = Raise (SDKConflictError 24 ["1a01"])).
    { vm_compute in E. now injection E as <- _. }
    destruct (H _ Hr) as [_ [_ Hx]]. apply Hx. now left.
  - destruct (edit_fcp_template expand_example "P" None None (Some "1a02;1b01")
                None None None (idle tables_P_other)) as [r w'] eqn:E.
    assert (Hpk : fcp_primary_key (db (idle tables_P_other))).
    { unfold fcp_primary_key. cbn.
      repeat constructor; cbn; intuition discriminate. }
    pose proof (@edit_fcp_template_removed_devices expand_example
      "P" "1a02;1b01" None None None None None (idle tables_P_other) r w'
      eq_refl Hpk eq_refl E) as [_ [Hok H]].
    cbn [fst snd].
    assert (Hret : exists e, r = Ok e).
    { apply H.
      - intros f Hin Hreq Hu. cbn in Hin.
        destruct Hin as [<-|[<-|[<-|[]]]]; reflexivity.
      - reflexivity.
      - reflexivity.
      - reflexivity.
      - reflexivity.
      - reflexivity.
      - reflexivity.
      - reflexivity.
      - intros m Hm. vm_compute in Hm. injection Hm as <-. vm_compute.
        discriminate.
      - intros x [pf [Hpf Hx]]. cbn in Hpf.
        destruct Hpf as [<-|[<-|[]]]; cbn in Hx; destruct Hx as [<-|[]].
        + exists (mk_tf "1a02" "P" 0). cbn. tauto.
        + exists (mk_tf "1b01" "P" 1). cbn. tauto. }
    split; [exact Hret|].
    destruct Hret as [e He]. exact (proj1 (Hok e He)).
Defined.
